(** * GDALPamRasterBand: persistent auxiliary metadata of a raster band

    A shallow embedding of [gcore/gdalpamrasterband.cpp] and the properties
    of its overlay record, its histogram cache and its XML codec.

    Conventions of the embedding:
    - a C [double] is a primitive binary64 float; [==] and [!=] are the IEEE
      comparisons ([PrimFloat.eqb]), so NaN differs from itself;
    - C integers are [Z]; every narrowing conversion is written out
      ([to_int], [to_short], [to_uint64], [size_t]);
    - a [char *] is a [string], a nullable one an [option string];
    - a [CPLXMLNode] is a rose tree, the [psNext] chain of the children of
      a node being a list; a pointer to a child is its position in the list;
    - the band object is a record that is passed through every method; the
      calls of [CPLError] are collected in its field [errors]. *)

From Stdlib Require Import ZArith List String Ascii Bool Lia Floats.
Import ListNotations.
Local Open Scope string_scope.
Local Open Scope list_scope.
Local Open Scope Z_scope.

(** ** C integers *)

Definition INT_MAX : Z := 2147483647.
Definition LLONG_MIN : Z := - 2 ^ 63.
Definition LLONG_MAX : Z := 2 ^ 63 - 1.
Definition ULLONG_MAX : Z := 2 ^ 64 - 1.

(** Conversion to [int], [short], [unsigned long long] and [size_t]. *)
Definition to_int (z : Z) : Z := (z + 2 ^ 31) mod 2 ^ 32 - 2 ^ 31.
Definition to_short (z : Z) : Z := (z + 2 ^ 15) mod 2 ^ 16 - 2 ^ 15.
Definition to_uint64 (z : Z) : Z := z mod 2 ^ 64.
Definition size_t (z : Z) : Z := z mod 2 ^ 64.

Definition clamp (lo hi z : Z) : Z :=
  if z <? lo then lo else if hi <? z then hi else z.

(** ** C strings *)

Definition strlen (s : string) : Z := Z.of_nat (String.length s).

Definition toupper (c : ascii) : ascii :=
  let n := N_of_ascii c in
  if ((97 <=? n) && (n <=? 122))%N then ascii_of_N (n - 32) else c.

(** [EQUAL(a, b)]: equality of strings up to the case of ASCII letters. *)
Fixpoint EQUAL (a b : string) : bool :=
  match a, b with
  | EmptyString, EmptyString => true
  | String x a', String y b' => Ascii.eqb (toupper x) (toupper y) && EQUAL a' b'
  | _, _ => false
  end.

Definition isspace (c : ascii) : bool :=
  let n := N_of_ascii c in
  ((n =? 32) || ((9 <=? n) && (n <=? 13)))%N.

Definition digit_val (c : ascii) : option Z :=
  let n := Z.of_N (N_of_ascii c) in
  if (48 <=? n) && (n <=? 57) then Some (n - 48) else None.

Fixpoint skip_spaces (s : string) : string :=
  match s with
  | String c r => if isspace c then skip_spaces r else s
  | EmptyString => s
  end.

(** The digits at the head of [s], read in base ten onto [acc]. *)
Fixpoint parse_digits (s : string) (acc : Z) : Z :=
  match s with
  | String c r =>
      match digit_val c with
      | Some d => parse_digits r (acc * 10 + d)
      | None => acc
      end
  | EmptyString => acc
  end.

(** The number that [strtol] and its family read at the head of a string:
    white space, an optional sign, decimal digits (0 when there is none). *)
Definition parse_integer (s : string) : Z :=
  match skip_spaces s with
  | String "-" r => - parse_digits r 0
  | String "+" r => parse_digits r 0
  | r => parse_digits r 0
  end.

Definition strtoll (s : string) : Z := clamp LLONG_MIN LLONG_MAX (parse_integer s).

(** [strtoull]: the value is negated in the unsigned type after a minus
    sign; out of range it is [ULLONG_MAX]. *)
Definition strtoull (s : string) : Z :=
  match skip_spaces s with
  | String "-" r =>
      let v := parse_digits r 0 in
      if ULLONG_MAX <? v then ULLONG_MAX else to_uint64 (- v)
  | String "+" r => clamp 0 ULLONG_MAX (parse_digits r 0)
  | r => clamp 0 ULLONG_MAX (parse_digits r 0)
  end.

(** [atoi(s)] is [(int) strtol(s, NULL, 10)], [long] being 64 bits wide. *)
Definition atoi (s : string) : Z := to_int (strtoll s).

(** [CPLAtoGIntBig] is [atoll]. *)
Definition CPLAtoGIntBig (s : string) : Z := strtoll s.

Definition digit_char (d : Z) : ascii := ascii_of_N (Z.to_N (48 + d)).

Fixpoint print_digits (fuel : nat) (n : Z) (acc : string) : string :=
  match fuel with
  | O => acc
  | S f =>
      let acc' := String (digit_char (n mod 10)) acc in
      if n / 10 =? 0 then acc' else print_digits f (n / 10) acc'
  end.

(** ["%llu"] (CPL_FRMT_GUIB) of a non-negative number. *)
Definition Printf_u (n : Z) : string :=
  print_digits (S (Z.to_nat (Z.log2 n))) n "".

(** ["%d"] and ["%lld"] (CPL_FRMT_GIB). *)
Definition Printf_d (n : Z) : string :=
  if n <? 0 then String "-" (Printf_u (- n)) else Printf_u n.

(** ** The XML tree (cpl_minixml.h) *)

Inductive CPLXMLNodeType : Set :=
  CXT_Element | CXT_Text | CXT_Attribute | CXT_Comment | CXT_Literal.

#[local] Set Warnings "-register-all".
Inductive CPLXMLNode : Set :=
  XMLNode (eType : CPLXMLNodeType) (pszValue : string) (psChild : list CPLXMLNode).

Definition eType (n : CPLXMLNode) : CPLXMLNodeType :=
  let '(XMLNode t _ _) := n in t.
Definition pszValue (n : CPLXMLNode) : string :=
  let '(XMLNode _ v _) := n in v.
Definition psChild (n : CPLXMLNode) : list CPLXMLNode :=
  let '(XMLNode _ _ c) := n in c.

Definition is_type (t : CPLXMLNodeType) (n : CPLXMLNode) : bool :=
  match t, eType n with
  | CXT_Element, CXT_Element | CXT_Text, CXT_Text
  | CXT_Attribute, CXT_Attribute | CXT_Comment, CXT_Comment
  | CXT_Literal, CXT_Literal => true
  | _, _ => false
  end.

(** The test of the child search loops of cpl_minixml:
    [psChild->eType != CXT_Text && EQUAL(pszName, psChild->pszValue)]. *)
Definition named (pszName : string) (n : CPLXMLNode) : bool :=
  negb (is_type CXT_Text n) && EQUAL pszName (pszValue n).

(** The position of the first element of a list that satisfies a test. *)
Fixpoint find_pos {A : Type} (f : A -> bool) (l : list A) : option nat :=
  match l with
  | [] => None
  | x :: r => if f x then Some O else option_map S (find_pos f r)
  end.

Fixpoint update_nth {A : Type} (i : nat) (f : A -> A) (l : list A) : list A :=
  match l, i with
  | [], _ => []
  | x :: r, O => f x :: r
  | x :: r, S j => x :: update_nth j f r
  end.

Fixpoint remove_nth {A : Type} (i : nat) (l : list A) : list A :=
  match l, i with
  | [], _ => []
  | _ :: r, O => r
  | x :: r, S j => x :: remove_nth j r
  end.

(** [CSLTokenizeStringComplex(pszPath, ".", FALSE, FALSE)]: the non-empty
    pieces of a path between dots. *)
Fixpoint tokenize_from (s cur : string) : list string :=
  match s with
  | EmptyString => match cur with EmptyString => [] | _ => [cur] end
  | String c r =>
      if Ascii.eqb c "." then
        match cur with
        | EmptyString => tokenize_from r ""
        | _ => cur :: tokenize_from r ""
        end
      else tokenize_from r (cur ++ String c "")%string
  end.

Definition tokenize (pszPath : string) : list string := tokenize_from pszPath "".

(** Modelled from the spec: the generic tree primitives of cpl_minixml
    (node creation, lookup, value access, child insertion and removal) are
    the abstract document tree the band reads and writes through; their
    file is not part of the sources, and they are written here after the
    behaviour the band relies on. *)

(** [CPLGetXMLNode]: one child search per token of the path. *)
Fixpoint CPLGetXMLNode_tokens (psRoot : CPLXMLNode) (tokens : list string)
  : option CPLXMLNode :=
  match tokens with
  | [] => Some psRoot
  | t :: ts =>
      match find (named t) (psChild psRoot) with
      | None => None
      | Some c => CPLGetXMLNode_tokens c ts
      end
  end.

Definition CPLGetXMLNode (psRoot : CPLXMLNode) (pszPath : string)
  : option CPLXMLNode :=
  CPLGetXMLNode_tokens psRoot (tokenize pszPath).

Fixpoint skip_attributes (l : list CPLXMLNode) : list CPLXMLNode :=
  match l with
  | c :: r => if is_type CXT_Attribute c then skip_attributes r else l
  | [] => []
  end.

(** [CPLGetXMLValue]: the text of an attribute, or the text of an element
    whose only child besides its attributes is a text node; the default
    otherwise. *)
Definition CPLGetXMLValue (psRoot : CPLXMLNode) (pszPath : string)
  (pszDefault : option string) : option string :=
  match CPLGetXMLNode psRoot pszPath with
  | None => pszDefault
  | Some psTarget =>
      match eType psTarget with
      | CXT_Attribute =>
          match psChild psTarget with
          | c :: _ => Some (pszValue c)
          | [] => pszDefault
          end
      | CXT_Element =>
          match skip_attributes (psChild psTarget) with
          | [c] => if is_type CXT_Text c then Some (pszValue c) else pszDefault
          | _ => pszDefault
          end
      | _ => pszDefault
      end
  end.

(** [CPLGetXMLValue] with a default that is not null. *)
Definition CPLGetXMLValue_or (psRoot : CPLXMLNode) (pszPath pszDefault : string)
  : string :=
  match CPLGetXMLValue psRoot pszPath (Some pszDefault) with
  | Some v => v
  | None => pszDefault
  end.

(** Where [CPLCreateXMLNode] links a new child: an attribute goes in front
    of the first text node that follows the first child (in front of an
    only child that is a text node), every other node at the end. *)
Fixpoint attach_after_first (rest : list CPLXMLNode) (n : CPLXMLNode)
  : list CPLXMLNode :=
  match rest with
  | [] => [n]
  | c :: r =>
      if is_type CXT_Attribute n && is_type CXT_Text c then n :: c :: r
      else c :: attach_after_first r n
  end.

Definition CPLCreateXMLNode_attach (children : list CPLXMLNode) (n : CPLXMLNode)
  : list CPLXMLNode :=
  match children with
  | [] => [n]
  | [c] =>
      if is_type CXT_Attribute n && is_type CXT_Text c then [n; c] else [c; n]
  | c :: r => c :: attach_after_first r n
  end.

(** The end of [CPLSetXMLValue]: the first text child receives the value;
    a node without one gets a new text child. *)
Definition set_text_child (psRoot : CPLXMLNode) (pszNewValue : string)
  : CPLXMLNode :=
  match find_pos (is_type CXT_Text) (psChild psRoot) with
  | Some i =>
      XMLNode (eType psRoot) (pszValue psRoot)
        (update_nth i (fun c => XMLNode (eType c) pszNewValue (psChild c))
           (psChild psRoot))
  | None =>
      XMLNode (eType psRoot) (pszValue psRoot)
        (CPLCreateXMLNode_attach (psChild psRoot) (XMLNode CXT_Text pszNewValue []))
  end.

(** [CPLSetXMLValue]: walks the path, creating the missing nodes (an
    attribute for a token that starts with [#]); it stops without a change
    below a node that is not an element. *)
Fixpoint CPLSetXMLValue_tokens (tokens : list string) (pszNewValue : string)
  (psRoot : CPLXMLNode) : CPLXMLNode :=
  match tokens with
  | [] => set_text_child psRoot pszNewValue
  | t :: ts =>
      match eType psRoot with
      | CXT_Element =>
          let '(eNew, pszName) :=
            match t with
            | String "#" r => (CXT_Attribute, r)
            | _ => (CXT_Element, t)
            end in
          match find_pos (named pszName) (psChild psRoot) with
          | Some i =>
              XMLNode CXT_Element (pszValue psRoot)
                (update_nth i (CPLSetXMLValue_tokens ts pszNewValue) (psChild psRoot))
          | None =>
              XMLNode CXT_Element (pszValue psRoot)
                (CPLCreateXMLNode_attach (psChild psRoot)
                   (CPLSetXMLValue_tokens ts pszNewValue (XMLNode eNew pszName [])))
          end
      | _ => psRoot
      end
  end.

Definition CPLSetXMLValue (psRoot : CPLXMLNode) (pszPath pszNewValue : string)
  : CPLXMLNode :=
  CPLSetXMLValue_tokens (tokenize pszPath) pszNewValue psRoot.

(** [CPLCreateXMLNode(psParent, eType, pszText)] seen from the parent. *)
Definition CPLCreateXMLNode_in (psParent : CPLXMLNode) (n : CPLXMLNode)
  : CPLXMLNode :=
  XMLNode (eType psParent) (pszValue psParent)
    (CPLCreateXMLNode_attach (psChild psParent) n).

Definition CPLCreateXMLElementAndValue (pszName pszText : string) : CPLXMLNode :=
  XMLNode CXT_Element pszName [XMLNode CXT_Text pszText []].

(** [CPLAddXMLChild(psParent, psChild)], the child coming with the chain
    of its [psNext] siblings: an attribute is linked in front of the first
    node that is not one (its own chain is then cut), any other node at
    the end. *)
Fixpoint add_attribute_after (first : CPLXMLNode) (rest : list CPLXMLNode)
  (chain_head : CPLXMLNode) (chain_tail : list CPLXMLNode) : list CPLXMLNode :=
  match rest with
  | [] => first :: chain_head :: chain_tail
  | c :: r =>
      if negb (is_type CXT_Attribute c) then first :: chain_head :: c :: r
      else first :: add_attribute_after c r chain_head chain_tail
  end.

Definition CPLAddXMLChild_list (children chain : list CPLXMLNode)
  : list CPLXMLNode :=
  match chain with
  | [] => children
  | n :: tl =>
      match children with
      | [] => n :: tl
      | c :: r =>
          if is_type CXT_Attribute n then
            if negb (is_type CXT_Attribute c) then n :: c :: r
            else add_attribute_after c r n tl
          else children ++ n :: tl
      end
  end.

Definition CPLAddXMLChild (psParent : CPLXMLNode) (chain : list CPLXMLNode)
  : CPLXMLNode :=
  XMLNode (eType psParent) (pszValue psParent)
    (CPLAddXMLChild_list (psChild psParent) chain).

(** [CPLRemoveXMLChild(psParent, psChild)], the child given by position. *)
Definition CPLRemoveXMLChild (psParent : CPLXMLNode) (i : nat) : CPLXMLNode :=
  XMLNode (eType psParent) (pszValue psParent) (remove_nth i (psChild psParent)).

(** ** Enumerations and constants of gdal.h, cpl_error.h and gdal_pam.h *)

Inductive GDALDataType : Set :=
  | GDT_Unknown | GDT_Byte | GDT_Int8 | GDT_UInt16 | GDT_Int16 | GDT_UInt32
  | GDT_Int32 | GDT_UInt64 | GDT_Int64 | GDT_Float32 | GDT_Float64
  | GDT_CInt16 | GDT_CInt32 | GDT_CFloat32 | GDT_CFloat64.

Inductive GDALColorInterp : Set :=
  | GCI_Undefined | GCI_GrayIndex | GCI_PaletteIndex | GCI_RedBand
  | GCI_GreenBand | GCI_BlueBand | GCI_AlphaBand | GCI_HueBand
  | GCI_SaturationBand | GCI_LightnessBand | GCI_CyanBand | GCI_MagentaBand
  | GCI_YellowBand | GCI_BlackBand | GCI_YCbCr_YBand | GCI_YCbCr_CbBand
  | GCI_YCbCr_CrBand.

Definition GDALColorInterp_eqb (a b : GDALColorInterp) : bool :=
  match a, b with
  | GCI_Undefined, GCI_Undefined | GCI_GrayIndex, GCI_GrayIndex
  | GCI_PaletteIndex, GCI_PaletteIndex | GCI_RedBand, GCI_RedBand
  | GCI_GreenBand, GCI_GreenBand | GCI_BlueBand, GCI_BlueBand
  | GCI_AlphaBand, GCI_AlphaBand | GCI_HueBand, GCI_HueBand
  | GCI_SaturationBand, GCI_SaturationBand
  | GCI_LightnessBand, GCI_LightnessBand | GCI_CyanBand, GCI_CyanBand
  | GCI_MagentaBand, GCI_MagentaBand | GCI_YellowBand, GCI_YellowBand
  | GCI_BlackBand, GCI_BlackBand | GCI_YCbCr_YBand, GCI_YCbCr_YBand
  | GCI_YCbCr_CbBand, GCI_YCbCr_CbBand | GCI_YCbCr_CrBand, GCI_YCbCr_CrBand => true
  | _, _ => false
  end.

Definition all_color_interps : list GDALColorInterp :=
  [ GCI_Undefined; GCI_GrayIndex; GCI_PaletteIndex; GCI_RedBand; GCI_GreenBand;
    GCI_BlueBand; GCI_AlphaBand; GCI_HueBand; GCI_SaturationBand;
    GCI_LightnessBand; GCI_CyanBand; GCI_MagentaBand; GCI_YellowBand;
    GCI_BlackBand; GCI_YCbCr_YBand; GCI_YCbCr_CbBand; GCI_YCbCr_CrBand ].

(** Modelled from the spec: the name of a color interpretation ("by name");
    the table of gdal_misc.cpp is not part of the sources. *)
Definition GDALGetColorInterpretationName (e : GDALColorInterp) : string :=
  match e with
  | GCI_Undefined => "Undefined" | GCI_GrayIndex => "Gray"
  | GCI_PaletteIndex => "Palette" | GCI_RedBand => "Red"
  | GCI_GreenBand => "Green" | GCI_BlueBand => "Blue"
  | GCI_AlphaBand => "Alpha" | GCI_HueBand => "Hue"
  | GCI_SaturationBand => "Saturation" | GCI_LightnessBand => "Lightness"
  | GCI_CyanBand => "Cyan" | GCI_MagentaBand => "Magenta"
  | GCI_YellowBand => "Yellow" | GCI_BlackBand => "Black"
  | GCI_YCbCr_YBand => "YCbCr_Y" | GCI_YCbCr_CbBand => "YCbCr_Cb"
  | GCI_YCbCr_CrBand => "YCbCr_Cr"
  end.

(** Modelled from the spec: the color interpretation of a name ("by name
    lookup"): the first one whose name is [EQUAL] to it, [GCI_Undefined]
    for an unknown name. *)
Definition GDALGetColorInterpretationByName (pszName : string) : GDALColorInterp :=
  match find (fun e => EQUAL (GDALGetColorInterpretationName e) pszName)
          all_color_interps with
  | Some e => e
  | None => GCI_Undefined
  end.

Inductive CPLErr : Set := CE_None | CE_Debug | CE_Warning | CE_Failure | CE_Fatal.

Inductive CPLErrorNum : Set :=
  CPLE_None | CPLE_AppDefined | CPLE_OutOfMemory | CPLE_NotSupported.

(** One call of [CPLError]. *)
Record CPLErrorEvent : Set := mkError {
  err_class : CPLErr;
  err_no : CPLErrorNum;
  err_msg : string
}.

Record GDALColorEntry : Set := mkColorEntry { c1 : Z; c2 : Z; c3 : Z; c4 : Z }.

(** A palette, as far as the band uses it: the entries of an RGB table. *)
Definition GDALColorTable : Set := list GDALColorEntry.

(** Modelled from the spec: [GDALColorTable::SetColorEntry] of the palette
    value type, which grows the table with zero entries up to the index. *)
Fixpoint SetColorEntry (t : GDALColorTable) (i : nat) (e : GDALColorEntry)
  : GDALColorTable :=
  match i, t with
  | O, [] => [e]
  | O, _ :: r => e :: r
  | S j, [] => mkColorEntry 0 0 0 0 :: SetColorEntry [] j e
  | S j, x :: r => x :: SetColorEntry r j e
  end.

(** Modelled from the spec: the default sentinel values of an unset nodata
    (constants of gdal_pam.h, which is not part of the sources): -1e10, the
    least [int64_t] and the greatest [uint64_t]. *)
Definition GDAL_PAM_DEFAULT_NODATA_VALUE : float := (-1e10)%float.
Definition GDAL_PAM_DEFAULT_NODATA_VALUE_INT64 : Z := LLONG_MIN.
Definition GDAL_PAM_DEFAULT_NODATA_VALUE_UINT64 : Z := ULLONG_MAX.

(** [static_cast<double>] of an integer: rounding to the nearest float. *)
Definition Z_to_double (n : Z) : float :=
  SF2Prim (binary_normalize prec emax n 0 false).

(** Modelled from the spec: [GDALGetNoDataValueCastToDouble], the 64-bit
    nodata "cast to double" (the warning it may log for a value that the
    cast changes is left out). *)
Definition GDALGetNoDataValueCastToDouble (n : Z) : float := Z_to_double n.

(** [CPLBinaryToHex]: two upper-case hexadecimal digits per byte. *)
Definition hex_digit (d : Z) : ascii :=
  if d <? 10 then ascii_of_N (Z.to_N (48 + d)) else ascii_of_N (Z.to_N (55 + d)).

Fixpoint CPLBinaryToHex (bytes : list Z) : string :=
  match bytes with
  | [] => ""
  | b :: r => String (hex_digit (b / 16)) (String (hex_digit (b mod 16)) (CPLBinaryToHex r))
  end.

(** The table [hex2char] of [CPLHexToBinary]: 0 for a character that is not
    a hexadecimal digit. *)
Definition hex2char (c : ascii) : Z :=
  let n := Z.of_N (N_of_ascii c) in
  if (48 <=? n) && (n <=? 57) then n - 48
  else if (65 <=? n) && (n <=? 70) then n - 55
  else if (97 <=? n) && (n <=? 102) then n - 87
  else 0.

(** [CPLHexToBinary]: one byte per pair of characters, a last odd
    character being dropped; the length of the result is [*pnBytes]. *)
Fixpoint CPLHexToBinary (s : string) : list Z :=
  match s with
  | String h1 (String h2 r) => (hex2char h1 * 16 + hex2char h2) :: CPLHexToBinary r
  | _ => []
  end.

(** ** The environment of the band

    What the band calls and this file does not define: the conversions of
    the C library between doubles and text, the tolerance of
    [ARE_REAL_EQUAL], the object representation of a double, the outcome of
    allocations, the value types of the attribute table and of the
    metadata domains, and the histogram computation of [GDALRasterBand]. *)

Record Env : Type := mkEnv {
  Printf_14E : float -> string;          (* "%.14E" *)
  Printf_16g : float -> string;          (* "%.16g" *)
  CPLAtof : string -> float;
  CPLAtofM : string -> float;
  floor : float -> float;
  ARE_REAL_EQUAL : float -> float -> bool;
  (* the eight bytes of a double, least significant first (CPL_LSBPTR64) *)
  double_to_le_bytes : float -> list Z;
  double_of_le_bytes : list Z -> float;
  (* new (std::nothrow) GDALRasterBandPamInfo(), VSICalloc, VSIMalloc: one
     answer for the whole run, so that an allocation that fails and then
     succeeds on a later call is not a run of this model *)
  new_PamInfo_ok : bool;
  VSICalloc_ok : Z -> Z -> bool;
  VSIMalloc_ok : Z -> bool;
  (* GDALRasterAttributeTable: Serialize, and XMLInit on a new table *)
  GDALRasterAttributeTable : Type;
  RAT_Serialize : GDALRasterAttributeTable -> option CPLXMLNode;
  RAT_XMLInit : CPLXMLNode -> GDALRasterAttributeTable;
  (* GDALMultiDomainMetadata: Serialize (a chain of nodes), XMLInit *)
  GDALMultiDomainMetadata : Type;
  MDMD_Serialize : GDALMultiDomainMetadata -> list CPLXMLNode;
  MDMD_XMLInit : CPLXMLNode -> GDALMultiDomainMetadata -> GDALMultiDomainMetadata;
  (* GDALRasterBand::GetHistogram(dfMin, dfMax, nBuckets, bIncludeOutOfRange,
     bApproxOK): its result and the buckets it has written *)
  GDALRasterBand_GetHistogram : float -> float -> Z -> Z -> Z -> CPLErr * list Z;
  (* the setter of GDALRasterBand of the given name, e.g. "SetOffset": its
     result, and what it reports when errors about unimplemented operations
     are not suppressed *)
  GDALRasterBand_setter : string -> CPLErr * list CPLErrorEvent
}.

(** ** The band and its dataset *)

(** Modelled from the spec: the dataset that owns the band, as far as the
    band looks at it: whether it is of the PAM class (the flag
    GMO_PAM_CLASS and the dynamic type), whether its dataset-level store
    exists, whether PAM is disabled for it, and its dirty flag. *)
Record GDALDataset : Set := mkDataset {
  ds_GMO_PAM_CLASS : bool;
  ds_is_GDALPamDataset : bool;
  ds_psPam : bool;
  ds_GPF_DISABLED : bool;
  ds_GPF_DIRTY : bool
}.

Definition set_ds_GMO_PAM_CLASS (ds : GDALDataset) (v : bool) : GDALDataset :=
  mkDataset v (ds_is_GDALPamDataset ds) (ds_psPam ds) (ds_GPF_DISABLED ds) (ds_GPF_DIRTY ds).
Definition set_ds_is_GDALPamDataset (ds : GDALDataset) (v : bool) : GDALDataset :=
  mkDataset (ds_GMO_PAM_CLASS ds) v (ds_psPam ds) (ds_GPF_DISABLED ds) (ds_GPF_DIRTY ds).
Definition set_ds_psPam (ds : GDALDataset) (v : bool) : GDALDataset :=
  mkDataset (ds_GMO_PAM_CLASS ds) (ds_is_GDALPamDataset ds) v (ds_GPF_DISABLED ds) (ds_GPF_DIRTY ds).
Definition set_ds_GPF_DISABLED (ds : GDALDataset) (v : bool) : GDALDataset :=
  mkDataset (ds_GMO_PAM_CLASS ds) (ds_is_GDALPamDataset ds) (ds_psPam ds) v (ds_GPF_DIRTY ds).
Definition set_ds_GPF_DIRTY (ds : GDALDataset) (v : bool) : GDALDataset :=
  mkDataset (ds_GMO_PAM_CLASS ds) (ds_is_GDALPamDataset ds) (ds_psPam ds) (ds_GPF_DISABLED ds) v.

(** Modelled from the spec: [GDALPamDataset::PamInitialize] obtains, and
    creates when it is missing and PAM is not disabled, the dataset-level
    store. *)
Definition GDALPamDataset_PamInitialize (ds : GDALDataset) : GDALDataset :=
  if ds_psPam ds then ds
  else if ds_GPF_DISABLED ds then ds
  else set_ds_psPam ds true.

(** Modelled from the spec: [GDALPamDataset::MarkPamDirty], the
    dirty-marking entry point of the store. *)
Definition GDALPamDataset_MarkPamDirty (ds : GDALDataset) : GDALDataset :=
  set_ds_GPF_DIRTY ds true.

#[local] Set Implicit Arguments.

Section PamRasterBand.

Variable E : Env.

(** Modelled from the spec: the record [GDALRasterBandPamInfo] of
    gdal_pam.h (the MetadataRecord), with the field names the source uses;
    [poParentDS] tells whether the back-pointer to the owning dataset is
    set. *)
Record GDALRasterBandPamInfo : Type := mkPamInfo {
  poParentDS : bool;
  bNoDataValueSet : bool;
  bNoDataValueSetAsInt64 : bool;
  bNoDataValueSetAsUInt64 : bool;
  dfNoDataValue : float;
  nNoDataValueInt64 : Z;
  nNoDataValueUInt64 : Z;
  poColorTable : option GDALColorTable;
  eColorInterp : GDALColorInterp;
  pszUnitType : option string;
  papszCategoryNames : option (list string);
  dfOffset : float;
  dfScale : float;
  bHaveMinMax : bool;
  dfMin : float;
  dfMax : float;
  bHaveStats : bool;
  dfMean : float;
  dfStdDev : float;
  psSavedHistograms : option CPLXMLNode;
  poDefaultRAT : option (GDALRasterAttributeTable E);
  bOffsetSet : bool;
  bScaleSet : bool
}.

Definition set_poParentDS (p : GDALRasterBandPamInfo) (v : bool) : GDALRasterBandPamInfo :=
  mkPamInfo v (bNoDataValueSet p) (bNoDataValueSetAsInt64 p) (bNoDataValueSetAsUInt64 p) (dfNoDataValue p) (nNoDataValueInt64 p) (nNoDataValueUInt64 p) (poColorTable p) (eColorInterp p) (pszUnitType p) (papszCategoryNames p) (dfOffset p) (dfScale p) (bHaveMinMax p) (dfMin p) (dfMax p) (bHaveStats p) (dfMean p) (dfStdDev p) (psSavedHistograms p) (poDefaultRAT p) (bOffsetSet p) (bScaleSet p).
Definition set_bNoDataValueSet (p : GDALRasterBandPamInfo) (v : bool) : GDALRasterBandPamInfo :=
  mkPamInfo (poParentDS p) v (bNoDataValueSetAsInt64 p) (bNoDataValueSetAsUInt64 p) (dfNoDataValue p) (nNoDataValueInt64 p) (nNoDataValueUInt64 p) (poColorTable p) (eColorInterp p) (pszUnitType p) (papszCategoryNames p) (dfOffset p) (dfScale p) (bHaveMinMax p) (dfMin p) (dfMax p) (bHaveStats p) (dfMean p) (dfStdDev p) (psSavedHistograms p) (poDefaultRAT p) (bOffsetSet p) (bScaleSet p).
Definition set_bNoDataValueSetAsInt64 (p : GDALRasterBandPamInfo) (v : bool) : GDALRasterBandPamInfo :=
  mkPamInfo (poParentDS p) (bNoDataValueSet p) v (bNoDataValueSetAsUInt64 p) (dfNoDataValue p) (nNoDataValueInt64 p) (nNoDataValueUInt64 p) (poColorTable p) (eColorInterp p) (pszUnitType p) (papszCategoryNames p) (dfOffset p) (dfScale p) (bHaveMinMax p) (dfMin p) (dfMax p) (bHaveStats p) (dfMean p) (dfStdDev p) (psSavedHistograms p) (poDefaultRAT p) (bOffsetSet p) (bScaleSet p).
Definition set_bNoDataValueSetAsUInt64 (p : GDALRasterBandPamInfo) (v : bool) : GDALRasterBandPamInfo :=
  mkPamInfo (poParentDS p) (bNoDataValueSet p) (bNoDataValueSetAsInt64 p) v (dfNoDataValue p) (nNoDataValueInt64 p) (nNoDataValueUInt64 p) (poColorTable p) (eColorInterp p) (pszUnitType p) (papszCategoryNames p) (dfOffset p) (dfScale p) (bHaveMinMax p) (dfMin p) (dfMax p) (bHaveStats p) (dfMean p) (dfStdDev p) (psSavedHistograms p) (poDefaultRAT p) (bOffsetSet p) (bScaleSet p).
Definition set_dfNoDataValue (p : GDALRasterBandPamInfo) (v : float) : GDALRasterBandPamInfo :=
  mkPamInfo (poParentDS p) (bNoDataValueSet p) (bNoDataValueSetAsInt64 p) (bNoDataValueSetAsUInt64 p) v (nNoDataValueInt64 p) (nNoDataValueUInt64 p) (poColorTable p) (eColorInterp p) (pszUnitType p) (papszCategoryNames p) (dfOffset p) (dfScale p) (bHaveMinMax p) (dfMin p) (dfMax p) (bHaveStats p) (dfMean p) (dfStdDev p) (psSavedHistograms p) (poDefaultRAT p) (bOffsetSet p) (bScaleSet p).
Definition set_nNoDataValueInt64 (p : GDALRasterBandPamInfo) (v : Z) : GDALRasterBandPamInfo :=
  mkPamInfo (poParentDS p) (bNoDataValueSet p) (bNoDataValueSetAsInt64 p) (bNoDataValueSetAsUInt64 p) (dfNoDataValue p) v (nNoDataValueUInt64 p) (poColorTable p) (eColorInterp p) (pszUnitType p) (papszCategoryNames p) (dfOffset p) (dfScale p) (bHaveMinMax p) (dfMin p) (dfMax p) (bHaveStats p) (dfMean p) (dfStdDev p) (psSavedHistograms p) (poDefaultRAT p) (bOffsetSet p) (bScaleSet p).
Definition set_nNoDataValueUInt64 (p : GDALRasterBandPamInfo) (v : Z) : GDALRasterBandPamInfo :=
  mkPamInfo (poParentDS p) (bNoDataValueSet p) (bNoDataValueSetAsInt64 p) (bNoDataValueSetAsUInt64 p) (dfNoDataValue p) (nNoDataValueInt64 p) v (poColorTable p) (eColorInterp p) (pszUnitType p) (papszCategoryNames p) (dfOffset p) (dfScale p) (bHaveMinMax p) (dfMin p) (dfMax p) (bHaveStats p) (dfMean p) (dfStdDev p) (psSavedHistograms p) (poDefaultRAT p) (bOffsetSet p) (bScaleSet p).
Definition set_poColorTable (p : GDALRasterBandPamInfo) (v : option GDALColorTable) : GDALRasterBandPamInfo :=
  mkPamInfo (poParentDS p) (bNoDataValueSet p) (bNoDataValueSetAsInt64 p) (bNoDataValueSetAsUInt64 p) (dfNoDataValue p) (nNoDataValueInt64 p) (nNoDataValueUInt64 p) v (eColorInterp p) (pszUnitType p) (papszCategoryNames p) (dfOffset p) (dfScale p) (bHaveMinMax p) (dfMin p) (dfMax p) (bHaveStats p) (dfMean p) (dfStdDev p) (psSavedHistograms p) (poDefaultRAT p) (bOffsetSet p) (bScaleSet p).
Definition set_eColorInterp (p : GDALRasterBandPamInfo) (v : GDALColorInterp) : GDALRasterBandPamInfo :=
  mkPamInfo (poParentDS p) (bNoDataValueSet p) (bNoDataValueSetAsInt64 p) (bNoDataValueSetAsUInt64 p) (dfNoDataValue p) (nNoDataValueInt64 p) (nNoDataValueUInt64 p) (poColorTable p) v (pszUnitType p) (papszCategoryNames p) (dfOffset p) (dfScale p) (bHaveMinMax p) (dfMin p) (dfMax p) (bHaveStats p) (dfMean p) (dfStdDev p) (psSavedHistograms p) (poDefaultRAT p) (bOffsetSet p) (bScaleSet p).
Definition set_pszUnitType (p : GDALRasterBandPamInfo) (v : option string) : GDALRasterBandPamInfo :=
  mkPamInfo (poParentDS p) (bNoDataValueSet p) (bNoDataValueSetAsInt64 p) (bNoDataValueSetAsUInt64 p) (dfNoDataValue p) (nNoDataValueInt64 p) (nNoDataValueUInt64 p) (poColorTable p) (eColorInterp p) v (papszCategoryNames p) (dfOffset p) (dfScale p) (bHaveMinMax p) (dfMin p) (dfMax p) (bHaveStats p) (dfMean p) (dfStdDev p) (psSavedHistograms p) (poDefaultRAT p) (bOffsetSet p) (bScaleSet p).
Definition set_papszCategoryNames (p : GDALRasterBandPamInfo) (v : option (list string)) : GDALRasterBandPamInfo :=
  mkPamInfo (poParentDS p) (bNoDataValueSet p) (bNoDataValueSetAsInt64 p) (bNoDataValueSetAsUInt64 p) (dfNoDataValue p) (nNoDataValueInt64 p) (nNoDataValueUInt64 p) (poColorTable p) (eColorInterp p) (pszUnitType p) v (dfOffset p) (dfScale p) (bHaveMinMax p) (dfMin p) (dfMax p) (bHaveStats p) (dfMean p) (dfStdDev p) (psSavedHistograms p) (poDefaultRAT p) (bOffsetSet p) (bScaleSet p).
Definition set_dfOffset (p : GDALRasterBandPamInfo) (v : float) : GDALRasterBandPamInfo :=
  mkPamInfo (poParentDS p) (bNoDataValueSet p) (bNoDataValueSetAsInt64 p) (bNoDataValueSetAsUInt64 p) (dfNoDataValue p) (nNoDataValueInt64 p) (nNoDataValueUInt64 p) (poColorTable p) (eColorInterp p) (pszUnitType p) (papszCategoryNames p) v (dfScale p) (bHaveMinMax p) (dfMin p) (dfMax p) (bHaveStats p) (dfMean p) (dfStdDev p) (psSavedHistograms p) (poDefaultRAT p) (bOffsetSet p) (bScaleSet p).
Definition set_dfScale (p : GDALRasterBandPamInfo) (v : float) : GDALRasterBandPamInfo :=
  mkPamInfo (poParentDS p) (bNoDataValueSet p) (bNoDataValueSetAsInt64 p) (bNoDataValueSetAsUInt64 p) (dfNoDataValue p) (nNoDataValueInt64 p) (nNoDataValueUInt64 p) (poColorTable p) (eColorInterp p) (pszUnitType p) (papszCategoryNames p) (dfOffset p) v (bHaveMinMax p) (dfMin p) (dfMax p) (bHaveStats p) (dfMean p) (dfStdDev p) (psSavedHistograms p) (poDefaultRAT p) (bOffsetSet p) (bScaleSet p).
Definition set_bHaveMinMax (p : GDALRasterBandPamInfo) (v : bool) : GDALRasterBandPamInfo :=
  mkPamInfo (poParentDS p) (bNoDataValueSet p) (bNoDataValueSetAsInt64 p) (bNoDataValueSetAsUInt64 p) (dfNoDataValue p) (nNoDataValueInt64 p) (nNoDataValueUInt64 p) (poColorTable p) (eColorInterp p) (pszUnitType p) (papszCategoryNames p) (dfOffset p) (dfScale p) v (dfMin p) (dfMax p) (bHaveStats p) (dfMean p) (dfStdDev p) (psSavedHistograms p) (poDefaultRAT p) (bOffsetSet p) (bScaleSet p).
Definition set_dfMin (p : GDALRasterBandPamInfo) (v : float) : GDALRasterBandPamInfo :=
  mkPamInfo (poParentDS p) (bNoDataValueSet p) (bNoDataValueSetAsInt64 p) (bNoDataValueSetAsUInt64 p) (dfNoDataValue p) (nNoDataValueInt64 p) (nNoDataValueUInt64 p) (poColorTable p) (eColorInterp p) (pszUnitType p) (papszCategoryNames p) (dfOffset p) (dfScale p) (bHaveMinMax p) v (dfMax p) (bHaveStats p) (dfMean p) (dfStdDev p) (psSavedHistograms p) (poDefaultRAT p) (bOffsetSet p) (bScaleSet p).
Definition set_dfMax (p : GDALRasterBandPamInfo) (v : float) : GDALRasterBandPamInfo :=
  mkPamInfo (poParentDS p) (bNoDataValueSet p) (bNoDataValueSetAsInt64 p) (bNoDataValueSetAsUInt64 p) (dfNoDataValue p) (nNoDataValueInt64 p) (nNoDataValueUInt64 p) (poColorTable p) (eColorInterp p) (pszUnitType p) (papszCategoryNames p) (dfOffset p) (dfScale p) (bHaveMinMax p) (dfMin p) v (bHaveStats p) (dfMean p) (dfStdDev p) (psSavedHistograms p) (poDefaultRAT p) (bOffsetSet p) (bScaleSet p).
Definition set_bHaveStats (p : GDALRasterBandPamInfo) (v : bool) : GDALRasterBandPamInfo :=
  mkPamInfo (poParentDS p) (bNoDataValueSet p) (bNoDataValueSetAsInt64 p) (bNoDataValueSetAsUInt64 p) (dfNoDataValue p) (nNoDataValueInt64 p) (nNoDataValueUInt64 p) (poColorTable p) (eColorInterp p) (pszUnitType p) (papszCategoryNames p) (dfOffset p) (dfScale p) (bHaveMinMax p) (dfMin p) (dfMax p) v (dfMean p) (dfStdDev p) (psSavedHistograms p) (poDefaultRAT p) (bOffsetSet p) (bScaleSet p).
Definition set_dfMean (p : GDALRasterBandPamInfo) (v : float) : GDALRasterBandPamInfo :=
  mkPamInfo (poParentDS p) (bNoDataValueSet p) (bNoDataValueSetAsInt64 p) (bNoDataValueSetAsUInt64 p) (dfNoDataValue p) (nNoDataValueInt64 p) (nNoDataValueUInt64 p) (poColorTable p) (eColorInterp p) (pszUnitType p) (papszCategoryNames p) (dfOffset p) (dfScale p) (bHaveMinMax p) (dfMin p) (dfMax p) (bHaveStats p) v (dfStdDev p) (psSavedHistograms p) (poDefaultRAT p) (bOffsetSet p) (bScaleSet p).
Definition set_dfStdDev (p : GDALRasterBandPamInfo) (v : float) : GDALRasterBandPamInfo :=
  mkPamInfo (poParentDS p) (bNoDataValueSet p) (bNoDataValueSetAsInt64 p) (bNoDataValueSetAsUInt64 p) (dfNoDataValue p) (nNoDataValueInt64 p) (nNoDataValueUInt64 p) (poColorTable p) (eColorInterp p) (pszUnitType p) (papszCategoryNames p) (dfOffset p) (dfScale p) (bHaveMinMax p) (dfMin p) (dfMax p) (bHaveStats p) (dfMean p) v (psSavedHistograms p) (poDefaultRAT p) (bOffsetSet p) (bScaleSet p).
Definition set_psSavedHistograms (p : GDALRasterBandPamInfo) (v : option CPLXMLNode) : GDALRasterBandPamInfo :=
  mkPamInfo (poParentDS p) (bNoDataValueSet p) (bNoDataValueSetAsInt64 p) (bNoDataValueSetAsUInt64 p) (dfNoDataValue p) (nNoDataValueInt64 p) (nNoDataValueUInt64 p) (poColorTable p) (eColorInterp p) (pszUnitType p) (papszCategoryNames p) (dfOffset p) (dfScale p) (bHaveMinMax p) (dfMin p) (dfMax p) (bHaveStats p) (dfMean p) (dfStdDev p) v (poDefaultRAT p) (bOffsetSet p) (bScaleSet p).
Definition set_poDefaultRAT (p : GDALRasterBandPamInfo) (v : option (GDALRasterAttributeTable E)) : GDALRasterBandPamInfo :=
  mkPamInfo (poParentDS p) (bNoDataValueSet p) (bNoDataValueSetAsInt64 p) (bNoDataValueSetAsUInt64 p) (dfNoDataValue p) (nNoDataValueInt64 p) (nNoDataValueUInt64 p) (poColorTable p) (eColorInterp p) (pszUnitType p) (papszCategoryNames p) (dfOffset p) (dfScale p) (bHaveMinMax p) (dfMin p) (dfMax p) (bHaveStats p) (dfMean p) (dfStdDev p) (psSavedHistograms p) v (bOffsetSet p) (bScaleSet p).
Definition set_bOffsetSet (p : GDALRasterBandPamInfo) (v : bool) : GDALRasterBandPamInfo :=
  mkPamInfo (poParentDS p) (bNoDataValueSet p) (bNoDataValueSetAsInt64 p) (bNoDataValueSetAsUInt64 p) (dfNoDataValue p) (nNoDataValueInt64 p) (nNoDataValueUInt64 p) (poColorTable p) (eColorInterp p) (pszUnitType p) (papszCategoryNames p) (dfOffset p) (dfScale p) (bHaveMinMax p) (dfMin p) (dfMax p) (bHaveStats p) (dfMean p) (dfStdDev p) (psSavedHistograms p) (poDefaultRAT p) v (bScaleSet p).
Definition set_bScaleSet (p : GDALRasterBandPamInfo) (v : bool) : GDALRasterBandPamInfo :=
  mkPamInfo (poParentDS p) (bNoDataValueSet p) (bNoDataValueSetAsInt64 p) (bNoDataValueSetAsUInt64 p) (dfNoDataValue p) (nNoDataValueInt64 p) (nNoDataValueUInt64 p) (poColorTable p) (eColorInterp p) (pszUnitType p) (papszCategoryNames p) (dfOffset p) (dfScale p) (bHaveMinMax p) (dfMin p) (dfMax p) (bHaveStats p) (dfMean p) (dfStdDev p) (psSavedHistograms p) (poDefaultRAT p) (bOffsetSet p) v.

(** The record that [new GDALRasterBandPamInfo()] makes. *)
Definition new_GDALRasterBandPamInfo : GDALRasterBandPamInfo :=
  mkPamInfo false false false false GDAL_PAM_DEFAULT_NODATA_VALUE
    GDAL_PAM_DEFAULT_NODATA_VALUE_INT64 GDAL_PAM_DEFAULT_NODATA_VALUE_UINT64
    None GCI_Undefined None None 0%float 1%float false 0%float 0%float
    false 0%float 0%float None None false false.

(** The band object: what [GDALMajorObject] and [GDALRasterBand] hold for
    it (dataset, band number, pixel type, description, the flag
    GMO_IGNORE_UNIMPLEMENTED, metadata domains), its [psPam], and the
    errors reported so far. *)
Record GDALPamRasterBand : Type := mkBand {
  poDS : option GDALDataset;
  nBand : Z;
  eDataType : GDALDataType;
  sDescription : string;
  bIgnoreUnimplemented : bool;
  oMDMD : GDALMultiDomainMetadata E;
  psPam : option GDALRasterBandPamInfo;
  errors : list CPLErrorEvent
}.

Definition set_poDS (b : GDALPamRasterBand) (v : option GDALDataset) : GDALPamRasterBand :=
  mkBand v (nBand b) (eDataType b) (sDescription b) (bIgnoreUnimplemented b) (oMDMD b) (psPam b) (errors b).
Definition set_nBand (b : GDALPamRasterBand) (v : Z) : GDALPamRasterBand :=
  mkBand (poDS b) v (eDataType b) (sDescription b) (bIgnoreUnimplemented b) (oMDMD b) (psPam b) (errors b).
Definition set_eDataType (b : GDALPamRasterBand) (v : GDALDataType) : GDALPamRasterBand :=
  mkBand (poDS b) (nBand b) v (sDescription b) (bIgnoreUnimplemented b) (oMDMD b) (psPam b) (errors b).
Definition set_sDescription (b : GDALPamRasterBand) (v : string) : GDALPamRasterBand :=
  mkBand (poDS b) (nBand b) (eDataType b) v (bIgnoreUnimplemented b) (oMDMD b) (psPam b) (errors b).
Definition set_bIgnoreUnimplemented (b : GDALPamRasterBand) (v : bool) : GDALPamRasterBand :=
  mkBand (poDS b) (nBand b) (eDataType b) (sDescription b) v (oMDMD b) (psPam b) (errors b).
Definition set_oMDMD (b : GDALPamRasterBand) (v : GDALMultiDomainMetadata E) : GDALPamRasterBand :=
  mkBand (poDS b) (nBand b) (eDataType b) (sDescription b) (bIgnoreUnimplemented b) v (psPam b) (errors b).
Definition set_psPam (b : GDALPamRasterBand) (v : option GDALRasterBandPamInfo) : GDALPamRasterBand :=
  mkBand (poDS b) (nBand b) (eDataType b) (sDescription b) (bIgnoreUnimplemented b) (oMDMD b) v (errors b).
Definition set_errors (b : GDALPamRasterBand) (v : list CPLErrorEvent) : GDALPamRasterBand :=
  mkBand (poDS b) (nBand b) (eDataType b) (sDescription b) (bIgnoreUnimplemented b) (oMDMD b) (psPam b) v.

Definition CPLError (b : GDALPamRasterBand) (eErrClass : CPLErr)
  (err : CPLErrorNum) (msg : string) : GDALPamRasterBand :=
  set_errors b (errors b ++ [mkError eErrClass err msg]).

(** Modelled from the spec: a mutator that finds no record hands the call
    to the setter of [GDALRasterBand] ("delegate to native behavior"). That
    class is not part of these sources: the result of the setter and what
    it reports are those of the environment, and what it reports is dropped
    while errors about unimplemented operations are suppressed (the flag
    GMO_IGNORE_UNIMPLEMENTED, which [CloneInfo] sets for this purpose). The
    record and the dataset are out of its reach. *)
Definition GDALRasterBand_native_setter (b : GDALPamRasterBand) (method : string)
  : GDALPamRasterBand * CPLErr :=
  (if bIgnoreUnimplemented b then b
   else set_errors b (errors b ++ snd (GDALRasterBand_setter E method)),
   fst (GDALRasterBand_setter E method)).

(** *** PamInitialize

    When the parent creates its store it initializes its bands, this one
    included, by this same method ("often (always?) initializing our parent
    will have initialized us"): the record is then the one the last lines
    make, a new record linked to the parent. *)
Definition PamInitialize (b : GDALPamRasterBand) : GDALPamRasterBand :=
  if match psPam b with Some p => poParentDS p | None => false end then b
  else
    match poDS b with
    | None => b
    | Some poNonPamParentDS =>
        if negb (ds_GMO_PAM_CLASS poNonPamParentDS) then b
        else if negb (ds_is_GDALPamDataset poNonPamParentDS) then
          CPLError b CE_Failure CPLE_AppDefined
            "Programming error: found GDALPamRasterBand that is not attached to a GDALPamDataset."
        else
          let poParentDS' := GDALPamDataset_PamInitialize poNonPamParentDS in
          let b := set_poDS (set_psPam b None) (Some poParentDS') in
          if negb (ds_psPam poParentDS') then b
          else if new_PamInfo_ok E then
            set_psPam b (Some (set_poParentDS new_GDALRasterBandPamInfo true))
          else b
    end.

Definition PamInitializeNoParent (b : GDALPamRasterBand) : GDALPamRasterBand :=
  match psPam b with
  | None =>
      if new_PamInfo_ok E then set_psPam b (Some new_GDALRasterBandPamInfo) else b
  | Some _ => b
  end.

Definition MarkPamDirty (b : GDALPamRasterBand) : GDALPamRasterBand :=
  match psPam b with
  | Some p =>
      if poParentDS p then
        match poDS b with
        | Some ds => set_poDS b (Some (GDALPamDataset_MarkPamDirty ds))
        | None => b
        end
      else b
  | None => b
  end.

(** *** Nodata *)

Definition ResetNoDataValues (p : GDALRasterBandPamInfo) : GDALRasterBandPamInfo :=
  let p := set_bNoDataValueSet p false in
  let p := set_bNoDataValueSetAsInt64 p false in
  let p := set_bNoDataValueSetAsUInt64 p false in
  let p := set_dfNoDataValue p GDAL_PAM_DEFAULT_NODATA_VALUE in
  let p := set_nNoDataValueInt64 p GDAL_PAM_DEFAULT_NODATA_VALUE_INT64 in
  set_nNoDataValueUInt64 p GDAL_PAM_DEFAULT_NODATA_VALUE_UINT64.

Definition SetNoDataValue (b : GDALPamRasterBand) (dfNewValue : float)
  : GDALPamRasterBand * CPLErr :=
  let b := PamInitialize b in
  match psPam b with
  | None => GDALRasterBand_native_setter b "SetNoDataValue"
  | Some p =>
      let p := ResetNoDataValues p in
      let p := set_bNoDataValueSet p true in
      let p := set_dfNoDataValue p dfNewValue in
      (MarkPamDirty (set_psPam b (Some p)), CE_None)
  end.

Definition SetNoDataValueAsInt64 (b : GDALPamRasterBand) (nNewValue : Z)
  : GDALPamRasterBand * CPLErr :=
  let b := PamInitialize b in
  match psPam b with
  | None => GDALRasterBand_native_setter b "SetNoDataValueAsInt64"
  | Some p =>
      let p := ResetNoDataValues p in
      let p := set_bNoDataValueSetAsInt64 p true in
      let p := set_nNoDataValueInt64 p nNewValue in
      (MarkPamDirty (set_psPam b (Some p)), CE_None)
  end.

Definition SetNoDataValueAsUInt64 (b : GDALPamRasterBand) (nNewValue : Z)
  : GDALPamRasterBand * CPLErr :=
  let b := PamInitialize b in
  match psPam b with
  | None => GDALRasterBand_native_setter b "SetNoDataValueAsUInt64"
  | Some p =>
      let p := ResetNoDataValues p in
      let p := set_bNoDataValueSetAsUInt64 p true in
      let p := set_nNoDataValueUInt64 p nNewValue in
      (MarkPamDirty (set_psPam b (Some p)), CE_None)
  end.

Definition DeleteNoDataValue (b : GDALPamRasterBand) : GDALPamRasterBand * CPLErr :=
  let b := PamInitialize b in
  match psPam b with
  | None => GDALRasterBand_native_setter b "DeleteNoDataValue"
  | Some p => (MarkPamDirty (set_psPam b (Some (ResetNoDataValues p))), CE_None)
  end.

(** The getters return the value together with what [*pbSuccess] receives
    when the caller passes a pointer. Without a record the answer is the
    one of [GDALRasterBand]: the default and "no success". *)
Definition GetNoDataValue (b : GDALPamRasterBand) : float * bool :=
  match psPam b with
  | None => (GDAL_PAM_DEFAULT_NODATA_VALUE, false)
  | Some p =>
      if bNoDataValueSetAsInt64 p then
        (GDALGetNoDataValueCastToDouble (nNoDataValueInt64 p), true)
      else if bNoDataValueSetAsUInt64 p then
        (GDALGetNoDataValueCastToDouble (nNoDataValueUInt64 p), true)
      else (dfNoDataValue p, bNoDataValueSet p)
  end.

Definition GetNoDataValueAsInt64 (b : GDALPamRasterBand)
  : GDALPamRasterBand * Z * bool :=
  match psPam b with
  | None => (b, GDAL_PAM_DEFAULT_NODATA_VALUE_INT64, false)
  | Some p =>
      match eDataType b with
      | GDT_UInt64 =>
          (CPLError b CE_Failure CPLE_AppDefined
             "GetNoDataValueAsUInt64() should be called instead",
           GDAL_PAM_DEFAULT_NODATA_VALUE_INT64, false)
      | GDT_Int64 => (b, nNoDataValueInt64 p, bNoDataValueSetAsInt64 p)
      | _ =>
          (CPLError b CE_Failure CPLE_AppDefined
             "GetNoDataValue() should be called instead",
           GDAL_PAM_DEFAULT_NODATA_VALUE_INT64, false)
      end
  end.

Definition GetNoDataValueAsUInt64 (b : GDALPamRasterBand)
  : GDALPamRasterBand * Z * bool :=
  match psPam b with
  | None => (b, GDAL_PAM_DEFAULT_NODATA_VALUE_UINT64, false)
  | Some p =>
      match eDataType b with
      | GDT_Int64 =>
          (CPLError b CE_Failure CPLE_AppDefined
             "GetNoDataValueAsInt64() should be called instead",
           GDAL_PAM_DEFAULT_NODATA_VALUE_UINT64, false)
      | GDT_UInt64 => (b, nNoDataValueUInt64 p, bNoDataValueSetAsUInt64 p)
      | _ =>
          (CPLError b CE_Failure CPLE_AppDefined
             "GetNoDataValue() should be called instead",
           GDAL_PAM_DEFAULT_NODATA_VALUE_UINT64, false)
      end
  end.

(** *** Offset, scale, unit type *)

Definition GetOffset (b : GDALPamRasterBand) : float * bool :=
  match psPam b with
  | None => (0%float, false)
  | Some p => (dfOffset p, bOffsetSet p)
  end.

Definition SetOffset (b : GDALPamRasterBand) (dfNewOffset : float)
  : GDALPamRasterBand * CPLErr :=
  let b := PamInitialize b in
  match psPam b with
  | None => GDALRasterBand_native_setter b "SetOffset"
  | Some p =>
      if negb (bOffsetSet p) || negb (PrimFloat.eqb (dfOffset p) dfNewOffset) then
        let p := set_dfOffset p dfNewOffset in
        let p := set_bOffsetSet p true in
        (MarkPamDirty (set_psPam b (Some p)), CE_None)
      else (b, CE_None)
  end.

Definition GetScale (b : GDALPamRasterBand) : float * bool :=
  match psPam b with
  | None => (1%float, false)
  | Some p => (dfScale p, bScaleSet p)
  end.

Definition SetScale (b : GDALPamRasterBand) (dfNewScale : float)
  : GDALPamRasterBand * CPLErr :=
  let b := PamInitialize b in
  match psPam b with
  | None => GDALRasterBand_native_setter b "SetScale"
  | Some p =>
      if negb (bScaleSet p) || negb (PrimFloat.eqb dfNewScale (dfScale p)) then
        let p := set_dfScale p dfNewScale in
        let p := set_bScaleSet p true in
        (MarkPamDirty (set_psPam b (Some p)), CE_None)
      else (b, CE_None)
  end.

Definition GetUnitType (b : GDALPamRasterBand) : string :=
  match psPam b with
  | None => ""
  | Some p => match pszUnitType p with None => "" | Some u => u end
  end.

Definition SetUnitType (b : GDALPamRasterBand) (pszNewValue : option string)
  : GDALPamRasterBand * CPLErr :=
  let b := PamInitialize b in
  match psPam b with
  | None => GDALRasterBand_native_setter b "SetUnitType"
  | Some p =>
      match pszNewValue with
      | None | Some EmptyString =>
          let b := match pszUnitType p with Some _ => MarkPamDirty b | None => b end in
          (set_psPam b (Some (set_pszUnitType p None)), CE_None)
      | Some v =>
          let b :=
            match pszUnitType p with
            | None => MarkPamDirty b
            | Some u => if negb (String.eqb u v) then MarkPamDirty b else b
            end in
          (set_psPam b (Some (set_pszUnitType p (Some v))), CE_None)
      end
  end.

(** *** Category names, color table, color interpretation, description *)

(** [CSLDuplicate]: a copy of the list, null for a null or an empty one. *)
Definition CSLDuplicate (l : option (list string)) : option (list string) :=
  match l with
  | Some (x :: r) => Some (x :: r)
  | _ => None
  end.

Definition GetCategoryNames (b : GDALPamRasterBand) : option (list string) :=
  match psPam b with
  | Some p => papszCategoryNames p
  | None => None
  end.

Definition SetCategoryNames (b : GDALPamRasterBand)
  (papszNewNames : option (list string)) : GDALPamRasterBand * CPLErr :=
  let b := PamInitialize b in
  match psPam b with
  | None => GDALRasterBand_native_setter b "SetCategoryNames"
  | Some p =>
      let p := set_papszCategoryNames p (CSLDuplicate papszNewNames) in
      (MarkPamDirty (set_psPam b (Some p)), CE_None)
  end.

Definition GetColorTable (b : GDALPamRasterBand) : option GDALColorTable :=
  match psPam b with
  | Some p => poColorTable p
  | None => None
  end.

Definition SetColorTable (b : GDALPamRasterBand) (poTableIn : option GDALColorTable)
  : GDALPamRasterBand * CPLErr :=
  let b := PamInitialize b in
  match psPam b with
  | None => GDALRasterBand_native_setter b "SetColorTable"
  | Some p =>
      let p := set_poColorTable p None in
      let p :=
        match poTableIn with
        | Some t => set_eColorInterp (set_poColorTable p (Some t)) GCI_PaletteIndex
        | None => p
        end in
      (MarkPamDirty (set_psPam b (Some p)), CE_None)
  end.

Definition SetColorInterpretation (b : GDALPamRasterBand) (eInterpIn : GDALColorInterp)
  : GDALPamRasterBand * CPLErr :=
  let b := PamInitialize b in
  match psPam b with
  | Some p =>
      let b := MarkPamDirty b in
      (set_psPam b (Some (set_eColorInterp p eInterpIn)), CE_None)
  | None =>
      GDALRasterBand_native_setter b "SetColorInterpretation"
  end.

Definition GetColorInterpretation (b : GDALPamRasterBand) : GDALColorInterp :=
  match psPam b with
  | Some p => eColorInterp p
  | None => GCI_Undefined
  end.

Definition GetDescription (b : GDALPamRasterBand) : string := sDescription b.

Definition SetDescription (b : GDALPamRasterBand) (pszDescription : string)
  : GDALPamRasterBand :=
  let b := PamInitialize b in
  let b :=
    match psPam b with
    | Some _ =>
        if negb (String.eqb pszDescription (GetDescription b)) then MarkPamDirty b
        else b
    | None => b
    end in
  set_sDescription b pszDescription.

(** *** Default raster attribute table *)

Definition GetDefaultRAT (b : GDALPamRasterBand)
  : GDALPamRasterBand * option (GDALRasterAttributeTable E) :=
  let b := PamInitialize b in
  match psPam b with
  | None => (b, None)
  | Some p => (b, poDefaultRAT p)
  end.

Definition SetDefaultRAT (b : GDALPamRasterBand)
  (poRAT : option (GDALRasterAttributeTable E)) : GDALPamRasterBand * CPLErr :=
  let b := PamInitialize b in
  match psPam b with
  | None => GDALRasterBand_native_setter b "SetDefaultRAT"
  | Some p =>
      let b := MarkPamDirty b in
      (set_psPam b (Some (set_poDefaultRAT p poRAT)), CE_None)
  end.

(** *** Histograms *)

(** [atoi(...)] used as a truth value. *)
Definition nonzero (z : Z) : bool := negb (z =? 0).

(** What [PamParseHistogram] leaves behind: its result, the values behind
    [pdfMin], [pdfMax] and [pnBuckets], the array behind [ppanHistogram]
    when it made one, and the errors it reported. *)
Record PamParseHistogram_result : Set := mkParsed {
  parse_ok : bool;
  parsed_dfMin : float;
  parsed_dfMax : float;
  parsed_nBuckets : Z;
  parsed_panHistogram : option (list Z);
  parse_errors : list CPLErrorEvent
}.

(** The end of a field of HistCounts: the characters after the next bar. *)
Fixpoint skip_to_next_number (s : string) : string :=
  match s with
  | EmptyString => s
  | String c r => if Ascii.eqb c "|" then r else skip_to_next_number r
  end.

(** The loop over the buckets, [iBucket] running from 0 to [n - 1]. *)
Fixpoint parse_HistCounts (n : nat) (pszHistCounts : string) : list Z :=
  match n with
  | O => []
  | S k =>
      to_uint64 (CPLAtoGIntBig pszHistCounts)
      :: parse_HistCounts k (skip_to_next_number pszHistCounts)
  end.

(** [PamParseHistogram]; [dfMin0], [dfMax0] and [nBuckets0] are the values
    behind the three pointers at the call, [bWantHistogram] tells whether
    [ppanHistogram] is not null. *)
Definition PamParseHistogram (psHistItem : option CPLXMLNode)
  (dfMin0 dfMax0 : float) (nBuckets0 : Z) (bWantHistogram : bool)
  : PamParseHistogram_result :=
  match psHistItem with
  | None => mkParsed false dfMin0 dfMax0 nBuckets0 None []
  | Some item =>
      let dfMin := CPLAtofM E (CPLGetXMLValue_or item "HistMin" "0") in
      let dfMax := CPLAtofM E (CPLGetXMLValue_or item "HistMax" "1") in
      let nBuckets := atoi (CPLGetXMLValue_or item "BucketCount" "2") in
      if (nBuckets <=? 0) || (nBuckets >? INT_MAX / 2) then
        mkParsed false dfMin dfMax nBuckets None []
      else if negb bWantHistogram then
        mkParsed true dfMin dfMax nBuckets None []
      else
        let pszHistCounts := CPLGetXMLValue_or item "HistCounts" "" in
        if strlen pszHistCounts <? size_t (2 * size_t nBuckets - 1) then
          mkParsed false dfMin dfMax nBuckets None
            [mkError CE_Failure CPLE_AppDefined
               "HistCounts content isn't consistent with BucketCount value"]
        else if negb (VSICalloc_ok E 8 nBuckets) then
          mkParsed false dfMin dfMax nBuckets None
            [mkError CE_Failure CPLE_OutOfMemory
               ("Cannot allocate memory for " ++ Printf_d nBuckets ++ " buckets")%string]
        else
          mkParsed true dfMin dfMax nBuckets
            (Some (parse_HistCounts (Z.to_nat nBuckets) pszHistCounts)) []
  end.

(** The test of [PamFindMatchingHistogram] on one child: [true] when the
    loop returns it, [false] when it goes on. *)
Definition histogram_passes (psXMLHist : CPLXMLNode) (dfMin dfMax : float)
  (nBuckets bIncludeOutOfRange bApproxOK : Z) : bool :=
  if negb (is_type CXT_Element psXMLHist)
     || negb (EQUAL (pszValue psXMLHist) "HistItem") then false
  else
    let dfHistMin := CPLAtofM E (CPLGetXMLValue_or psXMLHist "HistMin" "0") in
    let dfHistMax := CPLAtofM E (CPLGetXMLValue_or psXMLHist "HistMax" "0") in
    if negb (ARE_REAL_EQUAL E dfHistMin dfMin)
       || negb (ARE_REAL_EQUAL E dfHistMax dfMax)
       || negb (atoi (CPLGetXMLValue_or psXMLHist "BucketCount" "0") =? nBuckets)
       || negb (Bool.eqb
                  (negb (nonzero (atoi (CPLGetXMLValue_or psXMLHist "IncludeOutOfRange" "0"))))
                  (negb (nonzero bIncludeOutOfRange)))
       || (negb (nonzero bApproxOK)
           && nonzero (atoi (CPLGetXMLValue_or psXMLHist "Approximate" "0")))
    then false
    else true.

(** [PamFindMatchingHistogram]: the position, among the children of
    [psSavedHistograms], of the node it returns. *)
Definition PamFindMatchingHistogram (psSavedHistograms : option CPLXMLNode)
  (dfMin dfMax : float) (nBuckets bIncludeOutOfRange bApproxOK : Z) : option nat :=
  match psSavedHistograms with
  | None => None
  | Some h =>
      find_pos
        (fun psXMLHist =>
           histogram_passes psXMLHist dfMin dfMax nBuckets bIncludeOutOfRange bApproxOK)
        (psChild h)
  end.

(** The text of HistCounts: the counts of the buckets, a bar between two. *)
Fixpoint print_HistCounts (n : nat) (iBucket : nat) (panHistogram : list Z) : string :=
  match n with
  | O => ""
  | S k =>
      (Printf_u (nth iBucket panHistogram 0)
       ++ (match k with O => "" | S _ => "|" end)
       ++ print_HistCounts k (S iBucket) panHistogram)%string
  end.

Definition PamHistogramToXMLTree (dfMin dfMax : float) (nBuckets : Z)
  (panHistogram : list Z) (bIncludeOutOfRange bApprox : Z) : option CPLXMLNode :=
  if nBuckets >? (INT_MAX - 10) / 12 then None
  else
    let nLen := size_t (22 * size_t nBuckets + 10) in
    if negb (VSIMalloc_ok E nLen) then None
    else
      let psXMLHist := XMLNode CXT_Element "HistItem" [] in
      let psXMLHist := CPLSetXMLValue psXMLHist "HistMin" (Printf_16g E dfMin) in
      let psXMLHist := CPLSetXMLValue psXMLHist "HistMax" (Printf_16g E dfMax) in
      let psXMLHist := CPLSetXMLValue psXMLHist "BucketCount" (Printf_d nBuckets) in
      let psXMLHist :=
        CPLSetXMLValue psXMLHist "IncludeOutOfRange" (Printf_d bIncludeOutOfRange) in
      let psXMLHist := CPLSetXMLValue psXMLHist "Approximate" (Printf_d bApprox) in
      let pszHistCounts := print_HistCounts (Z.to_nat nBuckets) 0 panHistogram in
      Some (CPLSetXMLValue psXMLHist "HistCounts" pszHistCounts).

(** [GetHistogram]: the band, the result, and the buckets written to
    [panHistogram]. The addresses of the parameters [dfMin], [dfMax] and
    [nBuckets] are what [PamParseHistogram] receives: a failed decoding
    leaves the parsed values in them. *)
Definition GetHistogram (b : GDALPamRasterBand) (dfMin dfMax : float)
  (nBuckets bIncludeOutOfRange bApproxOK : Z)
  : GDALPamRasterBand * CPLErr * list Z :=
  let b := PamInitialize b in
  match psPam b with
  | None =>
      let '(eErr, panHistogram) :=
        GDALRasterBand_GetHistogram E dfMin dfMax nBuckets bIncludeOutOfRange bApproxOK in
      (b, eErr, panHistogram)
  | Some p =>
      let psHistItem :=
        PamFindMatchingHistogram (psSavedHistograms p) dfMin dfMax nBuckets
          bIncludeOutOfRange bApproxOK in
      let parsed :=
        match psHistItem, psSavedHistograms p with
        | Some i, Some h =>
            Some (PamParseHistogram (nth_error (psChild h) i) dfMin dfMax nBuckets true)
        | _, _ => None
        end in
      let b :=
        match parsed with
        | Some r => set_errors b (errors b ++ parse_errors r)
        | None => b
        end in
      match parsed with
      | Some (mkParsed true _ _ _ (Some panTempHist) _) => (b, CE_None, panTempHist)
      | _ =>
          let '(dfMin, dfMax, nBuckets) :=
            match parsed with
            | Some r => (parsed_dfMin r, parsed_dfMax r, parsed_nBuckets r)
            | None => (dfMin, dfMax, nBuckets)
            end in
          let '(eErr, panHistogram) :=
            GDALRasterBand_GetHistogram E dfMin dfMax nBuckets bIncludeOutOfRange bApproxOK in
          match eErr with
          | CE_None =>
              match PamHistogramToXMLTree dfMin dfMax nBuckets panHistogram
                      bIncludeOutOfRange bApproxOK with
              | Some psXMLHist =>
                  let b := MarkPamDirty b in
                  let h :=
                    match psSavedHistograms p with
                    | None => XMLNode CXT_Element "Histograms" []
                    | Some h => h
                    end in
                  (set_psPam b
                     (Some (set_psSavedHistograms p (Some (CPLAddXMLChild h [psXMLHist])))),
                   CE_None, panHistogram)
              | None => (b, CE_None, panHistogram)
              end
          | _ => (b, eErr, panHistogram)
          end
      end
  end.

Definition SetDefaultHistogram (b : GDALPamRasterBand) (dfMin dfMax : float)
  (nBuckets : Z) (panHistogram : list Z) : GDALPamRasterBand * CPLErr :=
  let b := PamInitialize b in
  match psPam b with
  | None =>
      GDALRasterBand_native_setter b "SetDefaultHistogram"
  | Some p =>
      let p :=
        match PamFindMatchingHistogram (psSavedHistograms p) dfMin dfMax nBuckets 1 1,
              psSavedHistograms p with
        | Some psNode, Some h =>
            set_psSavedHistograms p (Some (CPLRemoveXMLChild h psNode))
        | _, _ => p
        end in
      let b := set_psPam b (Some p) in
      match PamHistogramToXMLTree dfMin dfMax nBuckets panHistogram 1 0 with
      | None => (b, CE_Failure)
      | Some psHistItem =>
          let b := MarkPamDirty b in
          let h :=
            match psSavedHistograms p with
            | None => XMLNode CXT_Element "Histograms" []
            | Some h => h
            end in
          (set_psPam b
             (Some (set_psSavedHistograms p
                      (Some (XMLNode (eType h) (pszValue h) (psHistItem :: psChild h))))),
           CE_None)
      end
  end.

(** *** SerializeToXML *)

Definition CategoryNames_to_XML (names : list string) : CPLXMLNode :=
  XMLNode CXT_Element "CategoryNames"
    (map (fun name => CPLCreateXMLElementAndValue "Category" name) names).

Definition ColorEntry_to_XML (sEntry : GDALColorEntry) : CPLXMLNode :=
  let psEntry_XML := XMLNode CXT_Element "Entry" [] in
  let psEntry_XML := CPLSetXMLValue psEntry_XML "#c1" (Printf_d (c1 sEntry)) in
  let psEntry_XML := CPLSetXMLValue psEntry_XML "#c2" (Printf_d (c2 sEntry)) in
  let psEntry_XML := CPLSetXMLValue psEntry_XML "#c3" (Printf_d (c3 sEntry)) in
  CPLSetXMLValue psEntry_XML "#c4" (Printf_d (c4 sEntry)).

Definition ColorTable_to_XML (t : GDALColorTable) : CPLXMLNode :=
  XMLNode CXT_Element "ColorTable" (map ColorEntry_to_XML t).

(** The text of a nodata of the double form and, when it is written, its
    hexadecimal form. [oFmt0] is what the string [oFmt] holds on entry: it
    is what [CPLAtof(oFmt)] reads for a NaN, which is not printed. *)
Definition NoDataValue_to_XML (psTree : CPLXMLNode) (oFmt0 : string)
  (dfNoDataValue : float) : CPLXMLNode :=
  let oFmt := if PrimFloat.is_nan dfNoDataValue then oFmt0
              else Printf_14E E dfNoDataValue in
  let psTree :=
    CPLSetXMLValue psTree "NoDataValue"
      (if PrimFloat.is_nan dfNoDataValue then "nan" else oFmt) in
  if negb (PrimFloat.eqb dfNoDataValue (floor E dfNoDataValue))
     || negb (PrimFloat.eqb dfNoDataValue (CPLAtof E oFmt))
  then
    CPLSetXMLValue psTree "NoDataValue.#le_hex_equiv"
      (CPLBinaryToHex (firstn 8 (double_to_le_bytes E dfNoDataValue)))
  else psTree.

Definition SerializeToXML (b : GDALPamRasterBand) : option CPLXMLNode :=
  match psPam b with
  | None => None
  | Some p =>
      let psTree := XMLNode CXT_Element "PAMRasterBand" [] in
      let psTree :=
        if nBand b >? 0 then CPLSetXMLValue psTree "#band" (Printf_d (nBand b))
        else psTree in
      let oFmt0 := if nBand b >? 0 then Printf_d (nBand b) else "" in
      let psTree :=
        if strlen (GetDescription b) >? 0
        then CPLSetXMLValue psTree "Description" (GetDescription b)
        else psTree in
      let psTree :=
        if bNoDataValueSet p then NoDataValue_to_XML psTree oFmt0 (dfNoDataValue p)
        else if bNoDataValueSetAsInt64 p then
          CPLSetXMLValue psTree "NoDataValue" (Printf_d (nNoDataValueInt64 p))
        else if bNoDataValueSetAsUInt64 p then
          CPLSetXMLValue psTree "NoDataValue" (Printf_u (nNoDataValueUInt64 p))
        else psTree in
      let psTree :=
        match pszUnitType p with
        | Some u => CPLSetXMLValue psTree "UnitType" u
        | None => psTree
        end in
      let psTree :=
        if negb (PrimFloat.eqb (dfOffset p) 0%float)
        then CPLSetXMLValue psTree "Offset" (Printf_16g E (dfOffset p))
        else psTree in
      let psTree :=
        if negb (PrimFloat.eqb (dfScale p) 1%float)
        then CPLSetXMLValue psTree "Scale" (Printf_16g E (dfScale p))
        else psTree in
      let psTree :=
        if negb (GDALColorInterp_eqb (eColorInterp p) GCI_Undefined)
        then CPLSetXMLValue psTree "ColorInterp"
               (GDALGetColorInterpretationName (eColorInterp p))
        else psTree in
      let psTree :=
        match papszCategoryNames p with
        | Some names => CPLCreateXMLNode_in psTree (CategoryNames_to_XML names)
        | None => psTree
        end in
      let psTree :=
        match poColorTable p with
        | Some t => CPLCreateXMLNode_in psTree (ColorTable_to_XML t)
        | None => psTree
        end in
      let psTree :=
        if bHaveMinMax p then
          CPLSetXMLValue (CPLSetXMLValue psTree "Minimum" (Printf_16g E (dfMin p)))
            "Maximum" (Printf_16g E (dfMax p))
        else psTree in
      let psTree :=
        if bHaveStats p then
          CPLSetXMLValue (CPLSetXMLValue psTree "Mean" (Printf_16g E (dfMean p)))
            "StandardDeviation" (Printf_16g E (dfStdDev p))
        else psTree in
      let psTree :=
        match psSavedHistograms p with
        | Some h => CPLAddXMLChild psTree [h]
        | None => psTree
        end in
      let psTree :=
        match poDefaultRAT p with
        | Some rat =>
            match RAT_Serialize E rat with
            | Some psSerializedRAT => CPLAddXMLChild psTree [psSerializedRAT]
            | None => psTree
            end
        | None => psTree
        end in
      let psTree := CPLAddXMLChild psTree (MDMD_Serialize E (oMDMD b)) in
      match psChild psTree with
      | [] | [_] => None
      | _ => Some psTree
      end
  end.

(** *** XMLInit *)

(** The loop over the children of CategoryNames. *)
Fixpoint XML_to_CategoryNames (children : list CPLXMLNode) : list string :=
  match children with
  | [] => []
  | psEntry :: rest =>
      if negb (is_type CXT_Element psEntry)
         || negb (EQUAL (pszValue psEntry) "Category")
         || match psChild psEntry with
            | c :: _ => negb (is_type CXT_Text c)
            | [] => false
            end
      then XML_to_CategoryNames rest
      else
        match psChild psEntry with
        | c :: _ => pszValue c
        | [] => ""
        end :: XML_to_CategoryNames rest
  end.

(** The loop over the children of ColorTable, from the table [oTable] and
    the index [iEntry]. *)
Fixpoint XML_to_ColorTable (children : list CPLXMLNode) (oTable : GDALColorTable)
  (iEntry : nat) : GDALColorTable :=
  match children with
  | [] => oTable
  | psEntry :: rest =>
      if negb (is_type CXT_Element psEntry && EQUAL (pszValue psEntry) "Entry")
      then XML_to_ColorTable rest oTable iEntry
      else
        let sCEntry :=
          mkColorEntry
            (to_short (atoi (CPLGetXMLValue_or psEntry "c1" "0")))
            (to_short (atoi (CPLGetXMLValue_or psEntry "c2" "0")))
            (to_short (atoi (CPLGetXMLValue_or psEntry "c3" "0")))
            (to_short (atoi (CPLGetXMLValue_or psEntry "c4" "255"))) in
        XML_to_ColorTable rest (SetColorEntry oTable iEntry sCEntry) (S iEntry)
  end.

(** The blocks of [XMLInit], in the order of the source. *)

Definition XMLInit_NoDataValue (b : GDALPamRasterBand) (psTree : CPLXMLNode)
  : GDALPamRasterBand :=
  match CPLGetXMLValue psTree "NoDataValue" None with
  | Some pszNoDataValue =>
      match CPLGetXMLValue psTree "NoDataValue.le_hex_equiv" None with
      | Some pszLEHex =>
          let pabyBin := CPLHexToBinary pszLEHex in
          if Z.of_nat (List.length pabyBin) =? 8
          then fst (SetNoDataValue b (double_of_le_bytes E pabyBin))
          else fst (SetNoDataValue b (CPLAtof E pszNoDataValue))
      | None =>
          match eDataType b with
          | GDT_Int64 => fst (SetNoDataValueAsInt64 b (strtoll pszNoDataValue))
          | GDT_UInt64 => fst (SetNoDataValueAsUInt64 b (strtoull pszNoDataValue))
          | _ => fst (SetNoDataValue b (CPLAtof E pszNoDataValue))
          end
      end
  | None => b
  end.

Definition XMLInit_OffsetScale (b : GDALPamRasterBand) (psTree : CPLXMLNode)
  : GDALPamRasterBand :=
  let pszOffset := CPLGetXMLValue psTree "Offset" None in
  let pszScale := CPLGetXMLValue psTree "Scale" None in
  match pszOffset, pszScale with
  | None, None => b
  | _, _ =>
      let b := fst (SetOffset b (match pszOffset with
                                 | Some s => CPLAtof E s
                                 | None => 0%float
                                 end)) in
      fst (SetScale b (match pszScale with
                       | Some s => CPLAtof E s
                       | None => 1%float
                       end))
  end.

Definition XMLInit_UnitType (b : GDALPamRasterBand) (psTree : CPLXMLNode)
  : GDALPamRasterBand :=
  match CPLGetXMLValue psTree "UnitType" None with
  | Some pszUnitType => fst (SetUnitType b (Some pszUnitType))
  | None => b
  end.

Definition XMLInit_ColorInterp (b : GDALPamRasterBand) (psTree : CPLXMLNode)
  : GDALPamRasterBand :=
  match CPLGetXMLValue psTree "ColorInterp" None with
  | Some pszInterp =>
      fst (SetColorInterpretation b (GDALGetColorInterpretationByName pszInterp))
  | None => b
  end.

Definition XMLInit_CategoryNames (b : GDALPamRasterBand) (psTree : CPLXMLNode)
  : GDALPamRasterBand :=
  match CPLGetXMLNode psTree "CategoryNames" with
  | Some psCategoryNames =>
      fst (SetCategoryNames b (Some (XML_to_CategoryNames (psChild psCategoryNames))))
  | None => b
  end.

Definition XMLInit_ColorTable (b : GDALPamRasterBand) (psTree : CPLXMLNode)
  : GDALPamRasterBand :=
  match CPLGetXMLNode psTree "ColorTable" with
  | Some psColorTable =>
      fst (SetColorTable b (Some (XML_to_ColorTable (psChild psColorTable) [] 0)))
  | None => b
  end.

(** The last blocks write through [psPam] without a test: [None] is the
    dereference of a null [psPam]. *)
Definition through_psPam (b : GDALPamRasterBand)
  (f : GDALRasterBandPamInfo -> GDALRasterBandPamInfo) : option GDALPamRasterBand :=
  match psPam b with
  | Some p => Some (set_psPam b (Some (f p)))
  | None => None
  end.

Definition XMLInit_MinMax (b : GDALPamRasterBand) (psTree : CPLXMLNode)
  : option GDALPamRasterBand :=
  match CPLGetXMLValue psTree "Minimum" None, CPLGetXMLValue psTree "Maximum" None with
  | Some pszMinimum, Some pszMaximum =>
      through_psPam b
        (fun p => set_dfMax (set_dfMin (set_bHaveMinMax p true) (CPLAtofM E pszMinimum))
                    (CPLAtofM E pszMaximum))
  | _, _ => Some b
  end.

Definition XMLInit_Stats (b : GDALPamRasterBand) (psTree : CPLXMLNode)
  : option GDALPamRasterBand :=
  match CPLGetXMLValue psTree "Mean" None,
        CPLGetXMLValue psTree "StandardDeviation" None with
  | Some pszMean, Some pszStandardDeviation =>
      through_psPam b
        (fun p => set_dfStdDev (set_dfMean (set_bHaveStats p true) (CPLAtofM E pszMean))
                    (CPLAtofM E pszStandardDeviation))
  | _, _ => Some b
  end.

Definition XMLInit_Histograms (b : GDALPamRasterBand) (psTree : CPLXMLNode)
  : option GDALPamRasterBand :=
  match CPLGetXMLNode psTree "Histograms" with
  | Some psHist => through_psPam b (fun p => set_psSavedHistograms p (Some psHist))
  | None => Some b
  end.

Definition XMLInit_RAT (b : GDALPamRasterBand) (psTree : CPLXMLNode)
  : option GDALPamRasterBand :=
  match CPLGetXMLNode psTree "GDALRasterAttributeTable" with
  | Some psRAT =>
      through_psPam b (fun p => set_poDefaultRAT p (Some (RAT_XMLInit E psRAT)))
  | None => Some b
  end.

Definition and_then {A B : Type} (x : option A) (f : A -> option B) : option B :=
  match x with
  | Some a => f a
  | None => None
  end.

Definition XMLInit (b : GDALPamRasterBand) (psTree : CPLXMLNode)
  : option (GDALPamRasterBand * CPLErr) :=
  let b := PamInitialize b in
  let b := set_oMDMD b (MDMD_XMLInit E psTree (oMDMD b)) in
  let b := set_sDescription b (CPLGetXMLValue_or psTree "Description" "") in
  let b := XMLInit_NoDataValue b psTree in
  let b := XMLInit_OffsetScale b psTree in
  let b := XMLInit_UnitType b psTree in
  let b := XMLInit_ColorInterp b psTree in
  let b := XMLInit_CategoryNames b psTree in
  let b := XMLInit_ColorTable b psTree in
  and_then (XMLInit_MinMax b psTree) (fun b =>
  and_then (XMLInit_Stats b psTree) (fun b =>
  and_then (XMLInit_Histograms b psTree) (fun b =>
  and_then (XMLInit_RAT b psTree) (fun b =>
  Some (b, CE_None))))).

End PamRasterBand.

(** ** A reference environment

    The conversions of the C library written out on binary64 floats, to
    evaluate the band on concrete inputs: correctly rounded reading of
    decimal text, printing with a number of significant digits, [floor],
    the IEEE 754 encoding, allocations that succeed, and stand-ins for the
    collaborators (an attribute table and metadata domains kept as their
    XML form, a histogram computation that fills the buckets with zeros). *)

Module Ref.

(** The float nearest to [(-1)^s * num / den], for positive [num], [den]. *)
Definition round_ratio (s : bool) (num den : Z) : float :=
  let '(q, e, l) := SFdiv_core_binary prec emax num 0 den 0 in
  SF2Prim (binary_round_aux prec emax s q e l).

(** The float nearest to [(-1)^s * m * 10^e]. *)
Definition decimal_to_double (s : bool) (m e : Z) : float :=
  if m =? 0 then SF2Prim (S754_zero s)
  else if 0 <=? e then SF2Prim (binary_normalize prec emax ((if s then -1 else 1) * m * 10 ^ e) 0 s)
  else round_ratio s m (10 ^ (- e)).

Fixpoint count_digits (s : string) : Z :=
  match s with
  | String c r => match digit_val c with Some _ => 1 + count_digits r | None => 0 end
  | EmptyString => 0
  end.

Fixpoint skip_digits (s : string) : string :=
  match s with
  | String c r => match digit_val c with Some _ => skip_digits r | None => s end
  | EmptyString => s
  end.

Fixpoint skip_blanks (s : string) : string :=
  match s with
  | String " " r => skip_blanks r
  | _ => s
  end.

(** [CPLStrtodDelim(nptr, NULL, delim)]: blanks, then "nan", "inf",
    "-inf", or a decimal number: sign, digits, a fraction after the
    delimiter, an exponent; 0 when no number is there. *)
Definition CPLStrtodDelim (nptr : string) (delim : ascii) : float :=
  let nptr := skip_blanks nptr in
  if String.eqb nptr "nan" then nan
  else if String.eqb nptr "inf" then infinity
  else if String.eqb nptr "-inf" then neg_infinity
  else
    let '(sign, body) :=
      match nptr with
      | String "-" r => (true, r)
      | String "+" r => (false, r)
      | _ => (false, nptr)
      end in
    let int_digits := count_digits body in
    let int_part := parse_digits body 0 in
    let after_int := skip_digits body in
    let '(frac_digits, mantissa, after_frac) :=
      match after_int with
      | String c r =>
          if Ascii.eqb c delim
          then (count_digits r, parse_digits r int_part, skip_digits r)
          else (0, int_part, after_int)
      | EmptyString => (0, int_part, after_int)
      end in
    if int_digits + frac_digits =? 0 then 0%float
    else
      let exponent :=
        match after_frac with
        | String c r =>
            if Ascii.eqb (toupper c) "E" then
              match r with
              | String "-" d => - parse_digits d 0
              | String "+" d => parse_digits d 0
              | _ => parse_digits r 0
              end
            else 0
        | EmptyString => 0
        end in
      decimal_to_double sign mantissa (exponent - frac_digits).

Definition CPLAtof (nptr : string) : float := CPLStrtodDelim nptr ".".

(** [CPLAtofM]: the delimiter is the first of "," and "." in the text. *)
Fixpoint first_delimiter (s : string) : ascii :=
  match s with
  | String c r =>
      if Ascii.eqb c "," then ","%char
      else if Ascii.eqb c "." then "."%char
      else first_delimiter r
  | EmptyString => "."%char
  end.

Definition CPLAtofM (nptr : string) : float :=
  CPLStrtodDelim nptr (first_delimiter nptr).

(** The decimal exponent [X] and the [P] significant digits [D] of the
    positive rational [num / den] rounded to nearest, ties to even:
    [D * 10^(X - P + 1)], with [10^(P-1) <= D < 10^P]. *)
Definition scale_ratio (num den k : Z) : Z * Z :=
  if 0 <=? k then (num * 10 ^ k, den) else (num, den * 10 ^ (- k)).

Definition round_half_even (num den : Z) : Z :=
  let q := num / den in
  let r := num mod den in
  if 2 * r <? den then q
  else if den <? 2 * r then q + 1
  else if Z.even q then q else q + 1.

Fixpoint decimal_exponent_from (fuel : nat) (num den k : Z) : Z :=
  match fuel with
  | O => k
  | S f =>
      let '(n, d) := scale_ratio num den (- (k + 1)) in
      if d <=? n then decimal_exponent_from f num den (k + 1) else k
  end.

Definition decimal_exponent (num den : Z) : Z :=
  let k0 := ((Z.log2 num - Z.log2 den - 1) * 30102) / 100000 - 1 in
  decimal_exponent_from 4 num den k0.

Definition significant_digits (P num den : Z) : Z * Z :=
  let X := decimal_exponent num den in
  let '(n, d) := scale_ratio num den (P - 1 - X) in
  let D := round_half_even n d in
  if 10 ^ P <=? D then (X + 1, 10 ^ (P - 1)) else (X, D).

(** A number written with exactly [n] digits. *)
Fixpoint fixed_digits (n : nat) (v : Z) (acc : string) : string :=
  match n with
  | O => acc
  | S k => fixed_digits k (v / 10) (String (digit_char (v mod 10)) acc)
  end.

Fixpoint strip_zeros_rev (s : list ascii) : list ascii :=
  match s with
  | "0"%char :: r => strip_zeros_rev r
  | _ => s
  end.

Definition strip_trailing_zeros (s : string) : string :=
  string_of_list_ascii (rev (strip_zeros_rev (rev (list_ascii_of_string s)))).

(** The exponent of the "e" style: a sign and at least two digits. *)
Definition exponent_text (X : Z) : string :=
  ((if (X <? 0)%Z then "-" else "+")
   ++ (if (Z.abs X <? 10)%Z then "0" else "") ++ Printf_u (Z.abs X))%string.

Definition ratio_of_finite (m : positive) (e : Z) : Z * Z :=
  if 0 <=? e then (Z.pos m * 2 ^ e, 1) else (Z.pos m, 2 ^ (- e)).

(** ["%.14E"]. *)
Definition Printf_14E (x : float) : string :=
  match Prim2SF x with
  | S754_nan => "NAN"
  | S754_infinity s => if s then "-INF" else "INF"
  | S754_zero s => ((if s then "-" else "") ++ "0.00000000000000E+00")%string
  | S754_finite s m e =>
      let '(num, den) := ratio_of_finite m e in
      let '(X, D) := significant_digits 15 num den in
      let digits := fixed_digits 15 D "" in
      ((if s then "-" else "")
       ++ substring 0 1 digits ++ "." ++ substring 1 14 digits
       ++ "E" ++ exponent_text X)%string
  end.

(** ["%.16g"]. *)
Definition Printf_16g (x : float) : string :=
  match Prim2SF x with
  | S754_nan => "nan"
  | S754_infinity s => if s then "-inf" else "inf"
  | S754_zero s => if s then "-0" else "0"
  | S754_finite s m e =>
      let '(num, den) := ratio_of_finite m e in
      let '(X, D) := significant_digits 16 num den in
      let digits := fixed_digits 16 D "" in
      let sign := if s then "-" else "" in
      if (X <? -4) || (16 <=? X) then
        let frac := strip_trailing_zeros (substring 1 15 digits) in
        (sign ++ substring 0 1 digits
         ++ (match frac with EmptyString => "" | _ => "." ++ frac end)
         ++ "e" ++ exponent_text X)%string
      else if X <? 0 then
        (sign ++ "0."
         ++ string_of_list_ascii (repeat "0"%char (Z.to_nat (- X - 1)))
         ++ strip_trailing_zeros digits)%string
      else
        let n := Z.to_nat (X + 1) in
        let frac := strip_trailing_zeros (substring n (16 - n) digits) in
        (sign ++ substring 0 n digits
         ++ (match frac with EmptyString => "" | _ => "." ++ frac end))%string
  end.

(** [floor]. *)
Definition floor (x : float) : float :=
  match Prim2SF x with
  | S754_finite s m e =>
      if 0 <=? e then x
      else
        let q := Z.pos m / 2 ^ (- e) in
        let exact := Z.pos m mod 2 ^ (- e) =? 0 in
        if s then Z_to_double (- (if exact then q else q + 1))
        else SF2Prim (binary_normalize prec emax q 0 false)
  | _ => x
  end.

(** [ARE_REAL_EQUAL] of gdal_priv.h: equal, or closer than two units in
    the last place of a single-precision float. *)
Definition ARE_REAL_EQUAL (fVal1 fVal2 : float) : bool :=
  (PrimFloat.eqb fVal1 fVal2
   || PrimFloat.ltb (PrimFloat.abs (fVal1 - fVal2))
        (Z_to_double 1 / Z_to_double (2 ^ 23) * PrimFloat.abs (fVal1 + fVal2)
         * Z_to_double 2))%float.

(** The IEEE 754 binary64 encoding of a float. *)
Definition double_to_bits (x : float) : Z :=
  match Prim2SF x with
  | S754_zero s => if s then 2 ^ 63 else 0
  | S754_infinity s => (if s then 2 ^ 63 else 0) + 2047 * 2 ^ 52
  | S754_nan => 2047 * 2 ^ 52 + 2 ^ 51
  | S754_finite s m e =>
      (if s then 2 ^ 63 else 0)
      + (if Z.pos m <? 2 ^ 52 then Z.pos m
         else (e + 1075) * 2 ^ 52 + (Z.pos m - 2 ^ 52))
  end.

Definition double_of_bits (v : Z) : float :=
  ((((let s := 2 ^ 63 <=? v in
  let biased := (v / 2 ^ 52) mod 2048 in
  let frac := v mod 2 ^ 52 in
  if biased =? 2047 then
    if frac =? 0 then SF2Prim (S754_infinity s) else nan
  else if biased =? 0 then
    match frac with
    | Z.pos m => SF2Prim (S754_finite s m (-1074))
    | _ => SF2Prim (S754_zero s)
    end
  else
    match frac + 2 ^ 52 with
    | Z.pos m => SF2Prim (S754_finite s m (biased - 1075))
    | _ => nan
    end)%Z)%Z)%Z)%Z.

Fixpoint le_bytes (n : nat) (v : Z) : list Z :=
  match n with
  | O => []
  | S k => v mod 256 :: le_bytes k (v / 256)
  end.

Fixpoint of_le_bytes (l : list Z) : Z :=
  match l with
  | [] => 0
  | b :: r => b + 256 * of_le_bytes r
  end.

Definition double_to_le_bytes (x : float) : list Z := le_bytes 8 (double_to_bits x).
Definition double_of_le_bytes (l : list Z) : float := double_of_bits (of_le_bytes l).

(** The metadata domains kept as their Metadata nodes. *)
Definition MDMD_XMLInit (psTree : CPLXMLNode) (md : list CPLXMLNode) : list CPLXMLNode :=
  match filter (named "Metadata") (psChild psTree) with
  | [] => md
  | l => l
  end.

End Ref.

Definition ref_env : Env :=
  {| Printf_14E := Ref.Printf_14E;
     Printf_16g := Ref.Printf_16g;
     CPLAtof := Ref.CPLAtof;
     CPLAtofM := Ref.CPLAtofM;
     floor := Ref.floor;
     ARE_REAL_EQUAL := Ref.ARE_REAL_EQUAL;
     double_to_le_bytes := Ref.double_to_le_bytes;
     double_of_le_bytes := Ref.double_of_le_bytes;
     new_PamInfo_ok := true;
     VSICalloc_ok := fun _ _ => true;
     VSIMalloc_ok := fun _ => true;
     GDALRasterAttributeTable := CPLXMLNode;
     RAT_Serialize := fun rat => Some rat;
     RAT_XMLInit := fun psRAT => psRAT;
     GDALMultiDomainMetadata := list CPLXMLNode;
     MDMD_Serialize := fun md => md;
     MDMD_XMLInit := Ref.MDMD_XMLInit;
     GDALRasterBand_GetHistogram :=
       fun _ _ nBuckets _ _ => (CE_None, repeat 0 (Z.to_nat nBuckets));
     GDALRasterBand_setter :=
       fun method => (CE_Failure, [mkError CE_Failure CPLE_NotSupported method]) |}.


(** ** Notions used by the properties *)

Section Notions.

Variable E : Env.
Implicit Types (b : GDALPamRasterBand E) (p : GDALRasterBandPamInfo E).

(** [PamClear], on the model: the record and what it owns are freed. *)
Definition PamClear b : GDALPamRasterBand E := set_psPam b None.

(** The band has a record that [PamInitialize] leaves in place: a record
    linked to its parent, or a record without parent on a band whose
    dataset is not a PAM dataset. *)
Definition settled b : Prop :=
  match psPam b with
  | Some p =>
      poParentDS p = true \/
      match poDS b with
      | None => True
      | Some ds => ds_GMO_PAM_CLASS ds = false \/ ds_is_GDALPamDataset ds = false
      end
  | None => False
  end.

(** The record is linked to the store of the dataset of the band. *)
Definition linked b : Prop :=
  exists p ds, psPam b = Some p /\ poParentDS p = true /\ poDS b = Some ds.

(** The dirty flag of the parent store. *)
Definition is_dirty b : bool :=
  match poDS b with
  | Some ds => ds_GPF_DIRTY ds
  | None => false
  end.

(** The three "set" flags of the nodata, and how many of them are true. *)
Definition nodata_flags p : list bool :=
  [bNoDataValueSet p; bNoDataValueSetAsInt64 p; bNoDataValueSetAsUInt64 p].

Definition nodata_flags_true p : nat :=
  List.length (filter (fun f : bool => f) (nodata_flags p)).

(** At most one "set" flag is true in the record of the band, if any. *)
Definition nodata_exclusive b : Prop :=
  match psPam b with
  | Some p => (nodata_flags_true p <= 1)%nat
  | None => True
  end.

(** One call of a method of the band that may change the band. *)
Inductive PamCall : Type :=
  | call_PamInitialize
  | call_PamInitializeNoParent
  | call_PamClear
  | call_SetNoDataValue (dfNewValue : float)
  | call_SetNoDataValueAsInt64 (nNewValue : Z)
  | call_SetNoDataValueAsUInt64 (nNewValue : Z)
  | call_DeleteNoDataValue
  | call_GetNoDataValueAsInt64
  | call_GetNoDataValueAsUInt64
  | call_SetOffset (dfNewOffset : float)
  | call_SetScale (dfNewScale : float)
  | call_SetUnitType (pszNewValue : option string)
  | call_SetCategoryNames (papszNewNames : option (list string))
  | call_SetColorTable (poTableIn : option GDALColorTable)
  | call_SetColorInterpretation (eInterpIn : GDALColorInterp)
  | call_SetDescription (pszDescription : string)
  | call_GetDefaultRAT
  | call_SetDefaultRAT (poRAT : option (GDALRasterAttributeTable E))
  | call_GetHistogram (dfMin dfMax : float) (nBuckets bIncludeOutOfRange bApproxOK : Z)
  | call_SetDefaultHistogram (dfMin dfMax : float) (nBuckets : Z) (panHistogram : list Z)
  | call_XMLInit (psTree : CPLXMLNode).

(** The band after a call; [None] where [XMLInit] goes through a null
    [psPam]. *)
Definition do_call b (c : PamCall) : option (GDALPamRasterBand E) :=
  match c with
  | call_PamInitialize => Some (PamInitialize b)
  | call_PamInitializeNoParent => Some (PamInitializeNoParent b)
  | call_PamClear => Some (PamClear b)
  | call_SetNoDataValue x => Some (fst (SetNoDataValue b x))
  | call_SetNoDataValueAsInt64 n => Some (fst (SetNoDataValueAsInt64 b n))
  | call_SetNoDataValueAsUInt64 n => Some (fst (SetNoDataValueAsUInt64 b n))
  | call_DeleteNoDataValue => Some (fst (DeleteNoDataValue b))
  | call_GetNoDataValueAsInt64 => Some (fst (fst (GetNoDataValueAsInt64 b)))
  | call_GetNoDataValueAsUInt64 => Some (fst (fst (GetNoDataValueAsUInt64 b)))
  | call_SetOffset x => Some (fst (SetOffset b x))
  | call_SetScale x => Some (fst (SetScale b x))
  | call_SetUnitType v => Some (fst (SetUnitType b v))
  | call_SetCategoryNames l => Some (fst (SetCategoryNames b l))
  | call_SetColorTable t => Some (fst (SetColorTable b t))
  | call_SetColorInterpretation e => Some (fst (SetColorInterpretation b e))
  | call_SetDescription s => Some (SetDescription b s)
  | call_GetDefaultRAT => Some (fst (GetDefaultRAT b))
  | call_SetDefaultRAT r => Some (fst (SetDefaultRAT b r))
  | call_GetHistogram dfMin dfMax n i a => Some (fst (fst (GetHistogram b dfMin dfMax n i a)))
  | call_SetDefaultHistogram dfMin dfMax n h => Some (fst (SetDefaultHistogram b dfMin dfMax n h))
  | call_XMLInit psTree => option_map fst (XMLInit b psTree)
  end.

Fixpoint do_calls b (l : list PamCall) : option (GDALPamRasterBand E) :=
  match l with
  | [] => Some b
  | c :: r =>
      match do_call b c with
      | Some b' => do_calls b' r
      | None => None
      end
  end.

End Notions.

(** ** Concrete bands *)

(** A PAM dataset whose store exists and is clean. *)
Definition ref_dataset : GDALDataset := mkDataset true true true false false.

(** Band 1 of that dataset, of type Byte, before any metadata is set. *)
Definition ref_band : GDALPamRasterBand ref_env :=
  @mkBand ref_env (Some ref_dataset) 1 GDT_Byte "" false ([] : list CPLXMLNode) None [].

(** The same band with its record, linked to the dataset. *)
Definition ref_linked_band : GDALPamRasterBand ref_env := PamInitialize ref_band.

(** A band whose record holds the color interpretation "gray" and whose
    store is clean, as after a load. *)
Definition ref_gray_band : GDALPamRasterBand ref_env :=
  set_psPam ref_linked_band
    (Some (set_eColorInterp (set_poParentDS (new_GDALRasterBandPamInfo ref_env) true)
             GCI_GrayIndex)).

(** The unit type that [SetUnitType] stores for an argument: none for a
    null or an empty string. *)
Definition stored_unit_type (pszNewValue : option string) : option string :=
  match pszNewValue with
  | Some (String c r) => Some (String c r)
  | _ => None
  end.

(** ** The histogram cache in the words of the specification *)

Section HistogramSpec.

Variable E : Env.

(** A descriptor is a HistItem element; its fields are read from its
    children, a missing one counting as 0. *)
Definition is_HistItem (c : CPLXMLNode) : bool :=
  is_type CXT_Element c && EQUAL (pszValue c) "HistItem".

Definition HistMin_of (c : CPLXMLNode) : float :=
  CPLAtofM E (CPLGetXMLValue_or c "HistMin" "0").
Definition HistMax_of (c : CPLXMLNode) : float :=
  CPLAtofM E (CPLGetXMLValue_or c "HistMax" "0").
Definition BucketCount_of (c : CPLXMLNode) : Z :=
  atoi (CPLGetXMLValue_or c "BucketCount" "0").
Definition IncludeOutOfRange_of (c : CPLXMLNode) : bool :=
  nonzero (atoi (CPLGetXMLValue_or c "IncludeOutOfRange" "0")).
Definition Approximate_of (c : CPLXMLNode) : bool :=
  nonzero (atoi (CPLGetXMLValue_or c "Approximate" "0")).

(** A candidate matches when its min and max are equal to the query within
    the tolerance, its bucket count and its includeOutOfRange flag match
    exactly, and it is not an approximate candidate offered to a caller
    that does not accept approximate results. *)
Definition candidate_matches (c : CPLXMLNode) (dfMin dfMax : float) (nBuckets : Z)
  (bIncludeOutOfRange bApproxOK : bool) : bool :=
  ARE_REAL_EQUAL E (HistMin_of c) dfMin
  && ARE_REAL_EQUAL E (HistMax_of c) dfMax
  && (BucketCount_of c =? nBuckets)
  && Bool.eqb (IncludeOutOfRange_of c) bIncludeOutOfRange
  && (if Approximate_of c then bApproxOK else true).

End HistogramSpec.

(** A descriptor as a HistItem node. *)
Definition HistItem_node (pszMin pszMax pszBuckets pszInclude pszApprox pszCounts : string)
  : CPLXMLNode :=
  XMLNode CXT_Element "HistItem"
    [ CPLCreateXMLElementAndValue "HistMin" pszMin;
      CPLCreateXMLElementAndValue "HistMax" pszMax;
      CPLCreateXMLElementAndValue "BucketCount" pszBuckets;
      CPLCreateXMLElementAndValue "IncludeOutOfRange" pszInclude;
      CPLCreateXMLElementAndValue "Approximate" pszApprox;
      CPLCreateXMLElementAndValue "HistCounts" pszCounts ].

(** Two saved histograms for the range 0..255 and two buckets: an
    approximate one, then an exact one. *)
Definition ref_histograms : CPLXMLNode :=
  XMLNode CXT_Element "Histograms"
    [ HistItem_node "0" "255" "2" "1" "1" "10|20";
      HistItem_node "0" "255" "2" "1" "0" "11|21" ].

Section MoreNotions.

Variable E : Env.
Implicit Types (b : GDALPamRasterBand E) (p : GDALRasterBandPamInfo E).

(** The record after a call is the one before, none, or has at most one
    flag: the form in which every method keeps the invariant. *)
Definition keeps_flags b b' : Prop :=
  psPam b' = None
  \/ (exists p p', psPam b = Some p /\ psPam b' = Some p'
                   /\ nodata_flags p' = nodata_flags p)
  \/ (exists p', psPam b' = Some p' /\ (nodata_flags_true p' <= 1)%nat).

(** The node that [PamHistogramToXMLTree] builds, when it builds one. *)
Definition descriptor_of (dfMin dfMax : float) (nBuckets : Z) (panHistogram : list Z)
  (bIncludeOutOfRange bApprox : Z) : CPLXMLNode :=
  HistItem_node (Printf_16g E dfMin) (Printf_16g E dfMax) (Printf_d nBuckets)
    (Printf_d bIncludeOutOfRange) (Printf_d bApprox)
    (print_HistCounts (Z.to_nat nBuckets) 0 panHistogram).

(** [PamHistogramToXMLTree] builds a node: the bucket count is at most
    [(INT_MAX - 10) / 12] and the buffer of the counts is allocated. *)
Definition descriptor_can_be_built (nBuckets : Z) : bool :=
  negb (nBuckets >? (INT_MAX - 10) / 12)
  && VSIMalloc_ok E (size_t (22 * size_t nBuckets + 10)).

(** The saved descriptors without the first one that [SetDefaultHistogram]
    looks for: a HistItem that matches (min, max, bucket count), whose
    includeOutOfRange flag is set, approximate or not. *)
Definition kept_descriptors (saved : list CPLXMLNode) (dfMin dfMax : float)
  (nBuckets : Z) : list CPLXMLNode :=
  match find_pos (fun c => is_HistItem c
                           && candidate_matches E c dfMin dfMax nBuckets true true)
          saved with
  | Some i => remove_nth i saved
  | None => saved
  end.

(** The children of the histogram list of the band. *)
Definition saved_histograms b : list CPLXMLNode :=
  match psPam b with
  | Some p =>
      match psSavedHistograms p with
      | Some h => psChild h
      | None => []
      end
  | None => []
  end.

(** The root of the histogram list, made when there is none. *)
Definition histograms_root p : CPLXMLNode :=
  match psSavedHistograms p with
  | Some h => h
  | None => XMLNode CXT_Element "Histograms" []
  end.

End MoreNotions.

(** ** The methods seen from the record

    On a band whose record stays in place ([settled]) a mutator is a
    function on the record; these are the functions, block by block for
    [XMLInit]. The lemmas below relate them to the methods. *)

Section RecordView.

Variable E : Env.
Implicit Types (b : GDALPamRasterBand E) (p : GDALRasterBandPamInfo E).

(** What a mutator leaves alone outside the record, the dirty flag and the
    error log. *)
Definition same_band b b' : Prop :=
  eDataType b' = eDataType b /\ nBand b' = nBand b
  /\ sDescription b' = sDescription b /\ oMDMD b' = oMDMD b
  /\ bIgnoreUnimplemented b' = bIgnoreUnimplemented b.

(** The band [b'] follows [b] with the record [p']. *)
Definition steps_to b b' p' : Prop :=
  settled b' /\ psPam b' = Some p' /\ same_band b b'.

Definition record_SetNoDataValue p (x : float) : GDALRasterBandPamInfo E :=
  set_dfNoDataValue (set_bNoDataValueSet (ResetNoDataValues p) true) x.
Definition record_SetNoDataValueAsInt64 p (n : Z) : GDALRasterBandPamInfo E :=
  set_nNoDataValueInt64 (set_bNoDataValueSetAsInt64 (ResetNoDataValues p) true) n.
Definition record_SetNoDataValueAsUInt64 p (n : Z) : GDALRasterBandPamInfo E :=
  set_nNoDataValueUInt64 (set_bNoDataValueSetAsUInt64 (ResetNoDataValues p) true) n.
Definition record_SetOffset p (x : float) : GDALRasterBandPamInfo E :=
  if negb (bOffsetSet p) || negb (PrimFloat.eqb (dfOffset p) x)
  then set_bOffsetSet (set_dfOffset p x) true else p.
Definition record_SetScale p (x : float) : GDALRasterBandPamInfo E :=
  if negb (bScaleSet p) || negb (PrimFloat.eqb x (dfScale p))
  then set_bScaleSet (set_dfScale p x) true else p.
Definition record_SetUnitType p (v : option string) : GDALRasterBandPamInfo E :=
  set_pszUnitType p (stored_unit_type v).
Definition record_SetColorTable p (t : option GDALColorTable) : GDALRasterBandPamInfo E :=
  match t with
  | Some t => set_eColorInterp (set_poColorTable (set_poColorTable p None) (Some t))
                GCI_PaletteIndex
  | None => set_poColorTable p None
  end.

Definition record_XMLInit_NoDataValue (ty : GDALDataType) (psTree : CPLXMLNode) p
  : GDALRasterBandPamInfo E :=
  match CPLGetXMLValue psTree "NoDataValue" None with
  | Some pszNoDataValue =>
      match CPLGetXMLValue psTree "NoDataValue.le_hex_equiv" None with
      | Some pszLEHex =>
          let pabyBin := CPLHexToBinary pszLEHex in
          if Z.of_nat (List.length pabyBin) =? 8
          then record_SetNoDataValue p (double_of_le_bytes E pabyBin)
          else record_SetNoDataValue p (CPLAtof E pszNoDataValue)
      | None =>
          match ty with
          | GDT_Int64 => record_SetNoDataValueAsInt64 p (strtoll pszNoDataValue)
          | GDT_UInt64 => record_SetNoDataValueAsUInt64 p (strtoull pszNoDataValue)
          | _ => record_SetNoDataValue p (CPLAtof E pszNoDataValue)
          end
      end
  | None => p
  end.

(** The offset and the scale that [XMLInit] passes to the setters. *)
Definition XML_offset (psTree : CPLXMLNode) : float :=
  match CPLGetXMLValue psTree "Offset" None with
  | Some s => CPLAtof E s
  | None => 0%float
  end.
Definition XML_scale (psTree : CPLXMLNode) : float :=
  match CPLGetXMLValue psTree "Scale" None with
  | Some s => CPLAtof E s
  | None => 1%float
  end.

Definition record_XMLInit_OffsetScale (psTree : CPLXMLNode) p
  : GDALRasterBandPamInfo E :=
  match CPLGetXMLValue psTree "Offset" None, CPLGetXMLValue psTree "Scale" None with
  | None, None => p
  | _, _ => record_SetScale (record_SetOffset p (XML_offset psTree)) (XML_scale psTree)
  end.

Definition record_XMLInit_UnitType (psTree : CPLXMLNode) p : GDALRasterBandPamInfo E :=
  match CPLGetXMLValue psTree "UnitType" None with
  | Some u => record_SetUnitType p (Some u)
  | None => p
  end.

Definition record_XMLInit_ColorInterp (psTree : CPLXMLNode) p : GDALRasterBandPamInfo E :=
  match CPLGetXMLValue psTree "ColorInterp" None with
  | Some s => set_eColorInterp p (GDALGetColorInterpretationByName s)
  | None => p
  end.

Definition record_XMLInit_CategoryNames (psTree : CPLXMLNode) p
  : GDALRasterBandPamInfo E :=
  match CPLGetXMLNode psTree "CategoryNames" with
  | Some n => set_papszCategoryNames p
                (CSLDuplicate (Some (XML_to_CategoryNames (psChild n))))
  | None => p
  end.

Definition record_XMLInit_ColorTable (psTree : CPLXMLNode) p : GDALRasterBandPamInfo E :=
  match CPLGetXMLNode psTree "ColorTable" with
  | Some n => record_SetColorTable p (Some (XML_to_ColorTable (psChild n) [] 0))
  | None => p
  end.

Definition record_XMLInit_MinMax (psTree : CPLXMLNode) p : GDALRasterBandPamInfo E :=
  match CPLGetXMLValue psTree "Minimum" None, CPLGetXMLValue psTree "Maximum" None with
  | Some mn, Some mx =>
      set_dfMax (set_dfMin (set_bHaveMinMax p true) (CPLAtofM E mn)) (CPLAtofM E mx)
  | _, _ => p
  end.

Definition record_XMLInit_Stats (psTree : CPLXMLNode) p : GDALRasterBandPamInfo E :=
  match CPLGetXMLValue psTree "Mean" None,
        CPLGetXMLValue psTree "StandardDeviation" None with
  | Some mean, Some sd =>
      set_dfStdDev (set_dfMean (set_bHaveStats p true) (CPLAtofM E mean)) (CPLAtofM E sd)
  | _, _ => p
  end.

Definition record_XMLInit_Histograms (psTree : CPLXMLNode) p : GDALRasterBandPamInfo E :=
  match CPLGetXMLNode psTree "Histograms" with
  | Some h => set_psSavedHistograms p (Some h)
  | None => p
  end.

Definition record_XMLInit_RAT (psTree : CPLXMLNode) p : GDALRasterBandPamInfo E :=
  match CPLGetXMLNode psTree "GDALRasterAttributeTable" with
  | Some n => set_poDefaultRAT p (Some (RAT_XMLInit E n))
  | None => p
  end.

(** The record that [XMLInit] leaves, from the record [p] that
    [PamInitialize] found, on a band of pixel type [ty]. *)
Definition record_XMLInit (ty : GDALDataType) (psTree : CPLXMLNode) p
  : GDALRasterBandPamInfo E :=
  record_XMLInit_RAT psTree
    (record_XMLInit_Histograms psTree
       (record_XMLInit_Stats psTree
          (record_XMLInit_MinMax psTree
             (record_XMLInit_ColorTable psTree
                (record_XMLInit_CategoryNames psTree
                   (record_XMLInit_ColorInterp psTree
                      (record_XMLInit_UnitType psTree
                         (record_XMLInit_OffsetScale psTree
                            (record_XMLInit_NoDataValue ty psTree p))))))))).

End RecordView.

(** A document that holds a scale of 2.5 and no offset. *)
Definition ref_scale_only_tree : CPLXMLNode :=
  XMLNode CXT_Element "PAMRasterBand" [CPLCreateXMLElementAndValue "Scale" "2.5"].




(** ** The document of a record

    The children that [SerializeToXML] links under the root, one group per
    step of the function and in its order. *)

Section Document.

Variable E : Env.
Implicit Types (b : GDALPamRasterBand E) (p : GDALRasterBandPamInfo E).

(** A nodata of the double form is written as text alone when it is a
    whole number that its 15-digit text reads back to; its hexadecimal
    form is added otherwise. *)
Definition nodata_as_text (x : float) : bool :=
  PrimFloat.eqb x (floor E x) && PrimFloat.eqb x (CPLAtof E (Printf_14E E x)).

Definition le_hex_equiv (x : float) : string :=
  CPLBinaryToHex (firstn 8 (double_to_le_bytes E x)).

Definition NoDataValue_node (x : float) : CPLXMLNode :=
  let text := if PrimFloat.is_nan x then "nan" else Printf_14E E x in
  if nodata_as_text x then CPLCreateXMLElementAndValue "NoDataValue" text
  else
    XMLNode CXT_Element "NoDataValue"
      [XMLNode CXT_Attribute "le_hex_equiv" [XMLNode CXT_Text (le_hex_equiv x) []];
       XMLNode CXT_Text text []].

Definition doc_band b : list CPLXMLNode :=
  if nBand b >? 0
  then [XMLNode CXT_Attribute "band" [XMLNode CXT_Text (Printf_d (nBand b)) []]]
  else [].

Definition doc_Description b : list CPLXMLNode :=
  if strlen (GetDescription b) >? 0
  then [CPLCreateXMLElementAndValue "Description" (GetDescription b)]
  else [].

Definition doc_NoDataValue p : list CPLXMLNode :=
  if bNoDataValueSet p then [NoDataValue_node (dfNoDataValue p)]
  else if bNoDataValueSetAsInt64 p
  then [CPLCreateXMLElementAndValue "NoDataValue" (Printf_d (nNoDataValueInt64 p))]
  else if bNoDataValueSetAsUInt64 p
  then [CPLCreateXMLElementAndValue "NoDataValue" (Printf_u (nNoDataValueUInt64 p))]
  else [].

Definition doc_UnitType p : list CPLXMLNode :=
  match pszUnitType p with
  | Some u => [CPLCreateXMLElementAndValue "UnitType" u]
  | None => []
  end.

Definition doc_Offset p : list CPLXMLNode :=
  if negb (PrimFloat.eqb (dfOffset p) 0%float)
  then [CPLCreateXMLElementAndValue "Offset" (Printf_16g E (dfOffset p))]
  else [].

Definition doc_Scale p : list CPLXMLNode :=
  if negb (PrimFloat.eqb (dfScale p) 1%float)
  then [CPLCreateXMLElementAndValue "Scale" (Printf_16g E (dfScale p))]
  else [].

Definition doc_ColorInterp p : list CPLXMLNode :=
  if negb (GDALColorInterp_eqb (eColorInterp p) GCI_Undefined)
  then [CPLCreateXMLElementAndValue "ColorInterp"
          (GDALGetColorInterpretationName (eColorInterp p))]
  else [].

Definition doc_CategoryNames p : list CPLXMLNode :=
  match papszCategoryNames p with
  | Some names => [CategoryNames_to_XML names]
  | None => []
  end.

Definition doc_ColorTable p : list CPLXMLNode :=
  match poColorTable p with
  | Some t => [ColorTable_to_XML t]
  | None => []
  end.

Definition doc_MinMax p : list CPLXMLNode :=
  if bHaveMinMax p
  then [CPLCreateXMLElementAndValue "Minimum" (Printf_16g E (dfMin p));
        CPLCreateXMLElementAndValue "Maximum" (Printf_16g E (dfMax p))]
  else [].

Definition doc_Stats p : list CPLXMLNode :=
  if bHaveStats p
  then [CPLCreateXMLElementAndValue "Mean" (Printf_16g E (dfMean p));
        CPLCreateXMLElementAndValue "StandardDeviation" (Printf_16g E (dfStdDev p))]
  else [].

Definition doc_Histograms p : list CPLXMLNode :=
  match psSavedHistograms p with
  | Some h => [h]
  | None => []
  end.

Definition doc_RAT p : list CPLXMLNode :=
  match poDefaultRAT p with
  | Some rat =>
      match RAT_Serialize E rat with
      | Some psSerializedRAT => [psSerializedRAT]
      | None => []
      end
  | None => []
  end.

Definition doc_Metadata b : list CPLXMLNode := MDMD_Serialize E (oMDMD b).

Definition document_children b p : list CPLXMLNode :=
  doc_band b ++ doc_Description b ++ doc_NoDataValue p ++ doc_UnitType p
  ++ doc_Offset p ++ doc_Scale p ++ doc_ColorInterp p ++ doc_CategoryNames p
  ++ doc_ColorTable p ++ doc_MinMax p ++ doc_Stats p ++ doc_Histograms p
  ++ doc_RAT p ++ doc_Metadata b.

(** Every node of a list is an element with the given name. *)
Definition elements_named (name : string) (l : list CPLXMLNode) : Prop :=
  Forall (fun c => eType c = CXT_Element /\ pszValue c = name) l.

(** What the collaborators of the band give [SerializeToXML]: a histogram
    list that is an element "Histograms", an attribute table that
    serializes to an element "GDALRasterAttributeTable" from which
    [XMLInit] rebuilds it, metadata domains that serialize to elements
    "Metadata". *)
Definition collaborators_round_trip b p : Prop :=
  (forall h, psSavedHistograms p = Some h ->
             eType h = CXT_Element /\ pszValue h = "Histograms")
  /\ (forall rat, poDefaultRAT p = Some rat ->
        exists n, RAT_Serialize E rat = Some n /\ eType n = CXT_Element
                  /\ pszValue n = "GDALRasterAttributeTable"
                  /\ RAT_XMLInit E n = rat)
  /\ elements_named "Metadata" (MDMD_Serialize E (oMDMD b)).

Definition is_byte (z : Z) : Prop := 0 <= z <= 255.
Definition is_short (z : Z) : Prop := - 2 ^ 15 <= z < 2 ^ 15.

(** The eight bytes of a double are read back to it. *)
Definition bytes_round_trip (x : float) : Prop :=
  List.length (double_to_le_bytes E x) = 8%nat
  /\ Forall is_byte (double_to_le_bytes E x)
  /\ double_of_le_bytes E (double_to_le_bytes E x) = x.

(** The nodata of a record comes back from its text: a nodata of the
    double form has its hexadecimal form read back, or is written as text
    alone on a band that is not of a 64-bit integer type; a nodata of an
    integer form is on a band of that type, within the range of the type. *)
Definition nodata_round_trip (ty : GDALDataType) p : Prop :=
  if bNoDataValueSet p then
    if nodata_as_text (dfNoDataValue p)
    then ty <> GDT_Int64 /\ ty <> GDT_UInt64
    else bytes_round_trip (dfNoDataValue p)
  else if bNoDataValueSetAsInt64 p then
    ty = GDT_Int64 /\ LLONG_MIN <= nNoDataValueInt64 p <= LLONG_MAX
  else if bNoDataValueSetAsUInt64 p then
    ty = GDT_UInt64 /\ 0 <= nNoDataValueUInt64 p <= ULLONG_MAX
  else True.

(** The 16-digit text of the numbers that are written reads back to them,
    through [CPLAtof] for the offset and the scale and through [CPLAtofM]
    for the statistics. *)
Definition numbers_round_trip p : Prop :=
  (PrimFloat.eqb (dfOffset p) 0%float = false ->
   CPLAtof E (Printf_16g E (dfOffset p)) = dfOffset p)
  /\ (PrimFloat.eqb (dfScale p) 1%float = false ->
      CPLAtof E (Printf_16g E (dfScale p)) = dfScale p)
  /\ (bHaveMinMax p = true ->
      CPLAtofM E (Printf_16g E (dfMin p)) = dfMin p
      /\ CPLAtofM E (Printf_16g E (dfMax p)) = dfMax p)
  /\ (bHaveStats p = true ->
      CPLAtofM E (Printf_16g E (dfMean p)) = dfMean p
      /\ CPLAtofM E (Printf_16g E (dfStdDev p)) = dfStdDev p).

(** The strings and the palette of a record as the setters leave them: no
    empty unit type, no empty list of category names, palette entries that
    are [short]. *)
Definition values_as_stored p : Prop :=
  pszUnitType p <> Some ""
  /\ papszCategoryNames p <> Some []
  /\ (forall t, poColorTable p = Some t ->
        Forall (fun e => is_short (c1 e) /\ is_short (c2 e)
                         /\ is_short (c3 e) /\ is_short (c4 e)) t).

End Document.

(** A band with a description and a record in which most fields are set,
    and the document that [SerializeToXML] gives for it. *)
Definition ref_full_record : GDALRasterBandPamInfo ref_env :=
  @mkPamInfo ref_env true true false false 0.5%float
    GDAL_PAM_DEFAULT_NODATA_VALUE_INT64 GDAL_PAM_DEFAULT_NODATA_VALUE_UINT64
    (Some [mkColorEntry 255 0 0 255; mkColorEntry 0 128 0 255]) GCI_PaletteIndex
    (Some "m") (Some ["water"; ""; "land"])
    2.5%float 1%float true 0%float 255%float
    false 0%float 0%float (Some ref_histograms) None true true.

Definition ref_full_band : GDALPamRasterBand ref_env :=
  @mkBand ref_env (Some ref_dataset) 1 GDT_Byte "elevation" false
    ([] : list CPLXMLNode) (Some ref_full_record) [].

Definition ref_full_tree : CPLXMLNode :=
  XMLNode CXT_Element "PAMRasterBand"
    [ XMLNode CXT_Attribute "band" [XMLNode CXT_Text "1" []];
      XMLNode CXT_Element "Description" [XMLNode CXT_Text "elevation" []];
      XMLNode CXT_Element "NoDataValue"
        [ XMLNode CXT_Attribute "le_hex_equiv" [XMLNode CXT_Text "000000000000E03F" []];
          XMLNode CXT_Text "5.00000000000000E-01" [] ];
      XMLNode CXT_Element "UnitType" [XMLNode CXT_Text "m" []];
      XMLNode CXT_Element "Offset" [XMLNode CXT_Text "2.5" []];
      XMLNode CXT_Element "ColorInterp" [XMLNode CXT_Text "Palette" []];
      XMLNode CXT_Element "CategoryNames"
        [ XMLNode CXT_Element "Category" [XMLNode CXT_Text "water" []];
          XMLNode CXT_Element "Category" [XMLNode CXT_Text "" []];
          XMLNode CXT_Element "Category" [XMLNode CXT_Text "land" []] ];
      XMLNode CXT_Element "ColorTable"
        [ XMLNode CXT_Element "Entry"
            [ XMLNode CXT_Attribute "c1" [XMLNode CXT_Text "255" []];
              XMLNode CXT_Attribute "c2" [XMLNode CXT_Text "0" []];
              XMLNode CXT_Attribute "c3" [XMLNode CXT_Text "0" []];
              XMLNode CXT_Attribute "c4" [XMLNode CXT_Text "255" []] ];
          XMLNode CXT_Element "Entry"
            [ XMLNode CXT_Attribute "c1" [XMLNode CXT_Text "0" []];
              XMLNode CXT_Attribute "c2" [XMLNode CXT_Text "128" []];
              XMLNode CXT_Attribute "c3" [XMLNode CXT_Text "0" []];
              XMLNode CXT_Attribute "c4" [XMLNode CXT_Text "255" []] ] ];
      XMLNode CXT_Element "Minimum" [XMLNode CXT_Text "0" []];
      XMLNode CXT_Element "Maximum" [XMLNode CXT_Text "255" []];
      ref_histograms ].

(** Bands reached through the setters: a palette with the color
    interpretation "gray" set after it; an offset set to its default next
    to a unit type; a nodata of the 64-bit signed form on a band of type
    Byte. *)
Definition ref_gray_palette_band : GDALPamRasterBand ref_env :=
  fst (SetColorInterpretation
         (fst (SetColorTable ref_band (Some [mkColorEntry 255 0 0 255])))
         GCI_GrayIndex).

Definition ref_zero_offset_band : GDALPamRasterBand ref_env :=
  fst (SetUnitType (fst (SetOffset ref_band 0%float)) (Some "m")).

Definition ref_int64_nodata_band : GDALPamRasterBand ref_env :=
  fst (SetNoDataValueAsInt64 (SetDescription ref_band "x") 7).

(** [XMLInit] on a new band of the reference dataset, applied to the
    document of a band: the record it leaves, if any. *)
Definition reloaded (b : GDALPamRasterBand ref_env)
  : option (GDALRasterBandPamInfo ref_env) :=
  match SerializeToXML b with
  | Some psTree =>
      match XMLInit ref_band psTree with
      | Some (b', _) => psPam b'
      | None => None
      end
  | None => None
  end.

(** ** The default histogram, the metadata setters and CloneInfo *)

Section OtherMethods.

Variable E : Env.
Implicit Types (b : GDALPamRasterBand E) (p : GDALRasterBandPamInfo E).

(** What the band calls on [GDALRasterBand] and on its collaborators
    besides the environment: the default histogram of [GDALRasterBand], the
    metadata of the default domain and its setters, and the sizes of an
    attribute table. *)
Variable GDALRasterBand_GetDefaultHistogram :
  Z -> CPLErr * PamParseHistogram_result.
Variable MDMD_GetMetadata : GDALMultiDomainMetadata E -> option (list string).
Variable MDMD_SetMetadata :
  GDALMultiDomainMetadata E -> option (list string) -> option string ->
  GDALMultiDomainMetadata E * CPLErr.
Variable MDMD_SetMetadataItem :
  GDALMultiDomainMetadata E -> string -> option string -> option string ->
  GDALMultiDomainMetadata E * CPLErr.
Variable RAT_GetRowCount : GDALRasterAttributeTable E -> Z.
Variable RAT_GetColumnCount : GDALRasterAttributeTable E -> Z.

(** [GetDefaultHistogram]: the first child of the list that is an element
    "HistItem" is decoded, and a failed decoding is the result; without
    such a child the answer is the one of [GDALRasterBand]. [bWantHistogram]
    tells whether [ppanHistogram] is not null; the values behind the
    pointers are those of the result. *)
Definition GetDefaultHistogram b (dfMin0 dfMax0 : float) (nBuckets0 : Z)
  (bWantHistogram : bool) (bForce : Z)
  : GDALPamRasterBand E * CPLErr * PamParseHistogram_result :=
  let native :=
    let '(eErr, r) := GDALRasterBand_GetDefaultHistogram bForce in (b, eErr, r) in
  match psPam b with
  | Some p =>
      match psSavedHistograms p with
      | Some h =>
          match find (fun psXMLHist =>
                        negb (negb (is_type CXT_Element psXMLHist)
                              || negb (EQUAL (pszValue psXMLHist) "HistItem")))
                  (psChild h) with
          | Some psXMLHist =>
              let r := PamParseHistogram E (Some psXMLHist) dfMin0 dfMax0 nBuckets0
                         bWantHistogram in
              (set_errors b (errors b ++ parse_errors r),
               if parse_ok r then CE_None else CE_Failure, r)
          | None => native
          end
      | None => native
      end
  | None => native
  end.

Definition SetMetadata b (papszMetadata : option (list string))
  (pszDomain : option string) : GDALPamRasterBand E * CPLErr :=
  let b := PamInitialize b in
  let b := MarkPamDirty b in
  let '(md, eErr) := MDMD_SetMetadata (oMDMD b) papszMetadata pszDomain in
  (set_oMDMD b md, eErr).

Definition SetMetadataItem b (pszName : string) (pszValue pszDomain : option string)
  : GDALPamRasterBand E * CPLErr :=
  let b := PamInitialize b in
  let b := MarkPamDirty b in
  let '(md, eErr) := MDMD_SetMetadataItem (oMDMD b) pszName pszValue pszDomain in
  (set_oMDMD b md, eErr).

(** The source band of [CloneInfo], a [GDALRasterBand] of any class, as
    the function sees it: what each of its getters returns, a value with
    what [*pbSuccess] receives where the getter has this parameter. *)
Record GDALRasterBand_view : Type := mkView {
  src_GetMetadata : option (list string);
  src_GetDescription : string;
  src_GetRasterDataType : GDALDataType;
  src_GetNoDataValueAsInt64 : Z * bool;
  src_GetNoDataValueAsUInt64 : Z * bool;
  src_GetNoDataValue : float * bool;
  src_GetCategoryNames : option (list string);
  src_GetOffset : float * bool;
  src_GetScale : float * bool;
  src_GetUnitType : string;
  src_GetColorInterpretation : GDALColorInterp;
  src_GetColorTable : option GDALColorTable;
  src_GetDefaultRAT : option (GDALRasterAttributeTable E)
}.

(** The tests [nCloneFlags & GCIF_...] of [CloneInfo]: the masks are
    constants of gdal_pam.h, which is not part of the sources, and the
    function only tests them. *)
Record CloneFlags : Set := mkCloneFlags {
  GCIF_ONLY_IF_MISSING : bool;
  GCIF_BAND_METADATA : bool;
  GCIF_BAND_DESCRIPTION : bool;
  GCIF_NODATA : bool;
  GCIF_CATEGORYNAMES : bool;
  GCIF_SCALEOFFSET : bool;
  GCIF_UNITTYPE : bool;
  GCIF_COLORINTERP : bool;
  GCIF_COLORTABLE : bool;
  GCIF_RAT : bool
}.

Definition CSLCount (l : option (list string)) : Z :=
  match l with
  | Some l => Z.of_nat (List.length l)
  | None => 0
  end.

(** The blocks of [CloneInfo], in the order of the source; the getters
    called on the band itself are those of this class. *)
Definition CloneInfo_Metadata b (poSrcBand : GDALRasterBand_view)
  (bOnlyIfMissing : bool) : GDALPamRasterBand E :=
  match src_GetMetadata poSrcBand with
  | Some _ =>
      if negb bOnlyIfMissing
         || negb (CSLCount (MDMD_GetMetadata (oMDMD b))
                  =? CSLCount (src_GetMetadata poSrcBand))
      then fst (SetMetadata b (src_GetMetadata poSrcBand) (Some ""))
      else b
  | None => b
  end.

Definition CloneInfo_Description b (poSrcBand : GDALRasterBand_view)
  (bOnlyIfMissing : bool) : GDALPamRasterBand E :=
  if strlen (src_GetDescription poSrcBand) >? 0 then
    if negb bOnlyIfMissing || (strlen (GetDescription b) =? 0)
    then SetDescription b (src_GetDescription poSrcBand)
    else b
  else b.

Definition CloneInfo_NoData b (poSrcBand : GDALRasterBand_view)
  (bOnlyIfMissing : bool) : GDALPamRasterBand E :=
  match src_GetRasterDataType poSrcBand with
  | GDT_Int64 =>
      let '(nNoData, bSuccess) := src_GetNoDataValueAsInt64 poSrcBand in
      if bSuccess then
        if negb bOnlyIfMissing then fst (SetNoDataValueAsInt64 b nNoData)
        else
          let '(b, nExistingNoData, bSuccess) := GetNoDataValueAsInt64 b in
          if negb bSuccess || negb (nExistingNoData =? nNoData)
          then fst (SetNoDataValueAsInt64 b nNoData)
          else b
      else b
  | GDT_UInt64 =>
      let '(nNoData, bSuccess) := src_GetNoDataValueAsUInt64 poSrcBand in
      if bSuccess then
        if negb bOnlyIfMissing then fst (SetNoDataValueAsUInt64 b nNoData)
        else
          let '(b, nExistingNoData, bSuccess) := GetNoDataValueAsUInt64 b in
          if negb bSuccess || negb (nExistingNoData =? nNoData)
          then fst (SetNoDataValueAsUInt64 b nNoData)
          else b
      else b
  | _ =>
      let '(dfNoData, bSuccess) := src_GetNoDataValue poSrcBand in
      if bSuccess then
        if negb bOnlyIfMissing then fst (SetNoDataValue b dfNoData)
        else
          let '(dfExistingNoData, bSuccess) := GetNoDataValue b in
          if negb bSuccess
             || negb ((PrimFloat.is_nan dfExistingNoData && PrimFloat.is_nan dfNoData)
                      || PrimFloat.eqb dfExistingNoData dfNoData)
          then fst (SetNoDataValue b dfNoData)
          else b
      else b
  end.

Definition CloneInfo_CategoryNames b (poSrcBand : GDALRasterBand_view)
  (bOnlyIfMissing : bool) : GDALPamRasterBand E :=
  match src_GetCategoryNames poSrcBand with
  | Some names =>
      if negb bOnlyIfMissing
         || match GetCategoryNames b with None => true | Some _ => false end
      then fst (SetCategoryNames b (Some names))
      else b
  | None => b
  end.

Definition CloneInfo_ScaleOffset b (poSrcBand : GDALRasterBand_view)
  (bOnlyIfMissing : bool) : GDALPamRasterBand E :=
  let '(dfOffset, bSuccess) := src_GetOffset poSrcBand in
  let b :=
    if bSuccess then
      if negb bOnlyIfMissing || negb (PrimFloat.eqb (fst (GetOffset b)) dfOffset)
      then fst (SetOffset b dfOffset)
      else b
    else b in
  let '(dfScale, bSuccess) := src_GetScale poSrcBand in
  if bSuccess then
    if negb bOnlyIfMissing || negb (PrimFloat.eqb (fst (GetScale b)) dfScale)
    then fst (SetScale b dfScale)
    else b
  else b.

Definition CloneInfo_UnitType b (poSrcBand : GDALRasterBand_view)
  (bOnlyIfMissing : bool) : GDALPamRasterBand E :=
  if strlen (src_GetUnitType poSrcBand) >? 0 then
    if negb bOnlyIfMissing || negb (EQUAL (GetUnitType b) (src_GetUnitType poSrcBand))
    then fst (SetUnitType b (Some (src_GetUnitType poSrcBand)))
    else b
  else b.

Definition CloneInfo_ColorInterp b (poSrcBand : GDALRasterBand_view)
  (bOnlyIfMissing : bool) : GDALPamRasterBand E :=
  if negb (GDALColorInterp_eqb (src_GetColorInterpretation poSrcBand) GCI_Undefined) then
    if negb bOnlyIfMissing
       || negb (GDALColorInterp_eqb (src_GetColorInterpretation poSrcBand)
                  (GetColorInterpretation b))
    then fst (SetColorInterpretation b (src_GetColorInterpretation poSrcBand))
    else b
  else b.

Definition CloneInfo_ColorTable b (poSrcBand : GDALRasterBand_view)
  (bOnlyIfMissing : bool) : GDALPamRasterBand E :=
  match src_GetColorTable poSrcBand with
  | Some t =>
      if negb bOnlyIfMissing
         || match GetColorTable b with None => true | Some _ => false end
      then fst (SetColorTable b (Some t))
      else b
  | None => b
  end.

Definition CloneInfo_RAT b (poSrcBand : GDALRasterBand_view)
  (bOnlyIfMissing : bool) : GDALPamRasterBand E :=
  match src_GetDefaultRAT poSrcBand with
  | Some poRAT =>
      if negb (RAT_GetRowCount poRAT =? 0) || negb (RAT_GetColumnCount poRAT =? 0) then
        if negb bOnlyIfMissing then fst (SetDefaultRAT b (Some poRAT))
        else
          let '(b, poExistingRAT) := GetDefaultRAT b in
          match poExistingRAT with
          | None => fst (SetDefaultRAT b (Some poRAT))
          | Some _ => b
          end
      else b
  | None => b
  end.

(** [CloneInfo]; [bIgnoreUnimplemented] is the flag GMO_IGNORE_UNIMPLEMENTED
    of the band, the one flag of [GetMOFlags()] that the methods of the
    band look at. *)
Definition CloneInfo b (poSrcBand : GDALRasterBand_view) (nCloneFlags : CloneFlags)
  : GDALPamRasterBand E * CPLErr :=
  let bOnlyIfMissing := GCIF_ONLY_IF_MISSING nCloneFlags in
  let nSavedMOFlags := bIgnoreUnimplemented b in
  let b := PamInitialize b in
  let b := set_bIgnoreUnimplemented b true in
  let b := if GCIF_BAND_METADATA nCloneFlags
           then CloneInfo_Metadata b poSrcBand bOnlyIfMissing else b in
  let b := if GCIF_BAND_DESCRIPTION nCloneFlags
           then CloneInfo_Description b poSrcBand bOnlyIfMissing else b in
  let b := if GCIF_NODATA nCloneFlags
           then CloneInfo_NoData b poSrcBand bOnlyIfMissing else b in
  let b := if GCIF_CATEGORYNAMES nCloneFlags
           then CloneInfo_CategoryNames b poSrcBand bOnlyIfMissing else b in
  let b := if GCIF_SCALEOFFSET nCloneFlags
           then CloneInfo_ScaleOffset b poSrcBand bOnlyIfMissing else b in
  let b := if GCIF_UNITTYPE nCloneFlags
           then CloneInfo_UnitType b poSrcBand bOnlyIfMissing else b in
  let b := if GCIF_COLORINTERP nCloneFlags
           then CloneInfo_ColorInterp b poSrcBand bOnlyIfMissing else b in
  let b := if GCIF_COLORTABLE nCloneFlags
           then CloneInfo_ColorTable b poSrcBand bOnlyIfMissing else b in
  let b := if GCIF_RAT nCloneFlags
           then CloneInfo_RAT b poSrcBand bOnlyIfMissing else b in
  (set_bIgnoreUnimplemented b nSavedMOFlags, CE_None).

End OtherMethods.

(** A band of the reference dataset with a record that has no parent, as
    [PamInitializeNoParent] makes it, holding a nodata and a unit type. *)
Definition ref_parentless_band : GDALPamRasterBand ref_env :=
  set_psPam ref_band
    (Some (set_pszUnitType
             (set_dfNoDataValue
                (set_bNoDataValueSet (new_GDALRasterBandPamInfo ref_env) true) 5%float)
             (Some "m"))).

(** A band of type Int64 of the reference dataset, and a band whose
    dataset has PAM disabled. *)
Definition ref_int64_band : GDALPamRasterBand ref_env := set_eDataType ref_band GDT_Int64.

Definition ref_disabled_band : GDALPamRasterBand ref_env :=
  set_poDS ref_band (Some (mkDataset true true false true false)).

(** ** CloneInfo on the record

    What each block of [CloneInfo] does to the record of a band of pixel
    type [ty] that has one, and the band itself seen as a source band. *)

Section CloneRecord.

Variable E : Env.
Variable MDMD_GetMetadata : GDALMultiDomainMetadata E -> option (list string).
Variable RAT_GetRowCount : GDALRasterAttributeTable E -> Z.
Variable RAT_GetColumnCount : GDALRasterAttributeTable E -> Z.
Implicit Types (b : GDALPamRasterBand E) (p : GDALRasterBandPamInfo E).

(** What [GetNoDataValue] answers from a record. *)
Definition record_GetNoDataValue p : float * bool :=
  if bNoDataValueSetAsInt64 p then
    (GDALGetNoDataValueCastToDouble (nNoDataValueInt64 p), true)
  else if bNoDataValueSetAsUInt64 p then
    (GDALGetNoDataValueCastToDouble (nNoDataValueUInt64 p), true)
  else (dfNoDataValue p, bNoDataValueSet p).

Definition record_CloneInfo_NoData (ty : GDALDataType)
  (poSrcBand : GDALRasterBand_view E) (bOnlyIfMissing : bool) p
  : GDALRasterBandPamInfo E :=
  match src_GetRasterDataType poSrcBand with
  | GDT_Int64 =>
      let '(nNoData, bSuccess) := src_GetNoDataValueAsInt64 poSrcBand in
      if bSuccess then
        if negb bOnlyIfMissing
           || match ty with
              | GDT_Int64 =>
                  negb (bNoDataValueSetAsInt64 p) || negb (nNoDataValueInt64 p =? nNoData)
              | _ => true
              end
        then record_SetNoDataValueAsInt64 p nNoData
        else p
      else p
  | GDT_UInt64 =>
      let '(nNoData, bSuccess) := src_GetNoDataValueAsUInt64 poSrcBand in
      if bSuccess then
        if negb bOnlyIfMissing
           || match ty with
              | GDT_UInt64 =>
                  negb (bNoDataValueSetAsUInt64 p) || negb (nNoDataValueUInt64 p =? nNoData)
              | _ => true
              end
        then record_SetNoDataValueAsUInt64 p nNoData
        else p
      else p
  | _ =>
      let '(dfNoData, bSuccess) := src_GetNoDataValue poSrcBand in
      if bSuccess then
        if negb bOnlyIfMissing
           || negb (snd (record_GetNoDataValue p))
           || negb ((PrimFloat.is_nan (fst (record_GetNoDataValue p))
                     && PrimFloat.is_nan dfNoData)
                    || PrimFloat.eqb (fst (record_GetNoDataValue p)) dfNoData)
        then record_SetNoDataValue p dfNoData
        else p
      else p
  end.

Definition record_CloneInfo_CategoryNames (poSrcBand : GDALRasterBand_view E)
  (bOnlyIfMissing : bool) p : GDALRasterBandPamInfo E :=
  match src_GetCategoryNames poSrcBand with
  | Some names =>
      if negb bOnlyIfMissing
         || match papszCategoryNames p with None => true | Some _ => false end
      then set_papszCategoryNames p (CSLDuplicate (Some names))
      else p
  | None => p
  end.

Definition record_CloneInfo_ScaleOffset (poSrcBand : GDALRasterBand_view E)
  (bOnlyIfMissing : bool) p : GDALRasterBandPamInfo E :=
  let p :=
    if snd (src_GetOffset poSrcBand) then
      if negb bOnlyIfMissing
         || negb (PrimFloat.eqb (dfOffset p) (fst (src_GetOffset poSrcBand)))
      then record_SetOffset p (fst (src_GetOffset poSrcBand))
      else p
    else p in
  if snd (src_GetScale poSrcBand) then
    if negb bOnlyIfMissing
       || negb (PrimFloat.eqb (dfScale p) (fst (src_GetScale poSrcBand)))
    then record_SetScale p (fst (src_GetScale poSrcBand))
    else p
  else p.

Definition record_CloneInfo_UnitType (poSrcBand : GDALRasterBand_view E)
  (bOnlyIfMissing : bool) p : GDALRasterBandPamInfo E :=
  if strlen (src_GetUnitType poSrcBand) >? 0 then
    if negb bOnlyIfMissing
       || negb (EQUAL (match pszUnitType p with None => "" | Some u => u end)
                  (src_GetUnitType poSrcBand))
    then record_SetUnitType p (Some (src_GetUnitType poSrcBand))
    else p
  else p.

Definition record_CloneInfo_ColorInterp (poSrcBand : GDALRasterBand_view E)
  (bOnlyIfMissing : bool) p : GDALRasterBandPamInfo E :=
  if negb (GDALColorInterp_eqb (src_GetColorInterpretation poSrcBand) GCI_Undefined) then
    if negb bOnlyIfMissing
       || negb (GDALColorInterp_eqb (src_GetColorInterpretation poSrcBand)
                  (eColorInterp p))
    then set_eColorInterp p (src_GetColorInterpretation poSrcBand)
    else p
  else p.

Definition record_CloneInfo_ColorTable (poSrcBand : GDALRasterBand_view E)
  (bOnlyIfMissing : bool) p : GDALRasterBandPamInfo E :=
  match src_GetColorTable poSrcBand with
  | Some t =>
      if negb bOnlyIfMissing
         || match poColorTable p with None => true | Some _ => false end
      then record_SetColorTable p (Some t)
      else p
  | None => p
  end.

Definition record_CloneInfo_RAT (poSrcBand : GDALRasterBand_view E)
  (bOnlyIfMissing : bool) p : GDALRasterBandPamInfo E :=
  match src_GetDefaultRAT poSrcBand with
  | Some poRAT =>
      if negb (RAT_GetRowCount poRAT =? 0) || negb (RAT_GetColumnCount poRAT =? 0) then
        if negb bOnlyIfMissing
           || match poDefaultRAT p with None => true | Some _ => false end
        then set_poDefaultRAT p (Some poRAT)
        else p
      else p
  | None => p
  end.

(** The record that [CloneInfo] leaves, from the record [p] that
    [PamInitialize] found, on a band of pixel type [ty]. *)
Definition record_CloneInfo (ty : GDALDataType) (poSrcBand : GDALRasterBand_view E)
  (nCloneFlags : CloneFlags) p : GDALRasterBandPamInfo E :=
  let bOnlyIfMissing := GCIF_ONLY_IF_MISSING nCloneFlags in
  let p := if GCIF_NODATA nCloneFlags
           then record_CloneInfo_NoData ty poSrcBand bOnlyIfMissing p else p in
  let p := if GCIF_CATEGORYNAMES nCloneFlags
           then record_CloneInfo_CategoryNames poSrcBand bOnlyIfMissing p else p in
  let p := if GCIF_SCALEOFFSET nCloneFlags
           then record_CloneInfo_ScaleOffset poSrcBand bOnlyIfMissing p else p in
  let p := if GCIF_UNITTYPE nCloneFlags
           then record_CloneInfo_UnitType poSrcBand bOnlyIfMissing p else p in
  let p := if GCIF_COLORINTERP nCloneFlags
           then record_CloneInfo_ColorInterp poSrcBand bOnlyIfMissing p else p in
  let p := if GCIF_COLORTABLE nCloneFlags
           then record_CloneInfo_ColorTable poSrcBand bOnlyIfMissing p else p in
  if GCIF_RAT nCloneFlags
  then record_CloneInfo_RAT poSrcBand bOnlyIfMissing p else p.

(** The description that [CloneInfo] leaves, from the description [d]. *)
Definition description_CloneInfo (poSrcBand : GDALRasterBand_view E)
  (nCloneFlags : CloneFlags) (d : string) : string :=
  if GCIF_BAND_DESCRIPTION nCloneFlags
     && (strlen (src_GetDescription poSrcBand) >? 0)
     && (negb (GCIF_ONLY_IF_MISSING nCloneFlags) || (strlen d =? 0))
  then src_GetDescription poSrcBand
  else d.

(** A band of this class as a source band: what its getters return. *)
Definition view_of b : GDALRasterBand_view E :=
  mkView E (MDMD_GetMetadata (oMDMD b)) (GetDescription b) (eDataType b)
    (snd (fst (GetNoDataValueAsInt64 b)), snd (GetNoDataValueAsInt64 b))
    (snd (fst (GetNoDataValueAsUInt64 b)), snd (GetNoDataValueAsUInt64 b))
    (GetNoDataValue b) (GetCategoryNames b) (GetOffset b) (GetScale b)
    (GetUnitType b) (GetColorInterpretation b) (GetColorTable b)
    (snd (GetDefaultRAT b)).

(** Every test [nCloneFlags & GCIF_...] holds, [GCIF_ONLY_IF_MISSING]
    included. *)
Definition all_only_if_missing : CloneFlags :=
  mkCloneFlags true true true true true true true true true true.

End CloneRecord.

(** A source band with the unit type "ft" and nothing else, and the flags
    that select the unit type, with and without "only if missing". *)
Definition ref_donor_ft : GDALRasterBand_view ref_env :=
  mkView ref_env None "" GDT_Byte (0, false) (0, false) (0%float, false) None
    (0%float, false) (1%float, false) "ft" GCI_Undefined None None.

Definition ref_unit_only (bOnlyIfMissing : bool) : CloneFlags :=
  mkCloneFlags bOnlyIfMissing false false false false false true false false false.

Section CloneNotions.

Variable E : Env.
Variable MDMD_GetMetadata : GDALMultiDomainMetadata E -> option (list string).
Variable MDMD_SetMetadata :
  GDALMultiDomainMetadata E -> option (list string) -> option string ->
  GDALMultiDomainMetadata E * CPLErr.
Implicit Types (b : GDALPamRasterBand E) (p : GDALRasterBandPamInfo E).

(** The band [b'] follows [b] with the record [p'], the description [d']
    and the metadata [m']; its dirty flag and its error log may differ. *)
Definition clone_step b b' p' (d' : string) (m' : GDALMultiDomainMetadata E) : Prop :=
  settled b' /\ psPam b' = Some p' /\ eDataType b' = eDataType b
  /\ sDescription b' = d' /\ oMDMD b' = m'.

(** The metadata that [CloneInfo] leaves, from the metadata [m]. *)
Definition metadata_CloneInfo (poSrcBand : GDALRasterBand_view E)
  (nCloneFlags : CloneFlags) (m : GDALMultiDomainMetadata E)
  : GDALMultiDomainMetadata E :=
  match src_GetMetadata poSrcBand with
  | Some _ =>
      if GCIF_BAND_METADATA nCloneFlags
         && (negb (GCIF_ONLY_IF_MISSING nCloneFlags)
             || negb (CSLCount (MDMD_GetMetadata m)
                      =? CSLCount (src_GetMetadata poSrcBand)))
      then fst (MDMD_SetMetadata m (src_GetMetadata poSrcBand) (Some ""))
      else m
  | None => m
  end.

(** Two doubles that [==] holds equal, or two NaN. *)
Definition same_double (x y : float) : bool :=
  (PrimFloat.is_nan x && PrimFloat.is_nan y) || PrimFloat.eqb x y.

End CloneNotions.

Section CloneNotionsBand.

Variable E : Env.

(** The dataset of the band, when it carries the flag GMO_PAM_CLASS, is a
    [GDALPamDataset]: the case [PamInitialize] calls a programming error
    does not arise. *)
Definition attached (b : GDALPamRasterBand E) : Prop :=
  match poDS b with
  | Some ds => ds_GMO_PAM_CLASS ds = true -> ds_is_GDALPamDataset ds = true
  | None => True
  end.

End CloneNotionsBand.

(** Collaborators of the reference environment for [CloneInfo]: the
    metadata of the default domain are the values of the nodes, a table
    counts its children as rows and as columns. *)
Definition ref_MDMD_GetMetadata (m : list CPLXMLNode) : option (list string) :=
  match m with
  | [] => None
  | _ => Some (map pszValue m)
  end.

Definition ref_MDMD_SetMetadata (m : list CPLXMLNode) (l : option (list string))
  (d : option string) : list CPLXMLNode * CPLErr :=
  (map (fun s => XMLNode CXT_Text s []) (match l with Some l => l | None => [] end),
   CE_None).

Definition ref_RAT_count (r : CPLXMLNode) : Z := Z.of_nat (List.length (psChild r)).

Definition ref_CloneInfo (b : GDALPamRasterBand ref_env)
  (poSrcBand : GDALRasterBand_view ref_env) (nCloneFlags : CloneFlags)
  : GDALPamRasterBand ref_env :=
  fst (@CloneInfo ref_env ref_MDMD_GetMetadata ref_MDMD_SetMetadata ref_RAT_count
         ref_RAT_count b poSrcBand nCloneFlags).

(** A source band with a description, two metadata items, category names,
    a palette of one entry, a nodata of 7, an offset of 2 and a table. *)
Definition ref_donor_full : GDALRasterBand_view ref_env :=
  mkView ref_env (Some ["A=1"; "B=2"]) "donor" GDT_Byte (0, false) (0, false)
    (7%float, true) (Some ["sea"; "land"]) (2%float, true) (1%float, false) "ft"
    GCI_GrayIndex (Some [mkColorEntry 1 2 3 255])
    (Some (XMLNode CXT_Element "GDALRasterAttributeTable"
             [XMLNode CXT_Element "Row" []])).

(** Every test [nCloneFlags & GCIF_...] holds but the one of
    [GCIF_ONLY_IF_MISSING]. *)
Definition all_overwrite : CloneFlags :=
  mkCloneFlags false true true true true true true true true true.

Section CloneReading.

Variable E : Env.
Variable RAT_GetRowCount : GDALRasterAttributeTable E -> Z.
Variable RAT_GetColumnCount : GDALRasterAttributeTable E -> Z.

(** A block of [CloneInfo] under its test of [nCloneFlags]. *)
Definition when (A : Type) (f : bool) (g : A -> A) (x : A) : A :=
  if f then g x else x.

(** [ptr == nullptr]. *)
Definition is_missing (A : Type) (o : option A) : bool :=
  match o with None => true | Some _ => false end.

(** [record_CloneInfo] as the chain of its blocks. *)
Definition record_CloneInfo_chain (ty : GDALDataType) (src : GDALRasterBand_view E)
  (flags : CloneFlags) (p : GDALRasterBandPamInfo E) : GDALRasterBandPamInfo E :=
  let only := GCIF_ONLY_IF_MISSING flags in
  when (GCIF_RAT flags) (record_CloneInfo_RAT RAT_GetRowCount RAT_GetColumnCount src only)
    (when (GCIF_COLORTABLE flags) (record_CloneInfo_ColorTable src only)
       (when (GCIF_COLORINTERP flags) (record_CloneInfo_ColorInterp src only)
          (when (GCIF_UNITTYPE flags) (record_CloneInfo_UnitType src only)
             (when (GCIF_SCALEOFFSET flags) (record_CloneInfo_ScaleOffset src only)
                (when (GCIF_CATEGORYNAMES flags) (record_CloneInfo_CategoryNames src only)
                   (when (GCIF_NODATA flags) (record_CloneInfo_NoData ty src only)
                      p)))))).

End CloneReading.



(** * Properties *)

(** ** Lazy initialization *)

Section InitLemmas.

Variable E : Env.
Implicit Types (b : GDALPamRasterBand E) (p : GDALRasterBandPamInfo E).

Lemma psPam_MarkPamDirty b : psPam (MarkPamDirty b) = psPam b.
Proof.
  unfold MarkPamDirty. destruct (psPam b) as [p|] eqn:Hp; auto.
  destruct (poParentDS p); auto. destruct (poDS b); auto.
Qed.

Lemma psPam_native_setter b m :
  psPam (fst (GDALRasterBand_native_setter b m)) = psPam b.
Proof.
  unfold GDALRasterBand_native_setter. simpl.
  destruct (bIgnoreUnimplemented b); reflexivity.
Qed.

(** [PamInitialize] keeps the record, frees it, or makes a new linked one. *)
Lemma PamInitialize_psPam b :
  psPam (PamInitialize b) = psPam b
  \/ psPam (PamInitialize b) = None
  \/ psPam (PamInitialize b) = Some (set_poParentDS (new_GDALRasterBandPamInfo E) true).
Proof.
  unfold PamInitialize.
  destruct (match psPam b with Some p => poParentDS p | None => false end); auto.
  destruct (poDS b) as [ds|]; auto.
  destruct (ds_GMO_PAM_CLASS ds); simpl; auto.
  destruct (ds_is_GDALPamDataset ds); simpl; auto.
  destruct (ds_psPam (GDALPamDataset_PamInitialize ds)); simpl; auto.
  destruct (new_PamInfo_ok E); simpl; auto.
Qed.

(** A record that is there after [PamInitialize] stays there. *)
Lemma PamInitialize_settled b :
  psPam (PamInitialize b) <> None -> settled (PamInitialize b).
Proof.
  unfold PamInitialize, settled.
  destruct (psPam b) as [p|] eqn:Hp.
  - destruct (poParentDS p) eqn:Hl.
    + rewrite Hp. auto.
    + destruct (poDS b) as [ds|] eqn:Hds.
      * destruct (ds_GMO_PAM_CLASS ds) eqn:H1; simpl.
        -- destruct (ds_is_GDALPamDataset ds) eqn:H2; simpl.
           ++ destruct (ds_psPam (GDALPamDataset_PamInitialize ds)); simpl.
              ** destruct (new_PamInfo_ok E); simpl; auto.
              ** auto.
           ++ rewrite Hp, Hds. auto.
        -- rewrite Hp, Hds. auto.
      * rewrite Hp, Hds. auto.
  - destruct (poDS b) as [ds|] eqn:Hds.
    + destruct (ds_GMO_PAM_CLASS ds) eqn:H1; simpl.
      * destruct (ds_is_GDALPamDataset ds) eqn:H2; simpl.
        -- destruct (ds_psPam (GDALPamDataset_PamInitialize ds)); simpl.
           ++ destruct (new_PamInfo_ok E); simpl; auto.
           ++ auto.
        -- rewrite Hp. auto.
      * rewrite Hp; auto.
    + rewrite Hp; auto.
Qed.

Lemma PamInitialize_of_settled b :
  settled b ->
  psPam (PamInitialize b) = psPam b /\ poDS (PamInitialize b) = poDS b
  /\ eDataType (PamInitialize b) = eDataType b.
Proof.
  unfold PamInitialize, settled.
  destruct (psPam b) as [p|] eqn:Hp; [|tauto].
  destruct (poParentDS p) eqn:Hl; [auto|].
  intros [H|H]; [discriminate|].
  destruct (poDS b) as [ds|] eqn:Hds; [|auto].
  destruct H as [H|H]; rewrite H; simpl; auto.
  destruct (ds_GMO_PAM_CLASS ds); simpl; auto.
Qed.

Lemma settled_has_record b : settled b -> exists p, psPam b = Some p.
Proof. unfold settled. destruct (psPam b) as [p|]; [eauto | tauto]. Qed.

(** A change of the record that keeps its link, and changes of the dirty
    flag, keep the band settled. *)
Lemma settled_set_psPam b p p' :
  settled b -> psPam b = Some p -> poParentDS p' = poParentDS p ->
  settled (set_psPam b (Some p')).
Proof.
  unfold settled. intros H Hp Hl. rewrite Hp in H. simpl. rewrite Hl. exact H.
Qed.

Lemma settled_MarkPamDirty b : settled b -> settled (MarkPamDirty b).
Proof.
  unfold settled. rewrite psPam_MarkPamDirty.
  destruct (psPam b) as [p|] eqn:Hp; auto.
  unfold MarkPamDirty. rewrite Hp.
  destruct (poParentDS p); auto.
Qed.

Lemma poParentDS_ResetNoDataValues p :
  poParentDS (ResetNoDataValues p) = poParentDS p.
Proof. reflexivity. Qed.

End InitLemmas.

(** ** Nodata: one representation at a time (C2) *)

Section NoData.

Variable E : Env.
Implicit Types (b : GDALPamRasterBand E) (p : GDALRasterBandPamInfo E).

Lemma SetNoDataValue_eq b x p :
  psPam (PamInitialize b) = Some p ->
  SetNoDataValue b x =
  (MarkPamDirty
     (set_psPam (PamInitialize b)
        (Some (set_dfNoDataValue (set_bNoDataValueSet (ResetNoDataValues p) true) x))),
   CE_None).
Proof. intros H. unfold SetNoDataValue. rewrite H. reflexivity. Qed.

Lemma SetNoDataValueAsInt64_eq b n p :
  psPam (PamInitialize b) = Some p ->
  SetNoDataValueAsInt64 b n =
  (MarkPamDirty
     (set_psPam (PamInitialize b)
        (Some (set_nNoDataValueInt64
                 (set_bNoDataValueSetAsInt64 (ResetNoDataValues p) true) n))),
   CE_None).
Proof. intros H. unfold SetNoDataValueAsInt64. rewrite H. reflexivity. Qed.

Lemma SetNoDataValueAsUInt64_eq b n p :
  psPam (PamInitialize b) = Some p ->
  SetNoDataValueAsUInt64 b n =
  (MarkPamDirty
     (set_psPam (PamInitialize b)
        (Some (set_nNoDataValueUInt64
                 (set_bNoDataValueSetAsUInt64 (ResetNoDataValues p) true) n))),
   CE_None).
Proof. intros H. unfold SetNoDataValueAsUInt64. rewrite H. reflexivity. Qed.

(** After a nodata setter that found a record, the band is settled. *)
Lemma settled_after_update b p p' :
  psPam (PamInitialize b) = Some p -> poParentDS p' = poParentDS p ->
  settled (MarkPamDirty (set_psPam (PamInitialize b) (Some p'))).
Proof.
  intros Hp Hl. apply settled_MarkPamDirty.
  apply settled_set_psPam with (p := p); auto.
  apply PamInitialize_settled. congruence.
Qed.

Lemma PamInitialize_exclusive b :
  nodata_exclusive b -> nodata_exclusive (PamInitialize b).
Proof.
  unfold nodata_exclusive. intros H.
  destruct (PamInitialize_psPam b) as [-> | [-> | ->]]; auto; cbn; lia.
Qed.

Lemma keeps_flags_exclusive b b' :
  keeps_flags b b' -> nodata_exclusive b -> nodata_exclusive b'.
Proof.
  unfold keeps_flags, nodata_exclusive, nodata_flags_true.
  intros [H | [(p & p' & Hp & Hp' & Hf) | (p' & Hp' & Hf)]] Hb.
  - now rewrite H.
  - rewrite Hp', Hf. now rewrite Hp in Hb.
  - now rewrite Hp'.
Qed.

Lemma keeps_flags_refl b : keeps_flags b b.
Proof.
  unfold keeps_flags. destruct (psPam b) as [p|] eqn:Hp; eauto 8.
Qed.

Lemma keeps_flags_trans b1 b2 b3 :
  keeps_flags b1 b2 -> keeps_flags b2 b3 -> keeps_flags b1 b3.
Proof.
  unfold keeps_flags.
  intros H12 [H | [(p & p' & Hp & Hp' & Hf) | (p' & Hp' & Hf)]]; eauto.
  destruct H12 as [H | [(q & q' & Hq & Hq' & Hg) | (q' & Hq' & Hg)]].
  - congruence.
  - right; left. exists q, p'. repeat split; auto. congruence.
  - right; right. exists p'. split; auto.
    unfold nodata_flags_true in *. rewrite Hf.
    replace p with q' by congruence. exact Hg.
Qed.

Lemma keeps_flags_PamInitialize b : keeps_flags b (PamInitialize b).
Proof.
  unfold keeps_flags.
  destruct (PamInitialize_psPam b) as [H | [H | H]]; auto.
  - destruct (psPam b) as [p|] eqn:Hp; eauto 8.
  - right; right. eexists; split; [exact H|]. cbn. lia.
Qed.

(** A method that initializes, then gives up without a record or writes
    a record with the same flags. *)
Lemma keeps_flags_update b b' :
  psPam b' = psPam (PamInitialize b)
  \/ (exists p p', psPam (PamInitialize b) = Some p /\ psPam b' = Some p'
                   /\ nodata_flags p' = nodata_flags p) ->
  keeps_flags b b'.
Proof.
  intros H. apply keeps_flags_trans with (b2 := PamInitialize b).
  - apply keeps_flags_PamInitialize.
  - unfold keeps_flags. destruct H as [H | H]; auto.
    rewrite H. destruct (psPam (PamInitialize b)) as [p|]; eauto 8.
Qed.

Ltac flags_tac :=
  apply keeps_flags_update;
  destruct (psPam (PamInitialize _)) as [p|] eqn:Hp;
  [ right; exists p | left; rewrite psPam_native_setter; auto ].

Ltac flags_done :=
  simpl; rewrite ?psPam_MarkPamDirty; simpl;
  eexists; split; [reflexivity | split; [first [reflexivity | eassumption] | reflexivity]].

Lemma keeps_flags_SetOffset b x : keeps_flags b (fst (SetOffset b x)).
Proof.
  unfold SetOffset; flags_tac.
  destruct (negb (bOffsetSet p) || negb (PrimFloat.eqb (dfOffset p) x)); flags_done.
Qed.

Lemma keeps_flags_SetScale b x : keeps_flags b (fst (SetScale b x)).
Proof.
  unfold SetScale; flags_tac.
  destruct (negb (bScaleSet p) || negb (PrimFloat.eqb x (dfScale p))); flags_done.
Qed.

Lemma keeps_flags_SetUnitType b v : keeps_flags b (fst (SetUnitType b v)).
Proof.
  unfold SetUnitType; flags_tac.
  destruct v as [[|c v]|]; flags_done.
Qed.

Lemma keeps_flags_SetCategoryNames b l : keeps_flags b (fst (SetCategoryNames b l)).
Proof.
  unfold SetCategoryNames; flags_tac. flags_done.
Qed.

Lemma keeps_flags_SetColorTable b t : keeps_flags b (fst (SetColorTable b t)).
Proof.
  unfold SetColorTable; flags_tac. destruct t; flags_done.
Qed.

Lemma keeps_flags_SetColorInterpretation b e :
  keeps_flags b (fst (SetColorInterpretation b e)).
Proof.
  apply keeps_flags_update. unfold SetColorInterpretation.
  destruct (psPam (PamInitialize b)) as [p|] eqn:Hp.
  - right. exists p. flags_done.
  - left. rewrite psPam_native_setter. auto.
Qed.

Lemma keeps_flags_SetDefaultRAT b r : keeps_flags b (fst (SetDefaultRAT b r)).
Proof. unfold SetDefaultRAT; flags_tac. flags_done. Qed.

Lemma keeps_flags_SetDescription b s : keeps_flags b (SetDescription b s).
Proof.
  apply keeps_flags_update. left. unfold SetDescription. simpl.
  destruct (psPam (PamInitialize b)) eqn:Hp; auto.
  destruct (negb _); rewrite ?psPam_MarkPamDirty; auto.
Qed.

Lemma keeps_flags_nodata_setter b p' (b' : GDALPamRasterBand E) :
  psPam b' = Some p' -> (nodata_flags_true p' <= 1)%nat -> keeps_flags b b'.
Proof. intros. right; right. eauto. Qed.

Lemma keeps_flags_SetNoDataValue b x : keeps_flags b (fst (SetNoDataValue b x)).
Proof.
  unfold SetNoDataValue. destruct (psPam (PamInitialize b)) as [p|] eqn:Hp.
  - eapply keeps_flags_nodata_setter.
    + simpl. rewrite psPam_MarkPamDirty. reflexivity.
    + cbn. lia.
  - apply keeps_flags_update. left. rewrite psPam_native_setter. auto.
Qed.

Lemma keeps_flags_SetNoDataValueAsInt64 b n :
  keeps_flags b (fst (SetNoDataValueAsInt64 b n)).
Proof.
  unfold SetNoDataValueAsInt64. destruct (psPam (PamInitialize b)) as [p|] eqn:Hp.
  - eapply keeps_flags_nodata_setter.
    + simpl. rewrite psPam_MarkPamDirty. reflexivity.
    + cbn. lia.
  - apply keeps_flags_update. left. rewrite psPam_native_setter. auto.
Qed.

Lemma keeps_flags_SetNoDataValueAsUInt64 b n :
  keeps_flags b (fst (SetNoDataValueAsUInt64 b n)).
Proof.
  unfold SetNoDataValueAsUInt64. destruct (psPam (PamInitialize b)) as [p|] eqn:Hp.
  - eapply keeps_flags_nodata_setter.
    + simpl. rewrite psPam_MarkPamDirty. reflexivity.
    + cbn. lia.
  - apply keeps_flags_update. left. rewrite psPam_native_setter. auto.
Qed.

Lemma keeps_flags_DeleteNoDataValue b : keeps_flags b (fst (DeleteNoDataValue b)).
Proof.
  unfold DeleteNoDataValue. destruct (psPam (PamInitialize b)) as [p|] eqn:Hp.
  - eapply keeps_flags_nodata_setter.
    + simpl. rewrite psPam_MarkPamDirty. reflexivity.
    + cbn. lia.
  - apply keeps_flags_update. left. rewrite psPam_native_setter. auto.
Qed.

Lemma keeps_flags_same b b' : psPam b' = psPam b -> keeps_flags b b'.
Proof.
  intros H. unfold keeps_flags. rewrite H.
  destruct (psPam b) as [p|]; eauto 8.
Qed.

Lemma keeps_flags_GetNoDataValueAsInt64 b :
  keeps_flags b (fst (fst (GetNoDataValueAsInt64 b))).
Proof.
  apply keeps_flags_same. unfold GetNoDataValueAsInt64.
  destruct (psPam b) eqn:Hp; simpl; auto. destruct (eDataType b); simpl; exact Hp.
Qed.

Lemma keeps_flags_GetNoDataValueAsUInt64 b :
  keeps_flags b (fst (fst (GetNoDataValueAsUInt64 b))).
Proof.
  apply keeps_flags_same. unfold GetNoDataValueAsUInt64.
  destruct (psPam b) eqn:Hp; simpl; auto. destruct (eDataType b); simpl; exact Hp.
Qed.

Lemma keeps_flags_GetDefaultRAT b : keeps_flags b (fst (GetDefaultRAT b)).
Proof.
  apply keeps_flags_update. left. unfold GetDefaultRAT.
  destruct (psPam (PamInitialize b)) eqn:Hp; simpl; auto.
Qed.

Lemma keeps_flags_PamInitializeNoParent b : keeps_flags b (PamInitializeNoParent b).
Proof.
  unfold PamInitializeNoParent. destruct (psPam b) as [p|] eqn:Hp.
  - apply keeps_flags_refl.
  - destruct (new_PamInfo_ok E).
    + eapply keeps_flags_nodata_setter; [reflexivity | cbn; lia].
    + apply keeps_flags_refl.
Qed.

Lemma keeps_flags_GetHistogram b dfMin dfMax n i a :
  keeps_flags b (fst (fst (GetHistogram b dfMin dfMax n i a))).
Proof.
  apply keeps_flags_update. unfold GetHistogram.
  destruct (psPam (PamInitialize b)) as [p|] eqn:Hp.
  - right. exists p.
    set (parsed := match PamFindMatchingHistogram _ _ _ _ _ _ _, _ with
                   | Some _, Some _ => _ | _, _ => None end).
    assert (Hret : forall (b1 : GDALPamRasterBand E) (rest : GDALPamRasterBand E * CPLErr * list Z),
               psPam b1 = Some p ->
               (exists p', psPam (fst (fst rest)) = Some p'
                           /\ nodata_flags p' = nodata_flags p) ->
               exists p', Some p = Some p /\
                 psPam (fst (fst (match parsed with
                                  | Some (mkParsed true _ _ _ (Some h) _) => (b1, CE_None, h)
                                  | _ => rest end))) = Some p'
                 /\ nodata_flags p' = nodata_flags p).
    { intros b1 rest Hb1 (p' & Hp' & Hf).
      destruct parsed as [[[] ? ? ? [h|] ?]|]; eauto. }
    apply Hret.
    + destruct parsed; simpl; exact Hp.
    + destruct (match parsed with Some r => _ | None => _ end) as [[m1 m2] nb].
      destruct (GDALRasterBand_GetHistogram E m1 m2 nb i a) as [eErr hist].
      assert (Hb1 : psPam (match parsed with
                           | Some r => set_errors (PamInitialize b)
                                         (errors (PamInitialize b) ++ parse_errors r)
                           | None => PamInitialize b end) = Some p)
        by (destruct parsed; simpl; exact Hp).
      destruct eErr; eauto.
      destruct (PamHistogramToXMLTree E m1 m2 nb hist i a); eauto.
      simpl. eauto.
  - left. destruct (GDALRasterBand_GetHistogram E dfMin dfMax n i a). simpl. auto.
Qed.

Lemma keeps_flags_SetDefaultHistogram b dfMin dfMax n h :
  keeps_flags b (fst (SetDefaultHistogram b dfMin dfMax n h)).
Proof.
  unfold SetDefaultHistogram; flags_tac.
  set (p1 := match PamFindMatchingHistogram _ _ _ _ _ _ _, _ with
             | Some _, Some _ => _ | _, _ => p end).
  assert (Hf : nodata_flags p1 = nodata_flags p).
  { unfold p1. destruct (PamFindMatchingHistogram _ _ _ _ _ _ _); auto.
    destruct (psSavedHistograms p); auto. }
  destruct (PamHistogramToXMLTree E dfMin dfMax n h 1 0); simpl; eauto.
Qed.

Lemma keeps_flags_through_psPam b b' (f : GDALRasterBandPamInfo E -> GDALRasterBandPamInfo E) :
  (forall p, nodata_flags (f p) = nodata_flags p) ->
  through_psPam b f = Some b' -> keeps_flags b b'.
Proof.
  intros Hf. unfold through_psPam. destruct (psPam b) as [p|] eqn:Hp; [|discriminate].
  intros [= <-]. right; left. exists p, (f p). auto.
Qed.

Lemma keeps_flags_XMLInit b psTree r :
  XMLInit b psTree = Some r -> keeps_flags b (fst r).
Proof.
  unfold XMLInit, and_then.
  set (b0 := PamInitialize b).
  set (b1 := set_sDescription _ _).
  set (b2 := XMLInit_NoDataValue b1 psTree).
  set (b3 := XMLInit_OffsetScale b2 psTree).
  set (b4 := XMLInit_UnitType b3 psTree).
  set (b5 := XMLInit_ColorInterp b4 psTree).
  set (b6 := XMLInit_CategoryNames b5 psTree).
  set (b7 := XMLInit_ColorTable b6 psTree).
  destruct (XMLInit_MinMax b7 psTree) as [b8|] eqn:H8; [|discriminate].
  destruct (XMLInit_Stats b8 psTree) as [b9|] eqn:H9; [|discriminate].
  destruct (XMLInit_Histograms b9 psTree) as [b10|] eqn:H10; [|discriminate].
  destruct (XMLInit_RAT b10 psTree) as [b11|] eqn:H11; [|discriminate].
  intros [= <-]. simpl.
  assert (K0 : keeps_flags b b0) by apply keeps_flags_PamInitialize.
  assert (K1 : keeps_flags b0 b1) by (apply keeps_flags_same; reflexivity).
  assert (K2 : keeps_flags b1 b2).
  { unfold b2, XMLInit_NoDataValue.
    destruct (CPLGetXMLValue psTree "NoDataValue" None); [|apply keeps_flags_refl].
    destruct (CPLGetXMLValue psTree "NoDataValue.le_hex_equiv" None).
    - destruct (_ =? 8); apply keeps_flags_SetNoDataValue.
    - destruct (eDataType b1);
        auto using keeps_flags_SetNoDataValue, keeps_flags_SetNoDataValueAsInt64,
          keeps_flags_SetNoDataValueAsUInt64. }
  assert (K3 : keeps_flags b2 b3).
  { unfold b3, XMLInit_OffsetScale.
    destruct (CPLGetXMLValue psTree "Offset" None), (CPLGetXMLValue psTree "Scale" None);
      try apply keeps_flags_refl;
      (eapply keeps_flags_trans; [apply keeps_flags_SetOffset | apply keeps_flags_SetScale]). }
  assert (K4 : keeps_flags b3 b4).
  { unfold b4, XMLInit_UnitType. destruct (CPLGetXMLValue psTree "UnitType" None);
      [apply keeps_flags_SetUnitType | apply keeps_flags_refl]. }
  assert (K5 : keeps_flags b4 b5).
  { unfold b5, XMLInit_ColorInterp. destruct (CPLGetXMLValue psTree "ColorInterp" None);
      [apply keeps_flags_SetColorInterpretation | apply keeps_flags_refl]. }
  assert (K6 : keeps_flags b5 b6).
  { unfold b6, XMLInit_CategoryNames. destruct (CPLGetXMLNode psTree "CategoryNames");
      [apply keeps_flags_SetCategoryNames | apply keeps_flags_refl]. }
  assert (K7 : keeps_flags b6 b7).
  { unfold b7, XMLInit_ColorTable. destruct (CPLGetXMLNode psTree "ColorTable");
      [apply keeps_flags_SetColorTable | apply keeps_flags_refl]. }
  assert (K8 : keeps_flags b7 b8).
  { unfold XMLInit_MinMax in H8.
    destruct (CPLGetXMLValue psTree "Minimum" None), (CPLGetXMLValue psTree "Maximum" None);
      try (injection H8 as <-; apply keeps_flags_refl).
    eapply keeps_flags_through_psPam; [|exact H8]. reflexivity. }
  assert (K9 : keeps_flags b8 b9).
  { unfold XMLInit_Stats in H9.
    destruct (CPLGetXMLValue psTree "Mean" None),
      (CPLGetXMLValue psTree "StandardDeviation" None);
      try (injection H9 as <-; apply keeps_flags_refl).
    eapply keeps_flags_through_psPam; [|exact H9]. reflexivity. }
  assert (K10 : keeps_flags b9 b10).
  { unfold XMLInit_Histograms in H10. destruct (CPLGetXMLNode psTree "Histograms");
      try (injection H10 as <-; apply keeps_flags_refl).
    eapply keeps_flags_through_psPam; [|exact H10]. reflexivity. }
  assert (K11 : keeps_flags b10 b11).
  { unfold XMLInit_RAT in H11.
    destruct (CPLGetXMLNode psTree "GDALRasterAttributeTable");
      try (injection H11 as <-; apply keeps_flags_refl).
    eapply keeps_flags_through_psPam; [|exact H11]. reflexivity. }
  repeat (eapply keeps_flags_trans; [eassumption|]); apply keeps_flags_refl.
Qed.

Lemma keeps_flags_do_call b c b' : do_call b c = Some b' -> keeps_flags b b'.
Proof.
  destruct c; simpl; try (intros [= <-]).
  - apply keeps_flags_PamInitialize.
  - apply keeps_flags_PamInitializeNoParent.
  - left. reflexivity.
  - apply keeps_flags_SetNoDataValue.
  - apply keeps_flags_SetNoDataValueAsInt64.
  - apply keeps_flags_SetNoDataValueAsUInt64.
  - apply keeps_flags_DeleteNoDataValue.
  - apply keeps_flags_GetNoDataValueAsInt64.
  - apply keeps_flags_GetNoDataValueAsUInt64.
  - apply keeps_flags_SetOffset.
  - apply keeps_flags_SetScale.
  - apply keeps_flags_SetUnitType.
  - apply keeps_flags_SetCategoryNames.
  - apply keeps_flags_SetColorTable.
  - apply keeps_flags_SetColorInterpretation.
  - apply keeps_flags_SetDescription.
  - apply keeps_flags_GetDefaultRAT.
  - apply keeps_flags_SetDefaultRAT.
  - apply keeps_flags_GetHistogram.
  - apply keeps_flags_SetDefaultHistogram.
  - destruct (XMLInit b psTree) as [r|] eqn:Hr; [|discriminate].
    intros [= <-]. eapply keeps_flags_XMLInit; eauto.
Qed.

Lemma do_calls_exclusive calls : forall b b',
  nodata_exclusive b -> do_calls b calls = Some b' -> nodata_exclusive b'.
Proof.
  induction calls as [|c calls IH]; simpl; intros b b' Hb.
  - intros [= <-]. exact Hb.
  - destruct (do_call b c) as [b1|] eqn:Hc; [|discriminate].
    apply IH. eapply keeps_flags_exclusive; [|exact Hb].
    eapply keeps_flags_do_call; eauto.
Qed.

End NoData.

Lemma nodata_setters_one_flag (E : Env) (b : GDALPamRasterBand E) :
  psPam (PamInitialize b) <> None ->
  (forall x, option_map (@nodata_flags E) (psPam (fst (SetNoDataValue b x)))
             = Some [true; false; false])
  /\ (forall n, option_map (@nodata_flags E) (psPam (fst (SetNoDataValueAsInt64 b n)))
                = Some [false; true; false])
  /\ (forall n, option_map (@nodata_flags E) (psPam (fst (SetNoDataValueAsUInt64 b n)))
                = Some [false; false; true]).
Proof.
  intros H. destruct (psPam (PamInitialize b)) as [p|] eqn:Hp; [|congruence].
  repeat split; intros.
  - rewrite (SetNoDataValue_eq _ _ Hp). simpl. rewrite psPam_MarkPamDirty. reflexivity.
  - rewrite (SetNoDataValueAsInt64_eq _ _ Hp). simpl. rewrite psPam_MarkPamDirty. reflexivity.
  - rewrite (SetNoDataValueAsUInt64_eq _ _ Hp). simpl. rewrite psPam_MarkPamDirty. reflexivity.
Qed.

(** C2. On a band that has its overlay record when the call runs (a
    record is there once [PamInitialize] has run), [SetNoDataValue],
    [SetNoDataValueAsInt64] and [SetNoDataValueAsUInt64] each leave exactly
    one of the three "set" flags true, the one of the form that was set;
    [SetNoDataValue] followed by [SetNoDataValueAsInt64] leaves only the
    int64 flag true; and "at most one flag is true" is kept by every
    sequence of calls of the methods of the band. *)
Theorem nodata_set_flags_exclusive (E : Env) (b : GDALPamRasterBand E) :
  (psPam (PamInitialize b) <> None ->
   (forall x, option_map (@nodata_flags E) (psPam (fst (SetNoDataValue b x)))
              = Some [true; false; false])
   /\ (forall n, option_map (@nodata_flags E) (psPam (fst (SetNoDataValueAsInt64 b n)))
                 = Some [false; true; false])
   /\ (forall n, option_map (@nodata_flags E) (psPam (fst (SetNoDataValueAsUInt64 b n)))
                 = Some [false; false; true])
   /\ (forall x y,
         option_map (@nodata_flags E)
           (psPam (fst (SetNoDataValueAsInt64 (fst (SetNoDataValue b x)) y)))
         = Some [false; true; false]))
  /\ (forall calls b',
        nodata_exclusive b -> do_calls b calls = Some b' -> nodata_exclusive b').
Proof.
  split.
  - intros H. destruct (nodata_setters_one_flag _ H) as (H1 & H2 & H3).
    repeat split; auto. intros x y.
    destruct (psPam (PamInitialize b)) as [p|] eqn:Hp; [|congruence].
    rewrite (SetNoDataValue_eq _ _ Hp). simpl.
    set (p1 := set_dfNoDataValue _ x).
    assert (Hs : settled (MarkPamDirty (set_psPam (PamInitialize b) (Some p1))))
      by (apply (settled_after_update b p1 Hp); reflexivity).
    destruct (PamInitialize_of_settled _ Hs) as (Hq & _).
    set (b1 := MarkPamDirty _) in *.
    assert (Hne : psPam (PamInitialize b1) <> None).
    { rewrite Hq. unfold b1. rewrite psPam_MarkPamDirty. simpl. discriminate. }
    apply (nodata_setters_one_flag _ Hne).
  - intros calls b'. apply do_calls_exclusive.
Qed.

Lemma nodata_set_flags_exclusive_witness :
  psPam (PamInitialize ref_band) <> None
  /\ option_map (@nodata_flags ref_env)
       (psPam (fst (SetNoDataValueAsInt64 (fst (SetNoDataValue ref_band 1.5)) 7)))
     = Some [false; true; false]
  /\ nodata_exclusive ref_band
  /\ exists b',
       do_calls ref_band
         [call_SetNoDataValueAsUInt64 ref_env 3; call_SetOffset ref_env 2;
          call_SetNoDataValue ref_env 0.5; call_DeleteNoDataValue ref_env] = Some b'
       /\ nodata_exclusive b'.
Proof.
  assert (H : psPam (PamInitialize ref_band) <> None) by discriminate.
  assert (H0 : nodata_exclusive ref_band) by exact I.
  destruct (nodata_set_flags_exclusive ref_band) as [HA HB].
  split; [exact H|]. split; [apply (HA H)|]. split; [exact H0|].
  eexists. split; [reflexivity|].
  exact (HB [call_SetNoDataValueAsUInt64 ref_env 3; call_SetOffset ref_env 2;
             call_SetNoDataValue ref_env 0.5; call_DeleteNoDataValue ref_env]
           _ H0 eq_refl).
Defined.

(** ** The 64-bit nodata getters on a band of another pixel type (C6) *)

(** C6. On a band with an overlay record whose pixel type is not Int64,
    [GetNoDataValueAsInt64] reports one error of class [CE_Failure] and
    number [CPLE_AppDefined], answers "no success" and the default sentinel
    value, and changes nothing else: the band is the one before with that
    error appended, so the record is untouched and the call returns. The
    same holds for [GetNoDataValueAsUInt64] on a band that is not UInt64. *)
Theorem nodata_getter_type_mismatch (E : Env) (b : GDALPamRasterBand E)
  (p : GDALRasterBandPamInfo E) :
  psPam b = Some p ->
  (eDataType b <> GDT_Int64 ->
   exists msg,
     GetNoDataValueAsInt64 b =
     (CPLError b CE_Failure CPLE_AppDefined msg,
      GDAL_PAM_DEFAULT_NODATA_VALUE_INT64, false)
     /\ psPam (fst (fst (GetNoDataValueAsInt64 b))) = Some p)
  /\ (eDataType b <> GDT_UInt64 ->
      exists msg,
        GetNoDataValueAsUInt64 b =
        (CPLError b CE_Failure CPLE_AppDefined msg,
         GDAL_PAM_DEFAULT_NODATA_VALUE_UINT64, false)
        /\ psPam (fst (fst (GetNoDataValueAsUInt64 b))) = Some p).
Proof.
  intros Hp. unfold GetNoDataValueAsInt64, GetNoDataValueAsUInt64. rewrite Hp.
  split; intros Hty; destruct (eDataType b); try congruence;
    eexists; (split; [reflexivity | exact Hp]).
Qed.

Lemma nodata_getter_type_mismatch_witness :
  exists p,
    psPam ref_linked_band = Some p
    /\ eDataType ref_linked_band <> GDT_Int64
    /\ snd (GetNoDataValueAsInt64 ref_linked_band) = false
    /\ snd (fst (GetNoDataValueAsInt64 ref_linked_band)) = - 2 ^ 63
    /\ psPam (fst (fst (GetNoDataValueAsInt64 ref_linked_band))) = Some p
    /\ List.length (errors (fst (fst (GetNoDataValueAsInt64 ref_linked_band)))) = 1%nat.
Proof.
  eexists. split; [reflexivity|].
  assert (Hty : eDataType ref_linked_band <> GDT_Int64) by discriminate.
  split; [exact Hty|].
  destruct (nodata_getter_type_mismatch ref_linked_band eq_refl) as [H _].
  destruct (H Hty) as (msg & Heq & Hrec).
  rewrite Heq. repeat split.
Defined.

(** ** The double form of a 64-bit nodata (C10) *)

(** C10. When the record holds a nodata of the Int64 form,
    [GetNoDataValue] answers "success" and the stored integer converted to
    double; so it does for the UInt64 form; the field of the double form
    is not what is returned. In particular this is what the getter
    answers after [SetNoDataValueAsInt64] and [SetNoDataValueAsUInt64]. *)
Theorem GetNoDataValue_of_int64_forms (E : Env) (b : GDALPamRasterBand E) :
  (forall p, psPam b = Some p -> bNoDataValueSetAsInt64 p = true ->
             GetNoDataValue b = (Z_to_double (nNoDataValueInt64 p), true))
  /\ (forall p, psPam b = Some p -> bNoDataValueSetAsInt64 p = false ->
                bNoDataValueSetAsUInt64 p = true ->
                GetNoDataValue b = (Z_to_double (nNoDataValueUInt64 p), true))
  /\ (psPam (PamInitialize b) <> None ->
      forall n,
        GetNoDataValue (fst (SetNoDataValueAsInt64 b n)) = (Z_to_double n, true)
        /\ GetNoDataValue (fst (SetNoDataValueAsUInt64 b n)) = (Z_to_double n, true)).
Proof.
  repeat split.
  - intros p Hp Hi. unfold GetNoDataValue. rewrite Hp, Hi. reflexivity.
  - intros p Hp Hi Hu. unfold GetNoDataValue. rewrite Hp, Hi, Hu. reflexivity.
  - destruct (psPam (PamInitialize b)) as [p|] eqn:Hp; [|congruence].
    rewrite (SetNoDataValueAsInt64_eq _ _ Hp). unfold GetNoDataValue. simpl.
    rewrite psPam_MarkPamDirty. reflexivity.
  - destruct (psPam (PamInitialize b)) as [p|] eqn:Hp; [|congruence].
    rewrite (SetNoDataValueAsUInt64_eq _ _ Hp). unfold GetNoDataValue. simpl.
    rewrite psPam_MarkPamDirty. reflexivity.
Qed.

Lemma GetNoDataValue_of_int64_forms_witness :
  psPam (PamInitialize ref_band) <> None
  /\ GetNoDataValue (fst (SetNoDataValueAsInt64 ref_band (-5))) = ((-5)%float, true)
  /\ GetNoDataValue (fst (SetNoDataValueAsUInt64 ref_band (2 ^ 64 - 1)))
     = (18446744073709551616%float, true).
Proof.
  assert (H : psPam (PamInitialize ref_band) <> None) by discriminate.
  destruct (GetNoDataValue_of_int64_forms ref_band) as (_ & _ & HS).
  split; [exact H|]. split.
  - rewrite (proj1 (HS H (-5))). vm_compute. reflexivity.
  - rewrite (proj2 (HS H (2 ^ 64 - 1))). vm_compute. reflexivity.
Defined.

(** ** Which mutators mark the store dirty (C5) *)

Section Dirty.

Variable E : Env.
Implicit Types (b : GDALPamRasterBand E) (p : GDALRasterBandPamInfo E).

Lemma linked_PamInitialize b p :
  psPam b = Some p -> poParentDS p = true -> PamInitialize b = b.
Proof. intros Hp Hl. unfold PamInitialize. rewrite Hp, Hl. reflexivity. Qed.

Lemma linked_MarkPamDirty b p ds :
  psPam b = Some p -> poParentDS p = true -> poDS b = Some ds ->
  is_dirty (MarkPamDirty b) = true /\ psPam (MarkPamDirty b) = Some p.
Proof.
  intros Hp Hl Hds. unfold MarkPamDirty, is_dirty. rewrite Hp, Hl, Hds. auto.
Qed.

Lemma is_dirty_set_psPam b o : is_dirty (set_psPam b o) = is_dirty b.
Proof. reflexivity. Qed.

Lemma set_psPam_same b p : psPam b = Some p -> set_psPam b (Some p) = b.
Proof. destruct b. simpl. intros ->. reflexivity. Qed.

Lemma set_offset_same p :
  bOffsetSet p = true -> set_bOffsetSet p true = p.
Proof. destruct p. simpl. intros ->. reflexivity. Qed.

Lemma set_pszUnitType_same p : set_pszUnitType p (pszUnitType p) = p.
Proof. destruct p. reflexivity. Qed.

End Dirty.

(** C5, as the code has it. On a band whose record is linked to a clean
    store: [SetOffset] and [SetScale] mark the store dirty exactly when the
    value was unset or differs ([!=]) from the stored one, and [SetUnitType]
    exactly when the unit type it stores (none for a null or empty string)
    differs from the stored one; otherwise they leave the band as it was.
    [SetColorInterpretation], [SetCategoryNames], [SetColorTable] and
    [SetDefaultRAT] mark the store dirty whatever the value. *)
Theorem mutators_mark_dirty (E : Env) (b : GDALPamRasterBand E)
  (p : GDALRasterBandPamInfo E) (ds : GDALDataset) :
  psPam b = Some p -> poParentDS p = true -> poDS b = Some ds ->
  ds_GPF_DIRTY ds = false ->
  (forall x,
     is_dirty (fst (SetOffset b x))
     = negb (bOffsetSet p) || negb (PrimFloat.eqb (dfOffset p) x)
     /\ (is_dirty (fst (SetOffset b x)) = false -> fst (SetOffset b x) = b))
  /\ (forall x,
        is_dirty (fst (SetScale b x))
        = negb (bScaleSet p) || negb (PrimFloat.eqb x (dfScale p))
        /\ (is_dirty (fst (SetScale b x)) = false -> fst (SetScale b x) = b))
  /\ (forall v,
        (is_dirty (fst (SetUnitType b v)) = true
         <-> stored_unit_type v <> pszUnitType p)
        /\ (is_dirty (fst (SetUnitType b v)) = false -> fst (SetUnitType b v) = b))
  /\ (forall e, is_dirty (fst (SetColorInterpretation b e)) = true)
  /\ (forall l, is_dirty (fst (SetCategoryNames b l)) = true)
  /\ (forall t, is_dirty (fst (SetColorTable b t)) = true)
  /\ (forall r, is_dirty (fst (SetDefaultRAT b r)) = true).
Proof.
  intros Hp Hl Hds Hclean.
  assert (Hb : is_dirty b = false) by (unfold is_dirty; now rewrite Hds).
  assert (Hmark : forall p', poParentDS p' = true ->
             is_dirty (MarkPamDirty (set_psPam b (Some p'))) = true).
  { intros p' Hl'. apply (linked_MarkPamDirty (set_psPam b (Some p')) (p := p') (ds := ds));
      auto. }
  assert (Hd : is_dirty (MarkPamDirty b) = true)
    by apply (linked_MarkPamDirty b Hp Hl Hds).
  assert (Hmark' : forall p',
             is_dirty (set_psPam (MarkPamDirty b) (Some p')) = true).
  { intros p'. exact Hd. }
  repeat split.
  - unfold SetOffset. rewrite (linked_PamInitialize b Hp Hl), Hp.
    destruct (negb (bOffsetSet p) || negb (PrimFloat.eqb (dfOffset p) x)); simpl; auto.
  - unfold SetOffset. rewrite (linked_PamInitialize b Hp Hl), Hp.
    destruct (negb (bOffsetSet p) || negb (PrimFloat.eqb (dfOffset p) x)); simpl; auto.
    rewrite Hmark by exact Hl. discriminate.
  - unfold SetScale. rewrite (linked_PamInitialize b Hp Hl), Hp.
    destruct (negb (bScaleSet p) || negb (PrimFloat.eqb x (dfScale p))); simpl; auto.
  - unfold SetScale. rewrite (linked_PamInitialize b Hp Hl), Hp.
    destruct (negb (bScaleSet p) || negb (PrimFloat.eqb x (dfScale p))); simpl; auto.
    rewrite Hmark by exact Hl. discriminate.
  - unfold SetUnitType. rewrite (linked_PamInitialize b Hp Hl), Hp.
    destruct v as [[|c v]|]; simpl; destruct (pszUnitType p) as [u|] eqn:Hu;
      rewrite ?is_dirty_set_psPam, ?Hb; try discriminate.
    destruct (String.eqb_spec u (String c v)) as [->|Hne]; simpl;
      rewrite ?Hb; [discriminate | congruence].
  - unfold SetUnitType. rewrite (linked_PamInitialize b Hp Hl), Hp.
    destruct v as [[|c v]|]; simpl; destruct (pszUnitType p) as [u|] eqn:Hu;
      rewrite ?is_dirty_set_psPam; try congruence; try (intros _; exact Hd).
    destruct (String.eqb_spec u (String c v)) as [->|Hne]; simpl;
      [congruence | intros _; exact Hd].
  - unfold SetUnitType. rewrite (linked_PamInitialize b Hp Hl), Hp.
    assert (Hsame : pszUnitType p = stored_unit_type v ->
                    set_psPam b (Some (set_pszUnitType p (stored_unit_type v))) = b).
    { intros <-. rewrite set_pszUnitType_same. apply set_psPam_same, Hp. }
    destruct v as [[|c v]|]; simpl; destruct (pszUnitType p) as [u|] eqn:Hu;
      rewrite ?is_dirty_set_psPam, ?Hd; try discriminate;
      try (intros _; apply Hsame; reflexivity).
    destruct (String.eqb_spec u (String c v)) as [->|Hne]; simpl.
    + intros _. apply Hsame. reflexivity.
    + rewrite Hd. discriminate.
  - intros v. unfold SetColorInterpretation. rewrite (linked_PamInitialize b Hp Hl), Hp. simpl.
    apply Hmark'.
  - intros v. unfold SetCategoryNames. rewrite (linked_PamInitialize b Hp Hl), Hp. simpl.
    apply Hmark. exact Hl.
  - intros v. unfold SetColorTable. rewrite (linked_PamInitialize b Hp Hl), Hp. simpl.
    apply Hmark. destruct v; exact Hl.
  - intros v. unfold SetDefaultRAT. rewrite (linked_PamInitialize b Hp Hl), Hp. simpl.
    apply Hmark'.
Qed.

Lemma mutators_mark_dirty_witness :
  is_dirty ref_linked_band = false
  /\ is_dirty (fst (SetOffset ref_linked_band 2.5)) = true
  /\ is_dirty (fst (SetOffset (set_poDS (fst (SetOffset ref_linked_band 2.5))
                                 (Some ref_dataset)) 2.5)) = false
  /\ is_dirty (fst (SetColorTable ref_linked_band None)) = true.
Proof.
  split; [reflexivity|].
  destruct (mutators_mark_dirty ref_linked_band (ds := ref_dataset)
              eq_refl eq_refl eq_refl eq_refl) as (HO & _ & _ & _ & _ & HT & _).
  split; [rewrite (proj1 (HO 2.5%float)); reflexivity|].
  split; [|apply HT].
  destruct (mutators_mark_dirty
              (set_poDS (fst (SetOffset ref_linked_band 2.5)) (Some ref_dataset))
              (ds := ref_dataset) eq_refl eq_refl eq_refl eq_refl) as (HO' & _).
  rewrite (proj1 (HO' 2.5%float)). vm_compute. reflexivity.
Defined.

(** C5 as stated fails: setting the color interpretation of a band to the
    value its record already holds marks a clean store dirty. *)
Lemma same_color_interpretation_marks_dirty :
  GetColorInterpretation ref_gray_band = GCI_GrayIndex
  /\ is_dirty ref_gray_band = false
  /\ GetColorInterpretation (fst (SetColorInterpretation ref_gray_band GCI_GrayIndex))
     = GCI_GrayIndex
  /\ is_dirty (fst (SetColorInterpretation ref_gray_band GCI_GrayIndex)) = true.
Proof. repeat split. Qed.

(** ** The histogram cache lookup (C4) *)

Lemma find_pos_Some {A : Type} (f : A -> bool) (l : list A) : forall i,
  find_pos f l = Some i ->
  exists c, nth_error l i = Some c /\ f c = true
            /\ forall j c', (j < i)%nat -> nth_error l j = Some c' -> f c' = false.
Proof.
  induction l as [|x l IH]; simpl; intros i; [discriminate|].
  destruct (f x) eqn:Hx.
  - intros [= <-]. exists x. repeat split; auto. intros j c' Hj. lia.
  - destruct (find_pos f l) as [k|] eqn:Hk; simpl; [|discriminate].
    intros [= <-]. destruct (IH k eq_refl) as (c & Hc & Hfc & Hlt).
    exists c. repeat split; auto.
    intros [|j] c' Hj; simpl.
    + intros [= <-]. exact Hx.
    + apply Hlt. lia.
Qed.

Lemma find_pos_None {A : Type} (f : A -> bool) (l : list A) :
  find_pos f l = None -> forall c, In c l -> f c = false.
Proof.
  induction l as [|x l IH]; simpl; intros H c; [tauto|].
  destruct (f x) eqn:Hx; [discriminate|].
  destruct (find_pos f l); [discriminate|].
  intros [<- | Hin]; auto.
Qed.

(** The test of the loop is the match of the specification on a HistItem. *)
Lemma histogram_passes_spec (E : Env) c dfMin dfMax nBuckets bI bA :
  histogram_passes E c dfMin dfMax nBuckets bI bA
  = is_HistItem c && candidate_matches E c dfMin dfMax nBuckets (nonzero bI) (nonzero bA).
Proof.
  unfold histogram_passes, is_HistItem, candidate_matches,
    HistMin_of, HistMax_of, BucketCount_of, IncludeOutOfRange_of, Approximate_of.
  destruct (is_type CXT_Element c); simpl; auto.
  destruct (EQUAL (pszValue c) "HistItem"); simpl; auto.
  destruct (ARE_REAL_EQUAL E _ dfMin); simpl; auto.
  destruct (ARE_REAL_EQUAL E _ dfMax); simpl; auto.
  destruct (_ =? nBuckets); simpl; auto.
  destruct (nonzero (atoi (CPLGetXMLValue_or c "IncludeOutOfRange" "0"))),
    (nonzero bI), (nonzero bA),
    (nonzero (atoi (CPLGetXMLValue_or c "Approximate" "0"))); reflexivity.
Qed.

(** C4. [PamFindMatchingHistogram] returns the first child of the saved
    histograms, in document order, that is a HistItem and matches the query:
    min and max equal within [ARE_REAL_EQUAL], the same bucket count, the
    same includeOutOfRange truth value, and not an approximate candidate
    when [bApproxOK] is false; it returns nothing when no child matches or
    when there is no list. An approximate candidate that matches otherwise
    is rejected when [bApproxOK] is false and accepted when it is true; an
    exact one is accepted in both cases. *)
Theorem PamFindMatchingHistogram_first_match (E : Env)
  (psSavedHistograms : option CPLXMLNode) (dfMin dfMax : float)
  (nBuckets bIncludeOutOfRange bApproxOK : Z) :
  let candidates :=
    match psSavedHistograms with Some h => psChild h | None => [] end in
  let matches c :=
    is_HistItem c
    && candidate_matches E c dfMin dfMax nBuckets
         (nonzero bIncludeOutOfRange) (nonzero bApproxOK) in
  match PamFindMatchingHistogram E psSavedHistograms dfMin dfMax nBuckets
          bIncludeOutOfRange bApproxOK with
  | Some i =>
      exists c, nth_error candidates i = Some c /\ matches c = true
                /\ forall j c', (j < i)%nat -> nth_error candidates j = Some c' ->
                                matches c' = false
  | None => forall c, In c candidates -> matches c = false
  end
  /\ (forall c,
        ARE_REAL_EQUAL E (HistMin_of E c) dfMin = true ->
        ARE_REAL_EQUAL E (HistMax_of E c) dfMax = true ->
        BucketCount_of c = nBuckets ->
        IncludeOutOfRange_of c = nonzero bIncludeOutOfRange ->
        candidate_matches E c dfMin dfMax nBuckets
          (nonzero bIncludeOutOfRange) (nonzero bApproxOK)
        = if Approximate_of c then nonzero bApproxOK else true).
Proof.
  intros candidates matches. split.
  - unfold PamFindMatchingHistogram.
    destruct psSavedHistograms as [h|]; simpl in *; [|tauto].
    destruct (find_pos _ (psChild h)) as [i|] eqn:Hf.
    + destruct (find_pos_Some _ _ Hf) as (c & Hc & Hm & Hlt).
      exists c. split; [exact Hc|]. split.
      * unfold matches. rewrite <- histogram_passes_spec. exact Hm.
      * intros j c' Hj Hc'. unfold matches. rewrite <- histogram_passes_spec.
        eapply Hlt; eauto.
    + intros c Hin. unfold matches. rewrite <- histogram_passes_spec.
      eapply (find_pos_None _ _ Hf); eauto.
  - intros c H1 H2 H3 H4. unfold candidate_matches.
    rewrite H1, H2, H3, H4, Z.eqb_refl, Bool.eqb_reflx. reflexivity.
Qed.

Lemma PamFindMatchingHistogram_first_match_witness :
  PamFindMatchingHistogram ref_env (Some ref_histograms) 0 255 2 1 1 = Some 0%nat
  /\ PamFindMatchingHistogram ref_env (Some ref_histograms) 0 255 2 1 0 = Some 1%nat
  /\ PamFindMatchingHistogram ref_env (Some ref_histograms) 0 255 3 1 1 = None
  /\ exists c, nth_error (psChild ref_histograms) 1 = Some c
               /\ Approximate_of c = false
               /\ candidate_matches ref_env c 0 255 2 true false = true.
Proof.
  split; [vm_compute; reflexivity|].
  split; [vm_compute; reflexivity|].
  split; [vm_compute; reflexivity|].
  destruct (PamFindMatchingHistogram_first_match ref_env (Some ref_histograms)
              0 255 2 1 0) as [H Hasym].
  replace (PamFindMatchingHistogram ref_env (Some ref_histograms) 0 255 2 1 0)
    with (Some 1%nat) in H by (vm_compute; reflexivity).
  destruct H as (c & Hc & Hm & _). exists c. split; [exact Hc|].
  injection Hc as <-. split; [vm_compute; reflexivity|].
  apply andb_true_iff in Hm. apply Hm.
Defined.

(** ** Decoding a stored histogram (C7) *)

Lemma length_parse_HistCounts n s : List.length (parse_HistCounts n s) = n.
Proof. revert s. induction n; simpl; intros; auto. Qed.

(** C7, as the code has it. For a HistItem node: a bucket count that is
    not positive or exceeds [INT_MAX / 2] is rejected (no error is
    reported); for another bucket count, a call that asks for no bucket
    array succeeds without looking at the counts; a call that asks for one
    fails with an application-defined error when the text of the counts is
    shorter than [2 * n - 1] characters, else fails with an out-of-memory
    error when the allocation of the [n] buckets fails, else succeeds with
    exactly [n] buckets. A null node is a failure. *)
Theorem PamParseHistogram_outcomes (E : Env) (psHistItem : CPLXMLNode)
  (dfMin0 dfMax0 : float) (nBuckets0 : Z) (bWantHistogram : bool) :
  let r := PamParseHistogram E (Some psHistItem) dfMin0 dfMax0 nBuckets0 bWantHistogram in
  let n := atoi (CPLGetXMLValue_or psHistItem "BucketCount" "2") in
  let pszHistCounts := CPLGetXMLValue_or psHistItem "HistCounts" "" in
  (n <= 0 \/ INT_MAX / 2 < n -> parse_ok r = false /\ parse_errors r = [])
  /\ (0 < n <= INT_MAX / 2 ->
      (bWantHistogram = false ->
       parse_ok r = true /\ parsed_panHistogram r = None /\ parse_errors r = [])
      /\ (bWantHistogram = true -> strlen pszHistCounts < 2 * n - 1 ->
          parse_ok r = false
          /\ exists msg, parse_errors r = [mkError CE_Failure CPLE_AppDefined msg])
      /\ (bWantHistogram = true -> 2 * n - 1 <= strlen pszHistCounts ->
          VSICalloc_ok E 8 n = false ->
          parse_ok r = false
          /\ exists msg, parse_errors r = [mkError CE_Failure CPLE_OutOfMemory msg])
      /\ (bWantHistogram = true -> 2 * n - 1 <= strlen pszHistCounts ->
          VSICalloc_ok E 8 n = true ->
          parse_ok r = true /\ parse_errors r = []
          /\ exists h, parsed_panHistogram r = Some h /\ Z.of_nat (List.length h) = n))
  /\ parsed_nBuckets r = n
  /\ parse_ok (PamParseHistogram E None dfMin0 dfMax0 nBuckets0 bWantHistogram) = false.
Proof.
  intros r n pszHistCounts. unfold r, PamParseHistogram. fold n. fold pszHistCounts.
  assert (Hmax : INT_MAX / 2 = 1073741823) by reflexivity.
  assert (Hbad : n <= 0 \/ INT_MAX / 2 < n -> (n <=? 0) || (n >? INT_MAX / 2) = true).
  { intros [H|H].
    - apply orb_true_iff. left. apply Z.leb_le. lia.
    - apply orb_true_iff. right. rewrite Z.gtb_ltb. apply Z.ltb_lt. lia. }
  assert (Hgood : 0 < n <= INT_MAX / 2 -> (n <=? 0) || (n >? INT_MAX / 2) = false).
  { intros H. apply orb_false_iff. split.
    - apply Z.leb_gt. lia.
    - rewrite Z.gtb_ltb. apply Z.ltb_ge. lia. }
  assert (Hs : 0 < n <= INT_MAX / 2 -> size_t (2 * size_t n - 1) = 2 * n - 1).
  { intros H. unfold size_t. rewrite (Z.mod_small n) by lia. apply Z.mod_small. lia. }
  split; [|split; [|split]].
  - intros H. rewrite (Hbad H). split; reflexivity.
  - intros H. rewrite (Hgood H), (Hs H). split; [|split; [|split]].
    + intros ->. repeat split.
    + intros -> Hlen.
      replace (strlen pszHistCounts <? 2 * n - 1) with true
        by (symmetry; apply Z.ltb_lt; lia).
      cbn [negb]. split; [reflexivity | eexists; reflexivity].
    + intros -> Hlen Halloc.
      replace (strlen pszHistCounts <? 2 * n - 1) with false
        by (symmetry; apply Z.ltb_ge; lia).
      rewrite Halloc. cbn [negb]. split; [reflexivity | eexists; reflexivity].
    + intros -> Hlen Halloc.
      replace (strlen pszHistCounts <? 2 * n - 1) with false
        by (symmetry; apply Z.ltb_ge; lia).
      rewrite Halloc. cbn [negb]. split; [reflexivity | split; [reflexivity|]].
      eexists. split; [reflexivity|]. rewrite length_parse_HistCounts. lia.
  - destruct ((n <=? 0) || (n >? INT_MAX / 2)); [reflexivity|].
    destruct (negb bWantHistogram); [reflexivity|].
    destruct (_ <? _); [reflexivity|]. destruct (negb _); reflexivity.
  - reflexivity.
Qed.

Lemma PamParseHistogram_outcomes_witness :
  0 < atoi (CPLGetXMLValue_or (HistItem_node "0" "255" "2" "1" "0" "11|21")
              "BucketCount" "2") <= INT_MAX / 2
  /\ parse_ok (PamParseHistogram ref_env
                 (Some (HistItem_node "0" "255" "2" "1" "0" "11|21")) 0 0 0 true) = true
  /\ exists h,
       parsed_panHistogram
         (PamParseHistogram ref_env
            (Some (HistItem_node "0" "255" "2" "1" "0" "11|21")) 0 0 0 true) = Some h
       /\ Z.of_nat (List.length h) = 2.
Proof.
  assert (Hn : 0 < atoi (CPLGetXMLValue_or (HistItem_node "0" "255" "2" "1" "0" "11|21")
                           "BucketCount" "2") <= INT_MAX / 2)
    by (vm_compute; split; [reflexivity | discriminate]).
  split; [exact Hn|].
  destruct (PamParseHistogram_outcomes ref_env
              (HistItem_node "0" "255" "2" "1" "0" "11|21") 0 0 0 true)
    as (_ & H & _).
  destruct (H Hn) as (_ & _ & _ & Hok).
  assert (Hlen : 2 * atoi (CPLGetXMLValue_or (HistItem_node "0" "255" "2" "1" "0" "11|21")
                             "BucketCount" "2") - 1
                 <= strlen (CPLGetXMLValue_or (HistItem_node "0" "255" "2" "1" "0" "11|21")
                              "HistCounts" ""))
    by (vm_compute; discriminate).
  destruct (Hok eq_refl Hlen eq_refl) as (H1 & _ & h & Hh & Hl).
  split; [exact H1|]. exists h. split; [exact Hh | exact Hl].
Defined.

(** C7 as stated fails: without a bucket array to fill, the decoding of a
    descriptor of two buckets succeeds, and reports nothing, although its
    count string is empty. *)
Lemma short_counts_accepted_without_array :
  strlen (CPLGetXMLValue_or (HistItem_node "0" "255" "2" "1" "0" "") "HistCounts" "")
  < 2 * atoi (CPLGetXMLValue_or (HistItem_node "0" "255" "2" "1" "0" "")
                "BucketCount" "2") - 1
  /\ parse_ok (PamParseHistogram ref_env
                 (Some (HistItem_node "0" "255" "2" "1" "0" "")) 0 0 0 false) = true
  /\ parse_errors (PamParseHistogram ref_env
                     (Some (HistItem_node "0" "255" "2" "1" "0" "")) 0 0 0 false) = [].
Proof. repeat split. Qed.

(** ** Decimal text of integers *)

Lemma digit_val_digit_char d : 0 <= d <= 9 -> digit_val (digit_char d) = Some d.
Proof.
  intros H.
  assert (Hd : d = 0 \/ d = 1 \/ d = 2 \/ d = 3 \/ d = 4 \/ d = 5 \/ d = 6
               \/ d = 7 \/ d = 8 \/ d = 9) by lia.
  repeat (destruct Hd as [-> | Hd]; [reflexivity|]). subst. reflexivity.
Qed.

(** What is printed reads back: the digits of [n] in front of [rest] are
    read onto 0 as [rest] is read onto [n]. *)
Lemma parse_print_digits fuel : forall n rest,
  0 <= n < 10 ^ Z.of_nat fuel ->
  parse_digits (print_digits fuel n rest) 0 = parse_digits rest n.
Proof.
  induction fuel as [|f IH]; intros n rest Hn.
  - simpl in *. replace n with 0 by lia. reflexivity.
  - rewrite Nat2Z.inj_succ, Z.pow_succ_r in Hn by lia.
    assert (Hd : 0 <= n mod 10 <= 9) by (pose proof (Z.mod_pos_bound n 10); lia).
    assert (Hn' : n = n / 10 * 10 + n mod 10) by (pose proof (Z.div_mod n 10); lia).
    simpl print_digits. destruct (n / 10 =? 0) eqn:Hq.
    + apply Z.eqb_eq in Hq. simpl. rewrite (digit_val_digit_char Hd).
      f_equal. lia.
    + rewrite IH.
      * simpl. rewrite (digit_val_digit_char Hd). f_equal. lia.
      * split; [apply Z.div_pos; lia | apply Z.div_lt_upper_bound; lia].
Qed.

Lemma Printf_u_fuel n : 0 <= n -> n < 10 ^ Z.of_nat (S (Z.to_nat (Z.log2 n))).
Proof.
  intros Hn. rewrite Nat2Z.inj_succ, Z2Nat.id by apply Z.log2_nonneg.
  destruct (Z.eq_dec n 0) as [->|Hz]; [reflexivity|].
  assert (H2 : n < 2 ^ Z.succ (Z.log2 n)) by (apply Z.log2_spec; lia).
  eapply Z.lt_le_trans; [exact H2|].
  apply Z.pow_le_mono_l. lia.
Qed.

Lemma parse_digits_Printf_u n : 0 <= n -> parse_digits (Printf_u n) 0 = n.
Proof.
  intros Hn. unfold Printf_u. rewrite parse_print_digits; [reflexivity|].
  split; [exact Hn | apply Printf_u_fuel, Hn].
Qed.

(** The text of a number starts with a digit. *)
Lemma print_digits_head f : forall n rest,
  0 <= n ->
  exists d r, 0 <= d <= 9 /\ print_digits (S f) n rest = String (digit_char d) r.
Proof.
  induction f as [|f IH]; intros n rest Hn.
  - simpl. exists (n mod 10), rest. split.
    + pose proof (Z.mod_pos_bound n 10). lia.
    + destruct (n / 10 =? 0); reflexivity.
  - change (print_digits (S (S f)) n rest)
      with (let acc' := String (digit_char (n mod 10)) rest in
            if n / 10 =? 0 then acc' else print_digits (S f) (n / 10) acc').
    cbv zeta. destruct (n / 10 =? 0).
    + exists (n mod 10), rest. split; [|reflexivity].
      pose proof (Z.mod_pos_bound n 10). lia.
    + apply IH. apply Z.div_pos; lia.
Qed.

Lemma parse_integer_digit_head d r :
  0 <= d <= 9 ->
  parse_integer (String (digit_char d) r) = parse_digits (String (digit_char d) r) 0.
Proof.
  intros H.
  assert (Hd : d = 0 \/ d = 1 \/ d = 2 \/ d = 3 \/ d = 4 \/ d = 5 \/ d = 6
               \/ d = 7 \/ d = 8 \/ d = 9) by lia.
  repeat (destruct Hd as [-> | Hd]; [reflexivity|]). subst. reflexivity.
Qed.

Lemma parse_integer_Printf_d n : parse_integer (Printf_d n) = n.
Proof.
  unfold Printf_d. destruct (n <? 0) eqn:Hneg.
  - apply Z.ltb_lt in Hneg. unfold parse_integer.
    change (skip_spaces (String "-" (Printf_u (- n)))) with (String "-" (Printf_u (- n))).
    cbv iota beta. rewrite parse_digits_Printf_u by lia. lia.
  - apply Z.ltb_ge in Hneg. unfold Printf_u.
    destruct (print_digits_head (Z.to_nat (Z.log2 n)) "" Hneg) as (d & r & Hd & Heq).
    rewrite Heq, (parse_integer_digit_head r Hd), <- Heq.
    apply parse_digits_Printf_u, Hneg.
Qed.

Lemma strtoll_Printf_d n : LLONG_MIN <= n <= LLONG_MAX -> strtoll (Printf_d n) = n.
Proof.
  intros H. unfold strtoll, clamp. rewrite parse_integer_Printf_d.
  destruct (n <? LLONG_MIN) eqn:H1; [apply Z.ltb_lt in H1; lia|].
  destruct (LLONG_MAX <? n) eqn:H2; [apply Z.ltb_lt in H2; lia|]. reflexivity.
Qed.

Lemma atoi_Printf_d n : - 2 ^ 31 <= n < 2 ^ 31 -> atoi (Printf_d n) = n.
Proof.
  intros H. unfold atoi. rewrite strtoll_Printf_d.
  - unfold to_int. rewrite Z.mod_small; lia.
  - unfold LLONG_MIN, LLONG_MAX. lia.
Qed.

Lemma strtoull_Printf_u n : 0 <= n <= ULLONG_MAX -> strtoull (Printf_u n) = n.
Proof.
  intros H. unfold Printf_u.
  destruct (print_digits_head (Z.to_nat (Z.log2 n)) "" (proj1 H)) as (d & r & Hd & Heq).
  assert (Hst : strtoull (String (digit_char d) r)
                = clamp 0 ULLONG_MAX (parse_digits (String (digit_char d) r) 0)).
  { assert (Hc : d = 0 \/ d = 1 \/ d = 2 \/ d = 3 \/ d = 4 \/ d = 5 \/ d = 6
                 \/ d = 7 \/ d = 8 \/ d = 9) by lia.
    repeat (destruct Hc as [-> | Hc]; [reflexivity|]). subst. reflexivity. }
  rewrite Heq, Hst, <- Heq.
  change (print_digits (S (Z.to_nat (Z.log2 n))) n "") with (Printf_u n).
  rewrite parse_digits_Printf_u by lia. unfold clamp.
  destruct (n <? 0) eqn:H1; [apply Z.ltb_lt in H1; lia|].
  destruct (ULLONG_MAX <? n) eqn:H2; [apply Z.ltb_lt in H2; lia|]. reflexivity.
Qed.

(** ** Building and replacing descriptors (C3) *)

Section Descriptors.

Variable E : Env.
Implicit Types (b : GDALPamRasterBand E) (p : GDALRasterBandPamInfo E).

Lemma PamHistogramToXMLTree_eq dfMin dfMax nBuckets panHistogram bI bA :
  PamHistogramToXMLTree E dfMin dfMax nBuckets panHistogram bI bA
  = if descriptor_can_be_built E nBuckets
    then Some (descriptor_of E dfMin dfMax nBuckets panHistogram bI bA)
    else None.
Proof.
  unfold PamHistogramToXMLTree, descriptor_can_be_built, descriptor_of.
  destruct (nBuckets >? (INT_MAX - 10) / 12); [reflexivity|].
  destruct (VSIMalloc_ok E _); [|reflexivity]. simpl negb. cbv iota.
  generalize (Printf_16g E dfMin) (Printf_16g E dfMax) (Printf_d nBuckets)
    (Printf_d bI) (Printf_d bA) (print_HistCounts (Z.to_nat nBuckets) 0 panHistogram).
  intros s1 s2 s3 s4 s5 s6. reflexivity.
Qed.

Lemma HistItem_node_fields s1 s2 s3 s4 s5 s6 :
  let c := HistItem_node s1 s2 s3 s4 s5 s6 in
  is_HistItem c = true
  /\ CPLGetXMLValue_or c "HistMin" "0" = s1
  /\ CPLGetXMLValue_or c "HistMax" "0" = s2
  /\ CPLGetXMLValue_or c "BucketCount" "0" = s3
  /\ CPLGetXMLValue_or c "IncludeOutOfRange" "0" = s4
  /\ CPLGetXMLValue_or c "Approximate" "0" = s5
  /\ CPLGetXMLValue_or c "HistCounts" "" = s6
  /\ CPLGetXMLValue_or c "HistMax" "1" = s2
  /\ CPLGetXMLValue_or c "BucketCount" "2" = s3.
Proof. repeat split. Qed.

End Descriptors.

Lemma find_pos_ext {A : Type} (f g : A -> bool) (l : list A) :
  (forall x, f x = g x) -> find_pos f l = find_pos g l.
Proof.
  intros H. induction l as [|x l IH]; simpl; auto. rewrite H, IH. reflexivity.
Qed.

Section DefaultHistogram.

Variable E : Env.
Implicit Types (b : GDALPamRasterBand E) (p : GDALRasterBandPamInfo E).

(** [SetDefaultHistogram] on a band with a record, when the descriptor is
    built. *)
Lemma SetDefaultHistogram_built b p dfMin dfMax nBuckets panHistogram :
  psPam (PamInitialize b) = Some p ->
  descriptor_can_be_built E nBuckets = true ->
  exists b' p',
    SetDefaultHistogram b dfMin dfMax nBuckets panHistogram = (b', CE_None)
    /\ psPam b' = Some p'
    /\ poParentDS p' = poParentDS p
    /\ settled b'
    /\ psSavedHistograms p'
       = Some (XMLNode (eType (histograms_root p)) (pszValue (histograms_root p))
                 (descriptor_of E dfMin dfMax nBuckets panHistogram 1 0
                  :: kept_descriptors E (psChild (histograms_root p)) dfMin dfMax nBuckets))
    /\ (poParentDS p = true -> poDS (PamInitialize b) <> None -> is_dirty b' = true).
Proof.
  intros Hp Hbuilt. unfold SetDefaultHistogram. rewrite Hp.
  rewrite PamHistogramToXMLTree_eq, Hbuilt.
  set (p1 := match PamFindMatchingHistogram _ _ _ _ _ _ _, _ with
             | Some _, Some _ => _ | _, _ => p end).
  assert (Hl1 : poParentDS p1 = poParentDS p).
  { unfold p1. destruct (PamFindMatchingHistogram _ _ _ _ _ _ _); auto.
    destruct (psSavedHistograms p); auto. }
  assert (Hs0 : settled (PamInitialize b))
    by (apply PamInitialize_settled; congruence).
  assert (Hroot : XMLNode (eType (histograms_root p1)) (pszValue (histograms_root p1))
                    (psChild (histograms_root p1))
                  = XMLNode (eType (histograms_root p)) (pszValue (histograms_root p))
                      (kept_descriptors E (psChild (histograms_root p)) dfMin dfMax nBuckets)).
  { unfold p1, histograms_root, kept_descriptors, PamFindMatchingHistogram.
    destruct (psSavedHistograms p) as [h|] eqn:Hh; [|simpl; rewrite Hh; reflexivity].
    rewrite (find_pos_ext _
               (fun c => is_HistItem c && candidate_matches E c dfMin dfMax nBuckets true true)
               (psChild h))
      by (intros c; apply histogram_passes_spec).
    destruct (find_pos _ (psChild h)) as [i|]; simpl; [reflexivity|].
    rewrite Hh. reflexivity. }
  do 2 eexists. split; [reflexivity|]. split; [reflexivity|].
  split; [exact Hl1|]. split; [|split].
  - apply settled_set_psPam with (p := p1); [| |reflexivity].
    + apply settled_MarkPamDirty. apply settled_set_psPam with (p := p); auto.
    + rewrite psPam_MarkPamDirty. reflexivity.
  - simpl. fold (histograms_root p1). injection Hroot as H1 H2 H3.
    rewrite H1, H2, H3. reflexivity.
  - intros Hl Hds. destruct (poDS (PamInitialize b)) as [ds|] eqn:Hd; [|congruence].
    rewrite is_dirty_set_psPam.
    apply (linked_MarkPamDirty (set_psPam (PamInitialize b) (Some p1)) (p := p1) (ds := ds));
      auto. congruence.
Qed.


End DefaultHistogram.




(** ** The methods on a settled band *)

Section Steps.

Variable E : Env.
Implicit Types (b : GDALPamRasterBand E) (p : GDALRasterBandPamInfo E).

Lemma same_band_refl b : same_band b b.
Proof. unfold same_band. auto. Qed.

Lemma same_band_trans b1 b2 b3 :
  same_band b1 b2 -> same_band b2 b3 -> same_band b1 b3.
Proof. unfold same_band. intuition congruence. Qed.

Lemma same_band_MarkPamDirty b : same_band b (MarkPamDirty b).
Proof.
  unfold MarkPamDirty, same_band. destruct (psPam b) as [p|]; auto.
  destruct (poParentDS p); auto. destruct (poDS b); simpl; auto.
Qed.

Lemma same_band_PamInitialize b : settled b -> same_band b (PamInitialize b).
Proof.
  unfold PamInitialize, settled, same_band.
  destruct (psPam b) as [p|] eqn:Hp; [|tauto].
  destruct (poParentDS p) eqn:Hl; [auto|].
  intros [H|H]; [discriminate|].
  destruct (poDS b) as [ds|] eqn:Hds; [|auto].
  destruct H as [H|H]; rewrite H; simpl; auto.
  destruct (ds_GMO_PAM_CLASS ds); simpl; auto.
Qed.

Lemma steps_to_trans b1 b2 b3 p2 p3 :
  steps_to b1 b2 p2 -> steps_to b2 b3 p3 -> steps_to b1 b3 p3.
Proof.
  unfold steps_to. intros (_ & _ & H12) (Hs & Hp & H23).
  split; [exact Hs | split; [exact Hp | eapply same_band_trans; eauto]].
Qed.

(** The pattern of the mutators: initialize, change the record, mark. *)
Lemma steps_to_update_all b p p' :
  settled b -> psPam b = Some p -> poParentDS p' = poParentDS p ->
  steps_to b (MarkPamDirty (set_psPam (PamInitialize b) (Some p'))) p'
  /\ steps_to b (set_psPam (MarkPamDirty (PamInitialize b)) (Some p')) p'
  /\ steps_to b (set_psPam (PamInitialize b) (Some p')) p'.
Proof.
  intros Hs Hp Hl.
  destruct (PamInitialize_of_settled _ Hs) as (Hp0 & _ & _).
  rewrite Hp in Hp0.
  assert (Hs0 : settled (PamInitialize b))
    by (apply PamInitialize_settled; congruence).
  pose proof (same_band_PamInitialize b Hs) as Hf.
  assert (H3 : steps_to b (set_psPam (PamInitialize b) (Some p')) p').
  { split; [eapply settled_set_psPam; eauto | split; [reflexivity | exact Hf]]. }
  split; [|split; [|exact H3]].
  - split; [apply settled_MarkPamDirty; eapply settled_set_psPam; eauto|].
    split; [rewrite psPam_MarkPamDirty; reflexivity|].
    eapply same_band_trans; [exact (proj2 (proj2 H3)) | apply same_band_MarkPamDirty].
  - split.
    + eapply settled_set_psPam with (p := p);
        [apply settled_MarkPamDirty, Hs0 | rewrite psPam_MarkPamDirty; exact Hp0 | exact Hl].
    + split; [reflexivity|].
      eapply same_band_trans; [exact Hf|].
      exact (same_band_MarkPamDirty (PamInitialize b)).
Qed.

Lemma steps_to_update b p p' :
  settled b -> psPam b = Some p -> poParentDS p' = poParentDS p ->
  steps_to b (MarkPamDirty (set_psPam (PamInitialize b) (Some p'))) p'.
Proof. intros Hs Hp Hl. exact (proj1 (steps_to_update_all b p' Hs Hp Hl)). Qed.

Lemma steps_to_update_marked b p p' :
  settled b -> psPam b = Some p -> poParentDS p' = poParentDS p ->
  steps_to b (set_psPam (MarkPamDirty (PamInitialize b)) (Some p')) p'.
Proof. intros Hs Hp Hl. exact (proj1 (proj2 (steps_to_update_all b p' Hs Hp Hl))). Qed.

Lemma steps_to_update_clean b p p' :
  settled b -> psPam b = Some p -> poParentDS p' = poParentDS p ->
  steps_to b (set_psPam (PamInitialize b) (Some p')) p'.
Proof. intros Hs Hp Hl. exact (proj2 (proj2 (steps_to_update_all b p' Hs Hp Hl))). Qed.

Lemma settled_record_after_init b p :
  settled b -> psPam b = Some p -> psPam (PamInitialize b) = Some p.
Proof. intros Hs Hp. rewrite (proj1 (PamInitialize_of_settled _ Hs)). exact Hp. Qed.

Lemma step_SetNoDataValue b p x :
  settled b -> psPam b = Some p ->
  steps_to b (fst (SetNoDataValue b x)) (record_SetNoDataValue p x).
Proof.
  intros Hs Hp. rewrite (SetNoDataValue_eq _ _ (settled_record_after_init b Hs Hp)).
  apply (steps_to_update b _ Hs Hp); reflexivity.
Qed.

Lemma step_SetNoDataValueAsInt64 b p n :
  settled b -> psPam b = Some p ->
  steps_to b (fst (SetNoDataValueAsInt64 b n)) (record_SetNoDataValueAsInt64 p n).
Proof.
  intros Hs Hp. rewrite (SetNoDataValueAsInt64_eq _ _ (settled_record_after_init b Hs Hp)).
  apply (steps_to_update b _ Hs Hp); reflexivity.
Qed.

Lemma step_SetNoDataValueAsUInt64 b p n :
  settled b -> psPam b = Some p ->
  steps_to b (fst (SetNoDataValueAsUInt64 b n)) (record_SetNoDataValueAsUInt64 p n).
Proof.
  intros Hs Hp. rewrite (SetNoDataValueAsUInt64_eq _ _ (settled_record_after_init b Hs Hp)).
  apply (steps_to_update b _ Hs Hp); reflexivity.
Qed.

Lemma steps_to_init b p : settled b -> psPam b = Some p -> steps_to b (PamInitialize b) p.
Proof.
  intros Hs Hp. split; [|split].
  - apply PamInitialize_settled. rewrite (settled_record_after_init b Hs Hp). discriminate.
  - apply settled_record_after_init; auto.
  - apply (same_band_PamInitialize b Hs).
Qed.

Lemma step_SetOffset b p x :
  settled b -> psPam b = Some p ->
  steps_to b (fst (SetOffset b x)) (record_SetOffset p x).
Proof.
  intros Hs Hp. unfold SetOffset, record_SetOffset.
  rewrite (settled_record_after_init b Hs Hp).
  destruct (negb (bOffsetSet p) || negb (PrimFloat.eqb (dfOffset p) x)); simpl.
  - apply (steps_to_update b _ Hs Hp); reflexivity.
  - apply steps_to_init; auto.
Qed.

Lemma step_SetScale b p x :
  settled b -> psPam b = Some p ->
  steps_to b (fst (SetScale b x)) (record_SetScale p x).
Proof.
  intros Hs Hp. unfold SetScale, record_SetScale.
  rewrite (settled_record_after_init b Hs Hp).
  destruct (negb (bScaleSet p) || negb (PrimFloat.eqb x (dfScale p))); simpl.
  - apply (steps_to_update b _ Hs Hp); reflexivity.
  - apply steps_to_init; auto.
Qed.

Lemma step_SetUnitType b p v :
  settled b -> psPam b = Some p ->
  steps_to b (fst (SetUnitType b v)) (record_SetUnitType p v).
Proof.
  intros Hs Hp. unfold SetUnitType, record_SetUnitType.
  rewrite (settled_record_after_init b Hs Hp).
  pose proof (steps_to_update_marked b (set_pszUnitType p (stored_unit_type v)) Hs Hp eq_refl)
    as H2.
  pose proof (steps_to_update_clean b (set_pszUnitType p (stored_unit_type v)) Hs Hp eq_refl)
    as H3.
  destruct v as [[|c v]|]; simpl; destruct (pszUnitType p) as [u|]; simpl; auto.
  destruct (negb (u =? String c v)%string); auto.
Qed.

Lemma step_SetColorInterpretation b p e :
  settled b -> psPam b = Some p ->
  steps_to b (fst (SetColorInterpretation b e)) (set_eColorInterp p e).
Proof.
  intros Hs Hp. unfold SetColorInterpretation.
  rewrite (settled_record_after_init b Hs Hp). simpl.
  apply (steps_to_update_marked b _ Hs Hp); reflexivity.
Qed.

Lemma step_SetCategoryNames b p l :
  settled b -> psPam b = Some p ->
  steps_to b (fst (SetCategoryNames b l)) (set_papszCategoryNames p (CSLDuplicate l)).
Proof.
  intros Hs Hp. unfold SetCategoryNames.
  rewrite (settled_record_after_init b Hs Hp). simpl.
  apply (steps_to_update b _ Hs Hp); reflexivity.
Qed.

Lemma step_SetColorTable b p t :
  settled b -> psPam b = Some p ->
  steps_to b (fst (SetColorTable b t)) (record_SetColorTable p t).
Proof.
  intros Hs Hp. unfold SetColorTable, record_SetColorTable.
  rewrite (settled_record_after_init b Hs Hp). simpl.
  destruct t; apply (steps_to_update b _ Hs Hp); reflexivity.
Qed.

Lemma step_SetDefaultRAT b p r :
  settled b -> psPam b = Some p ->
  steps_to b (fst (SetDefaultRAT b r)) (set_poDefaultRAT p r).
Proof.
  intros Hs Hp. unfold SetDefaultRAT.
  rewrite (settled_record_after_init b Hs Hp). simpl.
  apply (steps_to_update_marked b _ Hs Hp); reflexivity.
Qed.

Lemma step_through_psPam b p (f : GDALRasterBandPamInfo E -> GDALRasterBandPamInfo E) :
  settled b -> psPam b = Some p -> poParentDS (f p) = poParentDS p ->
  through_psPam b f = Some (set_psPam b (Some (f p)))
  /\ steps_to b (set_psPam b (Some (f p))) (f p).
Proof.
  intros Hs Hp Hl. unfold through_psPam. rewrite Hp. split; [reflexivity|].
  split; [eapply settled_set_psPam; eauto | split; [reflexivity | exact (same_band_refl b)]].
Qed.

End Steps.

(** ** XMLInit, block by block *)

Section XMLInitBlocks.

Variable E : Env.
Implicit Types (b : GDALPamRasterBand E) (p : GDALRasterBandPamInfo E).

Lemma PamInitialize_same_band b : same_band b (PamInitialize b).
Proof.
  unfold PamInitialize, same_band.
  destruct (match psPam b with Some p => poParentDS p | None => false end); auto.
  destruct (poDS b) as [ds|]; auto.
  destruct (ds_GMO_PAM_CLASS ds); simpl; auto.
  destruct (ds_is_GDALPamDataset ds); simpl; auto.
  destruct (ds_psPam (GDALPamDataset_PamInitialize ds)); simpl; auto.
  destruct (new_PamInfo_ok E); simpl; auto.
Qed.

Lemma steps_to_refl b p : settled b -> psPam b = Some p -> steps_to b b p.
Proof. intros Hs Hp. split; [exact Hs | split; [exact Hp | apply same_band_refl]]. Qed.

Lemma block_NoDataValue b p psTree :
  settled b -> psPam b = Some p ->
  steps_to b (XMLInit_NoDataValue b psTree)
    (record_XMLInit_NoDataValue (eDataType b) psTree p).
Proof.
  intros Hs Hp. unfold XMLInit_NoDataValue, record_XMLInit_NoDataValue.
  destruct (CPLGetXMLValue psTree "NoDataValue" None); [|apply steps_to_refl; auto].
  destruct (CPLGetXMLValue psTree "NoDataValue.le_hex_equiv" None).
  - cbv zeta. destruct (_ =? 8); apply step_SetNoDataValue; auto.
  - destruct (eDataType b);
      auto using step_SetNoDataValue, step_SetNoDataValueAsInt64,
        step_SetNoDataValueAsUInt64.
Qed.

Lemma block_OffsetScale b p psTree :
  settled b -> psPam b = Some p ->
  steps_to b (XMLInit_OffsetScale b psTree) (record_XMLInit_OffsetScale psTree p).
Proof.
  intros Hs Hp. unfold XMLInit_OffsetScale, record_XMLInit_OffsetScale, XML_offset, XML_scale.
  assert (H : forall x y,
             steps_to b (fst (SetScale (fst (SetOffset b x)) y))
               (record_SetScale (record_SetOffset p x) y)).
  { intros x y. destruct (step_SetOffset b x Hs Hp) as (Hs1 & Hp1 & Hf1).
    eapply steps_to_trans; [split; [exact Hs1 | split; [exact Hp1 | exact Hf1]]|].
    apply step_SetScale; auto. }
  destruct (CPLGetXMLValue psTree "Offset" None), (CPLGetXMLValue psTree "Scale" None);
    cbv zeta; auto using steps_to_refl.
Qed.

Lemma block_UnitType b p psTree :
  settled b -> psPam b = Some p ->
  steps_to b (XMLInit_UnitType b psTree) (record_XMLInit_UnitType psTree p).
Proof.
  intros Hs Hp. unfold XMLInit_UnitType, record_XMLInit_UnitType.
  destruct (CPLGetXMLValue psTree "UnitType" None);
    auto using steps_to_refl, step_SetUnitType.
Qed.

Lemma block_ColorInterp b p psTree :
  settled b -> psPam b = Some p ->
  steps_to b (XMLInit_ColorInterp b psTree) (record_XMLInit_ColorInterp psTree p).
Proof.
  intros Hs Hp. unfold XMLInit_ColorInterp, record_XMLInit_ColorInterp.
  destruct (CPLGetXMLValue psTree "ColorInterp" None);
    auto using steps_to_refl, step_SetColorInterpretation.
Qed.

Lemma block_CategoryNames b p psTree :
  settled b -> psPam b = Some p ->
  steps_to b (XMLInit_CategoryNames b psTree) (record_XMLInit_CategoryNames psTree p).
Proof.
  intros Hs Hp. unfold XMLInit_CategoryNames, record_XMLInit_CategoryNames.
  destruct (CPLGetXMLNode psTree "CategoryNames");
    auto using steps_to_refl, step_SetCategoryNames.
Qed.

Lemma block_ColorTable b p psTree :
  settled b -> psPam b = Some p ->
  steps_to b (XMLInit_ColorTable b psTree) (record_XMLInit_ColorTable psTree p).
Proof.
  intros Hs Hp. unfold XMLInit_ColorTable, record_XMLInit_ColorTable.
  destruct (CPLGetXMLNode psTree "ColorTable");
    auto using steps_to_refl, step_SetColorTable.
Qed.

Lemma block_MinMax b p psTree :
  settled b -> psPam b = Some p ->
  exists b', XMLInit_MinMax b psTree = Some b'
             /\ steps_to b b' (record_XMLInit_MinMax psTree p).
Proof.
  intros Hs Hp. unfold XMLInit_MinMax, record_XMLInit_MinMax.
  destruct (CPLGetXMLValue psTree "Minimum" None) as [mn|],
    (CPLGetXMLValue psTree "Maximum" None) as [mx|];
    try (eexists; split; [reflexivity | apply steps_to_refl; auto]).
  eexists. exact (step_through_psPam b (fun p => set_dfMax (set_dfMin (set_bHaveMinMax p true) (CPLAtofM E mn)) (CPLAtofM E mx)) Hs Hp eq_refl).
Qed.

Lemma block_Stats b p psTree :
  settled b -> psPam b = Some p ->
  exists b', XMLInit_Stats b psTree = Some b'
             /\ steps_to b b' (record_XMLInit_Stats psTree p).
Proof.
  intros Hs Hp. unfold XMLInit_Stats, record_XMLInit_Stats.
  destruct (CPLGetXMLValue psTree "Mean" None) as [mn|],
    (CPLGetXMLValue psTree "StandardDeviation" None) as [mx|];
    try (eexists; split; [reflexivity | apply steps_to_refl; auto]).
  eexists. exact (step_through_psPam b (fun p => set_dfStdDev (set_dfMean (set_bHaveStats p true) (CPLAtofM E mn)) (CPLAtofM E mx)) Hs Hp eq_refl).
Qed.

Lemma block_Histograms b p psTree :
  settled b -> psPam b = Some p ->
  exists b', XMLInit_Histograms b psTree = Some b'
             /\ steps_to b b' (record_XMLInit_Histograms psTree p).
Proof.
  intros Hs Hp. unfold XMLInit_Histograms, record_XMLInit_Histograms.
  destruct (CPLGetXMLNode psTree "Histograms") as [c|];
    try (eexists; split; [reflexivity | apply steps_to_refl; auto]).
  eexists. exact (step_through_psPam b (fun p => set_psSavedHistograms p (Some c)) Hs Hp eq_refl).
Qed.

Lemma block_RAT b p psTree :
  settled b -> psPam b = Some p ->
  exists b', XMLInit_RAT b psTree = Some b'
             /\ steps_to b b' (record_XMLInit_RAT psTree p).
Proof.
  intros Hs Hp. unfold XMLInit_RAT, record_XMLInit_RAT.
  destruct (CPLGetXMLNode psTree "GDALRasterAttributeTable") as [c|];
    try (eexists; split; [reflexivity | apply steps_to_refl; auto]).
  eexists. exact (step_through_psPam b (fun p => set_poDefaultRAT p (Some (RAT_XMLInit E c))) Hs Hp eq_refl).
Qed.

(** [XMLInit] on a band that has a record once initialized: it returns,
    and what it leaves is read off the document block by block. *)
Lemma XMLInit_record_view b p psTree :
  psPam (PamInitialize b) = Some p ->
  exists b',
    XMLInit b psTree = Some (b', CE_None)
    /\ settled b'
    /\ psPam b' = Some (record_XMLInit (eDataType b) psTree p)
    /\ sDescription b' = CPLGetXMLValue_or psTree "Description" ""
    /\ oMDMD b' = MDMD_XMLInit E psTree (oMDMD b)
    /\ eDataType b' = eDataType b /\ nBand b' = nBand b.
Proof.
  intros Hp.
  assert (Hs0 : settled (PamInitialize b)) by (apply PamInitialize_settled; congruence).
  destruct (PamInitialize_same_band b) as (Hty & Hnb & Hdesc & Hmd & Hig).
  unfold XMLInit, record_XMLInit.
  set (b1 := set_sDescription _ _).
  assert (Hs1 : settled b1) by exact Hs0.
  assert (Hp1 : psPam b1 = Some p) by exact Hp.
  assert (Hty1 : eDataType b1 = eDataType b) by exact Hty.
  pose proof (block_NoDataValue b1 psTree Hs1 Hp1) as (Hs2 & Hp2 & Hf2).
  rewrite Hty1 in Hp2.
  set (b2 := XMLInit_NoDataValue b1 psTree) in *.
  pose proof (block_OffsetScale b2 psTree Hs2 Hp2) as (Hs3 & Hp3 & Hf3).
  set (b3 := XMLInit_OffsetScale b2 psTree) in *.
  pose proof (block_UnitType b3 psTree Hs3 Hp3) as (Hs4 & Hp4 & Hf4).
  set (b4 := XMLInit_UnitType b3 psTree) in *.
  pose proof (block_ColorInterp b4 psTree Hs4 Hp4) as (Hs5 & Hp5 & Hf5).
  set (b5 := XMLInit_ColorInterp b4 psTree) in *.
  pose proof (block_CategoryNames b5 psTree Hs5 Hp5) as (Hs6 & Hp6 & Hf6).
  set (b6 := XMLInit_CategoryNames b5 psTree) in *.
  pose proof (block_ColorTable b6 psTree Hs6 Hp6) as (Hs7 & Hp7 & Hf7).
  set (b7 := XMLInit_ColorTable b6 psTree) in *.
  destruct (block_MinMax b7 psTree Hs7 Hp7) as (b8 & He8 & Hs8 & Hp8 & Hf8).
  destruct (block_Stats b8 psTree Hs8 Hp8) as (b9 & He9 & Hs9 & Hp9 & Hf9).
  destruct (block_Histograms b9 psTree Hs9 Hp9) as (b10 & He10 & Hs10 & Hp10 & Hf10).
  destruct (block_RAT b10 psTree Hs10 Hp10) as (b11 & He11 & Hs11 & Hp11 & Hf11).
  exists b11. rewrite He8. simpl and_then. rewrite He9. simpl and_then.
  rewrite He10. simpl and_then. rewrite He11. simpl and_then.
  split; [reflexivity|]. split; [exact Hs11|]. split; [exact Hp11|].
  assert (Hf : same_band b1 b11).
  { repeat (eapply same_band_trans; [eassumption|]). apply same_band_refl. }
  destruct Hf as (F1 & F2 & F3 & F4 & F5).
  repeat split.
  - rewrite F3. reflexivity.
  - rewrite F4. unfold b1. simpl. rewrite Hmd. reflexivity.
  - rewrite F1. exact Hty1.
  - rewrite F2. exact Hnb.
Qed.

End XMLInitBlocks.

(** ** Offset and scale are read together (C8) *)

Section OffsetScale.

Variable E : Env.
Implicit Types (b : GDALPamRasterBand E) (p : GDALRasterBandPamInfo E).





End OffsetScale.




(** ** A cached histogram that cannot be decoded (C9) *)

Section FailedDecode.

Variable E : Env.
Implicit Types (b : GDALPamRasterBand E) (p : GDALRasterBandPamInfo E).

Lemma CPLAddXMLChild_element h name children :
  psChild (CPLAddXMLChild h [XMLNode CXT_Element name children])
  = psChild h ++ [XMLNode CXT_Element name children].
Proof.
  unfold CPLAddXMLChild. simpl. destruct (psChild h); reflexivity.
Qed.


End FailedDecode.




(** ** The document that SerializeToXML builds *)

Lemma find_pos_app {A : Type} (f : A -> bool) (l1 l2 : list A) :
  find_pos f (l1 ++ l2)
  = match find_pos f l1 with
    | Some i => Some i
    | None => option_map (fun i => (List.length l1 + i)%nat) (find_pos f l2)
    end.
Proof.
  induction l1 as [|x l1 IH]; simpl.
  - destruct (find_pos f l2); reflexivity.
  - destruct (f x); [reflexivity|]. rewrite IH.
    destruct (find_pos f l1); simpl; [reflexivity|].
    destruct (find_pos f l2); reflexivity.
Qed.

Lemma find_pos_find_None {A : Type} (f : A -> bool) (l : list A) :
  find_pos f l = None -> find f l = None.
Proof.
  induction l as [|x l IH]; simpl; [reflexivity|].
  destruct (f x); [discriminate|]. destruct (find_pos f l); [discriminate|]. auto.
Qed.

Lemma absent_app X (l1 l2 : list CPLXMLNode) :
  find_pos (named X) l1 = None -> find_pos (named X) l2 = None ->
  find_pos (named X) (l1 ++ l2) = None.
Proof. intros H1 H2. rewrite find_pos_app, H1, H2. reflexivity. Qed.

Lemma absent_single X (n : CPLXMLNode) :
  EQUAL X (pszValue n) = false -> find_pos (named X) [n] = None.
Proof.
  intros H. cbn [find_pos]. unfold named. rewrite H, andb_false_r. reflexivity.
Qed.

Lemma absent_pair X (n m : CPLXMLNode) :
  EQUAL X (pszValue n) = false -> EQUAL X (pszValue m) = false ->
  find_pos (named X) [n; m] = None.
Proof.
  intros H1 H2. cbn [find_pos]. unfold named. rewrite H1, H2, !andb_false_r. reflexivity.
Qed.

Lemma absent_elements_named X name (l : list CPLXMLNode) :
  elements_named name l -> EQUAL X name = false -> find_pos (named X) l = None.
Proof.
  intros Hl HX. induction Hl as [|c l [_ Hc] _ IH]; [reflexivity|].
  cbn [find_pos]. unfold named at 1. rewrite Hc, HX, andb_false_r, IH. reflexivity.
Qed.

Lemma find_skip X (l1 l2 : list CPLXMLNode) :
  find_pos (named X) l1 = None -> find (named X) (l1 ++ l2) = find (named X) l2.
Proof.
  intros H. induction l1 as [|x l1 IH]; [reflexivity|].
  simpl in H |- *. destruct (named X x); [discriminate|].
  destruct (find_pos (named X) l1); [discriminate|]. auto.
Qed.

Lemma find_hit X (n : CPLXMLNode) (l rest : list CPLXMLNode) :
  named X n = true -> find (named X) ((n :: l) ++ rest) = Some n.
Proof. intros H. simpl. rewrite H. reflexivity. Qed.

Lemma find_nil_app X (rest : list CPLXMLNode) :
  find (named X) ([] ++ rest) = find (named X) rest.
Proof. reflexivity. Qed.

Lemma update_nth_app {A : Type} (f : A -> A) (l : list A) (x : A) :
  update_nth (List.length l + 0) f (l ++ [x]) = l ++ [f x].
Proof. induction l as [|y l IH]; simpl; [reflexivity|]. rewrite IH. reflexivity. Qed.

Lemma attach_after_first_element (r : list CPLXMLNode) (n : CPLXMLNode) :
  is_type CXT_Attribute n = false -> attach_after_first r n = r ++ [n].
Proof.
  intros H. induction r as [|c r IH]; cbn [attach_after_first app]; [reflexivity|].
  rewrite H, IH. reflexivity.
Qed.

Lemma attach_element (cs : list CPLXMLNode) (n : CPLXMLNode) :
  is_type CXT_Attribute n = false -> CPLCreateXMLNode_attach cs n = cs ++ [n].
Proof.
  intros H. destruct cs as [|c [|c' r]]; cbn [CPLCreateXMLNode_attach app];
    rewrite ?H; cbn [andb]; [reflexivity..|].
  rewrite attach_after_first_element by exact H. reflexivity.
Qed.

Lemma token_kind (t : string) :
  (forall r, t <> String "#" r) ->
  match t with
  | String "#" r => (CXT_Attribute, r)
  | _ => (CXT_Element, t)
  end = (CXT_Element, t).
Proof.
  intros H. destruct t as [|c r]; [reflexivity|].
  destruct c as [[] [] [] [] [] [] [] []]; try reflexivity.
  exfalso. apply (H r). reflexivity.
Qed.

(** [CPLSetXMLValue] with the name of a child that is not there yet adds
    an element with the text at the end. *)
Lemma CPLSetXMLValue_new R (cs : list CPLXMLNode) name v :
  tokenize name = [name] -> (forall r, name <> String "#" r) ->
  find_pos (named name) cs = None ->
  CPLSetXMLValue (XMLNode CXT_Element R cs) name v
  = XMLNode CXT_Element R (cs ++ [CPLCreateXMLElementAndValue name v]).
Proof.
  intros Htok Hhash Habs. unfold CPLSetXMLValue. rewrite Htok.
  cbn [CPLSetXMLValue_tokens eType]. rewrite (token_kind Hhash).
  cbn [psChild pszValue]. rewrite Habs.
  rewrite attach_element by reflexivity. reflexivity.
Qed.

Lemma CPLCreateXMLNode_in_element R (cs : list CPLXMLNode) (n : CPLXMLNode) :
  is_type CXT_Attribute n = false ->
  CPLCreateXMLNode_in (XMLNode CXT_Element R cs) n = XMLNode CXT_Element R (cs ++ [n]).
Proof.
  intros H. unfold CPLCreateXMLNode_in. cbn [psChild eType pszValue].
  rewrite attach_element by exact H. reflexivity.
Qed.

Lemma CPLAddXMLChild_append t R (cs chain : list CPLXMLNode) :
  match chain with
  | n :: _ => is_type CXT_Attribute n = false
  | [] => True
  end ->
  CPLAddXMLChild (XMLNode t R cs) chain = XMLNode t R (cs ++ chain).
Proof.
  intros H. unfold CPLAddXMLChild, CPLAddXMLChild_list. cbn [psChild eType pszValue].
  destruct chain as [|n tl]; [rewrite app_nil_r; reflexivity|].
  destruct cs as [|c r]; [reflexivity|]. rewrite H. reflexivity.
Qed.

Lemma SFeqb_refl_false s : SFeqb s s = false -> s = S754_nan.
Proof.
  destruct s as [sg| sg| |sg m e]; try (destruct sg; discriminate); try reflexivity.
  unfold SFeqb, SFcompare. intros H. exfalso.
  destruct sg; rewrite Z.compare_refl in H;
    rewrite ?Pos.compare_cont_refl in H; simpl in H;
    rewrite ?Pos.compare_cont_refl in H; discriminate.
Qed.

Lemma eqb_nan_l x y : PrimFloat.is_nan x = true -> PrimFloat.eqb x y = false.
Proof.
  unfold PrimFloat.is_nan. intros H. apply negb_true_iff in H.
  rewrite eqb_spec in H |- *. apply SFeqb_refl_false in H. rewrite H. reflexivity.
Qed.

Section DocumentOfRecord.

Variable E : Env.
Implicit Types (b : GDALPamRasterBand E) (p : GDALRasterBandPamInfo E).

Lemma NoDataValue_to_XML_new R (cs : list CPLXMLNode) oFmt0 x :
  find_pos (named "NoDataValue") cs = None ->
  NoDataValue_to_XML E (XMLNode CXT_Element R cs) oFmt0 x
  = XMLNode CXT_Element R (cs ++ [NoDataValue_node E x]).
Proof.
  intros Habs. unfold NoDataValue_to_XML. cbv zeta.
  replace (if PrimFloat.is_nan x then "nan"
           else if PrimFloat.is_nan x then oFmt0 else Printf_14E E x)
    with (if PrimFloat.is_nan x then "nan" else Printf_14E E x)
    by (destruct (PrimFloat.is_nan x); reflexivity).
  rewrite CPLSetXMLValue_new;
    [| reflexivity | intros r Hr; discriminate Hr | exact Habs ].
  replace (negb (PrimFloat.eqb x (floor E x))
           || negb (PrimFloat.eqb x
                      (CPLAtof E (if PrimFloat.is_nan x then oFmt0 else Printf_14E E x))))
    with (negb (nodata_as_text E x)).
  2:{ unfold nodata_as_text. destruct (PrimFloat.is_nan x) eqn:Hn.
      - rewrite !(eqb_nan_l x _ Hn). reflexivity.
      - rewrite negb_andb. reflexivity. }
  unfold NoDataValue_node. cbv zeta.
  destruct (nodata_as_text E x); cbn [negb]; [reflexivity|].
  unfold CPLSetXMLValue.
  change (tokenize "NoDataValue.#le_hex_equiv") with ["NoDataValue"; "#le_hex_equiv"].
  cbn [CPLSetXMLValue_tokens eType psChild pszValue].
  rewrite find_pos_app, Habs. cbn [find_pos option_map].
  change (named "NoDataValue" (CPLCreateXMLElementAndValue "NoDataValue"
            (if PrimFloat.is_nan x then "nan" else Printf_14E E x))) with true.
  cbv iota. cbn [option_map]. rewrite update_nth_app. reflexivity.
Qed.

Lemma NoDataValue_node_name x : pszValue (NoDataValue_node E x) = "NoDataValue".
Proof. unfold NoDataValue_node. cbv zeta. destruct (nodata_as_text E x); reflexivity. Qed.

Lemma NoDataValue_node_type x : eType (NoDataValue_node E x) = CXT_Element.
Proof. unfold NoDataValue_node. cbv zeta. destruct (nodata_as_text E x); reflexivity. Qed.

Lemma absent_band b X : EQUAL X "band" = false -> find_pos (named X) (doc_band b) = None.
Proof.
  intros H. unfold doc_band. destruct (nBand b >? 0); [|reflexivity].
  apply absent_single. exact H.
Qed.

Lemma absent_Description b X :
  EQUAL X "Description" = false -> find_pos (named X) (doc_Description b) = None.
Proof.
  intros H. unfold doc_Description. destruct (strlen (GetDescription b) >? 0); [|reflexivity].
  apply absent_single. exact H.
Qed.

Lemma absent_NoDataValue p X :
  EQUAL X "NoDataValue" = false -> find_pos (named X) (doc_NoDataValue p) = None.
Proof.
  intros H. unfold doc_NoDataValue.
  destruct (bNoDataValueSet p).
  { apply absent_single. rewrite NoDataValue_node_name. exact H. }
  destruct (bNoDataValueSetAsInt64 p); [apply absent_single; exact H|].
  destruct (bNoDataValueSetAsUInt64 p); [apply absent_single; exact H|reflexivity].
Qed.

Lemma absent_UnitType p X :
  EQUAL X "UnitType" = false -> find_pos (named X) (doc_UnitType p) = None.
Proof.
  intros H. unfold doc_UnitType. destruct (pszUnitType p); [|reflexivity].
  apply absent_single. exact H.
Qed.

Lemma absent_Offset p X :
  EQUAL X "Offset" = false -> find_pos (named X) (doc_Offset p) = None.
Proof.
  intros H. unfold doc_Offset. destruct (negb _); [|reflexivity].
  apply absent_single. exact H.
Qed.

Lemma absent_Scale p X :
  EQUAL X "Scale" = false -> find_pos (named X) (doc_Scale p) = None.
Proof.
  intros H. unfold doc_Scale. destruct (negb _); [|reflexivity].
  apply absent_single. exact H.
Qed.

Lemma absent_ColorInterp p X :
  EQUAL X "ColorInterp" = false -> find_pos (named X) (doc_ColorInterp p) = None.
Proof.
  intros H. unfold doc_ColorInterp. destruct (negb _); [|reflexivity].
  apply absent_single. exact H.
Qed.

Lemma absent_CategoryNames p X :
  EQUAL X "CategoryNames" = false -> find_pos (named X) (doc_CategoryNames p) = None.
Proof.
  intros H. unfold doc_CategoryNames. destruct (papszCategoryNames p); [|reflexivity].
  apply absent_single. exact H.
Qed.

Lemma absent_ColorTable p X :
  EQUAL X "ColorTable" = false -> find_pos (named X) (doc_ColorTable p) = None.
Proof.
  intros H. unfold doc_ColorTable. destruct (poColorTable p); [|reflexivity].
  apply absent_single. exact H.
Qed.

Lemma absent_MinMax p X :
  EQUAL X "Minimum" = false -> EQUAL X "Maximum" = false ->
  find_pos (named X) (doc_MinMax p) = None.
Proof.
  intros H1 H2. unfold doc_MinMax. destruct (bHaveMinMax p); [|reflexivity].
  apply absent_pair; assumption.
Qed.

Lemma absent_Stats p X :
  EQUAL X "Mean" = false -> EQUAL X "StandardDeviation" = false ->
  find_pos (named X) (doc_Stats p) = None.
Proof.
  intros H1 H2. unfold doc_Stats. destruct (bHaveStats p); [|reflexivity].
  apply absent_pair; assumption.
Qed.

Lemma absent_Histograms b p X :
  collaborators_round_trip b p ->
  EQUAL X "Histograms" = false -> find_pos (named X) (doc_Histograms p) = None.
Proof.
  intros (Hh & _ & _) H. unfold doc_Histograms.
  destruct (psSavedHistograms p) as [h|]; [|reflexivity].
  destruct (Hh h eq_refl) as [_ Hn]. apply absent_single. rewrite Hn. exact H.
Qed.

Lemma absent_RAT b p X :
  collaborators_round_trip b p ->
  EQUAL X "GDALRasterAttributeTable" = false -> find_pos (named X) (doc_RAT p) = None.
Proof.
  intros (_ & Hr & _) H. unfold doc_RAT.
  destruct (poDefaultRAT p) as [rat|]; [|reflexivity].
  destruct (Hr rat eq_refl) as (n & -> & _ & Hn & _).
  apply absent_single. rewrite Hn. exact H.
Qed.

Lemma absent_Metadata b p X :
  collaborators_round_trip b p ->
  EQUAL X "Metadata" = false -> find_pos (named X) (doc_Metadata b) = None.
Proof.
  intros (_ & _ & Hm) H. unfold doc_Metadata.
  exact (absent_elements_named X Hm H).
Qed.

End DocumentOfRecord.

(** A child of the given name is not in a list made of groups of the
    document. *)
Ltac absent :=
  lazymatch goal with
  | |- find_pos (named _) (_ ++ _) = None => apply absent_app; absent
  | |- find_pos (named _) [] = None => reflexivity
  | |- find_pos (named _) (doc_band _) = None => apply absent_band; reflexivity
  | |- find_pos (named _) (doc_Description _) = None =>
      apply absent_Description; reflexivity
  | |- find_pos (named _) (doc_NoDataValue _) = None =>
      apply absent_NoDataValue; reflexivity
  | |- find_pos (named _) (doc_UnitType _) = None => apply absent_UnitType; reflexivity
  | |- find_pos (named _) (doc_Offset _) = None => apply absent_Offset; reflexivity
  | |- find_pos (named _) (doc_Scale _) = None => apply absent_Scale; reflexivity
  | |- find_pos (named _) (doc_ColorInterp _) = None =>
      apply absent_ColorInterp; reflexivity
  | |- find_pos (named _) (doc_CategoryNames _) = None =>
      apply absent_CategoryNames; reflexivity
  | |- find_pos (named _) (doc_ColorTable _) = None =>
      apply absent_ColorTable; reflexivity
  | |- find_pos (named _) (doc_MinMax _) = None => apply absent_MinMax; reflexivity
  | |- find_pos (named _) (doc_Stats _) = None => apply absent_Stats; reflexivity
  | |- find_pos (named _) (doc_Histograms _) = None =>
      eapply absent_Histograms; [eassumption | reflexivity]
  | |- find_pos (named _) (doc_RAT _) = None =>
      eapply absent_RAT; [eassumption | reflexivity]
  | |- find_pos (named _) (doc_Metadata _) = None =>
      eapply absent_Metadata; [eassumption | reflexivity]
  | |- find_pos (named _) [_] = None => apply absent_single; reflexivity
  end.

Ltac new_child :=
  lazymatch goal with
  | |- tokenize _ = _ => reflexivity
  | |- forall _, _ <> _ => let r := fresh in let HH := fresh in intros r HH; discriminate HH
  | |- find_pos _ _ = None => absent
  end.

Ltac head_zeta :=
  lazymatch goal with
  | |- (let x := ?a in @?body x) = ?r => change (body a = r); cbv beta
  end.

Ltac head_is cs tac :=
  lazymatch goal with
  | |- (let x := ?a in _) = _ =>
      replace a with (XMLNode CXT_Element "PAMRasterBand" cs) by tac
  end.

Section SerializedDocument.

Variable E : Env.
Implicit Types (b : GDALPamRasterBand E) (p : GDALRasterBandPamInfo E).

(** [SerializeToXML] links the groups of the document under the root, and
    gives nothing for fewer than two children. *)
Lemma SerializeToXML_document b p :
  psPam b = Some p ->
  (forall h, psSavedHistograms p = Some h -> is_type CXT_Attribute h = false) ->
  (forall rat n, poDefaultRAT p = Some rat -> RAT_Serialize E rat = Some n ->
                 is_type CXT_Attribute n = false) ->
  (forall n r, MDMD_Serialize E (oMDMD b) = n :: r -> is_type CXT_Attribute n = false) ->
  SerializeToXML b
  = match document_children b p with
    | [] | [_] => None
    | cs => Some (XMLNode CXT_Element "PAMRasterBand" cs)
    end.
Proof.
  intros Hp Hh Hr Hm. cbv beta delta [SerializeToXML]. rewrite Hp. cbv beta iota.
  head_zeta.
  head_is (doc_band b)
    ltac:(unfold doc_band; destruct (nBand b >? 0); reflexivity).
  head_zeta. head_zeta.
  head_is (doc_band b ++ doc_Description b)
    ltac:(unfold doc_Description; destruct (strlen (GetDescription b) >? 0);
          [ rewrite CPLSetXMLValue_new by new_child; reflexivity
          | rewrite app_nil_r; reflexivity ]).
  head_zeta.
  head_is ((doc_band b ++ doc_Description b) ++ doc_NoDataValue p)
    ltac:(unfold doc_NoDataValue; destruct (bNoDataValueSet p);
          [ rewrite NoDataValue_to_XML_new by absent; reflexivity |];
          destruct (bNoDataValueSetAsInt64 p);
          [ rewrite CPLSetXMLValue_new by new_child; reflexivity |];
          destruct (bNoDataValueSetAsUInt64 p);
          [ rewrite CPLSetXMLValue_new by new_child; reflexivity
          | rewrite app_nil_r; reflexivity ]).
  head_zeta.
  head_is (((doc_band b ++ doc_Description b) ++ doc_NoDataValue p) ++ doc_UnitType p)
    ltac:(unfold doc_UnitType; destruct (pszUnitType p);
          [ rewrite CPLSetXMLValue_new by new_child; reflexivity
          | rewrite app_nil_r; reflexivity ]).
  head_zeta.
  head_is ((((doc_band b ++ doc_Description b) ++ doc_NoDataValue p) ++ doc_UnitType p)
           ++ doc_Offset p)
    ltac:(unfold doc_Offset; destruct (negb (PrimFloat.eqb (dfOffset p) 0));
          [ rewrite CPLSetXMLValue_new by new_child; reflexivity
          | rewrite app_nil_r; reflexivity ]).
  head_zeta.
  head_is (((((doc_band b ++ doc_Description b) ++ doc_NoDataValue p) ++ doc_UnitType p)
            ++ doc_Offset p) ++ doc_Scale p)
    ltac:(unfold doc_Scale; destruct (negb (PrimFloat.eqb (dfScale p) 1));
          [ rewrite CPLSetXMLValue_new by new_child; reflexivity
          | rewrite app_nil_r; reflexivity ]).
  head_zeta.
  head_is ((((((doc_band b ++ doc_Description b) ++ doc_NoDataValue p) ++ doc_UnitType p)
             ++ doc_Offset p) ++ doc_Scale p) ++ doc_ColorInterp p)
    ltac:(unfold doc_ColorInterp;
          destruct (negb (GDALColorInterp_eqb (eColorInterp p) GCI_Undefined));
          [ rewrite CPLSetXMLValue_new by new_child; reflexivity
          | rewrite app_nil_r; reflexivity ]).
  head_zeta.
  head_is (((((((doc_band b ++ doc_Description b) ++ doc_NoDataValue p) ++ doc_UnitType p)
              ++ doc_Offset p) ++ doc_Scale p) ++ doc_ColorInterp p)
           ++ doc_CategoryNames p)
    ltac:(unfold doc_CategoryNames; destruct (papszCategoryNames p);
          [ rewrite CPLCreateXMLNode_in_element by reflexivity; reflexivity
          | rewrite app_nil_r; reflexivity ]).
  head_zeta.
  head_is ((((((((doc_band b ++ doc_Description b) ++ doc_NoDataValue p) ++ doc_UnitType p)
               ++ doc_Offset p) ++ doc_Scale p) ++ doc_ColorInterp p)
            ++ doc_CategoryNames p) ++ doc_ColorTable p)
    ltac:(unfold doc_ColorTable; destruct (poColorTable p);
          [ rewrite CPLCreateXMLNode_in_element by reflexivity; reflexivity
          | rewrite app_nil_r; reflexivity ]).
  head_zeta.
  head_is (((((((((doc_band b ++ doc_Description b) ++ doc_NoDataValue p)
                 ++ doc_UnitType p) ++ doc_Offset p) ++ doc_Scale p) ++ doc_ColorInterp p)
             ++ doc_CategoryNames p) ++ doc_ColorTable p) ++ doc_MinMax p)
    ltac:(unfold doc_MinMax; destruct (bHaveMinMax p);
          [ rewrite CPLSetXMLValue_new by new_child;
            rewrite CPLSetXMLValue_new by new_child;
            rewrite <- (app_assoc _ [_] [_]); reflexivity
          | rewrite app_nil_r; reflexivity ]).
  head_zeta.
  head_is ((((((((((doc_band b ++ doc_Description b) ++ doc_NoDataValue p)
                  ++ doc_UnitType p) ++ doc_Offset p) ++ doc_Scale p) ++ doc_ColorInterp p)
              ++ doc_CategoryNames p) ++ doc_ColorTable p) ++ doc_MinMax p)
           ++ doc_Stats p)
    ltac:(unfold doc_Stats; destruct (bHaveStats p);
          [ rewrite CPLSetXMLValue_new by new_child;
            rewrite CPLSetXMLValue_new by new_child;
            rewrite <- (app_assoc _ [_] [_]); reflexivity
          | rewrite app_nil_r; reflexivity ]).
  head_zeta.
  head_is (((((((((((doc_band b ++ doc_Description b) ++ doc_NoDataValue p)
                   ++ doc_UnitType p) ++ doc_Offset p) ++ doc_Scale p)
                ++ doc_ColorInterp p) ++ doc_CategoryNames p) ++ doc_ColorTable p)
             ++ doc_MinMax p) ++ doc_Stats p) ++ doc_Histograms p)
    ltac:(unfold doc_Histograms; destruct (psSavedHistograms p) as [h|] eqn:Hsh;
          [ rewrite CPLAddXMLChild_append by (apply Hh; reflexivity); reflexivity
          | rewrite app_nil_r; reflexivity ]).
  head_zeta.
  head_is ((((((((((((doc_band b ++ doc_Description b) ++ doc_NoDataValue p)
                    ++ doc_UnitType p) ++ doc_Offset p) ++ doc_Scale p)
                 ++ doc_ColorInterp p) ++ doc_CategoryNames p) ++ doc_ColorTable p)
              ++ doc_MinMax p) ++ doc_Stats p) ++ doc_Histograms p) ++ doc_RAT p)
    ltac:(unfold doc_RAT; destruct (poDefaultRAT p) as [rat|] eqn:Hrat;
          [ destruct (RAT_Serialize E rat) as [n|] eqn:Hn;
            [ rewrite CPLAddXMLChild_append by (apply (Hr rat n); auto); reflexivity
            | rewrite app_nil_r; reflexivity ]
          | rewrite app_nil_r; reflexivity ]).
  head_zeta.
  head_is (document_children b p)
    ltac:(unfold document_children, doc_Metadata; rewrite !app_assoc;
          rewrite CPLAddXMLChild_append;
          [ reflexivity
          | destruct (MDMD_Serialize E (oMDMD b)) as [|n r] eqn:Hmd;
            [ exact I | exact (Hm n r eq_refl) ] ]).
  head_zeta. cbn [psChild].
  destruct (document_children b p) as [|c [|c' r]]; reflexivity.
Qed.

End SerializedDocument.

(** ** What XMLInit finds in the document of a record *)

Lemma CPLGetXMLNode_child t R (cs : list CPLXMLNode) X :
  tokenize X = [X] -> CPLGetXMLNode (XMLNode t R cs) X = find (named X) cs.
Proof.
  intros H. unfold CPLGetXMLNode. rewrite H. cbn [CPLGetXMLNode_tokens psChild].
  destruct (find (named X) cs); reflexivity.
Qed.

Lemma strlen_zero s : (strlen s >? 0) = false -> s = "".
Proof.
  destruct s as [|c r]; [reflexivity|]. unfold strlen. cbn [String.length].
  intros H. rewrite Z.gtb_ltb, Z.ltb_ge in H. lia.
Qed.

Ltac skip_groups :=
  unfold document_children; repeat (rewrite find_skip by absent).

Ltac found_or_absent :=
  first [ apply find_hit; reflexivity
        | rewrite find_nil_app; apply find_pos_find_None; absent ].

Section Lookups.

Variable E : Env.
Variable b : GDALPamRasterBand E.
Variable p : GDALRasterBandPamInfo E.
Hypothesis Hc : collaborators_round_trip b p.

Local Abbreviation doc := (XMLNode CXT_Element "PAMRasterBand" (document_children b p)).

Lemma find_Description :
  find (named "Description") (document_children b p) = hd_error (doc_Description b).
Proof.
  skip_groups. unfold doc_Description.
  destruct (strlen (GetDescription b) >? 0); found_or_absent.
Qed.

Lemma find_NoDataValue :
  find (named "NoDataValue") (document_children b p) = hd_error (doc_NoDataValue p).
Proof.
  skip_groups. unfold doc_NoDataValue.
  destruct (bNoDataValueSet p).
  { apply find_hit. unfold named, is_type.
    rewrite NoDataValue_node_name, NoDataValue_node_type. reflexivity. }
  destruct (bNoDataValueSetAsInt64 p); [found_or_absent|].
  destruct (bNoDataValueSetAsUInt64 p); found_or_absent.
Qed.

Lemma find_UnitType :
  find (named "UnitType") (document_children b p) = hd_error (doc_UnitType p).
Proof. skip_groups. unfold doc_UnitType. destruct (pszUnitType p); found_or_absent. Qed.

Lemma find_Offset :
  find (named "Offset") (document_children b p) = hd_error (doc_Offset p).
Proof. skip_groups. unfold doc_Offset. destruct (negb _); found_or_absent. Qed.

Lemma find_Scale :
  find (named "Scale") (document_children b p) = hd_error (doc_Scale p).
Proof. skip_groups. unfold doc_Scale. destruct (negb _); found_or_absent. Qed.

Lemma find_ColorInterp :
  find (named "ColorInterp") (document_children b p) = hd_error (doc_ColorInterp p).
Proof. skip_groups. unfold doc_ColorInterp. destruct (negb _); found_or_absent. Qed.

Lemma find_CategoryNames :
  find (named "CategoryNames") (document_children b p) = hd_error (doc_CategoryNames p).
Proof.
  skip_groups. unfold doc_CategoryNames. destruct (papszCategoryNames p); found_or_absent.
Qed.

Lemma find_ColorTable :
  find (named "ColorTable") (document_children b p) = hd_error (doc_ColorTable p).
Proof. skip_groups. unfold doc_ColorTable. destruct (poColorTable p); found_or_absent. Qed.

Lemma find_Minimum :
  find (named "Minimum") (document_children b p) = hd_error (doc_MinMax p).
Proof. skip_groups. unfold doc_MinMax. destruct (bHaveMinMax p); found_or_absent. Qed.

Lemma find_Maximum :
  find (named "Maximum") (document_children b p) = nth_error (doc_MinMax p) 1.
Proof.
  skip_groups. unfold doc_MinMax. destruct (bHaveMinMax p); [reflexivity|].
  rewrite find_nil_app. apply find_pos_find_None. absent.
Qed.

Lemma find_Mean :
  find (named "Mean") (document_children b p) = hd_error (doc_Stats p).
Proof. skip_groups. unfold doc_Stats. destruct (bHaveStats p); found_or_absent. Qed.

Lemma find_StandardDeviation :
  find (named "StandardDeviation") (document_children b p) = nth_error (doc_Stats p) 1.
Proof.
  skip_groups. unfold doc_Stats. destruct (bHaveStats p); [reflexivity|].
  rewrite find_nil_app. apply find_pos_find_None. absent.
Qed.

Lemma find_Histograms :
  find (named "Histograms") (document_children b p) = psSavedHistograms p.
Proof.
  skip_groups. unfold doc_Histograms.
  destruct (psSavedHistograms p) as [h|] eqn:Hh; [|found_or_absent].
  destruct Hc as (Hhist & _). destruct (Hhist h Hh) as [Ht Hn].
  apply find_hit. unfold named, is_type. rewrite Ht, Hn. reflexivity.
Qed.

Lemma find_RAT :
  find (named "GDALRasterAttributeTable") (document_children b p)
  = match poDefaultRAT p with
    | Some rat => RAT_Serialize E rat
    | None => None
    end.
Proof.
  skip_groups. unfold doc_RAT.
  destruct (poDefaultRAT p) as [rat|] eqn:Hrat; [|found_or_absent].
  destruct Hc as (_ & Hr & _). destruct (Hr rat Hrat) as (n & -> & Ht & Hn & _).
  apply find_hit. unfold named, is_type. rewrite Ht, Hn. reflexivity.
Qed.

Lemma value_Description : CPLGetXMLValue_or doc "Description" "" = sDescription b.
Proof.
  unfold CPLGetXMLValue_or, CPLGetXMLValue.
  rewrite CPLGetXMLNode_child by reflexivity. rewrite find_Description.
  unfold doc_Description, GetDescription.
  destruct (strlen (sDescription b) >? 0) eqn:Hlen; [reflexivity|].
  symmetry. apply strlen_zero. exact Hlen.
Qed.

Lemma value_NoDataValue :
  CPLGetXMLValue doc "NoDataValue" None
  = if bNoDataValueSet p
    then Some (if PrimFloat.is_nan (dfNoDataValue p) then "nan"
               else Printf_14E E (dfNoDataValue p))
    else if bNoDataValueSetAsInt64 p then Some (Printf_d (nNoDataValueInt64 p))
    else if bNoDataValueSetAsUInt64 p then Some (Printf_u (nNoDataValueUInt64 p))
    else None.
Proof.
  unfold CPLGetXMLValue. rewrite CPLGetXMLNode_child by reflexivity.
  rewrite find_NoDataValue. unfold doc_NoDataValue, NoDataValue_node. cbv zeta.
  destruct (bNoDataValueSet p).
  { destruct (nodata_as_text E (dfNoDataValue p)); reflexivity. }
  destruct (bNoDataValueSetAsInt64 p); [reflexivity|].
  destruct (bNoDataValueSetAsUInt64 p); reflexivity.
Qed.

Lemma value_le_hex_equiv :
  CPLGetXMLValue doc "NoDataValue.le_hex_equiv" None
  = if bNoDataValueSet p
    then if nodata_as_text E (dfNoDataValue p) then None
         else Some (le_hex_equiv E (dfNoDataValue p))
    else None.
Proof.
  unfold CPLGetXMLValue, CPLGetXMLNode.
  change (tokenize "NoDataValue.le_hex_equiv") with ["NoDataValue"; "le_hex_equiv"].
  cbn [CPLGetXMLNode_tokens psChild]. rewrite find_NoDataValue.
  unfold doc_NoDataValue, NoDataValue_node. cbv zeta.
  destruct (bNoDataValueSet p).
  { destruct (nodata_as_text E (dfNoDataValue p)); reflexivity. }
  destruct (bNoDataValueSetAsInt64 p); [reflexivity|].
  destruct (bNoDataValueSetAsUInt64 p); reflexivity.
Qed.

Lemma value_UnitType : CPLGetXMLValue doc "UnitType" None = pszUnitType p.
Proof.
  unfold CPLGetXMLValue. rewrite CPLGetXMLNode_child by reflexivity.
  rewrite find_UnitType. unfold doc_UnitType. destruct (pszUnitType p); reflexivity.
Qed.

Lemma value_Offset :
  CPLGetXMLValue doc "Offset" None
  = if PrimFloat.eqb (dfOffset p) 0 then None else Some (Printf_16g E (dfOffset p)).
Proof.
  unfold CPLGetXMLValue. rewrite CPLGetXMLNode_child by reflexivity.
  rewrite find_Offset. unfold doc_Offset. destruct (PrimFloat.eqb _ _); reflexivity.
Qed.

Lemma value_Scale :
  CPLGetXMLValue doc "Scale" None
  = if PrimFloat.eqb (dfScale p) 1 then None else Some (Printf_16g E (dfScale p)).
Proof.
  unfold CPLGetXMLValue. rewrite CPLGetXMLNode_child by reflexivity.
  rewrite find_Scale. unfold doc_Scale. destruct (PrimFloat.eqb _ _); reflexivity.
Qed.

Lemma value_ColorInterp :
  CPLGetXMLValue doc "ColorInterp" None
  = if GDALColorInterp_eqb (eColorInterp p) GCI_Undefined then None
    else Some (GDALGetColorInterpretationName (eColorInterp p)).
Proof.
  unfold CPLGetXMLValue. rewrite CPLGetXMLNode_child by reflexivity.
  rewrite find_ColorInterp. unfold doc_ColorInterp.
  destruct (GDALColorInterp_eqb _ _); reflexivity.
Qed.

Lemma node_CategoryNames :
  CPLGetXMLNode doc "CategoryNames"
  = option_map CategoryNames_to_XML (papszCategoryNames p).
Proof.
  rewrite CPLGetXMLNode_child by reflexivity. rewrite find_CategoryNames.
  unfold doc_CategoryNames. destruct (papszCategoryNames p); reflexivity.
Qed.

Lemma node_ColorTable :
  CPLGetXMLNode doc "ColorTable" = option_map ColorTable_to_XML (poColorTable p).
Proof.
  rewrite CPLGetXMLNode_child by reflexivity. rewrite find_ColorTable.
  unfold doc_ColorTable. destruct (poColorTable p); reflexivity.
Qed.

Lemma value_Minimum :
  CPLGetXMLValue doc "Minimum" None
  = if bHaveMinMax p then Some (Printf_16g E (dfMin p)) else None.
Proof.
  unfold CPLGetXMLValue. rewrite CPLGetXMLNode_child by reflexivity.
  rewrite find_Minimum. unfold doc_MinMax. destruct (bHaveMinMax p); reflexivity.
Qed.

Lemma value_Maximum :
  CPLGetXMLValue doc "Maximum" None
  = if bHaveMinMax p then Some (Printf_16g E (dfMax p)) else None.
Proof.
  unfold CPLGetXMLValue. rewrite CPLGetXMLNode_child by reflexivity.
  rewrite find_Maximum. unfold doc_MinMax. destruct (bHaveMinMax p); reflexivity.
Qed.

Lemma value_Mean :
  CPLGetXMLValue doc "Mean" None
  = if bHaveStats p then Some (Printf_16g E (dfMean p)) else None.
Proof.
  unfold CPLGetXMLValue. rewrite CPLGetXMLNode_child by reflexivity.
  rewrite find_Mean. unfold doc_Stats. destruct (bHaveStats p); reflexivity.
Qed.

Lemma value_StandardDeviation :
  CPLGetXMLValue doc "StandardDeviation" None
  = if bHaveStats p then Some (Printf_16g E (dfStdDev p)) else None.
Proof.
  unfold CPLGetXMLValue. rewrite CPLGetXMLNode_child by reflexivity.
  rewrite find_StandardDeviation. unfold doc_Stats. destruct (bHaveStats p); reflexivity.
Qed.

Lemma node_Histograms : CPLGetXMLNode doc "Histograms" = psSavedHistograms p.
Proof.
  rewrite CPLGetXMLNode_child by reflexivity. apply find_Histograms.
Qed.

Lemma node_RAT :
  CPLGetXMLNode doc "GDALRasterAttributeTable"
  = match poDefaultRAT p with
    | Some rat => RAT_Serialize E rat
    | None => None
    end.
Proof.
  rewrite CPLGetXMLNode_child by reflexivity. apply find_RAT.
Qed.

End Lookups.

(** ** Values that come back from their text *)

Lemma hex2char_hex_digit d : 0 <= d < 16 -> hex2char (hex_digit d) = d.
Proof.
  intros H.
  assert (Hd : d = 0 \/ d = 1 \/ d = 2 \/ d = 3 \/ d = 4 \/ d = 5 \/ d = 6 \/ d = 7
               \/ d = 8 \/ d = 9 \/ d = 10 \/ d = 11 \/ d = 12 \/ d = 13 \/ d = 14
               \/ d = 15) by lia.
  repeat (destruct Hd as [-> | Hd]; [reflexivity|]). subst d. reflexivity.
Qed.

(** [CPLHexToBinary] reads back the bytes that [CPLBinaryToHex] writes. *)
Lemma CPLHexToBinary_CPLBinaryToHex (bytes : list Z) :
  Forall is_byte bytes -> CPLHexToBinary (CPLBinaryToHex bytes) = bytes.
Proof.
  induction 1 as [|x l Hx _ IH]; [reflexivity|].
  cbn [CPLBinaryToHex CPLHexToBinary]. rewrite IH. unfold is_byte in Hx.
  rewrite !hex2char_hex_digit.
  - f_equal. pose proof (Z.div_mod x 16). lia.
  - apply Z.mod_pos_bound. lia.
  - split; [apply Z.div_pos; lia | apply Z.div_lt_upper_bound; lia].
Qed.

Lemma XML_to_CategoryNames_of_names (names : list string) :
  XML_to_CategoryNames (psChild (CategoryNames_to_XML names)) = names.
Proof.
  unfold CategoryNames_to_XML. cbn [psChild].
  induction names as [|n r IH]; [reflexivity|].
  cbn [map XML_to_CategoryNames]. rewrite IH. reflexivity.
Qed.

Lemma SetColorEntry_at_end (t : GDALColorTable) (e : GDALColorEntry) :
  SetColorEntry t (List.length t) e = t ++ [e].
Proof. induction t as [|x t IH]; [reflexivity|]. simpl. rewrite IH. reflexivity. Qed.

Lemma to_short_of_short z : is_short z -> to_short z = z.
Proof. unfold is_short, to_short. intros H. rewrite Z.mod_small; lia. Qed.

Lemma ColorEntry_of_XML (e : GDALColorEntry) :
  is_short (c1 e) /\ is_short (c2 e) /\ is_short (c3 e) /\ is_short (c4 e) ->
  mkColorEntry
    (to_short (atoi (CPLGetXMLValue_or (ColorEntry_to_XML e) "c1" "0")))
    (to_short (atoi (CPLGetXMLValue_or (ColorEntry_to_XML e) "c2" "0")))
    (to_short (atoi (CPLGetXMLValue_or (ColorEntry_to_XML e) "c3" "0")))
    (to_short (atoi (CPLGetXMLValue_or (ColorEntry_to_XML e) "c4" "255")))
  = e.
Proof.
  intros (H1 & H2 & H3 & H4). destruct e as [e1 e2 e3 e4]. cbn [c1 c2 c3 c4] in *.
  change (CPLGetXMLValue_or (ColorEntry_to_XML (mkColorEntry e1 e2 e3 e4)) "c1" "0")
    with (Printf_d e1).
  change (CPLGetXMLValue_or (ColorEntry_to_XML (mkColorEntry e1 e2 e3 e4)) "c2" "0")
    with (Printf_d e2).
  change (CPLGetXMLValue_or (ColorEntry_to_XML (mkColorEntry e1 e2 e3 e4)) "c3" "0")
    with (Printf_d e3).
  change (CPLGetXMLValue_or (ColorEntry_to_XML (mkColorEntry e1 e2 e3 e4)) "c4" "255")
    with (Printf_d e4).
  unfold is_short in *.
  rewrite !atoi_Printf_d by lia. rewrite !to_short_of_short by (unfold is_short; lia).
  reflexivity.
Qed.

Lemma XML_to_ColorTable_of_entries (t acc : GDALColorTable) :
  Forall (fun e => is_short (c1 e) /\ is_short (c2 e)
                   /\ is_short (c3 e) /\ is_short (c4 e)) t ->
  XML_to_ColorTable (map ColorEntry_to_XML t) acc (List.length acc) = acc ++ t.
Proof.
  intros H. revert acc. induction H as [|e t He _ IH]; intros acc.
  - rewrite app_nil_r. reflexivity.
  - cbn [map XML_to_ColorTable].
    change (is_type CXT_Element (ColorEntry_to_XML e)
            && EQUAL (pszValue (ColorEntry_to_XML e)) "Entry") with true.
    cbn [negb]. cbv zeta. rewrite (ColorEntry_of_XML e He), SetColorEntry_at_end.
    replace (S (List.length acc)) with (List.length (acc ++ [e]))
      by (rewrite length_app; simpl; lia).
    rewrite IH, <- app_assoc. reflexivity.
Qed.

Lemma GDALGetColorInterpretationByName_of_name (c : GDALColorInterp) :
  GDALGetColorInterpretationByName (GDALGetColorInterpretationName c) = c.
Proof. destruct c; reflexivity. Qed.

Lemma GDALColorInterp_eqb_eq (c d : GDALColorInterp) :
  GDALColorInterp_eqb c d = true -> c = d.
Proof. destruct c, d; simpl; intros H; try discriminate H; reflexivity. Qed.

(** ** The blocks of XMLInit leave the fields of the other blocks *)

Section Frames.

Variable E : Env.
Variable A : Type.
Variable f : GDALRasterBandPamInfo E -> A.

Lemma frame_RAT t q :
  (forall x v, f (set_poDefaultRAT x v) = f x) -> f (record_XMLInit_RAT t q) = f q.
Proof.
  intros H. unfold record_XMLInit_RAT. destruct (CPLGetXMLNode t _); [apply H | reflexivity].
Qed.

Lemma frame_Histograms t q :
  (forall x v, f (set_psSavedHistograms x v) = f x) ->
  f (record_XMLInit_Histograms t q) = f q.
Proof.
  intros H. unfold record_XMLInit_Histograms.
  destruct (CPLGetXMLNode t _); [apply H | reflexivity].
Qed.

Lemma frame_Stats t q :
  (forall x u v w, f (set_dfStdDev (set_dfMean (set_bHaveStats x u) v) w) = f x) ->
  f (record_XMLInit_Stats t q) = f q.
Proof.
  intros H. unfold record_XMLInit_Stats.
  destruct (CPLGetXMLValue t "Mean" None); [|reflexivity].
  destruct (CPLGetXMLValue t "StandardDeviation" None); [apply H | reflexivity].
Qed.

Lemma frame_MinMax t q :
  (forall x u v w, f (set_dfMax (set_dfMin (set_bHaveMinMax x u) v) w) = f x) ->
  f (record_XMLInit_MinMax t q) = f q.
Proof.
  intros H. unfold record_XMLInit_MinMax.
  destruct (CPLGetXMLValue t "Minimum" None); [|reflexivity].
  destruct (CPLGetXMLValue t "Maximum" None); [apply H | reflexivity].
Qed.

Lemma frame_ColorTable t q :
  (forall x v, f (record_SetColorTable x (Some v)) = f x) ->
  f (record_XMLInit_ColorTable t q) = f q.
Proof.
  intros H. unfold record_XMLInit_ColorTable.
  destruct (CPLGetXMLNode t _); [apply H | reflexivity].
Qed.

Lemma frame_CategoryNames t q :
  (forall x v, f (set_papszCategoryNames x v) = f x) ->
  f (record_XMLInit_CategoryNames t q) = f q.
Proof.
  intros H. unfold record_XMLInit_CategoryNames.
  destruct (CPLGetXMLNode t _); [apply H | reflexivity].
Qed.

Lemma frame_ColorInterp t q :
  (forall x v, f (set_eColorInterp x v) = f x) -> f (record_XMLInit_ColorInterp t q) = f q.
Proof.
  intros H. unfold record_XMLInit_ColorInterp.
  destruct (CPLGetXMLValue t _ _); [apply H | reflexivity].
Qed.

Lemma frame_UnitType t q :
  (forall x v, f (set_pszUnitType x v) = f x) -> f (record_XMLInit_UnitType t q) = f q.
Proof.
  intros H. unfold record_XMLInit_UnitType, record_SetUnitType.
  destruct (CPLGetXMLValue t _ _); [apply H | reflexivity].
Qed.

Lemma frame_OffsetScale t q :
  (forall x v, f (set_bOffsetSet (set_dfOffset x v) true) = f x) ->
  (forall x v, f (set_bScaleSet (set_dfScale x v) true) = f x) ->
  f (record_XMLInit_OffsetScale t q) = f q.
Proof.
  intros H1 H2.
  assert (H : f (record_SetScale (record_SetOffset q (XML_offset E t)) (XML_scale E t))
              = f q).
  { unfold record_SetScale, record_SetOffset.
    destruct (negb (bOffsetSet q) || _);
      match goal with |- context [if ?c then _ else _] => destruct c end;
      rewrite ?H2, ?H1; reflexivity. }
  unfold record_XMLInit_OffsetScale.
  destruct (CPLGetXMLValue t "Offset" None), (CPLGetXMLValue t "Scale" None);
    first [exact H | reflexivity].
Qed.

Lemma frame_NoDataValue ty t q :
  (forall x v, f (record_SetNoDataValue x v) = f x) ->
  (forall x v, f (record_SetNoDataValueAsInt64 x v) = f x) ->
  (forall x v, f (record_SetNoDataValueAsUInt64 x v) = f x) ->
  f (record_XMLInit_NoDataValue ty t q) = f q.
Proof.
  intros H1 H2 H3. unfold record_XMLInit_NoDataValue.
  destruct (CPLGetXMLValue t "NoDataValue" None); [|reflexivity].
  destruct (CPLGetXMLValue t "NoDataValue.le_hex_equiv" None).
  - cbv zeta. destruct (_ =? 8); apply H1.
  - destruct ty; first [apply H1 | apply H2 | apply H3].
Qed.

End Frames.

Ltac frame_side := intros; reflexivity.

Ltac skip_frames f :=
  repeat first
    [ rewrite (@frame_RAT _ _ f) by frame_side
    | rewrite (@frame_Histograms _ _ f) by frame_side
    | rewrite (@frame_Stats _ _ f) by frame_side
    | rewrite (@frame_MinMax _ _ f) by frame_side
    | rewrite (@frame_ColorTable _ _ f) by frame_side
    | rewrite (@frame_CategoryNames _ _ f) by frame_side
    | rewrite (@frame_ColorInterp _ _ f) by frame_side
    | rewrite (@frame_UnitType _ _ f) by frame_side
    | rewrite (@frame_OffsetScale _ _ f) by frame_side
    | rewrite (@frame_NoDataValue _ _ f) by frame_side ].

(** ** Field by field, XMLInit on the document of a record *)

Section RoundTripFields.

Variable E : Env.
Variable b : GDALPamRasterBand E.
Variable p : GDALRasterBandPamInfo E.
Hypothesis Hc : collaborators_round_trip b p.
Variable ty : GDALDataType.
Variable linked : bool.

Local Abbreviation doc := (XMLNode CXT_Element "PAMRasterBand" (document_children b p)).
Local Abbreviation p0 := (set_poParentDS (new_GDALRasterBandPamInfo E) linked).

Lemma nodata_as_text_not_nan x : nodata_as_text E x = true -> PrimFloat.is_nan x = false.
Proof.
  unfold nodata_as_text. intros H. apply andb_prop in H. destruct H as [H _].
  destruct (PrimFloat.is_nan x) eqn:Hn; [|reflexivity].
  rewrite (eqb_nan_l x _ Hn) in H. discriminate H.
Qed.

Lemma round_trip_nodata_block :
  (nodata_flags_true p <= 1)%nat ->
  nodata_round_trip ty p ->
  let q := record_XMLInit_NoDataValue ty doc p0 in
  nodata_flags q = nodata_flags p
  /\ (bNoDataValueSet p = true ->
      dfNoDataValue q = dfNoDataValue p
      \/ PrimFloat.eqb (dfNoDataValue p) (dfNoDataValue q) = true)
  /\ (bNoDataValueSetAsInt64 p = true -> nNoDataValueInt64 q = nNoDataValueInt64 p)
  /\ (bNoDataValueSetAsUInt64 p = true -> nNoDataValueUInt64 q = nNoDataValueUInt64 p).
Proof.
  intros Hex Hrt q. subst q. unfold record_XMLInit_NoDataValue.
  rewrite (@value_NoDataValue E b p Hc), (@value_le_hex_equiv E b p Hc).
  unfold nodata_round_trip in Hrt. unfold nodata_flags_true, nodata_flags in Hex.
  unfold nodata_flags at 2.
  destruct (bNoDataValueSet p) eqn:H1.
  - destruct (bNoDataValueSetAsInt64 p) eqn:H2;
      [destruct (bNoDataValueSetAsUInt64 p); simpl in Hex; lia|].
    destruct (bNoDataValueSetAsUInt64 p) eqn:H3; [simpl in Hex; lia|].
    destruct (nodata_as_text E (dfNoDataValue p)) eqn:Ht.
    + destruct Hrt as [Hi Hu].
      rewrite (nodata_as_text_not_nan _ Ht).
      assert (Hq : match ty with
                   | GDT_Int64 =>
                       record_SetNoDataValueAsInt64 p0
                         (strtoll (Printf_14E E (dfNoDataValue p)))
                   | GDT_UInt64 =>
                       record_SetNoDataValueAsUInt64 p0
                         (strtoull (Printf_14E E (dfNoDataValue p)))
                   | _ => record_SetNoDataValue p0
                            (CPLAtof E (Printf_14E E (dfNoDataValue p)))
                   end
                   = record_SetNoDataValue p0
                       (CPLAtof E (Printf_14E E (dfNoDataValue p))))
        by (destruct ty; congruence).
      rewrite Hq. split; [reflexivity|]. split; [|split; discriminate].
      intros _. right. unfold nodata_as_text in Ht. apply andb_prop in Ht. apply Ht.
    + destruct Hrt as (Hlen & Hbytes & Hback). cbv zeta. unfold le_hex_equiv.
      rewrite <- Hlen, firstn_all, CPLHexToBinary_CPLBinaryToHex by exact Hbytes.
      rewrite Hlen, Hback. cbn [Z.of_nat Pos.of_succ_nat Pos.succ Z.eqb Pos.eqb].
      split; [reflexivity|]. split; [|split; discriminate].
      intros _. left. reflexivity.
  - destruct (bNoDataValueSetAsInt64 p) eqn:H2.
    + destruct (bNoDataValueSetAsUInt64 p) eqn:H3; [simpl in Hex; lia|].
      destruct Hrt as [-> Hn]. rewrite (strtoll_Printf_d Hn).
      split; [reflexivity|]. split; [discriminate|]. split; [|discriminate].
      intros _. reflexivity.
    + destruct (bNoDataValueSetAsUInt64 p) eqn:H3.
      * destruct Hrt as [-> Hn]. rewrite (strtoull_Printf_u Hn).
        split; [reflexivity|]. split; [discriminate|]. split; [discriminate|].
        intros _. reflexivity.
      * split; [reflexivity|]. split; [|split]; discriminate.
Qed.

Local Abbreviation after_nodata := (record_XMLInit_NoDataValue ty doc p0).
Local Abbreviation p' := (record_XMLInit ty doc p0).

Lemma round_trip_nodata_fields :
  nodata_flags p' = nodata_flags after_nodata
  /\ dfNoDataValue p' = dfNoDataValue after_nodata
  /\ nNoDataValueInt64 p' = nNoDataValueInt64 after_nodata
  /\ nNoDataValueUInt64 p' = nNoDataValueUInt64 after_nodata.
Proof.
  unfold record_XMLInit, nodata_flags.
  skip_frames (@bNoDataValueSet E). skip_frames (@bNoDataValueSetAsInt64 E).
  skip_frames (@bNoDataValueSetAsUInt64 E). skip_frames (@dfNoDataValue E).
  skip_frames (@nNoDataValueInt64 E). skip_frames (@nNoDataValueUInt64 E).
  repeat split.
Qed.

Lemma round_trip_offset_scale :
  numbers_round_trip p ->
  let either := negb (PrimFloat.eqb (dfOffset p) 0) || negb (PrimFloat.eqb (dfScale p) 1) in
  bOffsetSet p' = either /\ bScaleSet p' = either
  /\ (dfOffset p' = dfOffset p
      \/ (PrimFloat.eqb (dfOffset p) 0 = true /\ dfOffset p' = 0%float))
  /\ (dfScale p' = dfScale p
      \/ (PrimFloat.eqb (dfScale p) 1 = true /\ dfScale p' = 1%float)).
Proof.
  intros (Ho & Hs & _) either. subst either. unfold record_XMLInit.
  skip_frames (@bOffsetSet E). skip_frames (@bScaleSet E).
  skip_frames (@dfOffset E). skip_frames (@dfScale E).
  assert (HN : bOffsetSet after_nodata = false /\ bScaleSet after_nodata = false
               /\ dfOffset after_nodata = 0%float /\ dfScale after_nodata = 1%float).
  { skip_frames (@bOffsetSet E). skip_frames (@bScaleSet E).
    skip_frames (@dfOffset E). skip_frames (@dfScale E). repeat split. }
  revert HN. generalize after_nodata. intros q (Hq1 & Hq2 & Hq3 & Hq4).
  unfold record_XMLInit_OffsetScale, XML_offset, XML_scale.
  rewrite (@value_Offset E b p Hc), (@value_Scale E b p Hc).
  unfold record_SetScale, record_SetOffset. rewrite Hq1. cbn [negb orb].
  destruct (PrimFloat.eqb (dfOffset p) 0) eqn:H1, (PrimFloat.eqb (dfScale p) 1) eqn:H2;
    cbn [negb orb bScaleSet bOffsetSet dfOffset dfScale set_bOffsetSet set_dfOffset
         set_bScaleSet set_dfScale]; rewrite ?Hq2; cbn [negb orb];
    cbn [negb orb bScaleSet bOffsetSet dfOffset dfScale set_bOffsetSet set_dfOffset
         set_bScaleSet set_dfScale].
  - split; [exact Hq1|]. split; [reflexivity|]. split; right; split; auto.
  - split; [reflexivity|]. split; [reflexivity|].
    split; [right; split; reflexivity | left; exact (Hs eq_refl)].
  - split; [reflexivity|]. split; [reflexivity|].
    split; [left; exact (Ho eq_refl) | right; split; reflexivity].
  - split; [reflexivity|]. split; [reflexivity|].
    split; left; [exact (Ho eq_refl) | exact (Hs eq_refl)].
Qed.

Lemma round_trip_UnitType : pszUnitType p <> Some "" -> pszUnitType p' = pszUnitType p.
Proof.
  intros Hu. unfold record_XMLInit. skip_frames (@pszUnitType E).
  unfold record_XMLInit_UnitType, record_SetUnitType.
  rewrite (@value_UnitType E b p Hc).
  destruct (pszUnitType p) as [[|c r]|]; [congruence | reflexivity |].
  skip_frames (@pszUnitType E). reflexivity.
Qed.

Lemma round_trip_eColorInterp :
  eColorInterp p' = match poColorTable p with
                    | Some _ => GCI_PaletteIndex
                    | None => eColorInterp p
                    end.
Proof.
  unfold record_XMLInit. skip_frames (@eColorInterp E).
  unfold record_XMLInit_ColorTable. rewrite (@node_ColorTable E b p Hc).
  destruct (poColorTable p); cbn [option_map]; [reflexivity|].
  skip_frames (@eColorInterp E).
  unfold record_XMLInit_ColorInterp. rewrite (@value_ColorInterp E b p Hc).
  destruct (GDALColorInterp_eqb (eColorInterp p) GCI_Undefined) eqn:Hu.
  - skip_frames (@eColorInterp E). apply GDALColorInterp_eqb_eq in Hu. rewrite Hu.
    reflexivity.
  - cbn [eColorInterp set_eColorInterp].
    apply GDALGetColorInterpretationByName_of_name.
Qed.

Lemma round_trip_CategoryNames :
  papszCategoryNames p <> Some [] -> papszCategoryNames p' = papszCategoryNames p.
Proof.
  intros Hn. unfold record_XMLInit. skip_frames (@papszCategoryNames E).
  unfold record_XMLInit_CategoryNames. rewrite (@node_CategoryNames E b p Hc).
  destruct (papszCategoryNames p) as [[|n r]|]; cbn [option_map]; [congruence | |].
  - rewrite XML_to_CategoryNames_of_names. reflexivity.
  - skip_frames (@papszCategoryNames E). reflexivity.
Qed.

Lemma round_trip_ColorTable :
  (forall t, poColorTable p = Some t ->
     Forall (fun e => is_short (c1 e) /\ is_short (c2 e)
                      /\ is_short (c3 e) /\ is_short (c4 e)) t) ->
  poColorTable p' = poColorTable p.
Proof.
  intros Ht. unfold record_XMLInit. skip_frames (@poColorTable E).
  unfold record_XMLInit_ColorTable. rewrite (@node_ColorTable E b p Hc).
  destruct (poColorTable p) as [t|]; cbn [option_map].
  - unfold ColorTable_to_XML. cbn [psChild].
    pose proof (XML_to_ColorTable_of_entries [] (Ht t eq_refl)) as HX.
    cbn [List.length app] in HX. rewrite HX. reflexivity.
  - skip_frames (@poColorTable E). reflexivity.
Qed.

Lemma round_trip_MinMax :
  numbers_round_trip p ->
  bHaveMinMax p' = bHaveMinMax p
  /\ (bHaveMinMax p = true -> dfMin p' = dfMin p /\ dfMax p' = dfMax p).
Proof.
  intros (_ & _ & Hm & _). unfold record_XMLInit.
  skip_frames (@bHaveMinMax E). skip_frames (@dfMin E). skip_frames (@dfMax E).
  unfold record_XMLInit_MinMax.
  rewrite (@value_Minimum E b p Hc), (@value_Maximum E b p Hc).
  destruct (bHaveMinMax p).
  - destruct (Hm eq_refl) as [-> ->]. repeat split.
  - split; [|discriminate]. skip_frames (@bHaveMinMax E). reflexivity.
Qed.

Lemma round_trip_Stats :
  numbers_round_trip p ->
  bHaveStats p' = bHaveStats p
  /\ (bHaveStats p = true -> dfMean p' = dfMean p /\ dfStdDev p' = dfStdDev p).
Proof.
  intros (_ & _ & _ & Hm). unfold record_XMLInit.
  skip_frames (@bHaveStats E). skip_frames (@dfMean E). skip_frames (@dfStdDev E).
  unfold record_XMLInit_Stats.
  rewrite (@value_Mean E b p Hc), (@value_StandardDeviation E b p Hc).
  destruct (bHaveStats p).
  - destruct (Hm eq_refl) as [-> ->]. repeat split.
  - split; [|discriminate]. skip_frames (@bHaveStats E). reflexivity.
Qed.

Lemma round_trip_Histograms : psSavedHistograms p' = psSavedHistograms p.
Proof.
  unfold record_XMLInit. skip_frames (@psSavedHistograms E).
  unfold record_XMLInit_Histograms. rewrite (@node_Histograms E b p Hc).
  destruct (psSavedHistograms p); [reflexivity|].
  skip_frames (@psSavedHistograms E). reflexivity.
Qed.

Lemma round_trip_RAT : poDefaultRAT p' = poDefaultRAT p.
Proof.
  unfold record_XMLInit, record_XMLInit_RAT. rewrite (@node_RAT E b p Hc).
  destruct (poDefaultRAT p) as [rat|] eqn:Hrat.
  - destruct Hc as (_ & Hr & _). destruct (Hr rat Hrat) as (n & -> & _ & _ & ->).
    reflexivity.
  - skip_frames (@poDefaultRAT E). reflexivity.
Qed.

End RoundTripFields.

(** ** Serializing, then loading (C1) *)

(** C1, as the code has it. Let a band have a record whose collaborators
    serialize to their elements, whose nodata, offset, scale and
    statistics read back from the text that is written for them, and whose
    strings and palette are as the setters store them, and let
    [SerializeToXML] give a document for it. [XMLInit] with this document
    on a band of the same pixel type with a new record succeeds, and the
    record it leaves has: the description; the nodata flags, and the nodata
    of the form that is set (a double that was written as text alone up to
    [==]); the unit type; the offset and the scale, up to [==] with their
    defaults, with both "set" flags true when one of them differs from its
    default and both false otherwise; the category names; the palette; the
    color interpretation when there is no palette and [GCI_PaletteIndex]
    when there is one; the min/max and the statistics when their flag is
    set; the histogram list; the attribute table. *)
Theorem XMLInit_SerializeToXML_round_trip (E : Env) (b b0 : GDALPamRasterBand E)
  (p : GDALRasterBandPamInfo E) (psTree : CPLXMLNode) (linked : bool) :
  psPam b = Some p ->
  SerializeToXML b = Some psTree ->
  nodata_exclusive b ->
  collaborators_round_trip b p ->
  values_as_stored p ->
  nodata_round_trip (eDataType b) p ->
  numbers_round_trip p ->
  psPam (PamInitialize b0) = Some (set_poParentDS (new_GDALRasterBandPamInfo E) linked) ->
  eDataType b0 = eDataType b ->
  exists b' p',
    XMLInit b0 psTree = Some (b', CE_None) /\ psPam b' = Some p'
    /\ GetDescription b' = GetDescription b
    /\ nodata_flags p' = nodata_flags p
    /\ (bNoDataValueSet p = true ->
        dfNoDataValue p' = dfNoDataValue p
        \/ PrimFloat.eqb (dfNoDataValue p) (dfNoDataValue p') = true)
    /\ (bNoDataValueSetAsInt64 p = true -> nNoDataValueInt64 p' = nNoDataValueInt64 p)
    /\ (bNoDataValueSetAsUInt64 p = true -> nNoDataValueUInt64 p' = nNoDataValueUInt64 p)
    /\ pszUnitType p' = pszUnitType p
    /\ (let either := negb (PrimFloat.eqb (dfOffset p) 0)
                      || negb (PrimFloat.eqb (dfScale p) 1) in
        bOffsetSet p' = either /\ bScaleSet p' = either
        /\ (dfOffset p' = dfOffset p
            \/ (PrimFloat.eqb (dfOffset p) 0 = true /\ dfOffset p' = 0%float))
        /\ (dfScale p' = dfScale p
            \/ (PrimFloat.eqb (dfScale p) 1 = true /\ dfScale p' = 1%float)))
    /\ eColorInterp p' = match poColorTable p with
                         | Some _ => GCI_PaletteIndex
                         | None => eColorInterp p
                         end
    /\ papszCategoryNames p' = papszCategoryNames p
    /\ poColorTable p' = poColorTable p
    /\ (bHaveMinMax p' = bHaveMinMax p
        /\ (bHaveMinMax p = true -> dfMin p' = dfMin p /\ dfMax p' = dfMax p))
    /\ (bHaveStats p' = bHaveStats p
        /\ (bHaveStats p = true -> dfMean p' = dfMean p /\ dfStdDev p' = dfStdDev p))
    /\ psSavedHistograms p' = psSavedHistograms p
    /\ poDefaultRAT p' = poDefaultRAT p.
Proof.
  intros Hp Hser Hex Hc (Hu & Hn & Ht) Hnd Hnum Hp0 Hty.
  assert (Hdoc : psTree = XMLNode CXT_Element "PAMRasterBand" (document_children b p)).
  { rewrite (SerializeToXML_document b Hp) in Hser.
    - destruct (document_children b p) as [|c [|c' r]]; try discriminate Hser.
      injection Hser as <-. reflexivity.
    - intros h Hh. destruct Hc as (H1 & _). destruct (H1 h Hh) as [Ht' _].
      unfold is_type. rewrite Ht'. reflexivity.
    - intros rat n Hr Hs. destruct Hc as (_ & H2 & _).
      destruct (H2 rat Hr) as (n' & Hs' & Ht' & _). rewrite Hs in Hs'.
      injection Hs' as <-. unfold is_type. rewrite Ht'. reflexivity.
    - intros n r Hmd. destruct Hc as (_ & _ & H3). unfold elements_named in H3.
      rewrite Hmd in H3. inversion H3 as [|? ? [Ht' _] _]. unfold is_type.
      rewrite Ht'. reflexivity. }
  subst psTree.
  destruct (XMLInit_record_view b0
              (XMLNode CXT_Element "PAMRasterBand" (document_children b p)) Hp0)
    as (b' & Hx & _ & Hp' & Hd & _).
  exists b', (record_XMLInit (eDataType b0)
                (XMLNode CXT_Element "PAMRasterBand" (document_children b p))
                (set_poParentDS (new_GDALRasterBandPamInfo E) linked)).
  split; [exact Hx|]. split; [exact Hp'|].
  split; [unfold GetDescription; rewrite Hd; apply (value_Description Hc)|].
  unfold nodata_exclusive in Hex. rewrite Hp in Hex. rewrite <- Hty in Hnd.
  destruct (round_trip_nodata_fields b p (eDataType b0) linked) as (Hf1 & Hf2 & Hf3 & Hf4).
  destruct (round_trip_nodata_block Hc (eDataType b0) linked Hex Hnd) as (Hb1 & Hb2 & Hb3 & Hb4).
  split; [rewrite Hf1; exact Hb1|].
  split; [rewrite Hf2; exact Hb2|].
  split; [rewrite Hf3; exact Hb3|].
  split; [rewrite Hf4; exact Hb4|].
  split; [exact (round_trip_UnitType Hc (eDataType b0) linked Hu)|].
  split; [exact (round_trip_offset_scale Hc (eDataType b0) linked Hnum)|].
  split; [exact (round_trip_eColorInterp Hc (eDataType b0) linked)|].
  split; [exact (round_trip_CategoryNames Hc (eDataType b0) linked Hn)|].
  split; [exact (round_trip_ColorTable Hc (eDataType b0) linked Ht)|].
  split; [exact (round_trip_MinMax Hc (eDataType b0) linked Hnum)|].
  split; [exact (round_trip_Stats Hc (eDataType b0) linked Hnum)|].
  split; [exact (round_trip_Histograms Hc (eDataType b0) linked)|].
  exact (round_trip_RAT Hc (eDataType b0) linked).
Qed.

Lemma XMLInit_SerializeToXML_round_trip_witness :
  SerializeToXML ref_full_band = Some ref_full_tree
  /\ nodata_round_trip GDT_Byte ref_full_record
  /\ numbers_round_trip ref_full_record
  /\ exists b' p',
       XMLInit ref_band ref_full_tree = Some (b', CE_None) /\ psPam b' = Some p'
       /\ GetDescription b' = "elevation"
       /\ nodata_flags p' = [true; false; false]
       /\ pszUnitType p' = Some "m"
       /\ bOffsetSet p' = true /\ bScaleSet p' = true
       /\ eColorInterp p' = GCI_PaletteIndex
       /\ papszCategoryNames p' = Some ["water"; ""; "land"]
       /\ poColorTable p' = Some [mkColorEntry 255 0 0 255; mkColorEntry 0 128 0 255]
       /\ bHaveMinMax p' = true /\ dfMin p' = 0%float /\ dfMax p' = 255%float
       /\ psSavedHistograms p' = Some ref_histograms.
Proof.
  assert (Hser : SerializeToXML ref_full_band = Some ref_full_tree)
    by (vm_compute; reflexivity).
  assert (Hbytes : double_to_le_bytes ref_env 0.5 = [0; 0; 0; 0; 0; 0; 224; 63])
    by (vm_compute; reflexivity).
  assert (Hnd : nodata_round_trip GDT_Byte ref_full_record).
  { unfold nodata_round_trip.
    change (bNoDataValueSet ref_full_record) with true.
    change (dfNoDataValue ref_full_record) with 0.5%float. cbv iota.
    replace (nodata_as_text ref_env 0.5) with false by (vm_compute; reflexivity).
    unfold bytes_round_trip. rewrite Hbytes.
    split; [reflexivity|]. split; [|vm_compute; reflexivity].
    repeat constructor; unfold is_byte; lia. }
  assert (Hnum : numbers_round_trip ref_full_record).
  { unfold numbers_round_trip.
    change (dfOffset ref_full_record) with 2.5%float.
    change (dfScale ref_full_record) with 1%float.
    change (bHaveMinMax ref_full_record) with true.
    change (bHaveStats ref_full_record) with false.
    change (dfMin ref_full_record) with 0%float.
    change (dfMax ref_full_record) with 255%float.
    split; [intros _; vm_compute; reflexivity|].
    split; [intros H; vm_compute in H; discriminate H|].
    split; [intros _; split; vm_compute; reflexivity|].
    intros H; discriminate H. }
  split; [exact Hser|]. split; [exact Hnd|]. split; [exact Hnum|].
  assert (Hex : nodata_exclusive ref_full_band).
  { unfold nodata_exclusive. change (psPam ref_full_band) with (Some ref_full_record).
    cbv iota. apply le_n. }
  assert (Hc : collaborators_round_trip ref_full_band ref_full_record).
  { split; [|split].
    - intros h H. change (Some ref_histograms = Some h) in H. injection H as <-.
      split; reflexivity.
    - intros rat H. discriminate H.
    - apply Forall_nil. }
  assert (Hv : values_as_stored ref_full_record).
  { split; [|split].
    - intros H. discriminate H.
    - intros H. discriminate H.
    - intros t H.
      change (Some [mkColorEntry 255 0 0 255; mkColorEntry 0 128 0 255] = Some t) in H.
      injection H as <-. repeat constructor; unfold is_short; simpl; lia. }
  destruct (@XMLInit_SerializeToXML_round_trip ref_env ref_full_band ref_band
              ref_full_record ref_full_tree true
              eq_refl Hser Hex Hc Hv Hnd Hnum eq_refl eq_refl)
    as (b' & p' & H1 & H2 & H3 & H4 & _ & _ & _ & H5 & (H6 & H7 & _) & H8 & H9 & H10
        & (H11 & H12) & _ & H13 & _).
  destruct (H12 eq_refl) as [H14 H15].
  exists b', p'.
  split; [exact H1|]. split; [exact H2|]. split; [exact H3|]. split; [exact H4|].
  split; [exact H5|]. split; [exact H6|]. split; [exact H7|]. split; [exact H8|].
  split; [exact H9|]. split; [exact H10|]. split; [exact H11|].
  split; [exact H14|]. split; [exact H15|]. exact H13.
Defined.

(** C1 as stated fails. A palette set before the color interpretation
    "gray" comes back with the interpretation "palette"; an offset that is
    set to 0 next to a unit type comes back not set; a nodata of the 64-bit
    signed form on a band of type Byte comes back in the double form. *)
Lemma round_trip_changes_set_fields :
  (option_map (@eColorInterp ref_env) (psPam ref_gray_palette_band) = Some GCI_GrayIndex
   /\ option_map (@eColorInterp ref_env) (reloaded ref_gray_palette_band)
      = Some GCI_PaletteIndex)
  /\ (option_map (@bOffsetSet ref_env) (psPam ref_zero_offset_band) = Some true
      /\ option_map (@bOffsetSet ref_env) (reloaded ref_zero_offset_band) = Some false)
  /\ (option_map (@nodata_flags ref_env) (psPam ref_int64_nodata_band)
      = Some [false; true; false]
      /\ option_map (@nodata_flags ref_env) (reloaded ref_int64_nodata_band)
         = Some [true; false; false]).
Proof.
  repeat split; vm_compute; reflexivity.
Qed.

(** ** The counts of a histogram and their text *)

Lemma print_digits_app fuel : forall n acc suffix,
  (print_digits fuel n acc ++ suffix)%string = print_digits fuel n (acc ++ suffix)%string.
Proof.
  induction fuel as [|f IH]; intros n acc suffix; [reflexivity|].
  cbn [print_digits]. cbv zeta. destruct (n / 10 =? 0); [reflexivity|].
  rewrite IH. reflexivity.
Qed.

Lemma parse_digits_Printf_u_app c suffix :
  0 <= c -> parse_digits (Printf_u c ++ suffix) 0 = parse_digits suffix c.
Proof.
  intros Hc. unfold Printf_u. rewrite print_digits_app. apply parse_print_digits.
  split; [exact Hc | apply Printf_u_fuel, Hc].
Qed.

Lemma strtoll_Printf_u_app c suffix :
  0 <= c <= LLONG_MAX -> parse_digits suffix c = c ->
  strtoll (Printf_u c ++ suffix) = c.
Proof.
  intros Hc Hs. unfold strtoll.
  assert (Hp : parse_integer (Printf_u c ++ suffix) = c).
  { unfold Printf_u.
    destruct (print_digits_head (Z.to_nat (Z.log2 c)) "" (proj1 Hc))
      as (d & r & Hd & Heq).
    rewrite Heq. cbn [append]. rewrite (parse_integer_digit_head (r ++ suffix) Hd).
    change (String (digit_char d) (r ++ suffix))
      with (String (digit_char d) r ++ suffix)%string.
    rewrite <- Heq. fold (Printf_u c).
    rewrite parse_digits_Printf_u_app by apply Hc. exact Hs. }
  rewrite Hp. unfold clamp, LLONG_MIN in *.
  destruct (c <? - 2 ^ 63) eqn:H1; [apply Z.ltb_lt in H1; lia|].
  destruct (LLONG_MAX <? c) eqn:H2; [apply Z.ltb_lt in H2; lia|]. reflexivity.
Qed.

Lemma digit_char_not_bar d : 0 <= d <= 9 -> Ascii.eqb (digit_char d) "|" = false.
Proof.
  intros H.
  assert (Hd : d = 0 \/ d = 1 \/ d = 2 \/ d = 3 \/ d = 4 \/ d = 5 \/ d = 6
               \/ d = 7 \/ d = 8 \/ d = 9) by lia.
  repeat (destruct Hd as [-> | Hd]; [reflexivity|]). subst. reflexivity.
Qed.

Lemma skip_print_digits fuel : forall n acc,
  skip_to_next_number (print_digits fuel n acc) = skip_to_next_number acc.
Proof.
  induction fuel as [|f IH]; intros n acc; [reflexivity|].
  cbn [print_digits]. cbv zeta.
  assert (Hd : skip_to_next_number (String (digit_char (n mod 10)) acc)
               = skip_to_next_number acc).
  { cbn [skip_to_next_number]. rewrite digit_char_not_bar; [reflexivity|].
    pose proof (Z.mod_pos_bound n 10). lia. }
  destruct (n / 10 =? 0); [exact Hd|]. rewrite IH. exact Hd.
Qed.

Lemma skip_Printf_u_bar c rest :
  skip_to_next_number (Printf_u c ++ String "|" rest) = rest.
Proof.
  unfold Printf_u. rewrite print_digits_app, skip_print_digits. reflexivity.
Qed.

Lemma length_print_digits fuel : forall n acc,
  (String.length acc <= String.length (print_digits fuel n acc))%nat.
Proof.
  induction fuel as [|f IH]; intros n acc; [apply le_n|].
  cbn [print_digits]. cbv zeta. destruct (n / 10 =? 0).
  - cbn [String.length]. lia.
  - eapply Nat.le_trans; [|apply IH]. cbn [String.length]. lia.
Qed.

Lemma length_Printf_u c : (1 <= String.length (Printf_u c))%nat.
Proof.
  unfold Printf_u. cbn [print_digits]. cbv zeta. destruct (c / 10 =? 0).
  - cbn [String.length]. lia.
  - eapply Nat.le_trans; [|apply length_print_digits]. cbn [String.length]. lia.
Qed.

Lemma string_length_app (a c : string) :
  String.length (a ++ c) = (String.length a + String.length c)%nat.
Proof. induction a as [|x a IH]; simpl; [reflexivity|]. rewrite IH. reflexivity. Qed.

Lemma length_print_HistCounts n : forall i l,
  (2 * n - 1 <= String.length (print_HistCounts n i l))%nat.
Proof.
  induction n as [|k IH]; intros i l; [simpl; lia|].
  cbn [print_HistCounts]. rewrite !string_length_app.
  pose proof (length_Printf_u (nth i l 0)) as H1. specialize (IH (S i) l).
  destruct k as [|k']; cbn [String.length] in *; lia.
Qed.

Lemma firstn_skipn_S {A : Type} (d : A) k : forall i (l : list A),
  (i < List.length l)%nat ->
  firstn (S k) (skipn i l) = nth i l d :: firstn k (skipn (S i) l).
Proof.
  intros i l. revert i. induction l as [|x l IH]; intros i Hi; [simpl in Hi; lia|].
  destruct i as [|i]; [reflexivity|].
  cbn [skipn nth]. simpl in Hi. rewrite IH by lia. reflexivity.
Qed.

(** The loop of [PamParseHistogram] reads back the counts that the loop of
    [PamHistogramToXMLTree] has written, as long as they fit [long long]. *)
Lemma parse_print_HistCounts n : forall i l,
  (i + n <= List.length l)%nat ->
  Forall (fun c => 0 <= c <= LLONG_MAX) l ->
  parse_HistCounts n (print_HistCounts n i l) = firstn n (skipn i l).
Proof.
  induction n as [|k IH]; intros i l Hlen Hl; [reflexivity|].
  assert (Hc : 0 <= nth i l 0 <= LLONG_MAX).
  { rewrite Forall_forall in Hl. apply Hl, nth_In. lia. }
  rewrite (firstn_skipn_S 0) by lia.
  cbn [print_HistCounts parse_HistCounts]. unfold CPLAtoGIntBig.
  destruct k as [|k'].
  - cbn [print_HistCounts]. rewrite strtoll_Printf_u_app by auto.
    unfold to_uint64. rewrite Z.mod_small by (unfold LLONG_MAX in Hc; lia).
    reflexivity.
  - change ("|" ++ print_HistCounts (S k') (S i) l)%string
      with (String "|" (print_HistCounts (S k') (S i) l)).
    rewrite strtoll_Printf_u_app by auto.
    rewrite skip_Printf_u_bar, IH by (auto; lia).
    unfold to_uint64. rewrite Z.mod_small by (unfold LLONG_MAX in Hc; lia).
    reflexivity.
Qed.

Section HistogramText.

Variable E : Env.

(** A descriptor that [PamHistogramToXMLTree] builds for [nBuckets] counts
    within [long long] is decoded by [PamParseHistogram] to the same
    counts and bucket count, and to the min and max that their text reads
    back to. *)
Lemma PamParseHistogram_descriptor_of dfMin dfMax (panHistogram : list Z)
  bI bA dfMin0 dfMax0 nBuckets0 :
  let nBuckets := Z.of_nat (List.length panHistogram) in
  0 < nBuckets <= (INT_MAX - 10) / 12 ->
  Forall (fun c => 0 <= c <= LLONG_MAX) panHistogram ->
  VSICalloc_ok E 8 nBuckets = true ->
  PamParseHistogram E (Some (descriptor_of E dfMin dfMax nBuckets panHistogram bI bA))
    dfMin0 dfMax0 nBuckets0 true
  = mkParsed true (CPLAtofM E (Printf_16g E dfMin)) (CPLAtofM E (Printf_16g E dfMax))
      nBuckets (Some panHistogram) [].
Proof.
  intros nBuckets Hn Hl Hcalloc. unfold PamParseHistogram, descriptor_of.
  destruct (HistItem_node_fields (Printf_16g E dfMin) (Printf_16g E dfMax)
              (Printf_d nBuckets) (Printf_d bI) (Printf_d bA)
              (print_HistCounts (Z.to_nat nBuckets) 0 panHistogram))
    as (_ & H1 & _ & _ & _ & _ & H6 & H7 & H8).
  rewrite H1, H6, H7, H8. cbv zeta.
  assert (Hmax : (INT_MAX - 10) / 12 = 178956969) by reflexivity.
  assert (Hhalf : INT_MAX / 2 = 1073741823) by reflexivity.
  rewrite atoi_Printf_d by lia.
  destruct (nBuckets <=? 0) eqn:H0; [apply Z.leb_le in H0; lia|].
  destruct (nBuckets >? INT_MAX / 2) eqn:H2;
    [rewrite Z.gtb_ltb in H2; apply Z.ltb_lt in H2; lia|].
  cbn [orb negb].
  assert (Hlen : (strlen (print_HistCounts (Z.to_nat nBuckets) 0 panHistogram)
                  <? size_t (2 * size_t nBuckets - 1)) = false).
  { apply Z.ltb_ge. unfold size_t, strlen.
    rewrite (Z.mod_small nBuckets) by lia. rewrite Z.mod_small by lia.
    pose proof (length_print_HistCounts (Z.to_nat nBuckets) 0 panHistogram). lia. }
  rewrite Hlen, Hcalloc. cbn [negb].
  replace (Z.to_nat nBuckets) with (List.length panHistogram)
    by (unfold nBuckets; rewrite Nat2Z.id; reflexivity).
  rewrite parse_print_HistCounts by (auto; simpl; lia).
  cbn [skipn]. rewrite firstn_all. reflexivity.
Qed.

End HistogramText.

(** ** Further properties: the histogram cache *)

Section HistogramCache.

Variable E : Env.
Implicit Types (b : GDALPamRasterBand E) (p : GDALRasterBandPamInfo E).

Lemma is_HistItem_descriptor_of dfMin dfMax n (hist : list Z) bI bA :
  is_HistItem (descriptor_of E dfMin dfMax n hist bI bA) = true.
Proof. reflexivity. Qed.

(** [GetHistogram] when no saved descriptor matches the query. *)
Lemma GetHistogram_no_match b p dfMin dfMax nBuckets bI bA :
  psPam (PamInitialize b) = Some p ->
  PamFindMatchingHistogram E (psSavedHistograms p) dfMin dfMax nBuckets bI bA = None ->
  GetHistogram b dfMin dfMax nBuckets bI bA
  = let native := GDALRasterBand_GetHistogram E dfMin dfMax nBuckets bI bA in
    match fst native with
    | CE_None =>
        if descriptor_can_be_built E nBuckets then
          (set_psPam (MarkPamDirty (PamInitialize b))
             (Some (set_psSavedHistograms p
                      (Some (CPLAddXMLChild (histograms_root p)
                               [descriptor_of E dfMin dfMax nBuckets (snd native)
                                  bI bA])))),
           CE_None, snd native)
        else (PamInitialize b, CE_None, snd native)
    | e => (PamInitialize b, e, snd native)
    end.
Proof.
  intros Hp Hfind. unfold GetHistogram. rewrite Hp, Hfind. cbv zeta.
  destruct (GDALRasterBand_GetHistogram E dfMin dfMax nBuckets bI bA) as [eErr hist].
  cbn [fst snd]. rewrite PamHistogramToXMLTree_eq.
  destruct eErr; try reflexivity.
  destruct (descriptor_can_be_built E nBuckets); reflexivity.
Qed.

(** [GetHistogram] when the descriptor that matches is decoded. *)
Lemma GetHistogram_hit b p h i item dfMin dfMax nBuckets bI bA m1 m2 nb counts errs :
  psPam (PamInitialize b) = Some p ->
  psSavedHistograms p = Some h ->
  PamFindMatchingHistogram E (Some h) dfMin dfMax nBuckets bI bA = Some i ->
  nth_error (psChild h) i = Some item ->
  PamParseHistogram E (Some item) dfMin dfMax nBuckets true
  = mkParsed true m1 m2 nb (Some counts) errs ->
  GetHistogram b dfMin dfMax nBuckets bI bA
  = (set_errors (PamInitialize b) (errors (PamInitialize b) ++ errs), CE_None, counts).
Proof.
  intros Hp Hh Hfind Hitem Hparse. unfold GetHistogram.
  rewrite Hp, Hh, Hfind, Hitem, Hparse. reflexivity.
Qed.

Lemma histogram_passes_descriptor_of dfMin dfMax n (hist : list Z) bI bA :
  - 2 ^ 31 <= n < 2 ^ 31 -> - 2 ^ 31 <= bI < 2 ^ 31 -> - 2 ^ 31 <= bA < 2 ^ 31 ->
  ARE_REAL_EQUAL E (CPLAtofM E (Printf_16g E dfMin)) dfMin = true ->
  ARE_REAL_EQUAL E (CPLAtofM E (Printf_16g E dfMax)) dfMax = true ->
  histogram_passes E (descriptor_of E dfMin dfMax n hist bI bA) dfMin dfMax n bI bA = true.
Proof.
  intros Hn HI HA Hmin Hmax. rewrite histogram_passes_spec, is_HistItem_descriptor_of.
  unfold candidate_matches, HistMin_of, HistMax_of, BucketCount_of,
    IncludeOutOfRange_of, Approximate_of, descriptor_of.
  destruct (HistItem_node_fields (Printf_16g E dfMin) (Printf_16g E dfMax)
              (Printf_d n) (Printf_d bI) (Printf_d bA)
              (print_HistCounts (Z.to_nat n) 0 hist))
    as (_ & H1 & H2 & H3 & H4 & H5 & _).
  rewrite H1, H2, H3, H4, H5, !atoi_Printf_d by assumption.
  rewrite Hmin, Hmax, Z.eqb_refl, eqb_reflx. cbn [andb].
  destruct (nonzero bA); reflexivity.
Qed.

End HistogramCache.

(** X1. A descriptor that [PamHistogramToXMLTree] builds from a histogram
    is decoded by [PamParseHistogram] to the same bucket count and the
    same counts, and to the min and max that their 16-digit text reads back
    to: for a positive number of buckets, at most [(INT_MAX - 10) / 12],
    counts within [long long], and allocations that succeed. *)
Theorem histogram_descriptor_round_trip (E : Env) (dfMin dfMax : float)
  (panHistogram : list Z) (bIncludeOutOfRange bApprox : Z)
  (dfMin0 dfMax0 : float) (nBuckets0 : Z) :
  let nBuckets := Z.of_nat (List.length panHistogram) in
  0 < nBuckets <= (INT_MAX - 10) / 12 ->
  Forall (fun c => 0 <= c <= LLONG_MAX) panHistogram ->
  VSIMalloc_ok E (size_t (22 * size_t nBuckets + 10)) = true ->
  VSICalloc_ok E 8 nBuckets = true ->
  exists psXMLHist,
    PamHistogramToXMLTree E dfMin dfMax nBuckets panHistogram bIncludeOutOfRange bApprox
    = Some psXMLHist
    /\ PamParseHistogram E (Some psXMLHist) dfMin0 dfMax0 nBuckets0 true
       = mkParsed true (CPLAtofM E (Printf_16g E dfMin)) (CPLAtofM E (Printf_16g E dfMax))
           nBuckets (Some panHistogram) [].
Proof.
  intros nBuckets Hn Hl Hmalloc Hcalloc.
  exists (descriptor_of E dfMin dfMax nBuckets panHistogram bIncludeOutOfRange bApprox).
  split.
  - rewrite PamHistogramToXMLTree_eq. unfold descriptor_can_be_built.
    rewrite Hmalloc. destruct (nBuckets >? (INT_MAX - 10) / 12) eqn:H;
      [rewrite Z.gtb_ltb in H; apply Z.ltb_lt in H; lia | reflexivity].
  - apply PamParseHistogram_descriptor_of; assumption.
Qed.

Lemma histogram_descriptor_round_trip_witness :
  exists psXMLHist,
    PamHistogramToXMLTree ref_env 0 255 3 [10; 20; 30] 1 0 = Some psXMLHist
    /\ PamParseHistogram ref_env (Some psXMLHist) 0 1 2 true
       = mkParsed true (CPLAtofM ref_env (Printf_16g ref_env 0))
           (CPLAtofM ref_env (Printf_16g ref_env 255)) 3 (Some [10; 20; 30]) [].
Proof.
  apply (@histogram_descriptor_round_trip ref_env 0 255 [10; 20; 30] 1 0 0 1 2).
  - vm_compute. split; [reflexivity | discriminate].
  - repeat constructor; unfold LLONG_MAX; lia.
  - reflexivity.
  - reflexivity.
Defined.

(** X2. On a band with a usable record, a histogram stored with
    [SetDefaultHistogram] is what [GetDefaultHistogram] returns next: success,
    the same bucket count and counts, and the min and max that their text
    reads back to; the native default histogram is not asked. This holds
    when the bucket count is the number of counts given, is positive and at
    most (INT_MAX - 10) / 12, every count lies between 0 and LLONG_MAX, and
    the buffer of the text and the array of the counts are allocated. (With
    no bucket the descriptor is stored but does not decode; a count above
    LLONG_MAX reads back as LLONG_MAX.) *)
Theorem SetDefaultHistogram_then_GetDefaultHistogram (E : Env)
  (native : Z -> CPLErr * PamParseHistogram_result)
  (b : GDALPamRasterBand E) (p : GDALRasterBandPamInfo E) (dfMin dfMax : float)
  (panHistogram : list Z) (dfMin0 dfMax0 : float) (nBuckets0 bForce : Z) :
  let nBuckets := Z.of_nat (List.length panHistogram) in
  psPam (PamInitialize b) = Some p ->
  0 < nBuckets <= (INT_MAX - 10) / 12 ->
  Forall (fun c => 0 <= c <= LLONG_MAX) panHistogram ->
  VSIMalloc_ok E (size_t (22 * size_t nBuckets + 10)) = true ->
  VSICalloc_ok E 8 nBuckets = true ->
  let set := SetDefaultHistogram b dfMin dfMax nBuckets panHistogram in
  let get := GetDefaultHistogram native (fst set) dfMin0 dfMax0 nBuckets0 true bForce in
  snd set = CE_None
  /\ snd (fst get) = CE_None
  /\ snd get = mkParsed true (CPLAtofM E (Printf_16g E dfMin))
                 (CPLAtofM E (Printf_16g E dfMax)) nBuckets (Some panHistogram) [].
Proof.
  intros nBuckets Hp Hn Hl Hmalloc Hcalloc set get.
  assert (Hbuilt : descriptor_can_be_built E nBuckets = true).
  { unfold descriptor_can_be_built. rewrite Hmalloc.
    destruct (nBuckets >? (INT_MAX - 10) / 12) eqn:H;
      [rewrite Z.gtb_ltb in H; apply Z.ltb_lt in H; lia | reflexivity]. }
  destruct (SetDefaultHistogram_built b dfMin dfMax nBuckets panHistogram Hp Hbuilt)
    as (b' & p' & Hset & Hp' & _ & _ & Hsaved & _).
  subst set get. rewrite Hset. cbn [fst snd]. split; [reflexivity|].
  unfold GetDefaultHistogram. rewrite Hp', Hsaved. cbn [psChild find].
  change (negb (negb (is_type CXT_Element
                        (descriptor_of E dfMin dfMax nBuckets panHistogram 1 0))
                || negb (EQUAL (pszValue
                                  (descriptor_of E dfMin dfMax nBuckets panHistogram 1 0))
                           "HistItem"))) with true.
  cbv iota zeta.
  assert (Hparse : PamParseHistogram E
                     (Some (descriptor_of E dfMin dfMax nBuckets panHistogram 1 0))
                     dfMin0 dfMax0 nBuckets0 true
                   = mkParsed true (CPLAtofM E (Printf_16g E dfMin))
                       (CPLAtofM E (Printf_16g E dfMax)) nBuckets
                       (Some panHistogram) [])
    by (apply PamParseHistogram_descriptor_of; assumption).
  rewrite Hparse. split; reflexivity.
Qed.

Lemma SetDefaultHistogram_then_GetDefaultHistogram_witness :
  snd (SetDefaultHistogram ref_band 0 255 3 [10; 20; 30]) = CE_None
  /\ snd (fst (GetDefaultHistogram
                 (fun _ => (CE_Failure, mkParsed false 0 0 0 None []))
                 (fst (SetDefaultHistogram ref_band 0 255 3 [10; 20; 30]))
                 0 1 2 true 1))
     = CE_None
  /\ snd (GetDefaultHistogram
            (fun _ => (CE_Failure, mkParsed false 0 0 0 None []))
            (fst (SetDefaultHistogram ref_band 0 255 3 [10; 20; 30]))
            0 1 2 true 1)
     = mkParsed true (CPLAtofM ref_env (Printf_16g ref_env 0))
         (CPLAtofM ref_env (Printf_16g ref_env 255)) 3 (Some [10; 20; 30]) [].
Proof.
  apply (@SetDefaultHistogram_then_GetDefaultHistogram ref_env
           (fun _ => (CE_Failure, mkParsed false 0 0 0 None []))
           ref_band (set_poParentDS (new_GDALRasterBandPamInfo ref_env) true)
           0 255 [10; 20; 30] 0 1 2 1).
  - reflexivity.
  - vm_compute. split; [reflexivity | discriminate].
  - repeat constructor; unfold LLONG_MAX; lia.
  - reflexivity.
  - reflexivity.
Defined.

(** X3. The histogram cache of [GetHistogram]: when no saved descriptor
    matches a query and the native computation succeeds, the histogram is
    returned and appended to the list; the same query is then answered
    from the list, with the same counts, and the list and the dirty flag
    stay as they are. This holds when the band has a usable record, the
    native computation returns as many counts as buckets asked, the bucket
    count is positive and at most (INT_MAX - 10) / 12 (above it the
    histogram is returned but not stored), every count lies between 0 and
    LLONG_MAX, the buffer of the text and the array of the counts are
    allocated, the two flags of the query fit an int, and the 16-digit
    text of min and max reads back within the tolerance. *)
Theorem GetHistogram_is_cached (E : Env) (b : GDALPamRasterBand E)
  (p : GDALRasterBandPamInfo E) (dfMin dfMax : float)
  (nBuckets bIncludeOutOfRange bApproxOK : Z) (panHistogram : list Z) :
  psPam (PamInitialize b) = Some p ->
  PamFindMatchingHistogram E (psSavedHistograms p) dfMin dfMax nBuckets
    bIncludeOutOfRange bApproxOK = None ->
  GDALRasterBand_GetHistogram E dfMin dfMax nBuckets bIncludeOutOfRange bApproxOK
  = (CE_None, panHistogram) ->
  nBuckets = Z.of_nat (List.length panHistogram) ->
  0 < nBuckets <= (INT_MAX - 10) / 12 ->
  Forall (fun c => 0 <= c <= LLONG_MAX) panHistogram ->
  VSIMalloc_ok E (size_t (22 * size_t nBuckets + 10)) = true ->
  VSICalloc_ok E 8 nBuckets = true ->
  - 2 ^ 31 <= bIncludeOutOfRange < 2 ^ 31 -> - 2 ^ 31 <= bApproxOK < 2 ^ 31 ->
  ARE_REAL_EQUAL E (CPLAtofM E (Printf_16g E dfMin)) dfMin = true ->
  ARE_REAL_EQUAL E (CPLAtofM E (Printf_16g E dfMax)) dfMax = true ->
  let first := GetHistogram b dfMin dfMax nBuckets bIncludeOutOfRange bApproxOK in
  let b1 := fst (fst first) in
  let second := GetHistogram b1 dfMin dfMax nBuckets bIncludeOutOfRange bApproxOK in
  let b2 := fst (fst second) in
  snd (fst first) = CE_None /\ snd first = panHistogram
  /\ saved_histograms b1
     = saved_histograms (PamInitialize b)
       ++ [descriptor_of E dfMin dfMax nBuckets panHistogram
             bIncludeOutOfRange bApproxOK]
  /\ snd (fst second) = CE_None /\ snd second = panHistogram
  /\ psPam b2 = psPam b1 /\ is_dirty b2 = is_dirty b1.
Proof.
  intros Hp Hfind Hnative Hlen Hn Hl Hmalloc Hcalloc HI HA Hmin Hmax.
  assert (Hbuilt : descriptor_can_be_built E nBuckets = true).
  { unfold descriptor_can_be_built. rewrite Hmalloc.
    destruct (nBuckets >? (INT_MAX - 10) / 12) eqn:H;
      [rewrite Z.gtb_ltb in H; apply Z.ltb_lt in H; lia | reflexivity]. }
  assert (Hmaxv : (INT_MAX - 10) / 12 = 178956969) by reflexivity.
  cbv zeta. rewrite (GetHistogram_no_match b dfMin dfMax nBuckets
                       bIncludeOutOfRange bApproxOK Hp Hfind).
  cbv zeta. rewrite Hnative, Hbuilt. cbn [fst snd].
  set (d := descriptor_of E dfMin dfMax nBuckets panHistogram
              bIncludeOutOfRange bApproxOK).
  set (h1 := CPLAddXMLChild (histograms_root p) [d]).
  set (p1 := set_psSavedHistograms p (Some h1)).
  set (b1 := set_psPam (MarkPamDirty (PamInitialize b)) (Some p1)).
  assert (Hs0 : settled (PamInitialize b))
    by (apply PamInitialize_settled; congruence).
  assert (Hs1 : settled b1).
  { unfold b1. apply settled_set_psPam with (p := p); [| |reflexivity].
    - apply settled_MarkPamDirty, Hs0.
    - rewrite psPam_MarkPamDirty. exact Hp. }
  assert (Hp1 : psPam b1 = Some p1) by reflexivity.
  destruct (PamInitialize_of_settled _ Hs1) as (Hi1 & Hi2 & _).
  assert (Hchildren : psChild h1 = psChild (histograms_root p) ++ [d]).
  { unfold h1, d, descriptor_of, HistItem_node. apply CPLAddXMLChild_element. }
  assert (Hold : find_pos (fun c => histogram_passes E c dfMin dfMax nBuckets
                                      bIncludeOutOfRange bApproxOK)
                   (psChild (histograms_root p)) = None).
  { unfold histograms_root. unfold PamFindMatchingHistogram in Hfind.
    destruct (psSavedHistograms p); [exact Hfind | reflexivity]. }
  assert (Hpass : histogram_passes E d dfMin dfMax nBuckets
                    bIncludeOutOfRange bApproxOK = true)
    by (apply histogram_passes_descriptor_of; auto; lia).
  assert (Hfind1 : PamFindMatchingHistogram E (Some h1) dfMin dfMax nBuckets
                     bIncludeOutOfRange bApproxOK
                   = Some (List.length (psChild (histograms_root p)) + 0)%nat).
  { unfold PamFindMatchingHistogram. rewrite Hchildren, find_pos_app, Hold.
    cbn [find_pos]. rewrite Hpass. reflexivity. }
  assert (Hitem : nth_error (psChild h1)
                    (List.length (psChild (histograms_root p)) + 0) = Some d).
  { rewrite Hchildren, Nat.add_0_r, nth_error_app2, Nat.sub_diag by apply le_n.
    reflexivity. }
  assert (Hparse : PamParseHistogram E (Some d) dfMin dfMax nBuckets true
                   = mkParsed true (CPLAtofM E (Printf_16g E dfMin))
                       (CPLAtofM E (Printf_16g E dfMax)) nBuckets
                       (Some panHistogram) []).
  { unfold d. subst nBuckets.
    apply PamParseHistogram_descriptor_of; assumption. }
  rewrite Hp1 in Hi1.
  rewrite (GetHistogram_hit b1 dfMin dfMax nBuckets bIncludeOutOfRange bApproxOK
             Hi1 eq_refl Hfind1 Hitem Hparse).
  cbn [fst snd].
  split; [reflexivity|]. split; [reflexivity|]. split.
  { unfold saved_histograms. rewrite Hp1, Hp. cbn [psSavedHistograms p1 set_psSavedHistograms].
    rewrite Hchildren. unfold histograms_root. destruct (psSavedHistograms p); reflexivity. }
  split; [reflexivity|]. split; [reflexivity|]. split.
  - cbn [psPam set_errors]. rewrite Hi1. reflexivity.
  - unfold is_dirty. cbn [poDS set_errors]. rewrite Hi2. reflexivity.
Qed.

Lemma GetHistogram_is_cached_witness :
  snd (GetHistogram ref_band 0 255 3 1 0) = [0; 0; 0]
  /\ saved_histograms (fst (fst (GetHistogram ref_band 0 255 3 1 0)))
     = [descriptor_of ref_env 0 255 3 [0; 0; 0] 1 0]
  /\ snd (GetHistogram (fst (fst (GetHistogram ref_band 0 255 3 1 0))) 0 255 3 1 0)
     = [0; 0; 0]
  /\ psPam (fst (fst (GetHistogram (fst (fst (GetHistogram ref_band 0 255 3 1 0)))
                        0 255 3 1 0)))
     = psPam (fst (fst (GetHistogram ref_band 0 255 3 1 0))).
Proof.
  destruct (@GetHistogram_is_cached ref_env ref_band
              (set_poParentDS (new_GDALRasterBandPamInfo ref_env) true)
              0 255 3 1 0 [0; 0; 0] eq_refl eq_refl eq_refl eq_refl)
    as (_ & H1 & H2 & _ & H3 & H4 & _).
  - vm_compute. split; [reflexivity | discriminate].
  - repeat constructor; unfold LLONG_MAX; lia.
  - reflexivity.
  - reflexivity.
  - lia.
  - lia.
  - vm_compute. reflexivity.
  - vm_compute. reflexivity.
  - split; [exact H1|]. split; [exact H2|]. split; [exact H3 | exact H4].
Defined.

(** ** Further properties: initialization, setters and getters *)

Section Initialization.

Variable E : Env.
Implicit Types (b : GDALPamRasterBand E) (p : GDALRasterBandPamInfo E).

(** [PamInitialize] looks at the record and the dataset of the band only,
    and changes nothing else but the error log. *)
Lemma PamInitialize_congr b b' :
  psPam b' = psPam b -> poDS b' = poDS b ->
  psPam (PamInitialize b') = psPam (PamInitialize b)
  /\ poDS (PamInitialize b') = poDS (PamInitialize b).
Proof.
  intros Hp Hd. unfold PamInitialize. rewrite Hp, Hd.
  destruct (match psPam b with Some p => poParentDS p | None => false end);
    [split; assumption|].
  destruct (poDS b) as [ds|] eqn:Hds; [|split; congruence].
  destruct (negb (ds_GMO_PAM_CLASS ds)); [split; congruence|].
  destruct (negb (ds_is_GDALPamDataset ds)); [cbn; split; congruence|].
  cbv zeta. destruct (negb (ds_psPam (GDALPamDataset_PamInitialize ds)));
    [cbn; split; reflexivity|].
  destruct (new_PamInfo_ok E); cbn; split; reflexivity.
Qed.

Lemma PamInitialize_frame b :
  eDataType (PamInitialize b) = eDataType b /\ nBand (PamInitialize b) = nBand b
  /\ sDescription (PamInitialize b) = sDescription b
  /\ oMDMD (PamInitialize b) = oMDMD b
  /\ bIgnoreUnimplemented (PamInitialize b) = bIgnoreUnimplemented b.
Proof.
  unfold PamInitialize.
  destruct (match psPam b with Some p => poParentDS p | None => false end);
    [repeat split|].
  destruct (poDS b) as [ds|]; [|repeat split].
  destruct (negb (ds_GMO_PAM_CLASS ds)); [repeat split|].
  destruct (negb (ds_is_GDALPamDataset ds)); [repeat split|].
  cbv zeta. destruct (negb (ds_psPam (GDALPamDataset_PamInitialize ds)));
    [repeat split|].
  destruct (new_PamInfo_ok E); repeat split.
Qed.

Lemma GDALPamDataset_PamInitialize_twice ds :
  GDALPamDataset_PamInitialize (GDALPamDataset_PamInitialize ds)
  = GDALPamDataset_PamInitialize ds.
Proof.
  unfold GDALPamDataset_PamInitialize.
  destruct (ds_psPam ds) eqn:H1; [rewrite H1; reflexivity|].
  destruct (ds_GPF_DISABLED ds) eqn:H2; [rewrite H1, H2; reflexivity|]. reflexivity.
Qed.

Lemma PamInitialize_again b :
  psPam (PamInitialize (PamInitialize b)) = psPam (PamInitialize b)
  /\ poDS (PamInitialize (PamInitialize b)) = poDS (PamInitialize b).
Proof.
  destruct b as [[[c1 c2 c3 c4 c5]|] n ty d ig md [p|] errs];
    unfold PamInitialize, GDALPamDataset_PamInitialize, CPLError; cbn;
    try (destruct (poParentDS p) eqn:Hl; cbn; rewrite ?Hl; cbn);
    try (split; reflexivity);
    destruct c1, c2, c3, c4; cbn; rewrite ?Hl; cbn;
    try (split; reflexivity);
    destruct (new_PamInfo_ok E) eqn:Hn; cbn; rewrite ?Hl, ?Hn; cbn;
    split; reflexivity.
Qed.

End Initialization.

(** X4. When the allocation of the record does not fail, a second
    [PamInitialize] changes neither the record nor the dataset of the band:
    what the first call has settled (a record linked to the store, or none)
    is what is found again. (After an allocation that failed the next call
    would try again.) *)
Theorem PamInitialize_twice (E : Env) (b : GDALPamRasterBand E) :
  new_PamInfo_ok E = true ->
  psPam (PamInitialize (PamInitialize b)) = psPam (PamInitialize b)
  /\ poDS (PamInitialize (PamInitialize b)) = poDS (PamInitialize b)
  /\ eDataType (PamInitialize (PamInitialize b)) = eDataType b
  /\ GetDescription (PamInitialize (PamInitialize b)) = GetDescription b.
Proof.
  intros _.
  destruct (PamInitialize_again b) as [H1 H2].
  destruct (PamInitialize_frame (PamInitialize b)) as (H3 & _ & H4 & _).
  destruct (PamInitialize_frame b) as (H5 & _ & H6 & _).
  unfold GetDescription. rewrite H3, H4, H5, H6. auto.
Qed.

Lemma PamInitialize_twice_witness :
  new_PamInfo_ok ref_env = true
  /\ psPam (PamInitialize ref_band) <> psPam ref_band
  /\ psPam (PamInitialize (PamInitialize ref_band)) = psPam (PamInitialize ref_band)
  /\ psPam (PamInitialize ref_parentless_band) <> psPam ref_parentless_band
  /\ psPam (PamInitialize (PamInitialize ref_parentless_band))
     = psPam (PamInitialize ref_parentless_band).
Proof.
  split; [reflexivity|]. split; [discriminate|].
  split; [exact (proj1 (@PamInitialize_twice ref_env ref_band eq_refl))|].
  split; [discriminate|].
  exact (proj1 (@PamInitialize_twice ref_env ref_parentless_band eq_refl)).
Defined.

(** X5. A record without parent, as [PamInitializeNoParent] makes it, does
    not survive [PamInitialize] on a band of a PAM dataset: the record is
    deleted, and what takes its place is no record or a new one linked to
    the store. Every getter then answers with its default, whatever the
    record held. *)
Theorem parentless_record_is_discarded (E : Env) (b : GDALPamRasterBand E)
  (p : GDALRasterBandPamInfo E) (ds : GDALDataset) :
  psPam b = Some p -> poParentDS p = false ->
  poDS b = Some ds -> ds_GMO_PAM_CLASS ds = true -> ds_is_GDALPamDataset ds = true ->
  let b' := PamInitialize b in
  (psPam b' = None
   \/ psPam b' = Some (set_poParentDS (new_GDALRasterBandPamInfo E) true))
  /\ GetNoDataValue b' = (GDAL_PAM_DEFAULT_NODATA_VALUE, false)
  /\ GetOffset b' = (0%float, false) /\ GetScale b' = (1%float, false)
  /\ GetUnitType b' = "" /\ GetCategoryNames b' = None /\ GetColorTable b' = None
  /\ GetColorInterpretation b' = GCI_Undefined.
Proof.
  intros Hp Hl Hd H1 H2 b'.
  assert (Hb' : psPam b' = None
                \/ psPam b' = Some (set_poParentDS (new_GDALRasterBandPamInfo E) true)).
  { unfold b', PamInitialize. rewrite Hp, Hl, Hd, H1, H2. cbn [negb]. cbv zeta.
    destruct (negb (ds_psPam (GDALPamDataset_PamInitialize ds))); [left; reflexivity|].
    destruct (new_PamInfo_ok E); [right | left]; reflexivity. }
  split; [exact Hb'|].
  unfold GetNoDataValue, GetOffset, GetScale, GetUnitType, GetCategoryNames,
    GetColorTable, GetColorInterpretation.
  destruct Hb' as [-> | ->]; repeat split.
Qed.

Lemma parentless_record_is_discarded_witness :
  GetNoDataValue ref_parentless_band = (5%float, true)
  /\ GetUnitType ref_parentless_band = "m"
  /\ GetNoDataValue (PamInitialize ref_parentless_band)
     = (GDAL_PAM_DEFAULT_NODATA_VALUE, false)
  /\ GetUnitType (PamInitialize ref_parentless_band) = "".
Proof.
  destruct (@parentless_record_is_discarded ref_env ref_parentless_band _ ref_dataset
              eq_refl eq_refl eq_refl eq_refl eq_refl)
    as (_ & H1 & _ & _ & H2 & _).
  split; [reflexivity|]. split; [reflexivity|]. split; [exact H1 | exact H2].
Defined.

Section SettersAndGetters.

Variable E : Env.
Implicit Types (b : GDALPamRasterBand E) (p : GDALRasterBandPamInfo E).

Lemma eDataType_MarkPamDirty b : eDataType (MarkPamDirty b) = eDataType b.
Proof. exact (proj1 (same_band_MarkPamDirty b)). Qed.

Lemma has_record b : psPam (PamInitialize b) <> None -> exists p, psPam (PamInitialize b) = Some p.
Proof. destruct (psPam (PamInitialize b)) as [p|]; [eauto | congruence]. Qed.

End SettersAndGetters.

(** X6. With a usable record, the nodata that a setter stores is what the
    getter of the same form returns, with success: [GetNoDataValue] after
    [SetNoDataValue], and the 64-bit getters after their setters on a band
    of the matching type. *)
Theorem nodata_set_then_get (E : Env) (b : GDALPamRasterBand E) (x : float) (n : Z) :
  psPam (PamInitialize b) <> None ->
  GetNoDataValue (fst (SetNoDataValue b x)) = (x, true)
  /\ snd (SetNoDataValue b x) = CE_None
  /\ (eDataType b = GDT_Int64 ->
      GetNoDataValueAsInt64 (fst (SetNoDataValueAsInt64 b n))
      = (fst (SetNoDataValueAsInt64 b n), n, true))
  /\ (eDataType b = GDT_UInt64 ->
      GetNoDataValueAsUInt64 (fst (SetNoDataValueAsUInt64 b n))
      = (fst (SetNoDataValueAsUInt64 b n), n, true)).
Proof.
  intros H. destruct (has_record b H) as [p Hp].
  destruct (PamInitialize_frame b) as (Hty & _).
  rewrite (SetNoDataValue_eq b x Hp), (SetNoDataValueAsInt64_eq b n Hp),
    (SetNoDataValueAsUInt64_eq b n Hp). cbn [fst snd].
  split; [|split; [reflexivity|split]].
  - unfold GetNoDataValue. rewrite psPam_MarkPamDirty. reflexivity.
  - intros Hi. unfold GetNoDataValueAsInt64.
    rewrite psPam_MarkPamDirty, eDataType_MarkPamDirty. cbn [psPam set_psPam eDataType].
    rewrite Hty, Hi. reflexivity.
  - intros Hu. unfold GetNoDataValueAsUInt64.
    rewrite psPam_MarkPamDirty, eDataType_MarkPamDirty. cbn [psPam set_psPam eDataType].
    rewrite Hty, Hu. reflexivity.
Qed.

Lemma nodata_set_then_get_witness :
  GetNoDataValue (fst (SetNoDataValue ref_band 0.5)) = (0.5%float, true)
  /\ snd (fst (GetNoDataValueAsInt64 (fst (SetNoDataValueAsInt64 ref_int64_band 7)))) = 7.
Proof.
  assert (H : psPam (PamInitialize ref_band) <> None) by discriminate.
  assert (H' : psPam (PamInitialize ref_int64_band) <> None) by discriminate.
  destruct (@nodata_set_then_get ref_env ref_band 0.5 7 H) as (H1 & _).
  destruct (@nodata_set_then_get ref_env ref_int64_band 0.5 7 H') as (_ & _ & H2 & _).
  split; [exact H1|]. rewrite (H2 eq_refl). reflexivity.
Defined.

(** X7. [DeleteNoDataValue] on a band with a usable record succeeds and
    leaves no nodata of any form: the three flags are false, the values are
    the defaults, [GetNoDataValue] reports the default without success, and
    the store is marked dirty when the record is linked to it. *)
Theorem DeleteNoDataValue_clears (E : Env) (b : GDALPamRasterBand E) :
  psPam (PamInitialize b) <> None ->
  let b' := fst (DeleteNoDataValue b) in
  snd (DeleteNoDataValue b) = CE_None
  /\ GetNoDataValue b' = (GDAL_PAM_DEFAULT_NODATA_VALUE, false)
  /\ (exists p', psPam b' = Some p' /\ nodata_flags p' = [false; false; false]
                 /\ nNoDataValueInt64 p' = GDAL_PAM_DEFAULT_NODATA_VALUE_INT64
                 /\ nNoDataValueUInt64 p' = GDAL_PAM_DEFAULT_NODATA_VALUE_UINT64)
  /\ (linked (PamInitialize b) -> is_dirty b' = true).
Proof.
  intros H b'. destruct (has_record b H) as [p Hp].
  subst b'. unfold DeleteNoDataValue. rewrite Hp. cbn [fst snd].
  split; [reflexivity|]. split; [|split].
  - unfold GetNoDataValue. rewrite psPam_MarkPamDirty. reflexivity.
  - eexists. rewrite psPam_MarkPamDirty. cbn [psPam set_psPam].
    split; [reflexivity|]. repeat split.
  - intros (q & ds & Hq & Hl & Hd). rewrite Hp in Hq. injection Hq as <-.
    apply (linked_MarkPamDirty (set_psPam (PamInitialize b) (Some (ResetNoDataValues p)))
             (p := ResetNoDataValues p) (ds := ds)); auto.
Qed.

Lemma DeleteNoDataValue_clears_witness :
  GetNoDataValue (fst (DeleteNoDataValue (fst (SetNoDataValue ref_band 0.5))))
  = (GDAL_PAM_DEFAULT_NODATA_VALUE, false)
  /\ is_dirty (fst (DeleteNoDataValue ref_linked_band)) = true.
Proof.
  assert (H : psPam (PamInitialize (fst (SetNoDataValue ref_band 0.5))) <> None)
    by discriminate.
  assert (H' : psPam (PamInitialize ref_linked_band) <> None) by discriminate.
  destruct (@DeleteNoDataValue_clears ref_env _ H) as (_ & H1 & _).
  destruct (@DeleteNoDataValue_clears ref_env _ H') as (_ & _ & _ & H2).
  split; [exact H1|]. apply H2.
  exists (set_poParentDS (new_GDALRasterBandPamInfo ref_env) true), ref_dataset.
  repeat split.
Defined.

(** X8. With a usable record, the text setters are read back by their
    getters: the unit type as given, a null or empty one as the empty
    string; the category names as given, an empty list as no list. The
    description is read back as given on every band. *)
Theorem strings_set_then_get (E : Env) (b : GDALPamRasterBand E)
  (pszNewValue : option string) (papszNewNames : option (list string))
  (pszDescription : string) :
  psPam (PamInitialize b) <> None ->
  GetUnitType (fst (SetUnitType b pszNewValue))
  = match pszNewValue with Some s => s | None => "" end
  /\ GetCategoryNames (fst (SetCategoryNames b papszNewNames))
     = match papszNewNames with
       | Some (x :: r) => Some (x :: r)
       | _ => None
       end
  /\ GetDescription (SetDescription b pszDescription) = pszDescription.
Proof.
  intros H. destruct (has_record b H) as [p Hp]. split; [|split].
  - unfold SetUnitType, GetUnitType. rewrite Hp.
    destruct pszNewValue as [[|c r]|]; reflexivity.
  - unfold SetCategoryNames, GetCategoryNames. rewrite Hp. cbn [fst].
    rewrite psPam_MarkPamDirty. reflexivity.
  - reflexivity.
Qed.

Lemma strings_set_then_get_witness :
  GetUnitType (fst (SetUnitType ref_band (Some "m"))) = "m"
  /\ GetUnitType (fst (SetUnitType (fst (SetUnitType ref_band (Some "m"))) (Some ""))) = ""
  /\ GetCategoryNames (fst (SetCategoryNames ref_band (Some []))) = None.
Proof.
  assert (H : psPam (PamInitialize ref_band) <> None) by discriminate.
  assert (H' : psPam (PamInitialize (fst (SetUnitType ref_band (Some "m")))) <> None)
    by discriminate.
  destruct (@strings_set_then_get ref_env ref_band (Some "m") (Some []) "" H)
    as (H1 & H2 & _).
  destruct (@strings_set_then_get ref_env _ (Some "") None "" H') as (H3 & _).
  split; [exact H1|]. split; [exact H3 | exact H2].
Defined.

(** X9. [SetColorTable] with a palette stores it and forces the color
    interpretation to [GCI_PaletteIndex]; with a null palette it removes the
    palette and leaves the interpretation. [SetColorInterpretation] leaves
    the palette: set after it, an interpretation other than the palette one
    stays next to the palette. *)
Theorem SetColorTable_sets_palette_interpretation (E : Env) (b : GDALPamRasterBand E)
  (p : GDALRasterBandPamInfo E) (t : GDALColorTable) (eInterpIn : GDALColorInterp) :
  psPam (PamInitialize b) = Some p ->
  (GetColorTable (fst (SetColorTable b (Some t))) = Some t
   /\ GetColorInterpretation (fst (SetColorTable b (Some t))) = GCI_PaletteIndex)
  /\ (GetColorTable (fst (SetColorTable b None)) = None
      /\ GetColorInterpretation (fst (SetColorTable b None)) = eColorInterp p)
  /\ (GetColorInterpretation (fst (SetColorInterpretation b eInterpIn)) = eInterpIn
      /\ GetColorTable (fst (SetColorInterpretation b eInterpIn)) = poColorTable p).
Proof.
  intros Hp. unfold SetColorTable, SetColorInterpretation, GetColorTable,
    GetColorInterpretation. rewrite Hp. cbn [fst].
  rewrite !psPam_MarkPamDirty. repeat split.
Qed.

Lemma SetColorTable_sets_palette_interpretation_witness :
  GetColorInterpretation (fst (SetColorTable ref_gray_band (Some [mkColorEntry 255 0 0 255])))
  = GCI_PaletteIndex
  /\ GetColorInterpretation (fst (SetColorTable ref_gray_band None)) = GCI_GrayIndex
  /\ GetColorInterpretation ref_gray_palette_band = GCI_GrayIndex
  /\ GetColorTable ref_gray_palette_band = Some [mkColorEntry 255 0 0 255].
Proof.
  destruct (@SetColorTable_sets_palette_interpretation ref_env ref_gray_band _
              [mkColorEntry 255 0 0 255] GCI_GrayIndex eq_refl)
    as ((_ & H1) & (_ & H2) & _).
  destruct (@SetColorTable_sets_palette_interpretation ref_env
              (fst (SetColorTable ref_band (Some [mkColorEntry 255 0 0 255]))) _
              [] GCI_GrayIndex eq_refl)
    as (_ & _ & (H3 & H4)).
  split; [exact H1|]. split; [exact H2|]. split; [exact H3 | exact H4].
Defined.

(** X10. With a usable record, [SetOffset] makes the offset set, and the
    offset that [GetOffset] returns is the new one, or the old one when it
    was set and [==] to the new one (a signed zero is then not replaced);
    the scale is untouched. [SetScale] is the same on the scale. *)
Theorem offset_scale_set_then_get (E : Env) (b : GDALPamRasterBand E)
  (p : GDALRasterBandPamInfo E) (x : float) :
  psPam (PamInitialize b) = Some p ->
  (snd (GetOffset (fst (SetOffset b x))) = true
   /\ (fst (GetOffset (fst (SetOffset b x))) = x
       \/ (bOffsetSet p = true /\ fst (GetOffset (fst (SetOffset b x))) = dfOffset p
           /\ PrimFloat.eqb (dfOffset p) x = true))
   /\ GetScale (fst (SetOffset b x)) = (dfScale p, bScaleSet p))
  /\ (snd (GetScale (fst (SetScale b x))) = true
      /\ (fst (GetScale (fst (SetScale b x))) = x
          \/ (bScaleSet p = true /\ fst (GetScale (fst (SetScale b x))) = dfScale p
              /\ PrimFloat.eqb x (dfScale p) = true))
      /\ GetOffset (fst (SetScale b x)) = (dfOffset p, bOffsetSet p)).
Proof.
  intros Hp. unfold SetOffset, SetScale, GetOffset, GetScale. rewrite Hp. split.
  - destruct (bOffsetSet p) eqn:Hs, (PrimFloat.eqb (dfOffset p) x) eqn:He;
      cbn [negb orb fst snd]; rewrite ?psPam_MarkPamDirty, ?Hp; cbn;
      rewrite ?Hs; repeat split; auto.
  - destruct (bScaleSet p) eqn:Hs, (PrimFloat.eqb x (dfScale p)) eqn:He;
      cbn [negb orb fst snd]; rewrite ?psPam_MarkPamDirty, ?Hp; cbn;
      rewrite ?Hs; repeat split; auto.
Qed.

Lemma offset_scale_set_then_get_witness :
  GetOffset (fst (SetOffset ref_band 2.5)) = (2.5%float, true)
  /\ GetScale (fst (SetOffset ref_band 2.5)) = (1%float, false)
  /\ Prim2SF (fst (GetOffset (fst (SetOffset (fst (SetOffset ref_band 0)) (-0)))))
     = S754_zero false.
Proof.
  destruct (@offset_scale_set_then_get ref_env ref_band _ 2.5 eq_refl)
    as ((_ & _ & H1) & _).
  split; [reflexivity|]. split; [exact H1|]. vm_compute. reflexivity.
Defined.

Section WithoutRecord.

Variable E : Env.
Implicit Types (b : GDALPamRasterBand E) (p : GDALRasterBandPamInfo E).

(** A mutator that finds no record: the result of the setter of
    [GDALRasterBand], no record, the dataset as [PamInitialize] left it. *)
Lemma native_setter_outcome b method :
  psPam (PamInitialize b) = None ->
  let r := GDALRasterBand_native_setter (PamInitialize b) method in
  snd r = fst (GDALRasterBand_setter E method)
  /\ psPam (fst r) = None /\ poDS (fst r) = poDS (PamInitialize b)
  /\ errors (fst r)
     = errors (PamInitialize b)
       ++ (if bIgnoreUnimplemented b then []
           else snd (GDALRasterBand_setter E method)).
Proof.
  intros Hp r. subst r. unfold GDALRasterBand_native_setter.
  destruct (PamInitialize_frame b) as (_ & _ & _ & _ & Hig). rewrite Hig.
  destruct (bIgnoreUnimplemented b); cbn [fst snd].
  - rewrite app_nil_r. auto.
  - cbn. auto.
Qed.

End WithoutRecord.

(** X12. [SetDescription] stores the description on every band. When the
    record is linked to the store of the dataset, the store is marked dirty
    if the description differs from the current one, and the dirty flag is
    left as it is if it does not. *)
Theorem SetDescription_marks_dirty_on_change (E : Env) (b : GDALPamRasterBand E)
  (pszDescription : string) :
  linked (PamInitialize b) ->
  GetDescription (SetDescription b pszDescription) = pszDescription
  /\ psPam (SetDescription b pszDescription) = psPam (PamInitialize b)
  /\ (pszDescription <> GetDescription b ->
      is_dirty (SetDescription b pszDescription) = true)
  /\ (pszDescription = GetDescription b ->
      is_dirty (SetDescription b pszDescription) = is_dirty (PamInitialize b)).
Proof.
  intros (p & ds & Hp & Hl & Hd).
  destruct (PamInitialize_frame b) as (_ & _ & Hdesc & _).
  unfold SetDescription, GetDescription. rewrite Hp, Hdesc.
  split; [reflexivity|].
  destruct (String.eqb pszDescription (sDescription b)) eqn:He; cbn [negb].
  - apply String.eqb_eq in He. split; [exact Hp|]. split; [congruence|].
    intros _. reflexivity.
  - apply String.eqb_neq in He.
    destruct (linked_MarkPamDirty (PamInitialize b) Hp Hl Hd) as [H1 H2].
    split; [cbn [psPam set_sDescription]; rewrite H2; reflexivity|].
    split; [intros _; exact H1|]. congruence.
Qed.

Lemma SetDescription_marks_dirty_on_change_witness :
  is_dirty ref_linked_band = false
  /\ is_dirty (SetDescription ref_linked_band "elevation") = true
  /\ is_dirty (SetDescription ref_linked_band "") = false.
Proof.
  assert (H : linked (PamInitialize ref_linked_band)).
  { exists (set_poParentDS (new_GDALRasterBandPamInfo ref_env) true), ref_dataset.
    repeat split. }
  destruct (@SetDescription_marks_dirty_on_change ref_env ref_linked_band "elevation" H)
    as (_ & _ & H1 & _).
  destruct (@SetDescription_marks_dirty_on_change ref_env ref_linked_band "" H)
    as (_ & _ & _ & H2).
  split; [reflexivity|]. split; [apply H1; discriminate|].
  rewrite (H2 eq_refl). reflexivity.
Defined.

(** ** Further properties: the document *)

(** X13. The document of [SerializeToXML]: for a band with a record whose
    histogram list, attribute table and metadata do not serialize to
    attribute nodes, the children of the root "PAMRasterBand" are, in this
    order, the band number, the description, the nodata, the unit type, the
    offset, the scale, the color interpretation, the category names, the
    palette, min/max, mean/standard deviation, the histogram list, the
    attribute table and the metadata, each only when it is set; and there
    is no document at all when fewer than two children come out. *)
Theorem SerializeToXML_is_the_document (E : Env) (b : GDALPamRasterBand E)
  (p : GDALRasterBandPamInfo E) :
  psPam b = Some p ->
  (forall h, psSavedHistograms p = Some h -> is_type CXT_Attribute h = false) ->
  (forall rat n, poDefaultRAT p = Some rat -> RAT_Serialize E rat = Some n ->
                 is_type CXT_Attribute n = false) ->
  (forall n r, MDMD_Serialize E (oMDMD b) = n :: r -> is_type CXT_Attribute n = false) ->
  SerializeToXML b
  = match document_children b p with
    | [] | [_] => None
    | cs => Some (XMLNode CXT_Element "PAMRasterBand" cs)
    end.
Proof. apply SerializeToXML_document. Qed.

Lemma SerializeToXML_is_the_document_witness :
  SerializeToXML ref_full_band = Some ref_full_tree
  /\ document_children ref_full_band ref_full_record = psChild ref_full_tree
  /\ SerializeToXML (set_nBand (fst (SetUnitType ref_band (Some "m"))) 0) = None.
Proof.
  assert (H : SerializeToXML ref_full_band
              = match document_children ref_full_band ref_full_record with
                | [] | [_] => None
                | cs => Some (XMLNode CXT_Element "PAMRasterBand" cs)
                end).
  { apply (@SerializeToXML_is_the_document ref_env ref_full_band ref_full_record eq_refl).
    - intros h Hh. change (Some ref_histograms = Some h) in Hh. injection Hh as <-.
      reflexivity.
    - intros rat n Hr. discriminate Hr.
    - intros n r Hm. discriminate Hm. }
  split; [rewrite H; vm_compute; reflexivity|].
  split; vm_compute; reflexivity.
Defined.

Section XMLInitWithoutRecord.

Variable E : Env.
Variable d : string.
Implicit Types (b : GDALPamRasterBand E) (p : GDALRasterBandPamInfo E).

(** There is no record, [PamInitialize] makes none, and the description
    is [d]. *)
Let no_record b : Prop :=
  psPam b = None /\ psPam (PamInitialize b) = None /\ sDescription b = d.

Lemma no_record_native_setter b msg :
  no_record b ->
  no_record (fst (GDALRasterBand_native_setter (PamInitialize b) msg)).
Proof.
  intros (_ & Hp & Hd). destruct (native_setter_outcome b msg Hp) as (_ & H1 & H2 & _).
  split; [exact H1|]. split.
  - destruct (PamInitialize_congr
                (PamInitialize b)
                (fst (GDALRasterBand_native_setter (PamInitialize b) msg)))
      as [H3 _]; [congruence | exact H2 |].
    rewrite H3. rewrite (proj1 (PamInitialize_again b)). exact Hp.
  - destruct (PamInitialize_frame b) as (_ & _ & Hdesc & _).
    unfold GDALRasterBand_native_setter.
    destruct (bIgnoreUnimplemented (PamInitialize b)); cbn; congruence.
Qed.

Lemma no_record_NoDataValue b t : no_record b -> no_record (XMLInit_NoDataValue b t).
Proof.
  intros H. pose proof H as (H1 & H2 & H3). unfold XMLInit_NoDataValue.
  destruct (CPLGetXMLValue t "NoDataValue" None); [|exact H].
  unfold SetNoDataValue, SetNoDataValueAsInt64, SetNoDataValueAsUInt64. rewrite H2.
  destruct (CPLGetXMLValue t "NoDataValue.le_hex_equiv" None).
  - cbv zeta. destruct (_ =? 8); apply no_record_native_setter; exact H.
  - destruct (eDataType b); apply no_record_native_setter; exact H.
Qed.

Lemma no_record_SetOffset b x : no_record b -> no_record (fst (SetOffset b x)).
Proof.
  intros H. pose proof H as (H1 & H2 & H3). unfold SetOffset. rewrite H2.
  apply no_record_native_setter, H.
Qed.

Lemma no_record_SetScale b x : no_record b -> no_record (fst (SetScale b x)).
Proof.
  intros H. pose proof H as (H1 & H2 & H3). unfold SetScale. rewrite H2.
  apply no_record_native_setter, H.
Qed.

Lemma no_record_OffsetScale b t : no_record b -> no_record (XMLInit_OffsetScale b t).
Proof.
  intros H. unfold XMLInit_OffsetScale. cbv zeta.
  destruct (CPLGetXMLValue t "Offset" None), (CPLGetXMLValue t "Scale" None);
    try exact H; apply no_record_SetScale, no_record_SetOffset, H.
Qed.

Lemma no_record_UnitType b t : no_record b -> no_record (XMLInit_UnitType b t).
Proof.
  intros H. pose proof H as (H1 & H2 & H3). unfold XMLInit_UnitType.
  destruct (CPLGetXMLValue t "UnitType" None); [|exact H].
  unfold SetUnitType. rewrite H2. apply no_record_native_setter, H.
Qed.

Lemma no_record_ColorInterp b t : no_record b -> no_record (XMLInit_ColorInterp b t).
Proof.
  intros H. pose proof H as (H1 & H2 & H3). unfold XMLInit_ColorInterp.
  destruct (CPLGetXMLValue t "ColorInterp" None); [|exact H].
  unfold SetColorInterpretation. rewrite H2. apply no_record_native_setter, H.
Qed.

Lemma no_record_CategoryNames b t : no_record b -> no_record (XMLInit_CategoryNames b t).
Proof.
  intros H. pose proof H as (H1 & H2 & H3). unfold XMLInit_CategoryNames.
  destruct (CPLGetXMLNode t "CategoryNames"); [|exact H].
  unfold SetCategoryNames. rewrite H2. apply no_record_native_setter, H.
Qed.

Lemma no_record_ColorTable b t : no_record b -> no_record (XMLInit_ColorTable b t).
Proof.
  intros H. pose proof H as (H1 & H2 & H3). unfold XMLInit_ColorTable.
  destruct (CPLGetXMLNode t "ColorTable"); [|exact H].
  unfold SetColorTable. rewrite H2. apply no_record_native_setter, H.
Qed.

(** The band that reaches the last blocks of [XMLInit] has no record. *)
Lemma XMLInit_first_blocks_without_record b t :
  psPam (PamInitialize b) = None ->
  let b6 :=
    XMLInit_ColorTable
      (XMLInit_CategoryNames
         (XMLInit_ColorInterp
            (XMLInit_UnitType
               (XMLInit_OffsetScale
                  (XMLInit_NoDataValue
                     (set_sDescription
                        (set_oMDMD (PamInitialize b)
                           (MDMD_XMLInit E t (oMDMD (PamInitialize b))))
                        d) t) t) t) t) t) t in
  psPam b6 = None /\ sDescription b6 = d.
Proof.
  intros Hp b6.
  assert (H : no_record b6).
  { apply no_record_ColorTable, no_record_CategoryNames, no_record_ColorInterp,
      no_record_UnitType, no_record_OffsetScale, no_record_NoDataValue.
    split; [exact Hp|]. split; [|reflexivity].
    destruct (PamInitialize_congr (PamInitialize b)
                (set_sDescription
                   (set_oMDMD (PamInitialize b)
                      (MDMD_XMLInit E t (oMDMD (PamInitialize b)))) d))
      as [H _]; [reflexivity | reflexivity |].
    rewrite H, (proj1 (PamInitialize_again b)). exact Hp. }
  destruct H as (H1 & _ & H3). auto.
Qed.

End XMLInitWithoutRecord.

(** X14. [XMLInit] on a band for which [PamInitialize] finds no record
    writes through a null [psPam] exactly when the document holds a
    Minimum with a Maximum, a Mean with a StandardDeviation, a Histograms
    node or a GDALRasterAttributeTable node: these blocks do not test the
    record. For any other document it returns [CE_None], makes no record
    and stores the description. *)
Theorem XMLInit_without_record (E : Env) (b : GDALPamRasterBand E) (psTree : CPLXMLNode) :
  psPam (PamInitialize b) = None ->
  let writes_through_null :=
    (CPLGetXMLValue psTree "Minimum" None <> None
     /\ CPLGetXMLValue psTree "Maximum" None <> None)
    \/ (CPLGetXMLValue psTree "Mean" None <> None
        /\ CPLGetXMLValue psTree "StandardDeviation" None <> None)
    \/ CPLGetXMLNode psTree "Histograms" <> None
    \/ CPLGetXMLNode psTree "GDALRasterAttributeTable" <> None in
  (XMLInit b psTree = None <-> writes_through_null)
  /\ (~ writes_through_null ->
      exists b', XMLInit b psTree = Some (b', CE_None) /\ psPam b' = None
                 /\ GetDescription b' = CPLGetXMLValue_or psTree "Description" "").
Proof.
  intros Hp writes. subst writes.
  destruct (XMLInit_first_blocks_without_record
              (CPLGetXMLValue_or psTree "Description" "") b psTree Hp) as [Hnone Hdesc].
  unfold XMLInit. cbv zeta.
  set (b6 := XMLInit_ColorTable _ psTree) in *.
  unfold XMLInit_MinMax, XMLInit_Stats, XMLInit_Histograms, XMLInit_RAT, through_psPam.
  destruct (CPLGetXMLValue psTree "Minimum" None) as [mn|],
    (CPLGetXMLValue psTree "Maximum" None) as [mx|],
    (CPLGetXMLValue psTree "Mean" None) as [mean|],
    (CPLGetXMLValue psTree "StandardDeviation" None) as [sd|],
    (CPLGetXMLNode psTree "Histograms") as [h|],
    (CPLGetXMLNode psTree "GDALRasterAttributeTable") as [r|];
    cbn [and_then]; rewrite ?Hnone; cbn [and_then];
    (split;
     [ split;
       [ intros H; first [ discriminate H
                         | left; split; discriminate
                         | right; left; split; discriminate
                         | right; right; left; discriminate
                         | right; right; right; discriminate ]
       | intros H; first [ reflexivity
                         | exfalso; destruct H as [[H1 H2]|[[H1 H2]|[H1|H1]]];
                           congruence ] ]
     | intros H;
       first [ exists b6; split; [reflexivity | split; [exact Hnone | exact Hdesc]]
             | exfalso; apply H;
               first [ left; split; discriminate
                     | right; left; split; discriminate
                     | right; right; left; discriminate
                     | right; right; right; discriminate ] ] ]).
Qed.

Lemma XMLInit_without_record_witness :
  XMLInit ref_disabled_band ref_full_tree = None
  /\ exists b', XMLInit ref_disabled_band ref_scale_only_tree = Some (b', CE_None)
                /\ psPam b' = None.
Proof.
  assert (Hp : psPam (PamInitialize ref_disabled_band) = None) by reflexivity.
  destruct (@XMLInit_without_record ref_env ref_disabled_band ref_full_tree Hp)
    as [[_ H1] _].
  destruct (@XMLInit_without_record ref_env ref_disabled_band ref_scale_only_tree Hp)
    as [_ H2].
  split.
  - apply H1. left. split; vm_compute; discriminate.
  - destruct H2 as (b' & Hb & Hn & _).
    + intros [[H _]|[[H _]|[H|H]]]; apply H; vm_compute; reflexivity.
    + exists b'. split; assumption.
Defined.

(** ** Further properties: CloneInfo *)

Section CloneBlocks.

Variable E : Env.
Variable MDMD_GetMetadata : GDALMultiDomainMetadata E -> option (list string).
Variable MDMD_SetMetadata :
  GDALMultiDomainMetadata E -> option (list string) -> option string ->
  GDALMultiDomainMetadata E * CPLErr.
Variable RAT_GetRowCount : GDALRasterAttributeTable E -> Z.
Variable RAT_GetColumnCount : GDALRasterAttributeTable E -> Z.
Implicit Types (b : GDALPamRasterBand E) (p : GDALRasterBandPamInfo E).

Lemma steps_to_CPLError b p c n m :
  settled b -> psPam b = Some p -> steps_to b (CPLError b c n m) p.
Proof.
  intros Hs Hp. split; [exact Hs|]. split; [exact Hp|]. unfold same_band. auto.
Qed.

Lemma block_CloneInfo_NoData b p src only :
  settled b -> psPam b = Some p ->
  steps_to b (CloneInfo_NoData b src only)
    (record_CloneInfo_NoData (eDataType b) src only p).
Proof.
  intros Hs Hp. unfold CloneInfo_NoData, record_CloneInfo_NoData.
  assert (Hint : forall n,
            steps_to b
              (if negb only then fst (SetNoDataValueAsInt64 b n)
               else
                 let '(b0, nExisting, ok) := GetNoDataValueAsInt64 b in
                 if negb ok || negb (nExisting =? n)
                 then fst (SetNoDataValueAsInt64 b0 n) else b0)
              (if negb only
                  || match eDataType b with
                     | GDT_Int64 =>
                         negb (bNoDataValueSetAsInt64 p) || negb (nNoDataValueInt64 p =? n)
                     | _ => true
                     end
               then record_SetNoDataValueAsInt64 p n else p)).
  { intros n. destruct only; cbn [negb orb]; [|apply step_SetNoDataValueAsInt64; auto].
    unfold GetNoDataValueAsInt64. rewrite Hp.
    destruct (eDataType b) eqn:Hty;
      try (cbn [negb orb];
           match goal with
           | |- steps_to b (fst (_ (CPLError b ?c ?n0 ?m) _)) _ =>
               pose proof (steps_to_CPLError b c n0 m Hs Hp) as Hc;
               eapply steps_to_trans; [exact Hc|];
               destruct Hc as (Hs' & Hp' & _);
               apply step_SetNoDataValueAsInt64; assumption
           end).
    destruct (negb (bNoDataValueSetAsInt64 p) || negb (nNoDataValueInt64 p =? n));
      [apply step_SetNoDataValueAsInt64; auto | apply steps_to_refl; auto]. }
  assert (Huint : forall n,
            steps_to b
              (if negb only then fst (SetNoDataValueAsUInt64 b n)
               else
                 let '(b0, nExisting, ok) := GetNoDataValueAsUInt64 b in
                 if negb ok || negb (nExisting =? n)
                 then fst (SetNoDataValueAsUInt64 b0 n) else b0)
              (if negb only
                  || match eDataType b with
                     | GDT_UInt64 =>
                         negb (bNoDataValueSetAsUInt64 p)
                         || negb (nNoDataValueUInt64 p =? n)
                     | _ => true
                     end
               then record_SetNoDataValueAsUInt64 p n else p)).
  { intros n. destruct only; cbn [negb orb]; [|apply step_SetNoDataValueAsUInt64; auto].
    unfold GetNoDataValueAsUInt64. rewrite Hp.
    destruct (eDataType b) eqn:Hty;
      try (cbn [negb orb];
           match goal with
           | |- steps_to b (fst (_ (CPLError b ?c ?n0 ?m) _)) _ =>
               pose proof (steps_to_CPLError b c n0 m Hs Hp) as Hc;
               eapply steps_to_trans; [exact Hc|];
               destruct Hc as (Hs' & Hp' & _);
               apply step_SetNoDataValueAsUInt64; assumption
           end).
    destruct (negb (bNoDataValueSetAsUInt64 p) || negb (nNoDataValueUInt64 p =? n));
      [apply step_SetNoDataValueAsUInt64; auto | apply steps_to_refl; auto]. }
  assert (Hdouble : forall x,
            steps_to b
              (if negb only then fst (SetNoDataValue b x)
               else
                 let '(dfExisting, ok) := GetNoDataValue b in
                 if negb ok
                    || negb ((PrimFloat.is_nan dfExisting && PrimFloat.is_nan x)
                             || PrimFloat.eqb dfExisting x)
                 then fst (SetNoDataValue b x) else b)
              (if negb only
                  || negb (snd (record_GetNoDataValue p))
                  || negb ((PrimFloat.is_nan (fst (record_GetNoDataValue p))
                            && PrimFloat.is_nan x)
                           || PrimFloat.eqb (fst (record_GetNoDataValue p)) x)
               then record_SetNoDataValue p x else p)).
  { intros x. destruct only; cbn [negb orb]; [|apply step_SetNoDataValue; auto].
    assert (Hg : GetNoDataValue b = record_GetNoDataValue p)
      by (unfold GetNoDataValue; rewrite Hp; reflexivity).
    rewrite Hg. destruct (record_GetNoDataValue p) as [ex ok]. cbn [fst snd].
    destruct (negb ok || negb (PrimFloat.is_nan ex && PrimFloat.is_nan x
                               || PrimFloat.eqb ex x));
      [apply step_SetNoDataValue; auto | apply steps_to_refl; auto]. }
  destruct (src_GetRasterDataType src);
    try (destruct (src_GetNoDataValue src) as [x ok]; destruct ok;
         [apply Hdouble | apply steps_to_refl; auto]).
  - destruct (src_GetNoDataValueAsUInt64 src) as [n ok]; destruct ok;
      [apply Huint | apply steps_to_refl; auto].
  - destruct (src_GetNoDataValueAsInt64 src) as [n ok]; destruct ok;
      [apply Hint | apply steps_to_refl; auto].
Qed.

Lemma block_CloneInfo_CategoryNames b p src only :
  settled b -> psPam b = Some p ->
  steps_to b (CloneInfo_CategoryNames b src only)
    (record_CloneInfo_CategoryNames src only p).
Proof.
  intros Hs Hp. unfold CloneInfo_CategoryNames, record_CloneInfo_CategoryNames,
    GetCategoryNames. rewrite Hp.
  destruct (src_GetCategoryNames src); [|apply steps_to_refl; auto].
  destruct (negb only || _); [apply step_SetCategoryNames | apply steps_to_refl]; auto.
Qed.

Lemma block_CloneInfo_ScaleOffset b p src only :
  settled b -> psPam b = Some p ->
  steps_to b (CloneInfo_ScaleOffset b src only)
    (record_CloneInfo_ScaleOffset src only p).
Proof.
  intros Hs Hp. unfold CloneInfo_ScaleOffset, record_CloneInfo_ScaleOffset.
  destruct (src_GetOffset src) as [o oko], (src_GetScale src) as [s oks].
  cbn [fst snd]. cbv zeta.
  set (b1 := if oko then _ else b).
  set (p1 := if oko then _ else p).
  assert (H1 : steps_to b b1 p1).
  { unfold b1, p1, GetOffset. clear b1 p1. rewrite Hp. cbn [fst].
    destruct oko; [|apply steps_to_refl; auto].
    destruct (negb only || _); [apply step_SetOffset | apply steps_to_refl]; auto. }
  destruct H1 as (Hs1 & Hp1 & Hb1). clearbody b1 p1.
  assert (H2 : steps_to b1
                 (if oks
                  then if negb only || negb (PrimFloat.eqb (fst (GetScale b1)) s)
                       then fst (SetScale b1 s) else b1
                  else b1)
                 (if oks
                  then if negb only || negb (PrimFloat.eqb (dfScale p1) s)
                       then record_SetScale p1 s else p1
                  else p1)).
  { unfold GetScale. rewrite Hp1. cbn [fst].
    destruct oks; [|apply steps_to_refl; auto].
    destruct (negb only || _); [apply step_SetScale | apply steps_to_refl]; auto. }
  eapply steps_to_trans; [|exact H2]. split; [exact Hs1 | split; [exact Hp1 | exact Hb1]].
Qed.

Lemma block_CloneInfo_UnitType b p src only :
  settled b -> psPam b = Some p ->
  steps_to b (CloneInfo_UnitType b src only) (record_CloneInfo_UnitType src only p).
Proof.
  intros Hs Hp. unfold CloneInfo_UnitType, record_CloneInfo_UnitType, GetUnitType.
  rewrite Hp.
  destruct (strlen (src_GetUnitType src) >? 0); [|apply steps_to_refl; auto].
  destruct (negb only || _); [apply step_SetUnitType | apply steps_to_refl]; auto.
Qed.

Lemma block_CloneInfo_ColorInterp b p src only :
  settled b -> psPam b = Some p ->
  steps_to b (CloneInfo_ColorInterp b src only)
    (record_CloneInfo_ColorInterp src only p).
Proof.
  intros Hs Hp. unfold CloneInfo_ColorInterp, record_CloneInfo_ColorInterp,
    GetColorInterpretation. rewrite Hp.
  destruct (negb (GDALColorInterp_eqb _ GCI_Undefined)); [|apply steps_to_refl; auto].
  destruct (negb only || _);
    [apply step_SetColorInterpretation | apply steps_to_refl]; auto.
Qed.

Lemma block_CloneInfo_ColorTable b p src only :
  settled b -> psPam b = Some p ->
  steps_to b (CloneInfo_ColorTable b src only)
    (record_CloneInfo_ColorTable src only p).
Proof.
  intros Hs Hp. unfold CloneInfo_ColorTable, record_CloneInfo_ColorTable, GetColorTable.
  rewrite Hp.
  destruct (src_GetColorTable src); [|apply steps_to_refl; auto].
  destruct (negb only || _); [apply step_SetColorTable | apply steps_to_refl]; auto.
Qed.

Lemma block_CloneInfo_RAT b p src only :
  settled b -> psPam b = Some p ->
  steps_to b (CloneInfo_RAT RAT_GetRowCount RAT_GetColumnCount b src only)
    (record_CloneInfo_RAT RAT_GetRowCount RAT_GetColumnCount src only p).
Proof.
  intros Hs Hp. unfold CloneInfo_RAT, record_CloneInfo_RAT.
  destruct (src_GetDefaultRAT src) as [r|]; [|apply steps_to_refl; auto].
  destruct (negb (RAT_GetRowCount r =? 0) || negb (RAT_GetColumnCount r =? 0));
    [|apply steps_to_refl; auto].
  destruct only; cbn [negb orb]; [|apply step_SetDefaultRAT; auto].
  unfold GetDefaultRAT. pose proof (steps_to_init b Hs Hp) as Hi.
  destruct Hi as (Hs1 & Hp1 & Hb1). rewrite Hp1.
  destruct (poDefaultRAT p).
  - split; [exact Hs1 | split; [exact Hp1 | exact Hb1]].
  - eapply steps_to_trans;
      [ split; [exact Hs1 | split; [exact Hp1 | exact Hb1]]
      | apply step_SetDefaultRAT; auto ].
Qed.

Lemma settled_set_sDescription b d : settled b -> settled (set_sDescription b d).
Proof. exact (fun H => H). Qed.

Lemma settled_set_oMDMD b m : settled b -> settled (set_oMDMD b m).
Proof. exact (fun H => H). Qed.

Lemma settled_set_bIgnoreUnimplemented b v :
  settled b -> settled (set_bIgnoreUnimplemented b v).
Proof. exact (fun H => H). Qed.

Lemma clone_step_of_steps_to b b' p' :
  steps_to b b' p' -> clone_step b b' p' (sDescription b) (oMDMD b).
Proof.
  intros (Hs & Hp & (H1 & _ & H3 & H4 & _)). split; [exact Hs|]. split; [exact Hp|]. auto.
Qed.

Lemma clone_step_then b b1 b2 p1 p2 d m :
  clone_step b b1 p1 d m -> steps_to b1 b2 p2 -> clone_step b b2 p2 d m.
Proof.
  intros (_ & _ & Hty & Hd & Hm) (Hs & Hp & (H1 & _ & H3 & H4 & _)).
  split; [exact Hs|]. split; [exact Hp|]. repeat split; congruence.
Qed.

Lemma block_CloneInfo_Metadata b p src flags :
  settled b -> psPam b = Some p ->
  clone_step b
    (if GCIF_BAND_METADATA flags
     then CloneInfo_Metadata MDMD_GetMetadata MDMD_SetMetadata b src
            (GCIF_ONLY_IF_MISSING flags)
     else b)
    p (sDescription b)
    (metadata_CloneInfo MDMD_GetMetadata MDMD_SetMetadata src flags (oMDMD b)).
Proof.
  intros Hs Hp. unfold CloneInfo_Metadata, metadata_CloneInfo.
  assert (Hsame : clone_step b b p (sDescription b) (oMDMD b))
    by (apply clone_step_of_steps_to, steps_to_refl; auto).
  destruct (GCIF_BAND_METADATA flags); cbn [andb];
    [|destruct (src_GetMetadata src); exact Hsame].
  destruct (src_GetMetadata src); [|exact Hsame].
  destruct (negb (GCIF_ONLY_IF_MISSING flags) || _); [|exact Hsame].
  unfold SetMetadata.
  destruct (steps_to_init b Hs Hp) as (Hs1 & Hp1 & (H1 & _ & H3 & H6 & _)).
  destruct (same_band_MarkPamDirty (PamInitialize b)) as (H4 & _ & H5 & H7 & _).
  rewrite H7, H6.
  destruct (MDMD_SetMetadata (oMDMD b) _ _) as [md e].
  cbn [fst]. split; [apply settled_set_oMDMD, settled_MarkPamDirty, Hs1|].
  split; [cbn [psPam set_oMDMD]; rewrite psPam_MarkPamDirty; exact Hp1|].
  repeat split; cbn [eDataType sDescription oMDMD set_oMDMD]; congruence.
Qed.

Lemma block_CloneInfo_Description b p src only :
  settled b -> psPam b = Some p ->
  clone_step b (CloneInfo_Description b src only) p
    (if (strlen (src_GetDescription src) >? 0)
        && (negb only || (strlen (sDescription b) =? 0))
     then src_GetDescription src else sDescription b)
    (oMDMD b).
Proof.
  intros Hs Hp. unfold CloneInfo_Description, GetDescription.
  assert (Hsame : clone_step b b p (sDescription b) (oMDMD b))
    by (apply clone_step_of_steps_to, steps_to_refl; auto).
  destruct (strlen (src_GetDescription src) >? 0); cbn [andb]; [|exact Hsame].
  destruct (negb only || _); [|exact Hsame].
  unfold SetDescription.
  destruct (steps_to_init b Hs Hp) as (Hs1 & Hp1 & (H1 & _ & H3 & H6 & _)).
  rewrite Hp1.
  destruct (same_band_MarkPamDirty (PamInitialize b)) as (H4 & _ & H5 & H7 & _).
  destruct (negb (String.eqb _ _)).
  - split; [apply settled_set_sDescription, settled_MarkPamDirty, Hs1|].
    split; [cbn [psPam set_sDescription]; rewrite psPam_MarkPamDirty; exact Hp1|].
    repeat split; cbn [eDataType oMDMD set_sDescription]; congruence.
  - split; [apply settled_set_sDescription, Hs1|].
    split; [exact Hp1|].
    repeat split; cbn [eDataType oMDMD set_sDescription]; congruence.
Qed.

(** [CloneInfo] on a band with a usable record: the record, the
    description and the metadata it leaves. *)
Lemma CloneInfo_record_view b p src flags :
  psPam (PamInitialize b) = Some p ->
  let r := CloneInfo MDMD_GetMetadata MDMD_SetMetadata RAT_GetRowCount RAT_GetColumnCount
             b src flags in
  snd r = CE_None /\ settled (fst r)
  /\ psPam (fst r)
     = Some (record_CloneInfo RAT_GetRowCount RAT_GetColumnCount (eDataType b) src flags p)
  /\ eDataType (fst r) = eDataType b
  /\ GetDescription (fst r) = description_CloneInfo src flags (GetDescription b)
  /\ oMDMD (fst r)
     = metadata_CloneInfo MDMD_GetMetadata MDMD_SetMetadata src flags (oMDMD b)
  /\ bIgnoreUnimplemented (fst r) = bIgnoreUnimplemented b.
Proof.
  intros Hp r. subst r. unfold CloneInfo. cbv zeta. cbn [fst snd].
  split; [reflexivity|].
  assert (Hs0 : settled (PamInitialize b))
    by (apply PamInitialize_settled; congruence).
  destruct (PamInitialize_frame b) as (Hty & _ & Hdesc & Hmd & _).
  set (b0 := set_bIgnoreUnimplemented (PamInitialize b) true).
  assert (Hty0 : eDataType b0 = eDataType b) by exact Hty.
  assert (Hd0 : sDescription b0 = sDescription b) by exact Hdesc.
  assert (Hm0 : oMDMD b0 = oMDMD b) by exact Hmd.
  assert (Hs00 : settled b0) by (apply settled_set_bIgnoreUnimplemented, Hs0).
  assert (Hp0 : psPam b0 = Some p) by exact Hp.
  clearbody b0.
  set (only := GCIF_ONLY_IF_MISSING flags).
  set (m' := metadata_CloneInfo MDMD_GetMetadata MDMD_SetMetadata src flags (oMDMD b)).
  set (b1 := if GCIF_BAND_METADATA flags then _ else b0).
  assert (H1 : clone_step b0 b1 p (sDescription b) m').
  { unfold b1, m', only. rewrite <- Hd0, <- Hm0.
    apply block_CloneInfo_Metadata; auto. }
  clearbody b1.
  set (d' := description_CloneInfo src flags (GetDescription b)).
  set (b2 := if GCIF_BAND_DESCRIPTION flags then _ else b1).
  assert (H2 : clone_step b0 b2 p d' m').
  { unfold b2, d', description_CloneInfo, GetDescription. fold only.
    destruct H1 as (Hs & Hq & Ht & Hd & Hm).
    destruct (GCIF_BAND_DESCRIPTION flags); cbn [andb];
      [|split; [exact Hs | split; [exact Hq | repeat split; assumption]]].
    destruct (block_CloneInfo_Description b1 src only Hs Hq)
      as (Hs' & Hq' & Ht' & Hd' & Hm').
    rewrite Hd in Hd'.
    split; [exact Hs' | split; [exact Hq' | repeat split; congruence]]. }
  clearbody b2.
  unfold record_CloneInfo. cbv zeta. fold only.
  set (b3 := if GCIF_NODATA flags then _ else b2).
  set (p3 := if GCIF_NODATA flags then _ else p).
  assert (H3 : clone_step b0 b3 p3 d' m').
  { unfold b3, p3. destruct (GCIF_NODATA flags); [|exact H2].
    pose proof H2 as (Hs & Hq & Ht & Hd).
    eapply clone_step_then; [exact H2|]. rewrite <- Hty0, <- Ht.
    apply block_CloneInfo_NoData; auto. }
  clearbody b3 p3.
  set (b4 := if GCIF_CATEGORYNAMES flags then _ else b3).
  set (p4 := if GCIF_CATEGORYNAMES flags then _ else p3).
  assert (H4 : clone_step b0 b4 p4 d' m').
  { unfold b4, p4. destruct (GCIF_CATEGORYNAMES flags); [|exact H3].
    pose proof H3 as (Hs & Hq & Ht & Hd).
    eapply clone_step_then; [exact H3|]. apply block_CloneInfo_CategoryNames; auto. }
  clearbody b4 p4.
  set (b5 := if GCIF_SCALEOFFSET flags then _ else b4).
  set (p5 := if GCIF_SCALEOFFSET flags then _ else p4).
  assert (H5 : clone_step b0 b5 p5 d' m').
  { unfold b5, p5. destruct (GCIF_SCALEOFFSET flags); [|exact H4].
    pose proof H4 as (Hs & Hq & Ht & Hd).
    eapply clone_step_then; [exact H4|]. apply block_CloneInfo_ScaleOffset; auto. }
  clearbody b5 p5.
  set (b6 := if GCIF_UNITTYPE flags then _ else b5).
  set (p6 := if GCIF_UNITTYPE flags then _ else p5).
  assert (H6 : clone_step b0 b6 p6 d' m').
  { unfold b6, p6. destruct (GCIF_UNITTYPE flags); [|exact H5].
    pose proof H5 as (Hs & Hq & Ht & Hd).
    eapply clone_step_then; [exact H5|]. apply block_CloneInfo_UnitType; auto. }
  clearbody b6 p6.
  set (b7 := if GCIF_COLORINTERP flags then _ else b6).
  set (p7 := if GCIF_COLORINTERP flags then _ else p6).
  assert (H7 : clone_step b0 b7 p7 d' m').
  { unfold b7, p7. destruct (GCIF_COLORINTERP flags); [|exact H6].
    pose proof H6 as (Hs & Hq & Ht & Hd).
    eapply clone_step_then; [exact H6|]. apply block_CloneInfo_ColorInterp; auto. }
  clearbody b7 p7.
  set (b8 := if GCIF_COLORTABLE flags then _ else b7).
  set (p8 := if GCIF_COLORTABLE flags then _ else p7).
  assert (H8 : clone_step b0 b8 p8 d' m').
  { unfold b8, p8. destruct (GCIF_COLORTABLE flags); [|exact H7].
    pose proof H7 as (Hs & Hq & Ht & Hd).
    eapply clone_step_then; [exact H7|]. apply block_CloneInfo_ColorTable; auto. }
  clearbody b8 p8.
  set (b9 := if GCIF_RAT flags then _ else b8).
  set (p9 := if GCIF_RAT flags then _ else p8).
  assert (H9 : clone_step b0 b9 p9 d' m').
  { unfold b9, p9. destruct (GCIF_RAT flags); [|exact H8].
    pose proof H8 as (Hs & Hq & Ht & Hd).
    eapply clone_step_then; [exact H8|]. apply block_CloneInfo_RAT; auto. }
  destruct H9 as (Hs & Hq & Ht & Hd & Hm).
  split; [apply settled_set_bIgnoreUnimplemented, Hs|].
  split; [exact Hq|]. split; [cbn [eDataType set_bIgnoreUnimplemented]; congruence|].
  split; [exact Hd|]. split; [exact Hm | reflexivity].
Qed.

End CloneBlocks.


(** ** What CloneInfo leaves in the record *)

Lemma when_frame (A B : Type) (g : A -> B) (f : bool) (blk : A -> A) (x : A) :
  (forall q, g (blk q) = g q) -> g (when f blk x) = g x.
Proof. unfold when. destruct f; auto. Qed.

Lemma same_double_refl x : same_double x x = true.
Proof. unfold same_double, PrimFloat.is_nan. destruct (PrimFloat.eqb x x); reflexivity. Qed.

Lemma SFeqb_sym x y : SFeqb x y = SFeqb y x.
Proof.
  unfold SFeqb, SFcompare.
  destruct x as [[]|[]| |[] m e], y as [[]|[]| |[] m' e']; try reflexivity;
    rewrite (Z.compare_antisym e e'); destruct (e ?= e')%Z; cbn [CompOpp];
    try reflexivity;
    change (PosDef.Pos.compare_cont Eq m' m) with (m' ?= m)%positive;
    change (PosDef.Pos.compare_cont Eq m m') with (m ?= m')%positive;
    rewrite (Pos.compare_antisym m m'); destruct (m ?= m')%positive; reflexivity.
Qed.

Lemma float_eqb_sym x y : PrimFloat.eqb x y = PrimFloat.eqb y x.
Proof. rewrite !eqb_spec. apply SFeqb_sym. Qed.

Lemma EQUAL_refl s : EQUAL s s = true.
Proof.
  induction s as [|c s IH]; [reflexivity|]. cbn [EQUAL].
  rewrite Ascii.eqb_refl, IH. reflexivity.
Qed.

Lemma GDALColorInterp_eqb_refl c : GDALColorInterp_eqb c c = true.
Proof. destruct c; reflexivity. Qed.

Ltac clone_frame :=
  intros;
  unfold record_CloneInfo_NoData, record_CloneInfo_CategoryNames,
    record_CloneInfo_ScaleOffset, record_CloneInfo_UnitType,
    record_CloneInfo_ColorInterp, record_CloneInfo_ColorTable, record_CloneInfo_RAT,
    record_GetNoDataValue,
    record_SetNoDataValue, record_SetNoDataValueAsInt64, record_SetNoDataValueAsUInt64,
    record_SetOffset, record_SetScale, record_SetUnitType, record_SetColorTable,
    ResetNoDataValues;
  cbv zeta;
  repeat match goal with
         | |- context [match ?c with _ => _ end] =>
             lazymatch c with
             | context [match _ with _ => _ end] => fail
             | _ => destruct c; cbn
             end
         end;
  reflexivity.

Ltac skip_block g := etransitivity; [apply (@when_frame _ _ g); clone_frame |].

Section CloneFields.

Variable E : Env.
Variable RAT_GetRowCount : GDALRasterAttributeTable E -> Z.
Variable RAT_GetColumnCount : GDALRasterAttributeTable E -> Z.
Implicit Types (b : GDALPamRasterBand E) (p : GDALRasterBandPamInfo E).

Local Abbreviation clone_record :=
  (record_CloneInfo RAT_GetRowCount RAT_GetColumnCount).

Lemma record_CloneInfo_is_chain ty src flags p :
  clone_record ty src flags p
  = record_CloneInfo_chain RAT_GetRowCount RAT_GetColumnCount ty src flags p.
Proof. reflexivity. Qed.

Ltac as_chain := rewrite record_CloneInfo_is_chain; unfold record_CloneInfo_chain; cbv zeta.

Lemma pszUnitType_CloneInfo ty src flags p :
  pszUnitType (clone_record ty src flags p)
  = if GCIF_UNITTYPE flags && (strlen (src_GetUnitType src) >? 0)
       && (negb (GCIF_ONLY_IF_MISSING flags)
           || negb (EQUAL (match pszUnitType p with None => "" | Some u => u end)
                      (src_GetUnitType src)))
    then Some (src_GetUnitType src)
    else pszUnitType p.
Proof.
  as_chain. do 3 skip_block (@pszUnitType E).
  set (p5 := when (GCIF_SCALEOFFSET flags) _ _).
  assert (H5 : pszUnitType p5 = pszUnitType p).
  { unfold p5. do 3 skip_block (@pszUnitType E). reflexivity. }
  clearbody p5. unfold when.
  destruct (GCIF_UNITTYPE flags); cbn [andb]; [|exact H5].
  unfold record_CloneInfo_UnitType, record_SetUnitType. rewrite H5.
  destruct (strlen (src_GetUnitType src) >? 0) eqn:Hlen; cbn [andb]; [|exact H5].
  destruct (negb _ || _); [|exact H5].
  destruct (src_GetUnitType src); [discriminate Hlen | reflexivity].
Qed.

Lemma papszCategoryNames_CloneInfo ty src flags p :
  papszCategoryNames (clone_record ty src flags p)
  = match src_GetCategoryNames src with
    | Some names =>
        if GCIF_CATEGORYNAMES flags
           && (negb (GCIF_ONLY_IF_MISSING flags) || is_missing (papszCategoryNames p))
        then CSLDuplicate (Some names)
        else papszCategoryNames p
    | None => papszCategoryNames p
    end.
Proof.
  as_chain. do 5 skip_block (@papszCategoryNames E).
  set (p3 := when (GCIF_NODATA flags) _ _).
  assert (H3 : papszCategoryNames p3 = papszCategoryNames p).
  { unfold p3. skip_block (@papszCategoryNames E). reflexivity. }
  clearbody p3. unfold is_missing, when. rewrite <- H3.
  unfold record_CloneInfo_CategoryNames.
  destruct (GCIF_CATEGORYNAMES flags), (src_GetCategoryNames src); cbn [andb];
    try reflexivity.
  destruct (negb _ || _); reflexivity.
Qed.

Lemma poDefaultRAT_CloneInfo ty src flags p :
  poDefaultRAT (clone_record ty src flags p)
  = match src_GetDefaultRAT src with
    | Some poRAT =>
        if GCIF_RAT flags
           && (negb (RAT_GetRowCount poRAT =? 0) || negb (RAT_GetColumnCount poRAT =? 0))
           && (negb (GCIF_ONLY_IF_MISSING flags) || is_missing (poDefaultRAT p))
        then Some poRAT
        else poDefaultRAT p
    | None => poDefaultRAT p
    end.
Proof.
  as_chain.
  set (p8 := when (GCIF_COLORTABLE flags) _ _).
  assert (H8 : poDefaultRAT p8 = poDefaultRAT p).
  { unfold p8. do 6 skip_block (@poDefaultRAT E). reflexivity. }
  clearbody p8. unfold is_missing, when. rewrite <- H8.
  unfold record_CloneInfo_RAT.
  destruct (GCIF_RAT flags), (src_GetDefaultRAT src) as [r|]; cbn [andb];
    try reflexivity.
  destruct (negb (RAT_GetRowCount r =? 0) || negb (RAT_GetColumnCount r =? 0));
    cbn [andb]; [|reflexivity].
  destruct (negb _ || _); reflexivity.
Qed.

Lemma poColorTable_CloneInfo ty src flags p :
  poColorTable (clone_record ty src flags p)
  = match src_GetColorTable src with
    | Some t =>
        if GCIF_COLORTABLE flags
           && (negb (GCIF_ONLY_IF_MISSING flags) || is_missing (poColorTable p))
        then Some t
        else poColorTable p
    | None => poColorTable p
    end.
Proof.
  as_chain. skip_block (@poColorTable E).
  set (p7 := when (GCIF_COLORINTERP flags) _ _).
  assert (H7 : poColorTable p7 = poColorTable p).
  { unfold p7. do 5 skip_block (@poColorTable E). reflexivity. }
  clearbody p7. unfold is_missing, when. rewrite <- H7.
  unfold record_CloneInfo_ColorTable.
  destruct (GCIF_COLORTABLE flags), (src_GetColorTable src) as [t|]; cbn [andb];
    try reflexivity.
  destruct (negb _ || _); reflexivity.
Qed.

(** The interpretation after the palette block of [CloneInfo] has stored
    a palette. *)
Lemma eColorInterp_CloneInfo_palette ty src flags p t :
  GCIF_COLORTABLE flags = true -> src_GetColorTable src = Some t ->
  negb (GCIF_ONLY_IF_MISSING flags) || is_missing (poColorTable p) = true ->
  eColorInterp (clone_record ty src flags p) = GCI_PaletteIndex.
Proof.
  intros Hf Ht Hc. as_chain. skip_block (@eColorInterp E).
  set (p7 := when (GCIF_COLORINTERP flags) _ _).
  assert (H7 : poColorTable p7 = poColorTable p).
  { unfold p7. do 5 skip_block (@poColorTable E). reflexivity. }
  clearbody p7. rewrite Hf. unfold when, record_CloneInfo_ColorTable. rewrite Ht.
  unfold is_missing in Hc. rewrite H7, Hc. reflexivity.
Qed.

(** The interpretation when the palette block of [CloneInfo] stores
    nothing. *)
Lemma eColorInterp_CloneInfo ty src flags p :
  GCIF_COLORTABLE flags = false \/ src_GetColorTable src = None ->
  GCIF_COLORINTERP flags = true ->
  src_GetColorInterpretation src <> GCI_Undefined ->
  eColorInterp (clone_record ty src flags p) = src_GetColorInterpretation src.
Proof.
  intros Hc Hf Hu. as_chain. skip_block (@eColorInterp E).
  set (p7 := when (GCIF_COLORINTERP flags) _ _).
  assert (H7 : eColorInterp p7 = src_GetColorInterpretation src).
  { unfold p7. rewrite Hf. unfold when at 1.
    generalize (when (GCIF_UNITTYPE flags)
                  (record_CloneInfo_UnitType src (GCIF_ONLY_IF_MISSING flags))
                  (when (GCIF_SCALEOFFSET flags)
                     (record_CloneInfo_ScaleOffset src (GCIF_ONLY_IF_MISSING flags))
                     (when (GCIF_CATEGORYNAMES flags)
                        (record_CloneInfo_CategoryNames src (GCIF_ONLY_IF_MISSING flags))
                        (when (GCIF_NODATA flags)
                           (record_CloneInfo_NoData ty src (GCIF_ONLY_IF_MISSING flags))
                           p)))).
    intros q. unfold record_CloneInfo_ColorInterp.
    destruct (GDALColorInterp_eqb (src_GetColorInterpretation src) GCI_Undefined) eqn:Hun.
    - apply GDALColorInterp_eqb_eq in Hun. contradiction.
    - cbn [negb].
      destruct (GDALColorInterp_eqb (src_GetColorInterpretation src) (eColorInterp q))
        eqn:Heq.
      + apply GDALColorInterp_eqb_eq in Heq.
        destruct (GCIF_ONLY_IF_MISSING flags); cbn [negb orb]; [congruence | reflexivity].
      + rewrite orb_true_r. reflexivity. }
  clearbody p7. rewrite <- H7. unfold when.
  destruct Hc as [Hc|Hc]; [rewrite Hc; reflexivity|].
  destruct (GCIF_COLORTABLE flags); [|reflexivity].
  unfold record_CloneInfo_ColorTable. rewrite Hc. reflexivity.
Qed.

Lemma offset_CloneInfo ty src flags p o :
  GCIF_SCALEOFFSET flags = true -> src_GetOffset src = (o, true) ->
  same_double (dfOffset (clone_record ty src flags p)) o = true
  /\ (GCIF_ONLY_IF_MISSING flags = false ->
      bOffsetSet (clone_record ty src flags p) = true).
Proof.
  intros Hf Ho. as_chain.
  set (p4 := when (GCIF_CATEGORYNAMES flags) _ _). clearbody p4.
  rewrite Hf. unfold when at 5.
  assert (H : same_double
                (dfOffset (record_CloneInfo_ScaleOffset src (GCIF_ONLY_IF_MISSING flags) p4))
                o = true
              /\ (GCIF_ONLY_IF_MISSING flags = false ->
                  bOffsetSet (record_CloneInfo_ScaleOffset src
                                (GCIF_ONLY_IF_MISSING flags) p4) = true)).
  { unfold record_CloneInfo_ScaleOffset, record_SetOffset, record_SetScale, same_double.
    rewrite Ho. cbn [fst snd]. cbv zeta.
    pose proof (same_double_refl o) as Hoo. unfold same_double in Hoo.
    destruct (GCIF_ONLY_IF_MISSING flags); cbn [negb orb];
      destruct (bOffsetSet p4) eqn:Hset; cbn [negb orb];
      destruct (PrimFloat.eqb (dfOffset p4) o) eqn:Heq; cbn [negb orb];
      destruct (snd (src_GetScale src)); cbn [negb orb];
      repeat match goal with
             | |- context [if ?c then _ else _] => destruct c
             end;
      cbn; rewrite ?Heq, ?Hset, ?orb_true_r; auto; split; auto; discriminate. }
  destruct H as [H1 H2]. split.
  - match goal with
    | |- context [dfOffset ?t] =>
        assert (Hfr : dfOffset t
                      = dfOffset (record_CloneInfo_ScaleOffset src
                                  (GCIF_ONLY_IF_MISSING flags) p4))
          by (do 4 skip_block (@dfOffset E); reflexivity);
        rewrite Hfr
    end.
    exact H1.
  - intros Hm. do 4 skip_block (@bOffsetSet E). exact (H2 Hm).
Qed.

Lemma scale_CloneInfo ty src flags p s :
  GCIF_SCALEOFFSET flags = true -> src_GetScale src = (s, true) ->
  same_double (dfScale (clone_record ty src flags p)) s = true
  /\ (GCIF_ONLY_IF_MISSING flags = false ->
      bScaleSet (clone_record ty src flags p) = true).
Proof.
  intros Hf Hsc. as_chain.
  set (p4 := when (GCIF_CATEGORYNAMES flags) _ _). clearbody p4.
  rewrite Hf. unfold when at 5.
  assert (H : same_double
                (dfScale (record_CloneInfo_ScaleOffset src (GCIF_ONLY_IF_MISSING flags) p4))
                s = true
              /\ (GCIF_ONLY_IF_MISSING flags = false ->
                  bScaleSet (record_CloneInfo_ScaleOffset src
                               (GCIF_ONLY_IF_MISSING flags) p4) = true)).
  { unfold record_CloneInfo_ScaleOffset. rewrite Hsc. cbn [fst snd]. cbv zeta.
    match goal with
    | |- context [record_SetScale ?q s] => generalize q
    end.
    intros q. unfold record_SetScale, same_double.
    rewrite (float_eqb_sym s (dfScale q)).
    pose proof (same_double_refl s) as Hss. unfold same_double in Hss.
    destruct (GCIF_ONLY_IF_MISSING flags); cbn [negb orb];
      destruct (bScaleSet q) eqn:Hset; cbn [negb orb];
      destruct (PrimFloat.eqb (dfScale q) s) eqn:Heq; cbn [negb orb];
      repeat match goal with
             | |- context [if ?c then _ else _] => destruct c
             end;
      cbn; rewrite ?Heq, ?Hset, ?orb_true_r; auto; split; auto; discriminate. }
  destruct H as [H1 H2]. split.
  - match goal with
    | |- context [dfScale ?t] =>
        assert (Hfr : dfScale t
                      = dfScale (record_CloneInfo_ScaleOffset src
                                  (GCIF_ONLY_IF_MISSING flags) p4))
          by (do 4 skip_block (@dfScale E); reflexivity);
        rewrite Hfr
    end.
    exact H1.
  - intros Hm. do 4 skip_block (@bScaleSet E). exact (H2 Hm).
Qed.

Lemma nodata_CloneInfo ty src flags p x :
  GCIF_NODATA flags = true ->
  src_GetRasterDataType src <> GDT_Int64 -> src_GetRasterDataType src <> GDT_UInt64 ->
  src_GetNoDataValue src = (x, true) ->
  snd (record_GetNoDataValue (clone_record ty src flags p)) = true
  /\ same_double (fst (record_GetNoDataValue (clone_record ty src flags p))) x = true
  /\ (GCIF_ONLY_IF_MISSING flags = false ->
      record_GetNoDataValue (clone_record ty src flags p) = (x, true)).
Proof.
  intros Hf H1 H2 Hx. as_chain.
  match goal with
  | |- context [record_GetNoDataValue ?t] =>
      assert (Hfr : record_GetNoDataValue t
                    = record_GetNoDataValue
                        (record_CloneInfo_NoData ty src (GCIF_ONLY_IF_MISSING flags) p))
        by (do 6 skip_block (@record_GetNoDataValue E); rewrite Hf; reflexivity);
      rewrite Hfr
  end.
  clear Hfr. unfold record_CloneInfo_NoData.
  assert (Hset : record_GetNoDataValue (record_SetNoDataValue p x) = (x, true))
    by reflexivity.
  destruct (src_GetRasterDataType src); try contradiction; rewrite Hx;
    (destruct (GCIF_ONLY_IF_MISSING flags); cbn [negb orb];
     [ destruct (snd (record_GetNoDataValue p)) eqn:Hok; cbn [negb orb];
       [ unfold same_double;
         destruct (PrimFloat.is_nan (fst (record_GetNoDataValue p)) && PrimFloat.is_nan x
                   || PrimFloat.eqb (fst (record_GetNoDataValue p)) x) eqn:Hsame;
         cbn [negb];
         [ split; [exact Hok | split; [exact Hsame | discriminate]]
         | rewrite Hset; cbn [fst snd]; split; [reflexivity|];
           split; [apply same_double_refl | reflexivity] ]
       | rewrite Hset; cbn [fst snd]; split; [reflexivity|];
         split; [apply same_double_refl | reflexivity] ]
     | rewrite Hset; cbn [fst snd]; split; [reflexivity|];
       split; [apply same_double_refl | reflexivity] ]).
Qed.

Lemma nodata_int64_CloneInfo ty src flags p n :
  GCIF_NODATA flags = true -> src_GetRasterDataType src = GDT_Int64 ->
  src_GetNoDataValueAsInt64 src = (n, true) ->
  record_GetNoDataValue (clone_record ty src flags p)
  = (GDALGetNoDataValueCastToDouble n, true)
  /\ bNoDataValueSetAsInt64 (clone_record ty src flags p) = true
  /\ nNoDataValueInt64 (clone_record ty src flags p) = n.
Proof.
  intros Hf Hty Hn. as_chain. rewrite Hf.
  change (when true (record_CloneInfo_NoData ty src (GCIF_ONLY_IF_MISSING flags)) p)
    with (record_CloneInfo_NoData ty src (GCIF_ONLY_IF_MISSING flags) p).
  assert (H : bNoDataValueSetAsInt64
                (record_CloneInfo_NoData ty src (GCIF_ONLY_IF_MISSING flags) p) = true
              /\ nNoDataValueInt64
                   (record_CloneInfo_NoData ty src (GCIF_ONLY_IF_MISSING flags) p) = n).
  { unfold record_CloneInfo_NoData. rewrite Hty, Hn.
    destruct (GCIF_ONLY_IF_MISSING flags); cbn [negb orb]; [|split; reflexivity].
    destruct ty; try (split; reflexivity).
    destruct (bNoDataValueSetAsInt64 p) eqn:Hset; cbn [negb orb]; [|split; reflexivity].
    destruct (nNoDataValueInt64 p =? n) eqn:Heq; cbn [negb]; [|split; reflexivity].
    apply Z.eqb_eq in Heq. split; assumption. }
  destruct H as [Hs Hv].
  set (q := record_CloneInfo_NoData ty src (GCIF_ONLY_IF_MISSING flags) p) in *.
  clearbody q.
  assert (H1 : bNoDataValueSetAsInt64
                 (when (GCIF_RAT flags)
                    (record_CloneInfo_RAT RAT_GetRowCount RAT_GetColumnCount src
                       (GCIF_ONLY_IF_MISSING flags))
                    (when (GCIF_COLORTABLE flags)
                       (record_CloneInfo_ColorTable src (GCIF_ONLY_IF_MISSING flags))
                       (when (GCIF_COLORINTERP flags)
                          (record_CloneInfo_ColorInterp src (GCIF_ONLY_IF_MISSING flags))
                          (when (GCIF_UNITTYPE flags)
                             (record_CloneInfo_UnitType src (GCIF_ONLY_IF_MISSING flags))
                             (when (GCIF_SCALEOFFSET flags)
                                (record_CloneInfo_ScaleOffset src
                                   (GCIF_ONLY_IF_MISSING flags))
                                (when (GCIF_CATEGORYNAMES flags)
                                   (record_CloneInfo_CategoryNames src
                                      (GCIF_ONLY_IF_MISSING flags)) q)))))) = true).
  { do 6 skip_block (@bNoDataValueSetAsInt64 E). exact Hs. }
  assert (H2 : nNoDataValueInt64
                 (when (GCIF_RAT flags)
                    (record_CloneInfo_RAT RAT_GetRowCount RAT_GetColumnCount src
                       (GCIF_ONLY_IF_MISSING flags))
                    (when (GCIF_COLORTABLE flags)
                       (record_CloneInfo_ColorTable src (GCIF_ONLY_IF_MISSING flags))
                       (when (GCIF_COLORINTERP flags)
                          (record_CloneInfo_ColorInterp src (GCIF_ONLY_IF_MISSING flags))
                          (when (GCIF_UNITTYPE flags)
                             (record_CloneInfo_UnitType src (GCIF_ONLY_IF_MISSING flags))
                             (when (GCIF_SCALEOFFSET flags)
                                (record_CloneInfo_ScaleOffset src
                                   (GCIF_ONLY_IF_MISSING flags))
                                (when (GCIF_CATEGORYNAMES flags)
                                   (record_CloneInfo_CategoryNames src
                                      (GCIF_ONLY_IF_MISSING flags)) q)))))) = n).
  { do 6 skip_block (@nNoDataValueInt64 E). exact Hv. }
  split; [|split; assumption].
  unfold record_GetNoDataValue. rewrite H1, H2. reflexivity.
Qed.

(** No block of [CloneInfo] writes the statistics, the histograms or the
    link to the parent. *)
Lemma statistics_CloneInfo ty src flags p :
  let p' := clone_record ty src flags p in
  bHaveMinMax p' = bHaveMinMax p /\ dfMin p' = dfMin p /\ dfMax p' = dfMax p
  /\ bHaveStats p' = bHaveStats p /\ dfMean p' = dfMean p /\ dfStdDev p' = dfStdDev p
  /\ psSavedHistograms p' = psSavedHistograms p
  /\ poParentDS p' = poParentDS p.
Proof.
  cbv zeta. as_chain.
  split; [do 7 skip_block (@bHaveMinMax E); reflexivity|].
  split; [do 7 skip_block (@dfMin E); reflexivity|].
  split; [do 7 skip_block (@dfMax E); reflexivity|].
  split; [do 7 skip_block (@bHaveStats E); reflexivity|].
  split; [do 7 skip_block (@dfMean E); reflexivity|].
  split; [do 7 skip_block (@dfStdDev E); reflexivity|].
  split; [do 7 skip_block (@psSavedHistograms E); reflexivity|].
  do 7 skip_block (@poParentDS E); reflexivity.
Qed.

End CloneFields.

Section CloneProperties.

Variable E : Env.
Variable MDMD_GetMetadata : GDALMultiDomainMetadata E -> option (list string).
Variable MDMD_SetMetadata :
  GDALMultiDomainMetadata E -> option (list string) -> option string ->
  GDALMultiDomainMetadata E * CPLErr.
Variable RAT_GetRowCount : GDALRasterAttributeTable E -> Z.
Variable RAT_GetColumnCount : GDALRasterAttributeTable E -> Z.
Implicit Types (b : GDALPamRasterBand E) (p : GDALRasterBandPamInfo E).

Local Abbreviation clone :=
  (CloneInfo MDMD_GetMetadata MDMD_SetMetadata RAT_GetRowCount RAT_GetColumnCount).
Local Abbreviation clone_record :=
  (record_CloneInfo RAT_GetRowCount RAT_GetColumnCount).

(** What the getters answer on a band, from its record. *)
Lemma getters_of_record b p :
  settled b -> psPam b = Some p ->
  GetUnitType b = match pszUnitType p with None => "" | Some u => u end
  /\ GetCategoryNames b = papszCategoryNames p
  /\ GetColorTable b = poColorTable p
  /\ GetColorInterpretation b = eColorInterp p
  /\ snd (GetDefaultRAT b) = poDefaultRAT p
  /\ GetNoDataValue b = record_GetNoDataValue p
  /\ GetOffset b = (dfOffset p, bOffsetSet p)
  /\ GetScale b = (dfScale p, bScaleSet p).
Proof.
  intros Hs Hp.
  destruct (steps_to_init b Hs Hp) as (_ & Hi & _).
  unfold GetUnitType, GetCategoryNames, GetColorTable, GetColorInterpretation,
    GetDefaultRAT, GetNoDataValue, GetOffset, GetScale, record_GetNoDataValue.
  rewrite Hp, Hi. repeat split.
Qed.

Lemma getters_after_CloneInfo b p src flags :
  psPam (PamInitialize b) = Some p ->
  let b' := fst (clone b src flags) in
  let p' := clone_record (eDataType b) src flags p in
  GetUnitType b' = match pszUnitType p' with None => "" | Some u => u end
  /\ GetCategoryNames b' = papszCategoryNames p'
  /\ GetColorTable b' = poColorTable p'
  /\ GetColorInterpretation b' = eColorInterp p'
  /\ snd (GetDefaultRAT b') = poDefaultRAT p'
  /\ GetNoDataValue b' = record_GetNoDataValue p'
  /\ GetOffset b' = (dfOffset p', bOffsetSet p')
  /\ GetScale b' = (dfScale p', bScaleSet p').
Proof.
  intros Hp b' p'.
  pose proof (CloneInfo_record_view MDMD_GetMetadata MDMD_SetMetadata RAT_GetRowCount
                RAT_GetColumnCount b src flags Hp) as H.
  cbv zeta in H. destruct H as (_ & Hs & Hq & _).
  apply getters_of_record; assumption.
Qed.

Lemma getters_after_PamInitialize b p :
  psPam (PamInitialize b) = Some p ->
  let b0 := PamInitialize b in
  GetUnitType b0 = match pszUnitType p with None => "" | Some u => u end
  /\ GetCategoryNames b0 = papszCategoryNames p
  /\ GetColorTable b0 = poColorTable p
  /\ GetColorInterpretation b0 = eColorInterp p
  /\ snd (GetDefaultRAT b0) = poDefaultRAT p
  /\ GetNoDataValue b0 = record_GetNoDataValue p
  /\ GetOffset b0 = (dfOffset p, bOffsetSet p)
  /\ GetScale b0 = (dfScale p, bScaleSet p).
Proof.
  intros Hp b0. apply getters_of_record; [|exact Hp].
  apply PamInitialize_settled. congruence.
Qed.

(** X15. [CloneInfo] compares the unit types, it does not test whether
    the band has one: when the source has a unit type and the flag
    GCIF_UNITTYPE is set, the band takes it unless "only if missing" is
    asked and the two are equal up to letter case. A band whose unit type
    differs from the one of the source is overwritten with
    GCIF_ONLY_IF_MISSING as without it; one whose unit type differs by
    case only keeps its own spelling. *)
Theorem CloneInfo_unit_type_compares_values b p (src : GDALRasterBand_view E)
  (flags : CloneFlags) :
  psPam (PamInitialize b) = Some p ->
  GetUnitType (fst (clone b src flags))
  = if GCIF_UNITTYPE flags && (strlen (src_GetUnitType src) >? 0)
       && (negb (GCIF_ONLY_IF_MISSING flags)
           || negb (EQUAL (GetUnitType (PamInitialize b)) (src_GetUnitType src)))
    then src_GetUnitType src
    else GetUnitType (PamInitialize b).
Proof.
  intros Hp.
  destruct (getters_after_CloneInfo b src flags Hp) as (H & _).
  destruct (getters_after_PamInitialize b Hp) as (H0 & _).
  rewrite H, H0, pszUnitType_CloneInfo.
  destruct (_ && _ && _); reflexivity.
Qed.

(** X16. What GCIF_ONLY_IF_MISSING keeps, on a band whose record
    [PamInitialize] leaves in place (a record linked to the store, or one
    without parent on a band that has no PAM dataset), whatever the source
    holds and whatever the other flags: the category names, the palette and
    the attribute table that the band has before the call; a description
    that is not empty; the metadata when the band and the source have the
    same number of items. (A record without parent on a band of a PAM
    dataset is discarded by the first statement of [CloneInfo], and what
    it held with it.) *)
Theorem CloneInfo_only_if_missing_keeps b p (src : GDALRasterBand_view E)
  (flags : CloneFlags) :
  settled b -> psPam b = Some p ->
  GCIF_ONLY_IF_MISSING flags = true ->
  let b' := fst (clone b src flags) in
  (GetCategoryNames b <> None -> GetCategoryNames b' = GetCategoryNames b)
  /\ (GetColorTable b <> None -> GetColorTable b' = GetColorTable b)
  /\ (snd (GetDefaultRAT b) <> None -> snd (GetDefaultRAT b') = snd (GetDefaultRAT b))
  /\ (GetDescription b <> "" -> GetDescription b' = GetDescription b)
  /\ (CSLCount (MDMD_GetMetadata (oMDMD b)) = CSLCount (src_GetMetadata src) ->
      oMDMD b' = oMDMD b).
Proof.
  intros Hs Hq Ho b'.
  destruct (steps_to_init b Hs Hq) as (_ & Hp & _).
  destruct (getters_after_CloneInfo b src flags Hp) as (_ & Hn & Ht & _ & Hr & _).
  destruct (getters_of_record b Hs Hq) as (_ & Hn0 & Ht0 & _ & Hr0 & _).
  pose proof (CloneInfo_record_view MDMD_GetMetadata MDMD_SetMetadata RAT_GetRowCount
                RAT_GetColumnCount b src flags Hp) as H.
  cbv zeta in H. destruct H as (_ & _ & _ & _ & Hd & Hm & _).
  fold b' in Hn, Ht, Hr, Hd, Hm.
  split; [|split; [|split; [|split]]].
  - rewrite Hn, Hn0, papszCategoryNames_CloneInfo, Ho. intros Hhas.
    destruct (papszCategoryNames p); [|congruence].
    cbn [negb orb is_missing]. rewrite andb_false_r.
    destruct (src_GetCategoryNames src); reflexivity.
  - rewrite Ht, Ht0, poColorTable_CloneInfo, Ho. intros Hhas.
    destruct (poColorTable p); [|congruence].
    cbn [negb orb is_missing]. rewrite andb_false_r.
    destruct (src_GetColorTable src); reflexivity.
  - rewrite Hr, Hr0, poDefaultRAT_CloneInfo, Ho. intros Hhas.
    destruct (poDefaultRAT p); [|congruence].
    destruct (src_GetDefaultRAT src); [|reflexivity].
    cbn [negb orb is_missing]. rewrite andb_false_r. reflexivity.
  - rewrite Hd. unfold description_CloneInfo. rewrite Ho. cbn [negb orb].
    intros Hne. destruct (GetDescription b) as [|c r]; [congruence|].
    replace (strlen (String c r) =? 0) with false
      by (symmetry; apply Z.eqb_neq; unfold strlen; cbn [String.length]; lia).
    rewrite andb_false_r. reflexivity.
  - rewrite Hm. unfold metadata_CloneInfo. rewrite Ho. cbn [negb orb].
    intros Hc. rewrite Hc, Z.eqb_refl. cbn [negb]. rewrite andb_false_r.
    destruct (src_GetMetadata src); reflexivity.
Qed.

(** X17. The items [CloneInfo] tests by presence are filled from the
    source when the band lacks them or when GCIF_ONLY_IF_MISSING is not
    asked: the category names (an empty list counting as none), the
    palette, with which the color interpretation becomes
    [GCI_PaletteIndex] whatever the interpretation of the source, the
    attribute table unless it has neither rows nor columns, and the
    description. *)
Theorem CloneInfo_fills_what_is_missing b p (src : GDALRasterBand_view E)
  (flags : CloneFlags) :
  psPam (PamInitialize b) = Some p ->
  let b0 := PamInitialize b in
  let b' := fst (clone b src flags) in
  let only := GCIF_ONLY_IF_MISSING flags in
  (forall names,
      GCIF_CATEGORYNAMES flags = true -> src_GetCategoryNames src = Some names ->
      only = false \/ GetCategoryNames b0 = None ->
      GetCategoryNames b' = CSLDuplicate (Some names))
  /\ (forall t,
         GCIF_COLORTABLE flags = true -> src_GetColorTable src = Some t ->
         only = false \/ GetColorTable b0 = None ->
         GetColorTable b' = Some t /\ GetColorInterpretation b' = GCI_PaletteIndex)
  /\ (forall poRAT,
         GCIF_RAT flags = true -> src_GetDefaultRAT src = Some poRAT ->
         RAT_GetRowCount poRAT <> 0 \/ RAT_GetColumnCount poRAT <> 0 ->
         only = false \/ snd (GetDefaultRAT b0) = None ->
         snd (GetDefaultRAT b') = Some poRAT)
  /\ (GCIF_BAND_DESCRIPTION flags = true -> src_GetDescription src <> "" ->
      only = false \/ GetDescription b = "" ->
      GetDescription b' = src_GetDescription src).
Proof.
  intros Hp b0 b' only.
  destruct (getters_after_CloneInfo b src flags Hp) as (_ & Hn & Ht & Hi & Hr & _).
  destruct (getters_after_PamInitialize b Hp) as (_ & Hn0 & Ht0 & _ & Hr0 & _).
  pose proof (CloneInfo_record_view MDMD_GetMetadata MDMD_SetMetadata RAT_GetRowCount
                RAT_GetColumnCount b src flags Hp) as H.
  cbv zeta in H. destruct H as (_ & _ & _ & _ & Hd & _).
  fold b' in Hn, Ht, Hi, Hr, Hd. fold b0 in Hn0, Ht0, Hr0.
  assert (Hcond : forall (A : Type) (o : option A),
             only = false \/ o = None -> negb only || is_missing o = true).
  { intros A o [H|H]; rewrite H; [reflexivity | apply orb_true_r]. }
  split; [|split; [|split]].
  - intros names Hf Hsrc Hc. rewrite Hn0 in Hc.
    rewrite Hn, papszCategoryNames_CloneInfo, Hsrc, Hf. fold only.
    rewrite (Hcond _ _ Hc). reflexivity.
  - intros t Hf Hsrc Hc. rewrite Ht0 in Hc. split.
    + rewrite Ht, poColorTable_CloneInfo, Hsrc, Hf. fold only.
      rewrite (Hcond _ _ Hc). reflexivity.
    + rewrite Hi. apply (eColorInterp_CloneInfo_palette _ _ _ _ _ _ Hf Hsrc).
      apply (Hcond _ _ Hc).
  - intros r Hf Hsrc Hrc Hc. rewrite Hr0 in Hc.
    rewrite Hr, poDefaultRAT_CloneInfo, Hsrc, Hf. fold only.
    rewrite (Hcond _ _ Hc).
    replace (negb (RAT_GetRowCount r =? 0) || negb (RAT_GetColumnCount r =? 0)) with true;
      [reflexivity|].
    symmetry. apply orb_true_iff.
    destruct Hrc as [Hrc|Hrc]; [left | right]; apply negb_true_iff, Z.eqb_neq; exact Hrc.
  - intros Hf Hsrc Hc. rewrite Hd. unfold description_CloneInfo. rewrite Hf. fold only.
    destruct (src_GetDescription src) as [|c r] eqn:Hdesc; [congruence|].
    replace (strlen (String c r) >? 0) with true
      by (symmetry; apply Z.gtb_lt; unfold strlen; cbn [String.length]; lia).
    cbn [andb].
    destruct Hc as [Hc|Hc]; rewrite Hc; [reflexivity|].
    rewrite orb_true_r. reflexivity.
Qed.

(** X18. On the items [CloneInfo] compares by value the band agrees with
    the source afterwards, with GCIF_ONLY_IF_MISSING as without it: a
    nodata value, an offset and a scale that the source reports are
    equal, as doubles, to those of the band, or both are NaN; the nodata
    of a source of type Int64 is stored in its 64 bit form whatever the
    type of the band; the color interpretation is the one of the source
    unless the palette block stores a palette. Without
    GCIF_ONLY_IF_MISSING the nodata is the double of the source itself and
    the offset and the scale count as set. *)
Theorem CloneInfo_agrees_on_compared_values b p (src : GDALRasterBand_view E)
  (flags : CloneFlags) :
  psPam (PamInitialize b) = Some p ->
  let b' := fst (clone b src flags) in
  let only := GCIF_ONLY_IF_MISSING flags in
  (forall x,
      GCIF_NODATA flags = true ->
      src_GetRasterDataType src <> GDT_Int64 -> src_GetRasterDataType src <> GDT_UInt64 ->
      src_GetNoDataValue src = (x, true) ->
      snd (GetNoDataValue b') = true
      /\ same_double (fst (GetNoDataValue b')) x = true
      /\ (only = false -> GetNoDataValue b' = (x, true)))
  /\ (forall n,
         GCIF_NODATA flags = true -> src_GetRasterDataType src = GDT_Int64 ->
         src_GetNoDataValueAsInt64 src = (n, true) ->
         GetNoDataValue b' = (GDALGetNoDataValueCastToDouble n, true))
  /\ (forall o,
         GCIF_SCALEOFFSET flags = true -> src_GetOffset src = (o, true) ->
         same_double (fst (GetOffset b')) o = true
         /\ (only = false -> snd (GetOffset b') = true))
  /\ (forall s,
         GCIF_SCALEOFFSET flags = true -> src_GetScale src = (s, true) ->
         same_double (fst (GetScale b')) s = true
         /\ (only = false -> snd (GetScale b') = true))
  /\ (GCIF_COLORINTERP flags = true ->
      src_GetColorInterpretation src <> GCI_Undefined ->
      GCIF_COLORTABLE flags = false \/ src_GetColorTable src = None ->
      GetColorInterpretation b' = src_GetColorInterpretation src).
Proof.
  intros Hp b' only.
  destruct (getters_after_CloneInfo b src flags Hp)
    as (_ & _ & _ & Hi & _ & Hnd & Ho & Hs).
  fold b' in Hi, Hnd, Ho, Hs.
  split; [|split; [|split; [|split]]].
  - intros x Hf H1 H2 Hx. rewrite Hnd.
    apply (nodata_CloneInfo RAT_GetRowCount RAT_GetColumnCount _ _ _ p Hf H1 H2 Hx).
  - intros n Hf Hty Hn. rewrite Hnd.
    apply (nodata_int64_CloneInfo RAT_GetRowCount RAT_GetColumnCount _ _ _ p Hf Hty Hn).
  - intros o Hf Hsrc. rewrite Ho. cbn [fst snd].
    apply (offset_CloneInfo RAT_GetRowCount RAT_GetColumnCount _ _ _ p Hf Hsrc).
  - intros s Hf Hsrc. rewrite Hs. cbn [fst snd].
    apply (scale_CloneInfo RAT_GetRowCount RAT_GetColumnCount _ _ _ p Hf Hsrc).
  - intros Hf Hu Hc. rewrite Hi.
    apply eColorInterp_CloneInfo; assumption.
Qed.

(** X20. [CloneInfo] copies neither statistics nor histograms: on a band
    whose record [PamInitialize] leaves in place (a record linked to the
    store, or one without parent on a band that has no PAM dataset),
    whatever the flags and the source, the minimum and maximum, the mean
    and standard deviation and the saved histograms of the band after the
    call are those of its record before the call, and the record keeps its
    link to the parent. *)
Theorem CloneInfo_leaves_statistics b p (src : GDALRasterBand_view E)
  (flags : CloneFlags) :
  settled b -> psPam b = Some p ->
  exists p', psPam (fst (clone b src flags)) = Some p'
    /\ bHaveMinMax p' = bHaveMinMax p /\ dfMin p' = dfMin p /\ dfMax p' = dfMax p
    /\ bHaveStats p' = bHaveStats p /\ dfMean p' = dfMean p /\ dfStdDev p' = dfStdDev p
    /\ psSavedHistograms p' = psSavedHistograms p
    /\ poParentDS p' = poParentDS p.
Proof.
  intros Hs Hq.
  destruct (steps_to_init b Hs Hq) as (_ & Hp & _).
  pose proof (CloneInfo_record_view MDMD_GetMetadata MDMD_SetMetadata RAT_GetRowCount
                RAT_GetColumnCount b src flags Hp) as H.
  cbv zeta in H. destruct H as (_ & _ & Hr & _).
  eexists. split; [exact Hr|].
  apply (statistics_CloneInfo RAT_GetRowCount RAT_GetColumnCount).
Qed.

End CloneProperties.

Section CloneWithoutRecord.

Variable E : Env.
Variable MDMD_GetMetadata : GDALMultiDomainMetadata E -> option (list string).
Variable MDMD_SetMetadata :
  GDALMultiDomainMetadata E -> option (list string) -> option string ->
  GDALMultiDomainMetadata E * CPLErr.
Variable RAT_GetRowCount : GDALRasterAttributeTable E -> Z.
Variable RAT_GetColumnCount : GDALRasterAttributeTable E -> Z.
Implicit Types (b : GDALPamRasterBand E) (p : GDALRasterBandPamInfo E).

(** On an attached band that gets no record, [PamInitialize] reports
    nothing, and a second call changes nothing. *)
Lemma PamInitialize_fixed b :
  attached b -> psPam (PamInitialize b) = None ->
  PamInitialize (PamInitialize b) = PamInitialize b
  /\ errors (PamInitialize b) = errors b.
Proof.
  destruct b as [[[c1 c2 c3 c4 c5]|] n ty d ig md [p|] errs];
    unfold attached, PamInitialize, GDALPamDataset_PamInitialize, CPLError; cbn;
    try (destruct (poParentDS p) eqn:Hl; cbn; rewrite ?Hl; cbn);
    intros Ha Hn; try discriminate Hn; try (split; reflexivity);
    destruct c1; cbn in *; try discriminate Hn; try (split; reflexivity);
    try rewrite (Ha eq_refl) in *; cbn in *;
    destruct c3, c4; cbn in *; try discriminate Hn; try (split; reflexivity);
    destruct (new_PamInfo_ok E) eqn:Hnew; cbn in *; rewrite ?Hnew; cbn;
    try discriminate Hn; split; reflexivity.
Qed.

(** The band has no record and gets none, and errors of the kind "not
    supported" are suppressed. *)
Let quiet b : Prop :=
  psPam b = None /\ PamInitialize b = b /\ bIgnoreUnimplemented b = true.

Lemma quiet_native_setter b msg :
  quiet b -> fst (GDALRasterBand_native_setter (PamInitialize b) msg) = b.
Proof.
  intros (_ & Hi & Hf). rewrite Hi. unfold GDALRasterBand_native_setter.
  rewrite Hf. reflexivity.
Qed.

Lemma quiet_CloneInfo_NoData b src only :
  quiet b -> CloneInfo_NoData b src only = b.
Proof.
  intros H. pose proof H as (Hn & Hi & Hf).
  assert (H1 : forall x, fst (SetNoDataValue b x) = b)
    by (intros x; unfold SetNoDataValue; cbv zeta; rewrite Hi, Hn;
        rewrite <- Hi at 1; apply quiet_native_setter, H).
  assert (H2 : forall x, fst (SetNoDataValueAsInt64 b x) = b)
    by (intros x; unfold SetNoDataValueAsInt64; cbv zeta; rewrite Hi, Hn;
        rewrite <- Hi at 1; apply quiet_native_setter, H).
  assert (H3 : forall x, fst (SetNoDataValueAsUInt64 b x) = b)
    by (intros x; unfold SetNoDataValueAsUInt64; cbv zeta; rewrite Hi, Hn;
        rewrite <- Hi at 1; apply quiet_native_setter, H).
  unfold CloneInfo_NoData, GetNoDataValueAsInt64, GetNoDataValueAsUInt64, GetNoDataValue.
  rewrite Hn.
  destruct (src_GetRasterDataType src);
    repeat match goal with
           | |- context [let '(_, _) := ?c in _] => destruct c
           | |- context [if ?c then _ else _] => destruct c
           end;
    cbn [negb orb]; rewrite ?H1, ?H2, ?H3; reflexivity.
Qed.

Lemma quiet_CloneInfo_CategoryNames b src only :
  quiet b -> CloneInfo_CategoryNames b src only = b.
Proof.
  intros H. pose proof H as (Hn & Hi & Hf).
  unfold CloneInfo_CategoryNames, SetCategoryNames. cbv zeta. rewrite Hi, Hn.
  destruct (src_GetCategoryNames src); [|reflexivity].
  destruct (negb only || _); [|reflexivity].
  rewrite <- Hi at 1. apply quiet_native_setter, H.
Qed.

Lemma quiet_CloneInfo_ScaleOffset b src only :
  quiet b -> CloneInfo_ScaleOffset b src only = b.
Proof.
  intros H. pose proof H as (Hn & Hi & Hf).
  assert (H1 : forall x, fst (SetOffset b x) = b)
    by (intros x; unfold SetOffset; cbv zeta; rewrite Hi, Hn;
        rewrite <- Hi at 1; apply quiet_native_setter, H).
  assert (H2 : forall x, fst (SetScale b x) = b)
    by (intros x; unfold SetScale; cbv zeta; rewrite Hi, Hn;
        rewrite <- Hi at 1; apply quiet_native_setter, H).
  unfold CloneInfo_ScaleOffset.
  destruct (src_GetOffset src) as [o oko], (src_GetScale src) as [s oks].
  cbv zeta. rewrite H1.
  replace (if oko then if negb only || negb (PrimFloat.eqb (fst (GetOffset b)) o)
                       then b else b else b) with b
    by (destruct oko; [destruct (negb only || _)|]; reflexivity).
  rewrite H2. destruct oks; [destruct (negb only || _)|]; reflexivity.
Qed.

Lemma quiet_CloneInfo_UnitType b src only :
  quiet b -> CloneInfo_UnitType b src only = b.
Proof.
  intros H. pose proof H as (Hn & Hi & Hf).
  unfold CloneInfo_UnitType, SetUnitType. cbv zeta. rewrite Hi, Hn.
  destruct (strlen _ >? 0); [|reflexivity].
  destruct (negb only || _); [|reflexivity].
  rewrite <- Hi at 1. apply quiet_native_setter, H.
Qed.

Lemma quiet_CloneInfo_ColorInterp b src only :
  quiet b -> CloneInfo_ColorInterp b src only = b.
Proof.
  intros H. pose proof H as (Hn & Hi & Hf).
  unfold CloneInfo_ColorInterp, SetColorInterpretation. cbv zeta. rewrite Hi, Hn.
  destruct (negb (GDALColorInterp_eqb _ GCI_Undefined)); [|reflexivity].
  destruct (negb only || _); [|reflexivity].
  rewrite <- Hi at 1. apply quiet_native_setter, H.
Qed.

Lemma quiet_CloneInfo_ColorTable b src only :
  quiet b -> CloneInfo_ColorTable b src only = b.
Proof.
  intros H. pose proof H as (Hn & Hi & Hf).
  unfold CloneInfo_ColorTable, SetColorTable. cbv zeta. rewrite Hi, Hn.
  destruct (src_GetColorTable src); [|reflexivity].
  destruct (negb only || _); [|reflexivity].
  rewrite <- Hi at 1. apply quiet_native_setter, H.
Qed.

Lemma quiet_CloneInfo_RAT b src only :
  quiet b -> CloneInfo_RAT RAT_GetRowCount RAT_GetColumnCount b src only = b.
Proof.
  intros H. pose proof H as (Hn & Hi & Hf).
  assert (H1 : forall r, fst (SetDefaultRAT b r) = b)
    by (intros r; unfold SetDefaultRAT; cbv zeta; rewrite Hi, Hn;
        rewrite <- Hi at 1; apply quiet_native_setter, H).
  unfold CloneInfo_RAT, GetDefaultRAT. cbv zeta. rewrite Hi, Hn.
  destruct (src_GetDefaultRAT src) as [r|]; [|reflexivity].
  destruct (negb (RAT_GetRowCount r =? 0) || negb (RAT_GetColumnCount r =? 0));
    [|reflexivity].
  destruct (negb only); apply H1.
Qed.

Lemma PamInitialize_set_oMDMD b m :
  PamInitialize (set_oMDMD b m) = set_oMDMD (PamInitialize b) m.
Proof.
  destruct b as [[[c1 c2 c3 c4 c5]|] n ty d ig md [p|] errs];
    unfold PamInitialize, GDALPamDataset_PamInitialize, CPLError; cbn;
    try (destruct (poParentDS p); cbn); try reflexivity;
    destruct c1, c2, c3, c4; cbn; try reflexivity;
    destruct (new_PamInfo_ok E); reflexivity.
Qed.

Lemma PamInitialize_set_sDescription b d :
  PamInitialize (set_sDescription b d) = set_sDescription (PamInitialize b) d.
Proof.
  destruct b as [[[c1 c2 c3 c4 c5]|] n ty d0 ig md [p|] errs];
    unfold PamInitialize, GDALPamDataset_PamInitialize, CPLError; cbn;
    try (destruct (poParentDS p); cbn); try reflexivity;
    destruct c1, c2, c3, c4; cbn; try reflexivity;
    destruct (new_PamInfo_ok E); reflexivity.
Qed.

Lemma PamInitialize_set_bIgnoreUnimplemented b v :
  PamInitialize (set_bIgnoreUnimplemented b v)
  = set_bIgnoreUnimplemented (PamInitialize b) v.
Proof.
  destruct b as [[[c1 c2 c3 c4 c5]|] n ty d0 ig md [p|] errs];
    unfold PamInitialize, GDALPamDataset_PamInitialize, CPLError; cbn;
    try (destruct (poParentDS p); cbn); try reflexivity;
    destruct c1, c2, c3, c4; cbn; try reflexivity;
    destruct (new_PamInfo_ok E); reflexivity.
Qed.

Lemma quiet_CloneInfo_Metadata b src only :
  quiet b ->
  let b' := CloneInfo_Metadata MDMD_GetMetadata MDMD_SetMetadata b src only in
  quiet b' /\ errors b' = errors b /\ sDescription b' = sDescription b
  /\ exists m, b' = set_oMDMD b m.
Proof.
  intros H b'. pose proof H as (Hn & Hi & Hf).
  assert (Hsame : quiet b /\ errors b = errors b /\ sDescription b = sDescription b
                  /\ exists m, b = set_oMDMD b m).
  { repeat split; auto. exists (oMDMD b). destruct b; reflexivity. }
  unfold b', CloneInfo_Metadata. destruct (src_GetMetadata src); [|exact Hsame].
  destruct (negb only || _); [|exact Hsame].
  unfold SetMetadata. cbv zeta. rewrite Hi.
  assert (Hd : MarkPamDirty b = b) by (unfold MarkPamDirty; rewrite Hn; reflexivity).
  rewrite Hd. destruct (MDMD_SetMetadata (oMDMD b) _ _) as [md e]. cbn [fst].
  split; [|split; [reflexivity | split; [reflexivity | eexists; reflexivity]]].
  split; [exact Hn|]. split; [|exact Hf].
  rewrite PamInitialize_set_oMDMD, Hi. reflexivity.
Qed.

Lemma quiet_CloneInfo_Description b src only :
  quiet b ->
  let b' := CloneInfo_Description b src only in
  quiet b' /\ errors b' = errors b /\ oMDMD b' = oMDMD b
  /\ sDescription b'
     = if (strlen (src_GetDescription src) >? 0)
          && (negb only || (strlen (sDescription b) =? 0))
       then src_GetDescription src else sDescription b.
Proof.
  intros H b'. pose proof H as (Hn & Hi & Hf).
  unfold b', CloneInfo_Description, GetDescription.
  destruct (strlen (src_GetDescription src) >? 0); cbn [andb];
    [|repeat split; auto].
  destruct (negb only || _); [|repeat split; auto].
  unfold SetDescription. cbv zeta. rewrite Hi, Hn.
  split; [|repeat split].
  split; [exact Hn|]. split; [|exact Hf].
  rewrite PamInitialize_set_sDescription, Hi. reflexivity.
Qed.

(** X21. [CloneInfo] on a band that gets no record, as when PAM is
    disabled for its dataset: every setter of the record is handed to the
    setter of [GDALRasterBand], yet [CloneInfo] returns [CE_None] and
    reports no error, the errors about unimplemented operations being
    suppressed while it runs; the flag that suppresses them is restored, no
    record is made, and the description is copied as on any band. *)
Theorem CloneInfo_without_record b (src : GDALRasterBand_view E) (flags : CloneFlags) :
  attached b -> psPam (PamInitialize b) = None ->
  let r := CloneInfo MDMD_GetMetadata MDMD_SetMetadata RAT_GetRowCount RAT_GetColumnCount
             b src flags in
  snd r = CE_None /\ psPam (fst r) = None /\ errors (fst r) = errors b
  /\ bIgnoreUnimplemented (fst r) = bIgnoreUnimplemented b
  /\ GetDescription (fst r) = description_CloneInfo src flags (GetDescription b).
Proof.
  intros Ha Hp r. subst r. unfold CloneInfo. cbv zeta. cbn [fst snd].
  split; [reflexivity|].
  destruct (PamInitialize_fixed b Ha Hp) as [Hfix Herr].
  destruct (PamInitialize_frame b) as (_ & _ & Hdesc & _).
  set (b0 := set_bIgnoreUnimplemented (PamInitialize b) true).
  assert (H0 : quiet b0).
  { split; [exact Hp|]. split; [|reflexivity].
    unfold b0. rewrite PamInitialize_set_bIgnoreUnimplemented, Hfix. reflexivity. }
  assert (He0 : errors b0 = errors b) by exact Herr.
  assert (Hd0 : sDescription b0 = sDescription b) by exact Hdesc.
  clearbody b0.
  set (only := GCIF_ONLY_IF_MISSING flags).
  set (b1 := if GCIF_BAND_METADATA flags then _ else b0).
  assert (H1 : quiet b1 /\ errors b1 = errors b /\ sDescription b1 = sDescription b).
  { unfold b1. destruct (GCIF_BAND_METADATA flags); [|auto].
    destruct (quiet_CloneInfo_Metadata src only H0) as (Hq & He & Hd & _).
    split; [exact Hq|]. split; congruence. }
  clearbody b1. destruct H1 as (H1 & He1 & Hd1).
  set (b2 := if GCIF_BAND_DESCRIPTION flags then _ else b1).
  assert (H2 : quiet b2 /\ errors b2 = errors b
               /\ sDescription b2 = description_CloneInfo src flags (sDescription b)).
  { unfold b2, description_CloneInfo. fold only.
    destruct (GCIF_BAND_DESCRIPTION flags); cbn [andb]; [|auto].
    destruct (quiet_CloneInfo_Description src only H1) as (Hq & He & _ & Hd).
    split; [exact Hq|]. split; [congruence|]. rewrite Hd, Hd1. reflexivity. }
  clearbody b2. destruct H2 as (H2 & He2 & Hd2).
  replace (if GCIF_NODATA flags then CloneInfo_NoData b2 src only else b2) with b2
    by (destruct (GCIF_NODATA flags); [rewrite quiet_CloneInfo_NoData|]; auto).
  replace (if GCIF_CATEGORYNAMES flags then CloneInfo_CategoryNames b2 src only else b2)
    with b2
    by (destruct (GCIF_CATEGORYNAMES flags); [rewrite quiet_CloneInfo_CategoryNames|];
        auto).
  replace (if GCIF_SCALEOFFSET flags then CloneInfo_ScaleOffset b2 src only else b2)
    with b2
    by (destruct (GCIF_SCALEOFFSET flags); [rewrite quiet_CloneInfo_ScaleOffset|]; auto).
  replace (if GCIF_UNITTYPE flags then CloneInfo_UnitType b2 src only else b2) with b2
    by (destruct (GCIF_UNITTYPE flags); [rewrite quiet_CloneInfo_UnitType|]; auto).
  replace (if GCIF_COLORINTERP flags then CloneInfo_ColorInterp b2 src only else b2)
    with b2
    by (destruct (GCIF_COLORINTERP flags); [rewrite quiet_CloneInfo_ColorInterp|]; auto).
  replace (if GCIF_COLORTABLE flags then CloneInfo_ColorTable b2 src only else b2)
    with b2
    by (destruct (GCIF_COLORTABLE flags); [rewrite quiet_CloneInfo_ColorTable|]; auto).
  replace (if GCIF_RAT flags
           then CloneInfo_RAT RAT_GetRowCount RAT_GetColumnCount b2 src only else b2)
    with b2
    by (destruct (GCIF_RAT flags); [rewrite quiet_CloneInfo_RAT|]; auto).
  destruct H2 as (Hn2 & _ & _).
  split; [exact Hn2|]. split; [exact He2|]. split; [reflexivity | exact Hd2].
Qed.

End CloneWithoutRecord.

Lemma CloneInfo_unit_type_compares_values_witness :
  GetUnitType (ref_CloneInfo (fst (SetUnitType ref_band (Some "m"))) ref_donor_ft
                 (ref_unit_only true)) = "ft"
  /\ GetUnitType (ref_CloneInfo (fst (SetUnitType ref_band (Some "FT"))) ref_donor_ft
                    (ref_unit_only true)) = "FT"
  /\ GetUnitType (ref_CloneInfo (fst (SetUnitType ref_band (Some "FT"))) ref_donor_ft
                    (ref_unit_only false)) = "ft".
Proof.
  unfold ref_CloneInfo. split; [|split].
  - rewrite (@CloneInfo_unit_type_compares_values ref_env ref_MDMD_GetMetadata
               ref_MDMD_SetMetadata ref_RAT_count ref_RAT_count
               (fst (SetUnitType ref_band (Some "m"))) _ ref_donor_ft (ref_unit_only true)
               eq_refl).
    reflexivity.
  - rewrite (@CloneInfo_unit_type_compares_values ref_env ref_MDMD_GetMetadata
               ref_MDMD_SetMetadata ref_RAT_count ref_RAT_count
               (fst (SetUnitType ref_band (Some "FT"))) _ ref_donor_ft (ref_unit_only true)
               eq_refl).
    reflexivity.
  - rewrite (@CloneInfo_unit_type_compares_values ref_env ref_MDMD_GetMetadata
               ref_MDMD_SetMetadata ref_RAT_count ref_RAT_count
               (fst (SetUnitType ref_band (Some "FT"))) _ ref_donor_ft (ref_unit_only false)
               eq_refl).
    reflexivity.
Defined.

Lemma CloneInfo_only_if_missing_keeps_witness :
  settled ref_full_band
  /\ GetCategoryNames (ref_CloneInfo ref_full_band ref_donor_full all_only_if_missing)
     = Some ["water"; ""; "land"]
  /\ GetColorTable (ref_CloneInfo ref_full_band ref_donor_full all_only_if_missing)
     = Some [mkColorEntry 255 0 0 255; mkColorEntry 0 128 0 255]
  /\ GetDescription (ref_CloneInfo ref_full_band ref_donor_full all_only_if_missing)
     = "elevation".
Proof.
  assert (Hs : settled ref_full_band) by (left; reflexivity).
  pose proof (@CloneInfo_only_if_missing_keeps ref_env ref_MDMD_GetMetadata
                ref_MDMD_SetMetadata ref_RAT_count ref_RAT_count ref_full_band _
                ref_donor_full all_only_if_missing Hs eq_refl eq_refl) as H.
  cbv zeta in H. destruct H as (H1 & H2 & _ & H4 & _).
  unfold ref_CloneInfo. split; [exact Hs|]. split; [|split].
  - rewrite H1; [reflexivity | discriminate].
  - rewrite H2; [reflexivity | discriminate].
  - rewrite H4; [reflexivity | discriminate].
Defined.

Lemma CloneInfo_fills_what_is_missing_witness :
  GetCategoryNames (ref_CloneInfo ref_band ref_donor_full all_only_if_missing)
  = Some ["sea"; "land"]
  /\ GetColorTable (ref_CloneInfo ref_band ref_donor_full all_only_if_missing)
     = Some [mkColorEntry 1 2 3 255]
  /\ GetColorInterpretation (ref_CloneInfo ref_band ref_donor_full all_only_if_missing)
     = GCI_PaletteIndex
  /\ GetDescription (ref_CloneInfo ref_full_band ref_donor_full all_overwrite) = "donor".
Proof.
  pose proof (@CloneInfo_fills_what_is_missing ref_env ref_MDMD_GetMetadata
                ref_MDMD_SetMetadata ref_RAT_count ref_RAT_count ref_band _
                ref_donor_full all_only_if_missing eq_refl) as H.
  cbv zeta in H. destruct H as (H1 & H2 & _).
  pose proof (@CloneInfo_fills_what_is_missing ref_env ref_MDMD_GetMetadata
                ref_MDMD_SetMetadata ref_RAT_count ref_RAT_count ref_full_band _
                ref_donor_full all_overwrite eq_refl) as H'.
  cbv zeta in H'. destruct H' as (_ & _ & _ & H4).
  unfold ref_CloneInfo.
  split; [exact (H1 ["sea"; "land"] eq_refl eq_refl (or_intror eq_refl))|].
  split; [exact (proj1 (H2 [mkColorEntry 1 2 3 255] eq_refl eq_refl (or_intror eq_refl)))|].
  split; [exact (proj2 (H2 [mkColorEntry 1 2 3 255] eq_refl eq_refl (or_intror eq_refl)))|].
  apply H4; [reflexivity | discriminate | left; reflexivity].
Defined.

Lemma CloneInfo_agrees_on_compared_values_witness :
  GetNoDataValue (ref_CloneInfo ref_full_band ref_donor_full all_overwrite)
  = (7%float, true)
  /\ same_double
       (fst (GetOffset (ref_CloneInfo ref_full_band ref_donor_full all_only_if_missing)))
       2%float = true.
Proof.
  pose proof (@CloneInfo_agrees_on_compared_values ref_env ref_MDMD_GetMetadata
                ref_MDMD_SetMetadata ref_RAT_count ref_RAT_count ref_full_band _
                ref_donor_full all_overwrite eq_refl) as H.
  cbv zeta in H. destruct H as (H1 & _).
  pose proof (@CloneInfo_agrees_on_compared_values ref_env ref_MDMD_GetMetadata
                ref_MDMD_SetMetadata ref_RAT_count ref_RAT_count ref_full_band _
                ref_donor_full all_only_if_missing eq_refl) as H'.
  cbv zeta in H'. destruct H' as (_ & _ & H3 & _).
  unfold ref_CloneInfo. split.
  - apply (H1 7%float); [reflexivity | discriminate | discriminate | reflexivity
                        | reflexivity].
  - apply (proj1 (H3 2%float eq_refl eq_refl)).
Defined.

Lemma CloneInfo_without_record_witness :
  psPam (ref_CloneInfo ref_disabled_band ref_donor_full all_overwrite) = None
  /\ errors (ref_CloneInfo ref_disabled_band ref_donor_full all_overwrite) = []
  /\ GetDescription (ref_CloneInfo ref_disabled_band ref_donor_full all_overwrite)
     = "donor"
  /\ snd (SetUnitType ref_disabled_band (Some "ft")) = CE_Failure.
Proof.
  assert (Ha : attached ref_disabled_band) by (intros _; reflexivity).
  pose proof (@CloneInfo_without_record ref_env ref_MDMD_GetMetadata
                ref_MDMD_SetMetadata ref_RAT_count ref_RAT_count ref_disabled_band
                ref_donor_full all_overwrite Ha eq_refl) as H.
  cbv zeta in H. destruct H as (_ & H1 & H2 & _ & H4).
  unfold ref_CloneInfo.
  split; [exact H1|]. split; [rewrite H2; reflexivity|].
  split; [rewrite H4; reflexivity | reflexivity].
Defined.

Lemma CloneInfo_leaves_statistics_witness :
  settled ref_full_band
  /\ exists p',
       psPam (ref_CloneInfo ref_full_band ref_donor_full all_overwrite) = Some p'
       /\ bHaveMinMax p' = true /\ dfMin p' = 0%float /\ dfMax p' = 255%float
       /\ psSavedHistograms p' = Some ref_histograms.
Proof.
  assert (Hs : settled ref_full_band) by (left; reflexivity).
  split; [exact Hs|].
  destruct (@CloneInfo_leaves_statistics ref_env ref_MDMD_GetMetadata
              ref_MDMD_SetMetadata ref_RAT_count ref_RAT_count ref_full_band _
              ref_donor_full all_overwrite Hs eq_refl)
    as (p' & Hq & H1 & H2 & H3 & _ & _ & _ & H7 & _).
  exists p'. unfold ref_CloneInfo. repeat split; assumption.
Defined.


Section CloneFromItself.

Variable E : Env.
Variable MDMD_GetMetadata : GDALMultiDomainMetadata E -> option (list string).
Variable MDMD_SetMetadata :
  GDALMultiDomainMetadata E -> option (list string) -> option string ->
  GDALMultiDomainMetadata E * CPLErr.
Variable RAT_GetRowCount : GDALRasterAttributeTable E -> Z.
Variable RAT_GetColumnCount : GDALRasterAttributeTable E -> Z.
Implicit Types (b : GDALPamRasterBand E) (p : GDALRasterBandPamInfo E).

(** On an attached band that gets a record, a second [PamInitialize]
    changes nothing. *)
Lemma PamInitialize_fixed_with_record b p :
  attached b -> psPam (PamInitialize b) = Some p ->
  PamInitialize (PamInitialize b) = PamInitialize b.
Proof.
  destruct (new_PamInfo_ok E) eqn:Hnew;
    destruct b as [[[c1 c2 c3 c4 c5]|] n ty d ig md [q|] errs];
    try (destruct (poParentDS q) eqn:Hl);
    unfold attached, PamInitialize, GDALPamDataset_PamInitialize, CPLError;
    cbn; rewrite ?Hl, ?Hnew; cbn; rewrite ?Hl, ?Hnew; try reflexivity;
    intros Ha Hn;
    destruct c1; cbn in *; rewrite ?Hl, ?Hnew in *; cbn in *; try reflexivity;
    try rewrite (Ha eq_refl) in *; cbn in *; rewrite ?Hl, ?Hnew in *; cbn in *;
    try reflexivity;
    destruct c3; cbn in *; rewrite ?Hl, ?Hnew in *; cbn in *; try reflexivity;
    try discriminate Hn;
    destruct c4; cbn in *; rewrite ?Hl, ?Hnew in *; cbn in *; try reflexivity;
    try discriminate Hn.
Qed.

Lemma set_bIgnoreUnimplemented_restored b v :
  set_bIgnoreUnimplemented (set_bIgnoreUnimplemented b v) (bIgnoreUnimplemented b) = b.
Proof. destruct b; reflexivity. Qed.

Variable b0 : GDALPamRasterBand E.
Variable p : GDALRasterBandPamInfo E.
Hypothesis Hp : psPam b0 = Some p.
Hypothesis Hfix : PamInitialize b0 = b0.
Hypothesis Hoff : PrimFloat.is_nan (dfOffset p) = false.
Hypothesis Hsc : PrimFloat.is_nan (dfScale p) = false.

Local Abbreviation c := (set_bIgnoreUnimplemented b0 true).
Local Abbreviation src := (view_of MDMD_GetMetadata b0).

Lemma self_CloneInfo_Metadata :
  CloneInfo_Metadata MDMD_GetMetadata MDMD_SetMetadata c src true = c.
Proof.
  unfold CloneInfo_Metadata, view_of. cbn [src_GetMetadata oMDMD set_bIgnoreUnimplemented].
  rewrite Z.eqb_refl. destruct (MDMD_GetMetadata (oMDMD b0)); reflexivity.
Qed.

Lemma self_CloneInfo_Description : CloneInfo_Description c src true = c.
Proof.
  unfold CloneInfo_Description, view_of, GetDescription.
  cbn [src_GetDescription sDescription set_bIgnoreUnimplemented negb orb].
  destruct (sDescription b0) as [|x r]; reflexivity.
Qed.

Lemma self_CloneInfo_NoData : CloneInfo_NoData c src true = c.
Proof.
  unfold CloneInfo_NoData, view_of, GetNoDataValueAsInt64, GetNoDataValueAsUInt64,
    GetNoDataValue.
  cbn [src_GetRasterDataType src_GetNoDataValueAsInt64 src_GetNoDataValueAsUInt64
       src_GetNoDataValue psPam eDataType set_bIgnoreUnimplemented].
  rewrite Hp.
  destruct (eDataType b0); cbn [fst snd negb orb];
    try (fold (record_GetNoDataValue p);
         destruct (record_GetNoDataValue p) as [x ok] eqn:Hg; cbn [fst snd];
         destruct ok; [|reflexivity]; cbn [negb orb];
         pose proof (same_double_refl x) as Hx; unfold same_double in Hx;
         rewrite Hx; reflexivity).
  - destruct (bNoDataValueSetAsUInt64 p); [|reflexivity].
    cbn [negb orb]. rewrite Z.eqb_refl. reflexivity.
  - destruct (bNoDataValueSetAsInt64 p); [|reflexivity].
    cbn [negb orb]. rewrite Z.eqb_refl. reflexivity.
Qed.

Lemma self_CloneInfo_CategoryNames : CloneInfo_CategoryNames c src true = c.
Proof.
  unfold CloneInfo_CategoryNames, view_of, GetCategoryNames.
  cbn [src_GetCategoryNames psPam set_bIgnoreUnimplemented]. rewrite Hp.
  destruct (papszCategoryNames p); reflexivity.
Qed.

Lemma self_CloneInfo_ScaleOffset : CloneInfo_ScaleOffset c src true = c.
Proof.
  unfold PrimFloat.is_nan in Hoff, Hsc.
  apply negb_false_iff in Hoff. apply negb_false_iff in Hsc.
  unfold CloneInfo_ScaleOffset, view_of, GetOffset, GetScale.
  cbn [src_GetOffset src_GetScale psPam set_bIgnoreUnimplemented]. rewrite Hp.
  cbn [fst snd negb orb]. cbv zeta. rewrite Hoff. cbn [negb].
  destruct (bOffsetSet p); cbn [psPam set_bIgnoreUnimplemented]; rewrite Hp;
    cbn [fst]; rewrite Hsc; cbn [negb]; destruct (bScaleSet p); reflexivity.
Qed.

Lemma self_CloneInfo_UnitType : CloneInfo_UnitType c src true = c.
Proof.
  unfold CloneInfo_UnitType, view_of, GetUnitType.
  cbn [src_GetUnitType psPam set_bIgnoreUnimplemented]. rewrite Hp, EQUAL_refl.
  cbn [negb orb]. destruct (strlen _ >? 0); reflexivity.
Qed.

Lemma self_CloneInfo_ColorInterp : CloneInfo_ColorInterp c src true = c.
Proof.
  unfold CloneInfo_ColorInterp, view_of, GetColorInterpretation.
  cbn [src_GetColorInterpretation psPam set_bIgnoreUnimplemented].
  rewrite Hp, GDALColorInterp_eqb_refl. cbn [negb orb]. destruct (negb _); reflexivity.
Qed.

Lemma self_CloneInfo_ColorTable : CloneInfo_ColorTable c src true = c.
Proof.
  unfold CloneInfo_ColorTable, view_of, GetColorTable.
  cbn [src_GetColorTable psPam set_bIgnoreUnimplemented]. rewrite Hp.
  destruct (poColorTable p); reflexivity.
Qed.

Lemma self_CloneInfo_RAT :
  CloneInfo_RAT RAT_GetRowCount RAT_GetColumnCount c src true = c.
Proof.
  unfold CloneInfo_RAT, view_of, GetDefaultRAT. cbv zeta.
  cbn [src_GetDefaultRAT]. rewrite Hfix, Hp. cbn [snd].
  rewrite PamInitialize_set_bIgnoreUnimplemented, Hfix.
  cbn [psPam set_bIgnoreUnimplemented]. rewrite Hp.
  destruct (poDefaultRAT p) as [r|] eqn:Hr; [|reflexivity].
  destruct (negb (RAT_GetRowCount r =? 0) || negb (RAT_GetColumnCount r =? 0));
    reflexivity.
Qed.

Lemma self_CloneInfo (flags : CloneFlags) :
  GCIF_ONLY_IF_MISSING flags = true ->
  CloneInfo MDMD_GetMetadata MDMD_SetMetadata RAT_GetRowCount RAT_GetColumnCount
    b0 src flags = (b0, CE_None).
Proof.
  intros Ho. unfold CloneInfo. cbv zeta. rewrite Hfix, Ho.
  replace (if GCIF_BAND_METADATA flags
           then CloneInfo_Metadata MDMD_GetMetadata MDMD_SetMetadata c src true else c)
    with c by (destruct (GCIF_BAND_METADATA flags);
               [rewrite self_CloneInfo_Metadata|]; reflexivity).
  replace (if GCIF_BAND_DESCRIPTION flags then CloneInfo_Description c src true else c)
    with c by (destruct (GCIF_BAND_DESCRIPTION flags);
               [rewrite self_CloneInfo_Description|]; reflexivity).
  replace (if GCIF_NODATA flags then CloneInfo_NoData c src true else c)
    with c by (destruct (GCIF_NODATA flags);
               [rewrite self_CloneInfo_NoData|]; reflexivity).
  replace (if GCIF_CATEGORYNAMES flags then CloneInfo_CategoryNames c src true else c)
    with c by (destruct (GCIF_CATEGORYNAMES flags);
               [rewrite self_CloneInfo_CategoryNames|]; reflexivity).
  replace (if GCIF_SCALEOFFSET flags then CloneInfo_ScaleOffset c src true else c)
    with c by (destruct (GCIF_SCALEOFFSET flags);
               [rewrite self_CloneInfo_ScaleOffset|]; reflexivity).
  replace (if GCIF_UNITTYPE flags then CloneInfo_UnitType c src true else c)
    with c by (destruct (GCIF_UNITTYPE flags);
               [rewrite self_CloneInfo_UnitType|]; reflexivity).
  replace (if GCIF_COLORINTERP flags then CloneInfo_ColorInterp c src true else c)
    with c by (destruct (GCIF_COLORINTERP flags);
               [rewrite self_CloneInfo_ColorInterp|]; reflexivity).
  replace (if GCIF_COLORTABLE flags then CloneInfo_ColorTable c src true else c)
    with c by (destruct (GCIF_COLORTABLE flags);
               [rewrite self_CloneInfo_ColorTable|]; reflexivity).
  replace (if GCIF_RAT flags
           then CloneInfo_RAT RAT_GetRowCount RAT_GetColumnCount c src true else c)
    with c by (destruct (GCIF_RAT flags); [rewrite self_CloneInfo_RAT|]; reflexivity).
  rewrite set_bIgnoreUnimplemented_restored. reflexivity.
Qed.

End CloneFromItself.

(** X19. With GCIF_ONLY_IF_MISSING, cloning from a source that answers
    what the band itself answers changes nothing at all, whatever the other
    flags: the band is the one [PamInitialize] leaves, so no setter has run,
    nothing is marked dirty and no error is reported. The offset and the
    scale must not be NaN: a NaN differs from itself, and the band would
    store it again and mark the store dirty. *)
Theorem CloneInfo_from_itself_changes_nothing (E : Env)
  (MDMD_GetMetadata : GDALMultiDomainMetadata E -> option (list string))
  (MDMD_SetMetadata :
     GDALMultiDomainMetadata E -> option (list string) -> option string ->
     GDALMultiDomainMetadata E * CPLErr)
  (RAT_GetRowCount RAT_GetColumnCount : GDALRasterAttributeTable E -> Z)
  (b : GDALPamRasterBand E) (p : GDALRasterBandPamInfo E) (flags : CloneFlags) :
  attached b ->
  psPam (PamInitialize b) = Some p ->
  GCIF_ONLY_IF_MISSING flags = true ->
  PrimFloat.is_nan (fst (GetOffset (PamInitialize b))) = false ->
  PrimFloat.is_nan (fst (GetScale (PamInitialize b))) = false ->
  CloneInfo MDMD_GetMetadata MDMD_SetMetadata RAT_GetRowCount RAT_GetColumnCount
    b (view_of MDMD_GetMetadata (PamInitialize b)) flags
  = (PamInitialize b, CE_None).
Proof.
  intros Ha Hp Ho Hoff Hsc.
  pose proof (PamInitialize_fixed_with_record b Ha Hp) as Hfix.
  destruct (PamInitialize_frame b) as (_ & _ & _ & _ & Hflag).
  unfold GetOffset, GetScale in Hoff, Hsc. rewrite Hp in Hoff, Hsc.
  cbn [fst] in Hoff, Hsc.
  rewrite <- (@self_CloneInfo E MDMD_GetMetadata MDMD_SetMetadata RAT_GetRowCount
                RAT_GetColumnCount (PamInitialize b) p Hp Hfix Hoff Hsc flags Ho).
  unfold CloneInfo. cbv zeta. rewrite Hfix, Hflag. reflexivity.
Qed.

Lemma CloneInfo_from_itself_changes_nothing_witness :
  is_dirty
    (ref_CloneInfo ref_full_band
       (@view_of ref_env ref_MDMD_GetMetadata (PamInitialize ref_full_band))
       all_only_if_missing)
  = false
  /\ errors
       (ref_CloneInfo ref_full_band
          (@view_of ref_env ref_MDMD_GetMetadata (PamInitialize ref_full_band))
          all_only_if_missing)
     = []
  /\ GetUnitType
       (ref_CloneInfo ref_full_band
          (@view_of ref_env ref_MDMD_GetMetadata (PamInitialize ref_full_band))
          all_only_if_missing)
     = "m".
Proof.
  assert (Ha : attached ref_full_band) by (intros _; reflexivity).
  unfold ref_CloneInfo.
  rewrite (@CloneInfo_from_itself_changes_nothing ref_env ref_MDMD_GetMetadata
             ref_MDMD_SetMetadata ref_RAT_count ref_RAT_count ref_full_band _
             all_only_if_missing Ha eq_refl eq_refl eq_refl eq_refl).
  repeat split.
Defined.
